(** * focusChrono: the Pomodoro timer and its preference store

    A shallow embedding of the two stateful classes of the application,

    - [FocusTimer]      (focus/scripts/timer.js), the session controller;
    - [SettingsManager] (the settings script), the preference store;

    together with the part of the browser they talk to: the table of active
    [setInterval] handles, the console, the callback slots and
    [localStorage].  Every method is a function on an explicit state; the
    order of the assignments and of the calls follows the JavaScript text.

    Around them,

    - [Shared]   keeps the statistics object of the store by reference, for
                 [resetToDefaults] and [resetStats];
    - [Display]  holds the two static functions of the timer the interface
                 draws with;
    - [App]      is the page: [FocusTimerApp] (scripts/app.js) and the
                 handlers of [UIManager] (focus/scripts/ui.js);
    - [Homepage] is the theme of the home page.

    The definitions come first, the proofs after them. *)

From stdpp Require Import gmap strings list fin_maps.
From Stdlib Require Import Ascii String QArith Qround Lqa DecimalString.

#[local] Set Warnings "-clear-no-such-hyp".

Local Open Scope string_scope.
Local Open Scope list_scope.

(** ** JavaScript numbers

    The finite values are kept as exact rationals, which covers the integers
    the application works with as well as fractional arguments; [NaN] is kept
    because [parseInt] produces it and because every comparison with it is
    false.  Rounding, the infinities and the sign of zero play no part in the
    modelled code and are left out. *)

Inductive number : Type :=
| NaN
| Num (q : Q).

(** [a * b] *)
Definition num_mul (a b : number) : number :=
  match a, b with
  | Num x, Num y => Num (x * y)
  | _, _ => NaN
  end.

(** [a + b] *)
Definition num_add (a b : number) : number :=
  match a, b with
  | Num x, Num y => Num (x + y)
  | _, _ => NaN
  end.

(** the value left in [a] by [a--] *)
Definition num_dec (a : number) : number :=
  match a with
  | Num x => Num (x - 1)
  | NaN => NaN
  end.

(** the value left in [a] by [a++] *)
Definition num_inc (a : number) : number :=
  match a with
  | Num x => Num (x + 1)
  | NaN => NaN
  end.

(** [a <= b] *)
Definition num_le (a b : number) : bool :=
  match a, b with
  | Num x, Num y => Qle_bool x y
  | _, _ => false
  end.

(** [a < b] *)
Definition num_lt (a b : number) : bool :=
  match a, b with
  | Num x, Num y => negb (Qle_bool y x)
  | _, _ => false
  end.

(** [a > b] *)
Definition num_gt (a b : number) : bool := num_lt b a.

(** Numeric equality of two numbers; [NaN] equals nothing. *)
Definition num_eq (a b : number) : Prop :=
  match a, b with
  | Num x, Num y => (x == y)%Q
  | _, _ => False
  end.

(** A number that is finite and strictly positive. *)
Definition positive_number (a : number) : Prop :=
  match a with
  | Num x => (0 < x)%Q
  | NaN => False
  end.

(** A number that is a (finite) integer. *)
Definition integer_number (a : number) : Prop :=
  match a with
  | Num x => exists z : Z, (x == inject_Z z)%Q
  | NaN => False
  end.

(** [n] is the integer [z]. *)
Definition is_Z (n : number) (z : Z) : Prop :=
  match n with
  | Num q => (q == inject_Z z)%Q
  | NaN => False
  end.

(** ** [parseInt(string)], without a radix argument

    Leading white space is skipped (the ASCII white space characters; the
    other Unicode spaces are not looked for), a sign is read, a [0x] or [0X]
    prefix selects base 16 and is dropped, and the longest run of digits of
    the base is read.  With no digit the result is [NaN]. *)

Definition is_white_space (c : ascii) : bool :=
  let n := nat_of_ascii c in
  (n =? 9)%nat || (n =? 10)%nat || (n =? 11)%nat || (n =? 12)%nat
  || (n =? 13)%nat || (n =? 32)%nat.

Fixpoint trim_start (s : string) : string :=
  match s with
  | String c s' => if is_white_space c then trim_start s' else s
  | EmptyString => s
  end.

(** The value of a character as a digit: 0-9, then a-z or A-Z for 10-35. *)
Definition digit_value (c : ascii) : option Z :=
  let n := Z.of_nat (nat_of_ascii c) in
  if (48 <=? n)%Z && (n <=? 57)%Z then Some (n - 48)%Z
  else if (97 <=? n)%Z && (n <=? 122)%Z then Some (n - 87)%Z
  else if (65 <=? n)%Z && (n <=? 90)%Z then Some (n - 55)%Z
  else None.

(** Read digits of base [radix] from the front of [s]; [acc] is the value
    read so far, [None] while no digit has been read. *)
Fixpoint read_digits (radix : Z) (s : string) (acc : option Z) : option Z :=
  match s with
  | String c s' =>
      match digit_value c with
      | Some d =>
          if (d <? radix)%Z
          then read_digits radix s' (Some (default 0%Z acc * radix + d)%Z)
          else acc
      | None => acc
      end
  | EmptyString => acc
  end.

Definition parseInt (s : string) : number :=
  let s := trim_start s in
  let '(sign, s) :=
    match s with
    | String "-"%char s' => ((-1)%Z, s')
    | String "+"%char s' => (1%Z, s')
    | _ => (1%Z, s)
    end in
  let '(radix, s) :=
    match s with
    | String "0"%char (String "x"%char s') => (16%Z, s')
    | String "0"%char (String "X"%char s') => (16%Z, s')
    | _ => (10%Z, s)
    end in
  match read_digits radix s None with
  | Some v => Num (inject_Z (sign * v))
  | None => NaN
  end.

(** ** The console

    Only the level of each line is kept. *)
Inductive level : Type := info | warn | error.

(** ** The session controller: [class FocusTimer] *)

Module Timer.

(** [const TimerState = { STOPPED, RUNNING, PAUSED }] *)
Inductive TimerState : Type := STOPPED | RUNNING | PAUSED.

#[global] Instance TimerState_eq_dec : EqDecision TimerState.
Proof. solve_decision. Defined.

(** [a === b] on two status values *)
Definition TimerState_eqb (a b : TimerState) : bool :=
  match a, b with
  | STOPPED, STOPPED | RUNNING, RUNNING | PAUSED, PAUSED => true
  | _, _ => false
  end.

(** [const DEFAULT_FOCUS_TIME = 25 * 60], [const DEFAULT_BREAK_TIME = 5 * 60] *)
Definition DEFAULT_FOCUS_TIME : number := num_mul (Num 25) (Num 60).
Definition DEFAULT_BREAK_TIME : number := num_mul (Num 5) (Num 60).

(** The fields of a [FocusTimer].  [intervalId] is [None] for [null]; a
    handle returned by [setInterval] is a positive integer, hence truthy.
    A callback slot is [true] when a function is installed in it and [false]
    when it holds [null]: the installed functions (scripts/app.js) only
    observe the timer, so what matters is which calls they receive. *)
Record FocusTimer : Type := mkTimer {
  state : TimerState;
  mode : string;
  timeLeft : number;
  totalTime : number;
  focusDuration : number;
  breakDuration : number;
  intervalId : option positive;
  onTick : bool;
  onModeChange : bool;
  onComplete : bool
}.

(** A call received by one of the callback slots. *)
Inductive notification : Type :=
| Tick (timeLeft totalTime : number) (mode : string)
| ModeChange (newMode oldMode : string)
| Complete (mode : string).

(** The timer together with the page it lives in: the intervals that are
    currently scheduled on its behalf, the next handle [setInterval] will
    hand out, the calls made to the callbacks so far and the console output
    so far (both oldest first). *)
Record world : Type := mkWorld {
  timer : FocusTimer;
  intervals : gset positive;
  nextHandle : positive;
  calls : list notification;
  console : list level
}.

(** Field assignments [this.f = v]. *)
Definition set_state (v : TimerState) (t : FocusTimer) : FocusTimer :=
  mkTimer v (mode t) (timeLeft t) (totalTime t) (focusDuration t)
          (breakDuration t) (intervalId t) (onTick t) (onModeChange t) (onComplete t).
Definition set_mode (v : string) (t : FocusTimer) : FocusTimer :=
  mkTimer (state t) v (timeLeft t) (totalTime t) (focusDuration t)
          (breakDuration t) (intervalId t) (onTick t) (onModeChange t) (onComplete t).
Definition set_timeLeft (v : number) (t : FocusTimer) : FocusTimer :=
  mkTimer (state t) (mode t) v (totalTime t) (focusDuration t)
          (breakDuration t) (intervalId t) (onTick t) (onModeChange t) (onComplete t).
Definition set_totalTime (v : number) (t : FocusTimer) : FocusTimer :=
  mkTimer (state t) (mode t) (timeLeft t) v (focusDuration t)
          (breakDuration t) (intervalId t) (onTick t) (onModeChange t) (onComplete t).
Definition set_focusDuration (v : number) (t : FocusTimer) : FocusTimer :=
  mkTimer (state t) (mode t) (timeLeft t) (totalTime t) v
          (breakDuration t) (intervalId t) (onTick t) (onModeChange t) (onComplete t).
Definition set_breakDuration (v : number) (t : FocusTimer) : FocusTimer :=
  mkTimer (state t) (mode t) (timeLeft t) (totalTime t) (focusDuration t)
          v (intervalId t) (onTick t) (onModeChange t) (onComplete t).
Definition set_intervalId (v : option positive) (t : FocusTimer) : FocusTimer :=
  mkTimer (state t) (mode t) (timeLeft t) (totalTime t) (focusDuration t)
          (breakDuration t) v (onTick t) (onModeChange t) (onComplete t).
Definition set_callbacks (tk mc cp : bool) (t : FocusTimer) : FocusTimer :=
  mkTimer (state t) (mode t) (timeLeft t) (totalTime t) (focusDuration t)
          (breakDuration t) (intervalId t) tk mc cp.

(** Apply a field assignment to the timer of a world. *)
Definition this (f : FocusTimer -> FocusTimer) (w : world) : world :=
  mkWorld (f (timer w)) (intervals w) (nextHandle w) (calls w) (console w).

(** [console.log], [console.warn], [console.error] *)
Definition console_write (l : level) (w : world) : world :=
  mkWorld (timer w) (intervals w) (nextHandle w) (calls w) (console w ++ [l]).

(** Invoke a callback with the given arguments. *)
Definition call (n : notification) (w : world) : world :=
  mkWorld (timer w) (intervals w) (nextHandle w) (calls w ++ [n]) (console w).

(** [this.intervalId = setInterval(() => this._tick(), 1000)]: a fresh handle
    is scheduled and stored. *)
Definition setInterval (w : world) : world :=
  mkWorld (set_intervalId (Some (nextHandle w)) (timer w))
          ({[ nextHandle w ]} ∪ intervals w)
          (Pos.succ (nextHandle w)) (calls w) (console w).

(** [clearInterval(id)]; clearing [null] does nothing. *)
Definition clearInterval (id : option positive) (w : world) : world :=
  match id with
  | Some h => mkWorld (timer w) (intervals w ∖ {[ h ]}) (nextHandle w) (calls w) (console w)
  | None => w
  end.

(** [_resetTime()] *)
Definition _resetTime (w : world) : world :=
  if String.eqb (mode (timer w)) "focus" then
    let w := this (set_timeLeft (focusDuration (timer w))) w in
    this (set_totalTime (focusDuration (timer w))) w
  else
    let w := this (set_timeLeft (breakDuration (timer w))) w in
    this (set_totalTime (breakDuration (timer w))) w.

(** [_complete()] *)
Definition _complete (w : world) : world :=
  let w := clearInterval (intervalId (timer w)) w in
  let w := this (set_intervalId None) w in
  let w := this (set_state STOPPED) w in
  let w := console_write info w in
  if onComplete (timer w) then call (Complete (mode (timer w))) w else w.

(** [_tick()] *)
Definition _tick (w : world) : world :=
  let w := this (set_timeLeft (num_dec (timeLeft (timer w)))) w in
  let w := if onTick (timer w)
           then call (Tick (timeLeft (timer w)) (totalTime (timer w)) (mode (timer w))) w
           else w in
  if num_le (timeLeft (timer w)) (Num 0) then _complete w else w.

(** [start()] *)
Definition start (w : world) : world :=
  if TimerState_eqb (state (timer w)) RUNNING then console_write warn w
  else
    let w := this (set_state RUNNING) w in
    let w := console_write info w in
    let w := setInterval w in
    _tick w.

(** [pause()] *)
Definition pause (w : world) : world :=
  if negb (TimerState_eqb (state (timer w)) RUNNING) then console_write warn w
  else
    let w := this (set_state PAUSED) w in
    let w := console_write info w in
    let w := clearInterval (intervalId (timer w)) w in
    this (set_intervalId None) w.

(** [resume()] *)
Definition resume (w : world) : world :=
  if negb (TimerState_eqb (state (timer w)) PAUSED) then console_write warn w
  else start w.

(** Truthiness of a string-or-null argument: [null] and the empty string are
    falsy. *)
Definition truthy (m : option string) : bool :=
  match m with
  | Some s => negb (String.eqb s "")
  | None => false
  end.

(** [reset(mode = null)] *)
Definition reset (m : option string) (w : world) : world :=
  let w := match intervalId (timer w) with
           | Some h => this (set_intervalId None) (clearInterval (Some h) w)
           | None => w
           end in
  let w := this (set_state STOPPED) w in
  let w := match m with
           | Some s => if truthy m then this (set_mode s) w else w
           | None => w
           end in
  let w := _resetTime w in
  let w := console_write info w in
  if onTick (timer w)
  then call (Tick (timeLeft (timer w)) (totalTime (timer w)) (mode (timer w))) w
  else w.

(** [setMode(newMode)] *)
Definition setMode (newMode : string) (w : world) : world :=
  if negb (String.eqb newMode "focus") && negb (String.eqb newMode "break")
  then console_write error w
  else
    let w := if TimerState_eqb (state (timer w)) RUNNING then pause w else w in
    let oldMode := mode (timer w) in
    let w := this (set_mode newMode) w in
    let w := _resetTime w in
    let w := console_write info w in
    let w := if onModeChange (timer w) then call (ModeChange newMode oldMode) w else w in
    if onTick (timer w)
    then call (Tick (timeLeft (timer w)) (totalTime (timer w)) (mode (timer w))) w
    else w.

(** [setFocusDuration(minutes)] *)
Definition setFocusDuration (minutes : number) (w : world) : world :=
  let seconds := num_mul minutes (Num 60) in
  let w := this (set_focusDuration seconds) w in
  let w :=
    if String.eqb (mode (timer w)) "focus" && TimerState_eqb (state (timer w)) STOPPED
    then
      let w := this (set_timeLeft seconds) w in
      let w := this (set_totalTime seconds) w in
      if onTick (timer w)
      then call (Tick (timeLeft (timer w)) (totalTime (timer w)) (mode (timer w))) w
      else w
    else w in
  console_write info w.

(** [setBreakDuration(minutes)] *)
Definition setBreakDuration (minutes : number) (w : world) : world :=
  let seconds := num_mul minutes (Num 60) in
  let w := this (set_breakDuration seconds) w in
  let w :=
    if String.eqb (mode (timer w)) "break" && TimerState_eqb (state (timer w)) STOPPED
    then
      let w := this (set_timeLeft seconds) w in
      let w := this (set_totalTime seconds) w in
      if onTick (timer w)
      then call (Tick (timeLeft (timer w)) (totalTime (timer w)) (mode (timer w))) w
      else w
    else w in
  console_write info w.

(** [destroy()] *)
Definition destroy (w : world) : world :=
  let w := match intervalId (timer w) with
           | Some h => this (set_intervalId None) (clearInterval (Some h) w)
           | None => w
           end in
  console_write info w.

(** [new FocusTimer()] in a page with no interval scheduled. *)
Definition new_FocusTimer : world :=
  mkWorld (mkTimer STOPPED "focus" DEFAULT_FOCUS_TIME DEFAULT_FOCUS_TIME
                   DEFAULT_FOCUS_TIME DEFAULT_BREAK_TIME None false false false)
          ∅ 1%positive [] [info].

(** What can happen to a timer between two turns of the event loop while the
    page uses it: a call of one of its public methods, an assignment to its
    callback slots, or the firing of a scheduled interval, whose function is
    [() => this._tick()].  An interval that has been cleared never fires.
    [destroy()] is added by [lifetime_event] below. *)
Inductive event : Type :=
| call_start
| call_pause
| call_resume
| call_reset (m : option string)
| call_setMode (newMode : string)
| call_setFocusDuration (minutes : number)
| call_setBreakDuration (minutes : number)
| assign_callbacks (tk mc cp : bool)
| interval_fires (h : positive).

Definition step (e : event) (w : world) : world :=
  match e with
  | call_start => start w
  | call_pause => pause w
  | call_resume => resume w
  | call_reset m => reset m w
  | call_setMode m => setMode m w
  | call_setFocusDuration n => setFocusDuration n w
  | call_setBreakDuration n => setBreakDuration n w
  | assign_callbacks tk mc cp => this (set_callbacks tk mc cp) w
  | interval_fires h => if decide (h ∈ intervals w) then _tick w else w
  end.

(** Run a sequence of events, first event first. *)
Definition run (es : list event) (w : world) : world :=
  fold_left (fun w e => step e w) es w.

(** The states the controller can be in while the page uses it: those
    reached from a new timer by these events. *)
Definition reachable (w : world) : Prop :=
  exists es, w = run es new_FocusTimer.

(** The whole life of a timer: the events above and [destroy()], the last
    public method, which [reset()] of scripts/app.js calls before it drops
    the timer.  Nothing in [destroy()] closes the object: every method can
    still be called afterwards. *)
Inductive lifetime_event : Type :=
| during (e : event)
| call_destroy.

Definition lifetime_step (e : lifetime_event) (w : world) : world :=
  match e with
  | during e => step e w
  | call_destroy => destroy w
  end.

Definition lifetime_run (es : list lifetime_event) (w : world) : world :=
  fold_left (fun w e => lifetime_step e w) es w.

(** The states reached from a new timer when [destroy()] may be called
    too. *)
Definition lifetime_reachable (w : world) : Prop :=
  exists es, w = lifetime_run es new_FocusTimer.



(** An optional call, as made by [if (this.onX) this.onX(...)]. *)
Definition when (b : bool) (n : notification) : list notification :=
  if b then [n] else [].

(** The configured duration of a mode, as [_resetTime] selects it. *)
Definition duration_of (m : string) (t : FocusTimer) : number :=
  if String.eqb m "focus" then focusDuration t else breakDuration t.

(** The scheduled intervals once [clearInterval(id)] has run. *)
Definition cleared (id : option positive) (X : gset positive) : gset positive :=
  match id with
  | Some h => X ∖ {[ h ]}
  | None => X
  end.

(** The mode [reset(m)] leaves the timer in. *)
Definition reset_mode (m : option string) (t : FocusTimer) : string :=
  match m with
  | Some s => if truthy m then s else mode t
  | None => mode t
  end.

(** The test [this.mode === m && this.state === TimerState.STOPPED]. *)
Definition stopped_in_mode (m : string) (t : FocusTimer) : bool :=
  String.eqb (mode t) m && TimerState_eqb (state t) STOPPED.

(** *** Properties of the states *)

(** The handle discipline: the stored handle is the only scheduled interval,
    and a handle is stored exactly while the timer is running. *)
Definition handle_inv (w : world) : Prop :=
  match intervalId (timer w) with
  | Some h => intervals w = {[ h ]} ∧ state (timer w) = RUNNING
  | None => intervals w = ∅ ∧ state (timer w) ≠ RUNNING
  end.

(** What [destroy()] leaves of the handle discipline: the stored handle is
    the only scheduled interval and is stored only while the timer is
    running; a running timer may be without one. *)
Definition one_handle (w : world) : Prop :=
  match intervalId (timer w) with
  | Some h => intervals w = {[ h ]} ∧ state (timer w) = RUNNING
  | None => intervals w = ∅
  end.

(** [0 <= remainingSeconds <= totalSeconds] and [totalSeconds > 0]. *)
Definition session_inv (w : world) : Prop :=
  match timeLeft (timer w), totalTime (timer w) with
  | Num r, Num t => (0 <= r)%Q ∧ (r <= t)%Q ∧ (0 < t)%Q
  | _, _ => False
  end.

(** The calls under which [session_inv] is kept: the durations are set to a
    positive whole number of minutes, and [start()] is not called on a
    stopped timer that has no time left. *)
Definition admissible (e : event) (w : world) : Prop :=
  match e with
  | call_setFocusDuration m | call_setBreakDuration m =>
      integer_number m ∧ positive_number m
  | call_start =>
      state (timer w) = STOPPED -> ¬ num_eq (timeLeft (timer w)) (Num 0)
  | _ => True
  end.

Fixpoint admissible_run (es : list event) (w : world) : Prop :=
  match es with
  | [] => True
  | e :: es' => admissible e w ∧ admissible_run es' (step e w)
  end.

(** The integer reading of the four time fields. *)
Definition numbers_ok (t : FocusTimer) : Prop :=
  exists r tt f b : Z,
    is_Z (timeLeft t) r ∧ is_Z (totalTime t) tt
    ∧ is_Z (focusDuration t) f ∧ is_Z (breakDuration t) b
    ∧ (0 <= r <= tt)%Z ∧ (0 < tt)%Z ∧ (0 < f)%Z ∧ (0 < b)%Z
    ∧ (state t ≠ STOPPED -> (0 < r)%Z).

(** A reading of "a one-second session completes at t=1": after [start()] on
    a timer with one second left only the tick has been delivered, the
    interval is still scheduled, and its first firing, one second later,
    delivers the completion. *)
Definition completes_one_second_later (w : world) : Prop :=
  let t := timer w in
  let r := num_dec (timeLeft t) in
  exists h, intervalId (timer (start w)) = Some h
    ∧ calls (start w) = calls w ++ [Tick r (totalTime t) (mode t)]
    ∧ calls (step (interval_fires h) (start w))
      = calls w ++ [Tick r (totalTime t) (mode t); Complete (mode t)].

(** *** Some states *)

(** A focus session that has just been started, callbacks installed: 1499
    seconds are left. *)
Definition running_focus : world :=
  run [assign_callbacks true true true; call_start] new_FocusTimer.

(** A running timer with one second left: the focus duration was set to a
    thirtieth of a minute and the timer was started, which ticked once. *)
Definition one_second_left : world :=
  run [assign_callbacks true true true; call_setFocusDuration (Num (1 # 30));
       call_start] new_FocusTimer.

(** A paused focus session with one second left: started, ticked down by its
    interval and paused. *)
Definition paused_at_one : world :=
  run ([assign_callbacks true true true; call_start]
         ++ repeat (interval_fires 1) 1498 ++ [call_pause]) new_FocusTimer.

(** The focus session that has just been started, after [destroy()]. *)
Definition destroyed_running : world :=
  lifetime_run [during (assign_callbacks true true true); during call_start;
                call_destroy] new_FocusTimer.

(** A new timer whose focus duration was set to 0 minutes. *)
Definition zero_minutes : world :=
  run [call_setFocusDuration (Num 0)] new_FocusTimer.

(** A new timer that ran its 1500 seconds down to completion and was started
    once more. *)
Definition started_again : world :=
  run (call_start :: repeat (interval_fires 1) 1499 ++ [call_start]) new_FocusTimer.


(** *** Whole sessions *)

(** The tick calls of [n] successive ticks of a clock showing [tl]: each one
    carries the time left after its own decrement. *)
Fixpoint countdown_calls (installed : bool) (tl total : number) (m : string) (n : nat)
  : list notification :=
  match n with
  | O => []
  | S n' => when installed (Tick (num_dec tl) total m)
            ++ countdown_calls installed (num_dec tl) total m n'
  end.

(** A call that is a completion. *)
Definition is_Complete (n : notification) : bool :=
  match n with
  | Complete _ => true
  | _ => false
  end.

(** One pause followed by one resume. *)
Definition pause_resume (w : world) : world := resume (pause w).

(** A new timer whose focus duration was set to [NaN] minutes, callbacks
    installed. *)
Definition NaN_minutes : world :=
  run [assign_callbacks true true true; call_setFocusDuration NaN] new_FocusTimer.

End Timer.

(** ** The preference store: [class SettingsManager] *)

Module Store.

(** [const STORAGE_KEYS] *)
Definition FOCUS_DURATION : string := "focusDuration".
Definition BREAK_DURATION : string := "breakDuration".
Definition SOUND_ENABLED : string := "soundEnabled".
Definition THEME : string := "theme".
Definition STATS : string := "focusStats".

(** The statistics object; [lastResetDate] is [None] for [null]. *)
Record StatsObject : Type := mkStats {
  sessionsToday : number;
  totalFocusTime : number;
  lastResetDate : option string
}.

(** The settings object. *)
Record SettingsObject : Type := mkSettings {
  focusDuration : number;
  breakDuration : number;
  soundEnabled : bool;
  theme : string;
  stats : StatsObject
}.

(** What [JSON.parse] returns, without throwing, for a text that is valid
    JSON but not the JSON of a statistics object: [null], a number, a string
    or a boolean, or else an array or an object of another shape. *)
Inductive non_statistics : Type :=
| null_or_primitive
| other_object.

(** What the store uses from the host and does not define itself:
    [JSON.parse] on the text kept under [focusStats], [JSON.stringify] on a
    statistics object, and the conversion of a number to the string
    [setItem] stores.  [JSON.parse] has four outcomes.  It throws, or it
    returns a statistics object, which is an object with the two counters as
    numbers and a date that is a string or [null], as the application writes
    it: these two are [JSON_parse], with [None] for the throw.  Or it returns
    something else: [JSON_parse_other] says so and says which of the two
    kinds it is, and for such a text the answer of [JSON_parse] stands for
    nothing.  The results below hold for every host. *)
Class Host : Type := {
  JSON_parse : string -> option StatsObject;
  JSON_stringify : StatsObject -> string;
  Number_toString : number -> string;
  JSON_parse_other : string -> option non_statistics
}.

(** The string [setItem] stores for a boolean. *)
Definition Boolean_toString (b : bool) : string :=
  if b then "true" else "false".

(** [this.defaults] *)
Definition defaults : SettingsObject :=
  mkSettings (Num 25) (Num 5) true "dark" (mkStats (Num 0) (Num 0) None).

(** The arguments of a change callback. *)
Inductive value : Type :=
| number_value (n : number)
| boolean_value (b : bool)
| string_value (s : string).

Inductive change : Type :=
| Change (key : string) (newValue oldValue : value).

(** The fields of a [SettingsManager]; [onSettingsChange] is [true] when a
    function is installed.  [this.defaults] is the constant above: the
    statistics object it shares with a freshly copied [this.settings] is only
    read back by [resetToDefaults], which [Shared] models. *)
Record SettingsManager : Type := mkManager {
  settings : SettingsObject;
  onSettingsChange : bool
}.

(** The manager in its page: [localStorage], whose reads and writes are taken
    not to throw, the calls made to the change callback and the console. *)
Record world : Type := mkWorld {
  manager : SettingsManager;
  localStorage : gmap string string;
  changes : list change;
  console : list level
}.

(** Field assignments. *)
Definition set_focusDuration (v : number) (s : SettingsObject) : SettingsObject :=
  mkSettings v (breakDuration s) (soundEnabled s) (theme s) (stats s).
Definition set_breakDuration (v : number) (s : SettingsObject) : SettingsObject :=
  mkSettings (focusDuration s) v (soundEnabled s) (theme s) (stats s).
Definition set_soundEnabled (v : bool) (s : SettingsObject) : SettingsObject :=
  mkSettings (focusDuration s) (breakDuration s) v (theme s) (stats s).
Definition set_theme (v : string) (s : SettingsObject) : SettingsObject :=
  mkSettings (focusDuration s) (breakDuration s) (soundEnabled s) v (stats s).
Definition set_stats (v : StatsObject) (s : SettingsObject) : SettingsObject :=
  mkSettings (focusDuration s) (breakDuration s) (soundEnabled s) (theme s) v.
Definition set_sessionsToday (v : number) (o : StatsObject) : StatsObject :=
  mkStats v (totalFocusTime o) (lastResetDate o).
Definition set_totalFocusTime (v : number) (o : StatsObject) : StatsObject :=
  mkStats (sessionsToday o) v (lastResetDate o).
Definition set_lastResetDate (v : option string) (o : StatsObject) : StatsObject :=
  mkStats (sessionsToday o) (totalFocusTime o) v.

(** [this.settings.f = v] and [this.settings.stats.f = v] *)
Definition this_settings (f : SettingsObject -> SettingsObject) (w : world) : world :=
  mkWorld (mkManager (f (settings (manager w))) (onSettingsChange (manager w)))
          (localStorage w) (changes w) (console w).
Definition this_stats (f : StatsObject -> StatsObject) (w : world) : world :=
  this_settings (fun s => set_stats (f (stats s)) s) w.

Definition console_write (l : level) (w : world) : world :=
  mkWorld (manager w) (localStorage w) (changes w) (console w ++ [l]).

(** [localStorage.setItem(key, text)] *)
Definition setItem (key text : string) (w : world) : world :=
  mkWorld (manager w) (<[ key := text ]> (localStorage w)) (changes w) (console w).

(** How [new SettingsManager()] ends: it returns a manager, or a
    [TypeError] leaves it, or it returns a manager whose statistics are an
    object this model has no type for; of such a manager the four plain
    settings are kept. *)
Inductive construction : Type :=
| returns (w : world)
| throws_TypeError
| returns_other_statistics (focus_minutes break_minutes : number) (sound : bool)
                           (theme_name : string).

(** The page in which the constructor calls [_init()]. *)
Definition constructed (ls : gmap string string) : world :=
  mkWorld (mkManager defaults false) ls [] [].

(** The settings [_loadSettings()] leaves when nothing throws: each key that
    is present replaces the default. *)
Definition read_settings (ls : gmap string string) (o : StatsObject) : SettingsObject :=
  mkSettings (from_option parseInt (Num 25) (ls !! FOCUS_DURATION))
             (from_option parseInt (Num 5) (ls !! BREAK_DURATION))
             (from_option (fun v => String.eqb v "true") true (ls !! SOUND_ENABLED))
             (default "dark" (ls !! THEME))
             o.

Section Methods.
Context `{Host}.

(** [_loadSettings()]: the five reads, then the assignments inside [try];
    [JSON.parse] is the statement that can throw, and the [catch] puts the
    defaults back.  The statistics text is taken here to be one [JSON_parse]
    answers for; [constructor] below has the texts that parse to something
    else. *)
Definition _loadSettings (w : world) : world :=
  let focusDuration := localStorage w !! FOCUS_DURATION in
  let breakDuration := localStorage w !! BREAK_DURATION in
  let soundEnabled := localStorage w !! SOUND_ENABLED in
  let theme := localStorage w !! THEME in
  let stats := localStorage w !! STATS in
  let w := match focusDuration with
           | Some v => this_settings (set_focusDuration (parseInt v)) w
           | None => w
           end in
  let w := match breakDuration with
           | Some v => this_settings (set_breakDuration (parseInt v)) w
           | None => w
           end in
  let w := match soundEnabled with
           | Some v => this_settings (set_soundEnabled (String.eqb v "true")) w
           | None => w
           end in
  let w := match theme with
           | Some v => this_settings (set_theme v) w
           | None => w
           end in
  match stats with
  | Some v =>
      match JSON_parse v with
      | Some o => console_write info (this_settings (set_stats o) w)
      | None => this_settings (fun _ => defaults) (console_write error w)
      end
  | None => console_write info w
  end.

(** [_saveSettings()] *)
Definition _saveSettings (w : world) : world :=
  let w := setItem FOCUS_DURATION (Number_toString (focusDuration (settings (manager w)))) w in
  let w := setItem BREAK_DURATION (Number_toString (breakDuration (settings (manager w)))) w in
  let w := setItem SOUND_ENABLED (Boolean_toString (soundEnabled (settings (manager w)))) w in
  let w := setItem THEME (theme (settings (manager w))) w in
  let w := setItem STATS (JSON_stringify (stats (settings (manager w)))) w in
  console_write info w.

(** [lastResetDate !== today] *)
Definition date_differs (lastResetDate : option string) (today : string) : bool :=
  match lastResetDate with
  | Some d => negb (String.eqb d today)
  | None => true
  end.

(** [_checkStatsReset()], where [today] is [new Date().toDateString()]. *)
Definition _checkStatsReset (today : string) (w : world) : world :=
  let lastResetDate := lastResetDate (stats (settings (manager w))) in
  if date_differs lastResetDate today then
    let w := this_stats (set_sessionsToday (Num 0)) w in
    let w := this_stats (set_totalFocusTime (Num 0)) w in
    let w := this_stats (set_lastResetDate (Some today)) w in
    let w := _saveSettings w in
    console_write info w
  else w.

(** [_init()] *)
Definition _init (today : string) (w : world) : world :=
  let w := _loadSettings w in
  let w := _checkStatsReset today w in
  console_write info w.

(** [new SettingsManager()] in a page whose [localStorage] holds [ls], on the
    day [today]: loading the store.  This is the manager the constructor
    returns when the statistics text is absent, is not valid JSON or is the
    JSON of a statistics object; [constructor] has the other stores. *)
Definition new_SettingsManager (ls : gmap string string) (today : string) : world :=
  _init today (mkWorld (mkManager defaults false) ls [] []).

(** The constructor on every store.  When the text under [focusStats] is
    valid JSON for [null], a number, a string or a boolean,
    [_loadSettings()] assigns that value to [this.settings.stats], nothing
    having thrown, and [_checkStatsReset()], which no [try] surrounds, throws
    a [TypeError]: reading [lastResetDate] of [null] throws; read from a
    number, a string or a boolean it is [undefined], which differs from
    today's date, and [this.settings.stats.sessionsToday = 0] then assigns to
    a property of a primitive value, an error in the strict code of a class
    body.  Nothing has been written to [localStorage] by then.  When the
    text is the JSON of an array or of an object of another shape, nothing
    throws: the four plain settings are what [_loadSettings()] has read, and
    [_checkStatsReset()] never assigns to them. *)
Definition constructor (ls : gmap string string) (today : string) : construction :=
  match ls !! STATS with
  | Some v =>
      match JSON_parse_other v with
      | Some null_or_primitive => throws_TypeError
      | Some other_object =>
          let s := read_settings ls (stats defaults) in
          returns_other_statistics (focusDuration s) (breakDuration s) (soundEnabled s)
                                   (theme s)
      | None => returns (new_SettingsManager ls today)
      end
  | None => returns (new_SettingsManager ls today)
  end.

(** [_notifyChange(key, newValue, oldValue)] *)
Definition _notifyChange (key : string) (newValue oldValue : value) (w : world) : world :=
  if onSettingsChange (manager w)
  then mkWorld (manager w) (localStorage w)
               (changes w ++ [Change key newValue oldValue]) (console w)
  else w.

(** [setFocusDuration(minutes)] *)
Definition setFocusDuration (minutes : number) (w : world) : bool * world :=
  if num_lt minutes (Num 1) || num_gt minutes (Num 120)
  then (false, console_write error w)
  else
    let oldValue := focusDuration (settings (manager w)) in
    let w := this_settings (set_focusDuration minutes) w in
    let w := _saveSettings w in
    let w := _notifyChange "focusDuration" (number_value minutes) (number_value oldValue) w in
    (true, w).

(** [setBreakDuration(minutes)] *)
Definition setBreakDuration (minutes : number) (w : world) : bool * world :=
  if num_lt minutes (Num 1) || num_gt minutes (Num 30)
  then (false, console_write error w)
  else
    let oldValue := breakDuration (settings (manager w)) in
    let w := this_settings (set_breakDuration minutes) w in
    let w := _saveSettings w in
    let w := _notifyChange "breakDuration" (number_value minutes) (number_value oldValue) w in
    (true, w).

(** [setSoundEnabled(enabled)] *)
Definition setSoundEnabled (enabled : bool) (w : world) : bool * world :=
  let oldValue := soundEnabled (settings (manager w)) in
  let w := this_settings (set_soundEnabled enabled) w in
  let w := _saveSettings w in
  let w := _notifyChange "soundEnabled" (boolean_value enabled) (boolean_value oldValue) w in
  (true, w).

(** [setTheme(theme)] *)
Definition setTheme (theme' : string) (w : world) : bool * world :=
  if negb (String.eqb theme' "dark") && negb (String.eqb theme' "light")
  then (false, console_write error w)
  else
    let oldValue := theme (settings (manager w)) in
    let w := this_settings (set_theme theme') w in
    let w := _saveSettings w in
    let w := _notifyChange "theme" (string_value theme') (string_value oldValue) w in
    (true, w).

(** [incrementSessions()] *)
Definition incrementSessions (w : world) : world :=
  let w := this_stats (fun o => set_sessionsToday (num_inc (sessionsToday o)) o) w in
  let w := _saveSettings w in
  console_write info w.

(** [addFocusTime(minutes)] *)
Definition addFocusTime (minutes : number) (w : world) : world :=
  let w := this_stats (fun o => set_totalFocusTime (num_add (totalFocusTime o) minutes) o) w in
  let w := _saveSettings w in
  console_write info w.

(** The calls made on a store once it is loaded. *)
Inductive call : Type :=
| call_setFocusDuration (minutes : number)
| call_setBreakDuration (minutes : number)
| call_setSoundEnabled (enabled : bool)
| call_setTheme (theme : string)
| call_incrementSessions
| call_addFocusTime (minutes : number)
| assign_onSettingsChange (installed : bool).

Definition step (c : call) (w : world) : world :=
  match c with
  | call_setFocusDuration m => snd (setFocusDuration m w)
  | call_setBreakDuration m => snd (setBreakDuration m w)
  | call_setSoundEnabled b => snd (setSoundEnabled b w)
  | call_setTheme s => snd (setTheme s w)
  | call_incrementSessions => incrementSessions w
  | call_addFocusTime m => addFocusTime m w
  | assign_onSettingsChange b =>
      mkWorld (mkManager (settings (manager w)) b) (localStorage w) (changes w) (console w)
  end.

Definition run (cs : list call) (w : world) : world :=
  fold_left (fun w c => step c w) cs w.

(** The test with which a method refuses its argument: the range check of
    the two durations and the check of the theme.  The other methods refuse
    nothing. *)
Definition refused (c : call) : bool :=
  match c with
  | call_setFocusDuration m => num_lt m (Num 1) || num_gt m (Num 120)
  | call_setBreakDuration m => num_lt m (Num 1) || num_gt m (Num 30)
  | call_setTheme t => negb (String.eqb t "dark") && negb (String.eqb t "light")
  | _ => false
  end.

(** The settings a method leaves when it does not refuse. *)
Definition applied (c : call) (s : SettingsObject) : SettingsObject :=
  match c with
  | call_setFocusDuration m => set_focusDuration m s
  | call_setBreakDuration m => set_breakDuration m s
  | call_setSoundEnabled b => set_soundEnabled b s
  | call_setTheme t => set_theme t s
  | call_incrementSessions =>
      set_stats (set_sessionsToday (num_inc (sessionsToday (stats s))) (stats s)) s
  | call_addFocusTime m =>
      set_stats (set_totalFocusTime (num_add (totalFocusTime (stats s)) m) (stats s)) s
  | assign_onSettingsChange _ => s
  end.

(** The methods that end with [_saveSettings()]; the assignment of the
    callback is the one step that is no method. *)
Definition is_method (c : call) : bool :=
  match c with
  | assign_onSettingsChange _ => false
  | _ => true
  end.

(** The statistics a rollover leaves. *)
Definition fresh_stats (today : string) : StatsObject :=
  mkStats (Num 0) (Num 0) (Some today).

(** What [_saveSettings] leaves in [localStorage] for the settings [s]. *)
Definition saved (s : SettingsObject) (ls : gmap string string) : gmap string string :=
  <[ STATS := JSON_stringify (stats s) ]>
    (<[ THEME := theme s ]>
       (<[ SOUND_ENABLED := Boolean_toString (soundEnabled s) ]>
          (<[ BREAK_DURATION := Number_toString (breakDuration s) ]>
             (<[ FOCUS_DURATION := Number_toString (focusDuration s) ]> ls)))).

End Methods.

(** *** A host for the examples

    It writes integers in decimal and [NaN] as [NaN], and reads and writes
    the statistics object in the compact form [JSON.stringify] gives it, with
    integer counters and a date without escapes.  It stands for the browser
    in the examples only. *)

Definition quote : string := String (ascii_of_nat 34) EmptyString.

Definition sample_Number_toString (n : number) : string :=
  match n with
  | NaN => "NaN"
  | Num q =>
      let r := Qred q in
      if Pos.eqb (Qden r) 1 then NilZero.string_of_int (Z.to_int (Qnum r))
      else NilZero.string_of_int (Z.to_int (Qnum r)) +:+ "/"
           +:+ NilZero.string_of_int (Z.to_int (Z.pos (Qden r)))
  end.

Definition sample_JSON_stringify (o : StatsObject) : string :=
  "{" +:+ quote +:+ "sessionsToday" +:+ quote +:+ ":"
  +:+ sample_Number_toString (sessionsToday o)
  +:+ "," +:+ quote +:+ "totalFocusTime" +:+ quote +:+ ":"
  +:+ sample_Number_toString (totalFocusTime o)
  +:+ "," +:+ quote +:+ "lastResetDate" +:+ quote +:+ ":"
  +:+ match lastResetDate o with
      | Some d => quote +:+ d +:+ quote
      | None => "null"
      end
  +:+ "}".

(** Drop the prefix [p] from [s], if it is there. *)
Fixpoint drop_prefix (p s : string) : option string :=
  match p, s with
  | EmptyString, _ => Some s
  | String a p', String b s' => if Ascii.eqb a b then drop_prefix p' s' else None
  | String _ _, EmptyString => None
  end.

(** Split [s] at the first occurrence of the character [c]. *)
Fixpoint split_at (c : ascii) (s : string) : option (string * string) :=
  match s with
  | EmptyString => None
  | String a s' =>
      if Ascii.eqb a c then Some (EmptyString, s')
      else match split_at c s' with
           | Some (l, r) => Some (String a l, r)
           | None => None
           end
  end.

Definition read_integer (s : string) : option number :=
  match NilZero.int_of_string s with
  | Some i => Some (Num (inject_Z (Z.of_int i)))
  | None => None
  end.

Definition sample_JSON_parse (s : string) : option StatsObject :=
  s ← drop_prefix ("{" +:+ quote +:+ "sessionsToday" +:+ quote +:+ ":") s;
  '(a, s) ← split_at "," s;
  a ← read_integer a;
  s ← drop_prefix (quote +:+ "totalFocusTime" +:+ quote +:+ ":") s;
  '(b, s) ← split_at "," s;
  b ← read_integer b;
  s ← drop_prefix (quote +:+ "lastResetDate" +:+ quote +:+ ":") s;
  match drop_prefix "null}" s with
  | Some EmptyString => Some (mkStats a b None)
  | _ =>
      s ← drop_prefix quote s;
      '(d, s) ← split_at (ascii_of_nat 34) s;
      match s with
      | "}" => Some (mkStats a b (Some d))
      | _ => None
      end
  end.

(** The texts [null], [true], [false] and the integers in decimal are JSON
    for a value that is no object; [{}] and [[]] are objects of another
    shape. *)
Definition sample_JSON_parse_other (s : string) : option non_statistics :=
  if String.eqb s "null" || String.eqb s "true" || String.eqb s "false"
  then Some null_or_primitive
  else if String.eqb s "{}" || String.eqb s "[]" then Some other_object
  else match read_integer s with
       | Some _ => Some null_or_primitive
       | None => None
       end.

Definition sample_host : Host :=
  Build_Host sample_JSON_parse sample_JSON_stringify sample_Number_toString
             sample_JSON_parse_other.

(** *** Some stores *)

Definition today_string : string := "Sun Nov 01 2026".
Definition yesterday_string : string := "Sat Oct 31 2026".

(** A store written yesterday: 30 and 10 minutes, sound off, light theme,
    three sessions and 90 minutes of focus. *)
Definition stale_storage : gmap string string :=
  saved (H := sample_host)
        (mkSettings (Num 30) (Num 10) false "light"
                    (mkStats (Num 3) (Num 90) (Some yesterday_string))) ∅.

(** A store written today: the same settings, three sessions and 90 minutes
    of focus counted today. *)
Definition todays_storage : gmap string string :=
  saved (H := sample_host)
        (mkSettings (Num 30) (Num 10) false "light"
                    (mkStats (Num 3) (Num 90) (Some today_string))) ∅.

(** Stores with one corrupt entry. *)
Definition letters_for_focus : gmap string string := {[ FOCUS_DURATION := "abc" ]}.
Definition unknown_theme : gmap string string := {[ THEME := "blue" ]}.
Definition broken_stats : gmap string string :=
  {[ FOCUS_DURATION := "30"; STATS := "{oops" ]}.

(** Stores whose statistics are valid JSON for something that is no
    object. *)
Definition null_stats : gmap string string :=
  {[ THEME := "light"; STATS := "null" ]}.
Definition number_for_stats : gmap string string := {[ STATS := "5" ]}.


(** *** Counting and comparing *)

(** How many sessions a sequence of calls adds, and the minutes it adds, in
    the order of the calls. *)
Fixpoint sessions_added (cs : list call) : nat :=
  match cs with
  | [] => O
  | call_incrementSessions :: cs' => S (sessions_added cs')
  | _ :: cs' => sessions_added cs'
  end.

Fixpoint minutes_added (cs : list call) : list number :=
  match cs with
  | [] => []
  | call_addFocusTime m :: cs' => m :: minutes_added cs'
  | _ :: cs' => minutes_added cs'
  end.

(** The five entries of [localStorage] are the settings in memory. *)
Definition in_sync `{Host} (w : world) : Prop :=
  localStorage w = saved (settings (manager w)) (localStorage w).

(** Settings with a [NaN] focus duration, dated today. *)
Definition settings_with_NaN : SettingsObject :=
  mkSettings NaN (Num 10) false "light" (mkStats (Num 3) (Num 90) (Some today_string)).

End Store.

(** ** The statistics object and the objects that refer to it

    [this.settings = { ...this.defaults }] copies the four plain fields and
    the reference to the statistics object: until [JSON.parse] or an object
    literal gives [this.settings.stats] an object of its own, an assignment
    to [this.settings.stats.sessionsToday] writes into the object of
    [this.defaults.stats].  [resetToDefaults] reads that object back. *)

Module Shared.

(** What [this.settings.stats] refers to: the object of
    [this.defaults.stats], or an object of its own, to which nothing else
    refers and which is kept here with its contents. *)
Inductive stats_ref : Type :=
| defaults_stats
| own_stats (o : Store.StatsObject).

(** [this.settings] *)
Record SettingsRecord : Type := mkRecord {
  focusDuration : number;
  breakDuration : number;
  soundEnabled : bool;
  theme : string;
  stats : stats_ref
}.

(** The arguments of a change callback: [resetToDefaults] passes the
    statistics objects themselves. *)
Inductive value : Type :=
| plain (v : Store.value)
| stats_object (r : stats_ref).

Inductive change : Type :=
| Change (key : string) (newValue oldValue : value).

(** [this.defaults], with the contents of its statistics object, and
    [this.settings]. *)
Record SettingsManager : Type := mkManager {
  defaults : Store.SettingsObject;
  settings : SettingsRecord;
  onSettingsChange : bool
}.

Record world : Type := mkWorld {
  manager : SettingsManager;
  localStorage : gmap string string;
  changes : list change;
  console : list level
}.

(** [{ ...d }] for the defaults [d] *)
Definition copy_of (d : Store.SettingsObject) : SettingsRecord :=
  mkRecord (Store.focusDuration d) (Store.breakDuration d) (Store.soundEnabled d)
           (Store.theme d) defaults_stats.

(** The contents of the object [this.settings.stats]. *)
Definition this_settings_stats (w : world) : Store.StatsObject :=
  match stats (settings (manager w)) with
  | defaults_stats => Store.stats (defaults (manager w))
  | own_stats o => o
  end.

(** [this.settings] with the contents of its statistics object. *)
Definition contents (w : world) : Store.SettingsObject :=
  Store.mkSettings (focusDuration (settings (manager w))) (breakDuration (settings (manager w)))
                   (soundEnabled (settings (manager w))) (theme (settings (manager w)))
                   (this_settings_stats w).

Definition set_focusDuration (v : number) (s : SettingsRecord) : SettingsRecord :=
  mkRecord v (breakDuration s) (soundEnabled s) (theme s) (stats s).
Definition set_breakDuration (v : number) (s : SettingsRecord) : SettingsRecord :=
  mkRecord (focusDuration s) v (soundEnabled s) (theme s) (stats s).
Definition set_soundEnabled (v : bool) (s : SettingsRecord) : SettingsRecord :=
  mkRecord (focusDuration s) (breakDuration s) v (theme s) (stats s).
Definition set_theme (v : string) (s : SettingsRecord) : SettingsRecord :=
  mkRecord (focusDuration s) (breakDuration s) (soundEnabled s) v (stats s).
Definition set_stats (v : stats_ref) (s : SettingsRecord) : SettingsRecord :=
  mkRecord (focusDuration s) (breakDuration s) (soundEnabled s) (theme s) v.

(** [this.settings = s] and [this.settings.f = v] *)
Definition assign_settings (s : SettingsRecord) (w : world) : world :=
  mkWorld (mkManager (defaults (manager w)) s (onSettingsChange (manager w)))
          (localStorage w) (changes w) (console w).
Definition this_settings (f : SettingsRecord -> SettingsRecord) (w : world) : world :=
  assign_settings (f (settings (manager w))) w.

(** [this.settings.stats.f = v]: the write goes to the object referred to. *)
Definition this_stats (f : Store.StatsObject -> Store.StatsObject) (w : world) : world :=
  match stats (settings (manager w)) with
  | defaults_stats =>
      mkWorld (mkManager (Store.set_stats (f (Store.stats (defaults (manager w))))
                                          (defaults (manager w)))
                         (settings (manager w)) (onSettingsChange (manager w)))
              (localStorage w) (changes w) (console w)
  | own_stats o => this_settings (set_stats (own_stats (f o))) w
  end.

Definition console_write (l : level) (w : world) : world :=
  mkWorld (manager w) (localStorage w) (changes w) (console w ++ [l]).

Definition setItem (key text : string) (w : world) : world :=
  mkWorld (manager w) (<[ key := text ]> (localStorage w)) (changes w) (console w).

Section Methods.
Context `{Store.Host}.

(** [_loadSettings()] *)
Definition _loadSettings (w : world) : world :=
  let focusDuration := localStorage w !! Store.FOCUS_DURATION in
  let breakDuration := localStorage w !! Store.BREAK_DURATION in
  let soundEnabled := localStorage w !! Store.SOUND_ENABLED in
  let theme := localStorage w !! Store.THEME in
  let stats := localStorage w !! Store.STATS in
  let w := match focusDuration with
           | Some v => this_settings (set_focusDuration (parseInt v)) w
           | None => w
           end in
  let w := match breakDuration with
           | Some v => this_settings (set_breakDuration (parseInt v)) w
           | None => w
           end in
  let w := match soundEnabled with
           | Some v => this_settings (set_soundEnabled (String.eqb v "true")) w
           | None => w
           end in
  let w := match theme with
           | Some v => this_settings (set_theme v) w
           | None => w
           end in
  match stats with
  | Some v =>
      match Store.JSON_parse v with
      | Some o => console_write info (this_settings (set_stats (own_stats o)) w)
      | None =>
          let w := console_write error w in
          assign_settings (copy_of (defaults (manager w))) w
      end
  | None => console_write info w
  end.

(** [_saveSettings()] *)
Definition _saveSettings (w : world) : world :=
  let w := setItem Store.FOCUS_DURATION
                   (Store.Number_toString (focusDuration (settings (manager w)))) w in
  let w := setItem Store.BREAK_DURATION
                   (Store.Number_toString (breakDuration (settings (manager w)))) w in
  let w := setItem Store.SOUND_ENABLED
                   (Store.Boolean_toString (soundEnabled (settings (manager w)))) w in
  let w := setItem Store.THEME (theme (settings (manager w))) w in
  let w := setItem Store.STATS (Store.JSON_stringify (this_settings_stats w)) w in
  console_write info w.

(** [_checkStatsReset()] *)
Definition _checkStatsReset (today : string) (w : world) : world :=
  let lastResetDate := Store.lastResetDate (this_settings_stats w) in
  if Store.date_differs lastResetDate today then
    let w := this_stats (Store.set_sessionsToday (Num 0)) w in
    let w := this_stats (Store.set_totalFocusTime (Num 0)) w in
    let w := this_stats (Store.set_lastResetDate (Some today)) w in
    let w := _saveSettings w in
    console_write info w
  else w.

(** [_init()] *)
Definition _init (today : string) (w : world) : world :=
  let w := _loadSettings w in
  let w := _checkStatsReset today w in
  console_write info w.

(** The fields the constructor sets before it calls [_init()]. *)
Definition constructed (ls : gmap string string) : world :=
  mkWorld (mkManager Store.defaults (copy_of Store.defaults) false) ls [] [].

(** [new SettingsManager()] *)
Definition new_SettingsManager (ls : gmap string string) (today : string) : world :=
  _init today (constructed ls).

(** [_notifyChange(key, newValue, oldValue)] and the call
    [this.onSettingsChange(key, newValue, oldValue)] *)
Definition call_onSettingsChange (key : string) (newValue oldValue : value) (w : world)
  : world :=
  mkWorld (manager w) (localStorage w) (changes w ++ [Change key newValue oldValue])
          (console w).

Definition _notifyChange (key : string) (newValue oldValue : Store.value) (w : world)
  : world :=
  if onSettingsChange (manager w)
  then call_onSettingsChange key (plain newValue) (plain oldValue) w
  else w.

(** [setFocusDuration(minutes)] *)
Definition setFocusDuration (minutes : number) (w : world) : bool * world :=
  if num_lt minutes (Num 1) || num_gt minutes (Num 120)
  then (false, console_write error w)
  else
    let oldValue := focusDuration (settings (manager w)) in
    let w := this_settings (set_focusDuration minutes) w in
    let w := _saveSettings w in
    let w := _notifyChange "focusDuration" (Store.number_value minutes)
                           (Store.number_value oldValue) w in
    (true, w).

(** [setBreakDuration(minutes)] *)
Definition setBreakDuration (minutes : number) (w : world) : bool * world :=
  if num_lt minutes (Num 1) || num_gt minutes (Num 30)
  then (false, console_write error w)
  else
    let oldValue := breakDuration (settings (manager w)) in
    let w := this_settings (set_breakDuration minutes) w in
    let w := _saveSettings w in
    let w := _notifyChange "breakDuration" (Store.number_value minutes)
                           (Store.number_value oldValue) w in
    (true, w).

(** [setSoundEnabled(enabled)] *)
Definition setSoundEnabled (enabled : bool) (w : world) : bool * world :=
  let oldValue := soundEnabled (settings (manager w)) in
  let w := this_settings (set_soundEnabled enabled) w in
  let w := _saveSettings w in
  let w := _notifyChange "soundEnabled" (Store.boolean_value enabled)
                         (Store.boolean_value oldValue) w in
  (true, w).

(** [setTheme(theme)] *)
Definition setTheme (theme' : string) (w : world) : bool * world :=
  if negb (String.eqb theme' "dark") && negb (String.eqb theme' "light")
  then (false, console_write error w)
  else
    let oldValue := theme (settings (manager w)) in
    let w := this_settings (set_theme theme') w in
    let w := _saveSettings w in
    let w := _notifyChange "theme" (Store.string_value theme')
                           (Store.string_value oldValue) w in
    (true, w).

(** [incrementSessions()] *)
Definition incrementSessions (w : world) : world :=
  let w := this_stats (fun o => Store.set_sessionsToday (num_inc (Store.sessionsToday o)) o) w in
  let w := _saveSettings w in
  console_write info w.

(** [addFocusTime(minutes)] *)
Definition addFocusTime (minutes : number) (w : world) : world :=
  let w := this_stats
             (fun o => Store.set_totalFocusTime (num_add (Store.totalFocusTime o) minutes) o)
             w in
  let w := _saveSettings w in
  console_write info w.

(** [resetToDefaults()]: [oldSettings] is a copy of the fields, the keys of
    [this.settings] come in the order of the literal of [this.defaults]. *)
Definition resetToDefaults (w : world) : bool * world :=
  let oldSettings := settings (manager w) in
  let w := assign_settings (copy_of (defaults (manager w))) w in
  let w := _saveSettings w in
  let w := console_write info w in
  let w :=
    if onSettingsChange (manager w) then
      let w := call_onSettingsChange "focusDuration"
                 (plain (Store.number_value (focusDuration (settings (manager w)))))
                 (plain (Store.number_value (focusDuration oldSettings))) w in
      let w := call_onSettingsChange "breakDuration"
                 (plain (Store.number_value (breakDuration (settings (manager w)))))
                 (plain (Store.number_value (breakDuration oldSettings))) w in
      let w := call_onSettingsChange "soundEnabled"
                 (plain (Store.boolean_value (soundEnabled (settings (manager w)))))
                 (plain (Store.boolean_value (soundEnabled oldSettings))) w in
      let w := call_onSettingsChange "theme"
                 (plain (Store.string_value (theme (settings (manager w)))))
                 (plain (Store.string_value (theme oldSettings))) w in
      call_onSettingsChange "stats"
                 (stats_object (stats (settings (manager w))))
                 (stats_object (stats oldSettings)) w
    else w in
  (true, w).

(** [window.resetStats()] of the page, once the application is there; what
    it shows is left out. *)
Definition resetStats (today : string) (w : world) : world :=
  let w := this_settings (set_stats (own_stats (Store.mkStats (Num 0) (Num 0) (Some today)))) w in
  let w := _saveSettings w in
  console_write info w.

(** The calls of the store, and the two resets. *)
Inductive call : Type :=
| store_call (c : Store.call)
| call_resetToDefaults
| call_resetStats (today : string).

Definition step (c : call) (w : world) : world :=
  match c with
  | store_call (Store.call_setFocusDuration m) => snd (setFocusDuration m w)
  | store_call (Store.call_setBreakDuration m) => snd (setBreakDuration m w)
  | store_call (Store.call_setSoundEnabled b) => snd (setSoundEnabled b w)
  | store_call (Store.call_setTheme s) => snd (setTheme s w)
  | store_call Store.call_incrementSessions => incrementSessions w
  | store_call (Store.call_addFocusTime m) => addFocusTime m w
  | store_call (Store.assign_onSettingsChange b) =>
      mkWorld (mkManager (defaults (manager w)) (settings (manager w)) b)
              (localStorage w) (changes w) (console w)
  | call_resetToDefaults => snd (resetToDefaults w)
  | call_resetStats today => resetStats today w
  end.

Definition run (cs : list call) (w : world) : world :=
  fold_left (fun w c => step c w) cs w.

End Methods.

(** The same call on the store that keeps the settings by their contents. *)
Definition lift_change (c : Store.change) : change :=
  match c with
  | Store.Change key newValue oldValue => Change key (plain newValue) (plain oldValue)
  end.

(** [sw] is [w] without the references. *)
Definition abstracts (w : world) (sw : Store.world) : Prop :=
  contents w = Store.settings (Store.manager sw)
  ∧ onSettingsChange (manager w) = Store.onSettingsChange (Store.manager sw)
  ∧ localStorage w = Store.localStorage sw
  ∧ changes w = map lift_change (Store.changes sw)
  ∧ console w = Store.console sw.

(** The four plain defaults are as the constructor wrote them. *)
Definition plain_defaults (w : world) : Prop :=
  Store.focusDuration (defaults (manager w)) = Num 25
  ∧ Store.breakDuration (defaults (manager w)) = Num 5
  ∧ Store.soundEnabled (defaults (manager w)) = true
  ∧ Store.theme (defaults (manager w)) = "dark".

(** The statistics text of [ls] is one [JSON.parse] reads. *)
Definition stats_parse `{Store.Host} (ls : gmap string string) : Prop :=
  exists t o, ls !! Store.STATS = Some t ∧ Store.JSON_parse t = Some o.

End Shared.

(** ** What the page shows: [FocusTimer.formatTime],
    [FocusTimer.calculateProgress] and the use [updateTimerDisplay] makes of
    them *)

Module Display.

(** [Math.floor(a / 60)] *)
Definition floor_div60 (a : number) : number :=
  match a with
  | Num q => Num (inject_Z (Qfloor (q / 60)))
  | NaN => NaN
  end.

(** Rounding towards zero. *)
Definition Qtruncate (x : Q) : Z :=
  if Qle_bool 0 x then Qfloor x else Qceiling x.

(** [a % 60]: the remainder has the sign of [a]. *)
Definition rem60 (a : number) : number :=
  match a with
  | Num q => Num (q - 60 * inject_Z (Qtruncate (q / 60)))
  | NaN => NaN
  end.

(** [s.padStart(n, c)] for a one-character [c] *)
Definition padStart (n : nat) (c : ascii) (s : string) : string :=
  string_of_list_ascii (repeat c (n - String.length s)) +:+ s.

(** [static formatTime(seconds)]; the host turns the two numbers into
    strings. *)
Definition formatTime `{Store.Host} (seconds : number) : string :=
  let minutes := floor_div60 seconds in
  let remainingSeconds := rem60 seconds in
  padStart 2 "0" (Store.Number_toString minutes) +:+ ":"
  +:+ padStart 2 "0" (Store.Number_toString remainingSeconds).

(** [static calculateProgress(timeLeft, totalTime)].  A division of a
    number other than zero by zero gives an infinity, which the numbers kept
    here do not have: the result is then [None]. *)
Definition calculateProgress (timeLeft totalTime : number) : option number :=
  match timeLeft, totalTime with
  | Num l, Num t =>
      let elapsed := (t - l)%Q in
      if Qeq_bool t 0
      then if Qeq_bool elapsed 0 then Some NaN else None
      else Some (Num (elapsed / t * 100))
  | _, _ => Some NaN
  end.

(** The dash offset [updateTimerDisplay] gives the progress ring:
    [circumference - (progress / 100) * circumference] with
    [circumference = 1130]. *)
Definition strokeDashoffset (progress : number) : number :=
  match progress with
  | Num p => Num (1130 - p / 100 * 1130)
  | NaN => NaN
  end.

(** The decimal writing of an integer. *)
Definition decimal (z : Z) : string := NilZero.string_of_int (Z.to_int z).

(** A host that writes the integers in decimal, as browsers do. *)
Definition writes_integers_in_decimal `{Store.Host} : Prop :=
  forall q z, (q == inject_Z z)%Q -> Store.Number_toString (Num q) = decimal z.

(** [formatTime] on an integer number of seconds that is not negative, under
    such a host. *)
Definition clock_text (z : Z) : string :=
  padStart 2 "0" (decimal (z / 60)) +:+ ":" +:+ padStart 2 "0" (decimal (z mod 60)).

(** The text is [MM:SS] and reads back as the minutes and seconds of [z]. *)
Definition reads_back (z : Z) (text : string) : bool :=
  match text with
  | String m1 (String m2 (String c (String s1 (String s2 EmptyString)))) =>
      Ascii.eqb c ":"
      && match parseInt (String m1 (String m2 EmptyString)),
               parseInt (String s1 (String s2 EmptyString)) with
         | Num m, Num s =>
             Qeq_bool m (inject_Z (z / 60)) && Qeq_bool s (inject_Z (z mod 60))
         | _, _ => false
         end
  | _ => false
  end.

End Display.

(** ** The page: [FocusTimerApp] (scripts/app.js) and [UIManager]
    (focus/scripts/ui.js)

    The page holds one timer, one store of settings and the interface.  Of
    the interface it keeps what its handlers compute from the timer and the
    settings: the clock text, the ring, the mode text, the three states of
    the start and pause buttons, the modal, the theme class of the body, the
    two statistics shown, the sounds asked for and the error messages shown.
    The settings panel, the full screen mode, the tooltips, the animations
    and the console lines of the two files are left out. *)

Module App.

(** The three texts [updateControlButtons] gives the start button. *)
Inductive start_label : Type := En_cours | Reprendre | Demarrer.

(** The two messages [_saveSettings] shows with [_showError]. *)
Inductive error_message : Type := focus_out_of_range | break_out_of_range.

Record UIManager : Type := mkUI {
  timeDisplay : string;
  strokeDashoffset : option number;
  modeText : string;
  startBtn_disabled : bool;
  pauseBtn_disabled : bool;
  startBtn_label : start_label;
  isModalOpen : bool;
  modalActionBtn_shown : bool;
  light_mode : bool;
  focusSessions : number;
  totalFocusTime : number;
  sounds : nat;
  errors : list error_message
}.

(** [window.app]: the timer and the store with their worlds, the interface,
    and whether the timeout of the welcome message is pending. *)
Record page : Type := mkPage {
  timer : Timer.world;
  settings : Store.world;
  ui : UIManager;
  welcome_scheduled : bool
}.

(** How [init()] ends: the page is open; or the error screen of
    [_handleInitError] is shown, with no timer and no interface; or the page
    is open on statistics this model has no type for. *)
Inductive opening : Type :=
| opened (p : page)
| initialisation_error
| opened_on_other_statistics.

Definition on_timer (f : Timer.world -> Timer.world) (p : page) : page :=
  mkPage (f (timer p)) (settings p) (ui p) (welcome_scheduled p).
Definition on_settings (f : Store.world -> Store.world) (p : page) : page :=
  mkPage (timer p) (f (settings p)) (ui p) (welcome_scheduled p).
Definition on_ui (f : UIManager -> UIManager) (p : page) : page :=
  mkPage (timer p) (settings p) (f (ui p)) (welcome_scheduled p).

Definition set_display (text : string) (offset : option number) (modeText : string)
  (u : UIManager) : UIManager :=
  mkUI text offset modeText (startBtn_disabled u) (pauseBtn_disabled u) (startBtn_label u)
       (isModalOpen u) (modalActionBtn_shown u) (light_mode u) (focusSessions u)
       (totalFocusTime u) (sounds u) (errors u).
Definition set_buttons (startDisabled pauseDisabled : bool) (label : start_label)
  (u : UIManager) : UIManager :=
  mkUI (timeDisplay u) (strokeDashoffset u) (modeText u) startDisabled pauseDisabled label
       (isModalOpen u) (modalActionBtn_shown u) (light_mode u) (focusSessions u)
       (totalFocusTime u) (sounds u) (errors u).
Definition set_isModalOpen (v : bool) (u : UIManager) : UIManager :=
  mkUI (timeDisplay u) (strokeDashoffset u) (modeText u) (startBtn_disabled u)
       (pauseBtn_disabled u) (startBtn_label u) v (modalActionBtn_shown u) (light_mode u)
       (focusSessions u) (totalFocusTime u) (sounds u) (errors u).
Definition set_modalActionBtn_shown (v : bool) (u : UIManager) : UIManager :=
  mkUI (timeDisplay u) (strokeDashoffset u) (modeText u) (startBtn_disabled u)
       (pauseBtn_disabled u) (startBtn_label u) (isModalOpen u) v (light_mode u)
       (focusSessions u) (totalFocusTime u) (sounds u) (errors u).
Definition set_light_mode (v : bool) (u : UIManager) : UIManager :=
  mkUI (timeDisplay u) (strokeDashoffset u) (modeText u) (startBtn_disabled u)
       (pauseBtn_disabled u) (startBtn_label u) (isModalOpen u) (modalActionBtn_shown u) v
       (focusSessions u) (totalFocusTime u) (sounds u) (errors u).
Definition set_statistics (sessions total : number) (u : UIManager) : UIManager :=
  mkUI (timeDisplay u) (strokeDashoffset u) (modeText u) (startBtn_disabled u)
       (pauseBtn_disabled u) (startBtn_label u) (isModalOpen u) (modalActionBtn_shown u)
       (light_mode u) sessions total (sounds u) (errors u).
Definition set_sounds (v : nat) (u : UIManager) : UIManager :=
  mkUI (timeDisplay u) (strokeDashoffset u) (modeText u) (startBtn_disabled u)
       (pauseBtn_disabled u) (startBtn_label u) (isModalOpen u) (modalActionBtn_shown u)
       (light_mode u) (focusSessions u) (totalFocusTime u) v (errors u).
Definition set_errors (v : list error_message) (u : UIManager) : UIManager :=
  mkUI (timeDisplay u) (strokeDashoffset u) (modeText u) (startBtn_disabled u)
       (pauseBtn_disabled u) (startBtn_label u) (isModalOpen u) (modalActionBtn_shown u)
       (light_mode u) (focusSessions u) (totalFocusTime u) (sounds u) v.

(** [this.timer.isRunning()], [isPaused()], [this.timer.mode],
    [this.settings.getSetting(key)] *)
Definition isRunning (p : page) : bool :=
  Timer.TimerState_eqb (Timer.state (Timer.timer (timer p))) Timer.RUNNING.
Definition isPaused (p : page) : bool :=
  Timer.TimerState_eqb (Timer.state (Timer.timer (timer p))) Timer.PAUSED.
Definition timer_mode (p : page) : string := Timer.mode (Timer.timer (timer p)).
Definition getSettings (p : page) : Store.SettingsObject :=
  Store.settings (Store.manager (settings p)).

Section Methods.
Context `{Store.Host}.

(** *** focus/scripts/ui.js *)

(** [updateTimerDisplay(timeLeft, totalTime, mode)] *)
Definition updateTimerDisplay (timeLeft totalTime : number) (mode : string) (u : UIManager)
  : UIManager :=
  let text := Display.formatTime timeLeft in
  let progress := Display.calculateProgress timeLeft totalTime in
  let offset := option_map Display.strokeDashoffset progress in
  set_display text offset (if String.eqb mode "focus" then "Focus" else "Pause") u.

(** [updateControlButtons(isRunning, isPaused)] *)
Definition updateControlButtons (isRunning isPaused : bool) (u : UIManager) : UIManager :=
  if isRunning then set_buttons true false En_cours u
  else if isPaused then set_buttons false true Reprendre u
  else set_buttons false true Demarrer u.

(** [_openModal()], [_closeModal()], [_showInfo()], [_showError(message)],
    [_playNotificationSound()] *)
Definition _openModal (u : UIManager) : UIManager := set_isModalOpen true u.
Definition _closeModal (u : UIManager) : UIManager := set_isModalOpen false u.
Definition _showInfo (u : UIManager) : UIManager :=
  _openModal (set_modalActionBtn_shown false u).
Definition _showError (message : error_message) (u : UIManager) : UIManager :=
  set_errors (errors u ++ [message]) u.
Definition _playNotificationSound (u : UIManager) : UIManager :=
  set_sounds (S (sounds u)) u.

(** [_applyTheme()]: the class [light-mode] of the body. *)
Definition _applyTheme (p : page) : page :=
  let theme := Store.theme (getSettings p) in
  if String.eqb theme "light" then on_ui (set_light_mode true) p
  else on_ui (set_light_mode false) p.

(** [_updateStatsDisplay()] *)
Definition _updateStatsDisplay (p : page) : page :=
  let stats := Store.stats (getSettings p) in
  on_ui (set_statistics (Store.sessionsToday stats) (Store.totalFocusTime stats)) p.

(** [showSessionComplete(completedMode)]: both branches show the action
    button. *)
Definition showSessionComplete (completedMode : string) (p : page) : page :=
  let p := on_ui (set_modalActionBtn_shown true) p in
  let p := on_ui _openModal p in
  if Store.soundEnabled (getSettings p) then on_ui _playNotificationSound p else p.

(** *** The callbacks [_setupEventHandlers()] installs (scripts/app.js)

    Each one first records the call in the world of the timer. *)

Definition onTick (timeLeft totalTime : number) (mode : string) (p : page) : page :=
  let p := on_timer (Timer.call (Timer.Tick timeLeft totalTime mode)) p in
  let p := on_ui (updateTimerDisplay timeLeft totalTime mode) p in
  on_ui (updateControlButtons (isRunning p) (isPaused p)) p.

Definition onModeChange (newMode oldMode : string) (p : page) : page :=
  on_timer (Timer.call (Timer.ModeChange newMode oldMode)) p.

Definition onComplete (completedMode : string) (p : page) : page :=
  let p := on_timer (Timer.call (Timer.Complete completedMode)) p in
  let p := showSessionComplete completedMode p in
  if String.eqb completedMode "focus" then
    let p := on_settings Store.incrementSessions p in
    let focusMinutes := Store.focusDuration (getSettings p) in
    let p := on_settings (Store.addFocusTime focusMinutes) p in
    _updateStatsDisplay p
  else p.

(** What [onComplete] does to the store for a focus session, and to the
    interface. *)
Definition count_focus_session (sw : Store.world) : Store.world :=
  let sw := Store.incrementSessions sw in
  Store.addFocusTime (Store.focusDuration (Store.settings (Store.manager sw))) sw.

Definition announce_completion (soundEnabled : bool) (u : UIManager) : UIManager :=
  let u := _openModal (set_modalActionBtn_shown true u) in
  if soundEnabled then _playNotificationSound u else u.

(** [this.settings.onSettingsChange]: a change of the theme is applied. *)
Definition onSettingsChange (c : Store.change) (p : page) : page :=
  match c with
  | Store.Change key _ _ => if String.eqb key "theme" then _applyTheme p else p
  end.

(** A setter of the store calls the change callback as its last statement:
    the calls it made are handed to the handler of the page. *)
Definition settings_call (f : Store.world -> bool * Store.world) (p : page) : page :=
  let before := List.length (Store.changes (settings p)) in
  let p := on_settings (fun s => snd (f s)) p in
  fold_left (fun p c => onSettingsChange c p) (drop before (Store.changes (settings p))) p.

(** *** The methods of the timer (focus/scripts/timer.js), its callbacks
    called in place *)

Definition timer_this (f : Timer.FocusTimer -> Timer.FocusTimer) (p : page) : page :=
  on_timer (Timer.this f) p.

(** [_complete()] *)
Definition _complete (p : page) : page :=
  let p := on_timer (Timer.clearInterval (Timer.intervalId (Timer.timer (timer p)))) p in
  let p := timer_this (Timer.set_intervalId None) p in
  let p := timer_this (Timer.set_state Timer.STOPPED) p in
  let p := on_timer (Timer.console_write info) p in
  if Timer.onComplete (Timer.timer (timer p)) then onComplete (timer_mode p) p else p.

(** [_tick()] *)
Definition _tick (p : page) : page :=
  let p := timer_this (Timer.set_timeLeft (num_dec (Timer.timeLeft (Timer.timer (timer p))))) p in
  let p := if Timer.onTick (Timer.timer (timer p))
           then onTick (Timer.timeLeft (Timer.timer (timer p)))
                       (Timer.totalTime (Timer.timer (timer p))) (timer_mode p) p
           else p in
  if num_le (Timer.timeLeft (Timer.timer (timer p))) (Num 0) then _complete p else p.

(** [start()] *)
Definition start (p : page) : page :=
  if isRunning p then on_timer (Timer.console_write warn) p
  else
    let p := timer_this (Timer.set_state Timer.RUNNING) p in
    let p := on_timer (Timer.console_write info) p in
    let p := on_timer Timer.setInterval p in
    _tick p.

(** [pause()] *)
Definition pause (p : page) : page := on_timer Timer.pause p.

(** [resume()] *)
Definition resume (p : page) : page :=
  if negb (isPaused p) then on_timer (Timer.console_write warn) p
  else start p.

(** [reset(mode = null)] *)
Definition reset (m : option string) (p : page) : page :=
  let p := match Timer.intervalId (Timer.timer (timer p)) with
           | Some h =>
               timer_this (Timer.set_intervalId None) (on_timer (Timer.clearInterval (Some h)) p)
           | None => p
           end in
  let p := timer_this (Timer.set_state Timer.STOPPED) p in
  let p := match m with
           | Some s => if Timer.truthy m then timer_this (Timer.set_mode s) p else p
           | None => p
           end in
  let p := on_timer Timer._resetTime p in
  let p := on_timer (Timer.console_write info) p in
  if Timer.onTick (Timer.timer (timer p))
  then onTick (Timer.timeLeft (Timer.timer (timer p)))
              (Timer.totalTime (Timer.timer (timer p))) (timer_mode p) p
  else p.

(** [setMode(newMode)] *)
Definition setMode (newMode : string) (p : page) : page :=
  if negb (String.eqb newMode "focus") && negb (String.eqb newMode "break")
  then on_timer (Timer.console_write error) p
  else
    let p := if isRunning p then pause p else p in
    let oldMode := timer_mode p in
    let p := timer_this (Timer.set_mode newMode) p in
    let p := on_timer Timer._resetTime p in
    let p := on_timer (Timer.console_write info) p in
    let p := if Timer.onModeChange (Timer.timer (timer p))
             then onModeChange newMode oldMode p else p in
    if Timer.onTick (Timer.timer (timer p))
    then onTick (Timer.timeLeft (Timer.timer (timer p)))
                (Timer.totalTime (Timer.timer (timer p))) (timer_mode p) p
    else p.

(** [setFocusDuration(minutes)] of the timer *)
Definition timer_setFocusDuration (minutes : number) (p : page) : page :=
  let seconds := num_mul minutes (Num 60) in
  let p := timer_this (Timer.set_focusDuration seconds) p in
  let p :=
    if String.eqb (timer_mode p) "focus"
       && Timer.TimerState_eqb (Timer.state (Timer.timer (timer p))) Timer.STOPPED
    then
      let p := timer_this (Timer.set_timeLeft seconds) p in
      let p := timer_this (Timer.set_totalTime seconds) p in
      if Timer.onTick (Timer.timer (timer p))
      then onTick (Timer.timeLeft (Timer.timer (timer p)))
                  (Timer.totalTime (Timer.timer (timer p))) (timer_mode p) p
      else p
    else p in
  on_timer (Timer.console_write info) p.

(** [setBreakDuration(minutes)] of the timer *)
Definition timer_setBreakDuration (minutes : number) (p : page) : page :=
  let seconds := num_mul minutes (Num 60) in
  let p := timer_this (Timer.set_breakDuration seconds) p in
  let p :=
    if String.eqb (timer_mode p) "break"
       && Timer.TimerState_eqb (Timer.state (Timer.timer (timer p))) Timer.STOPPED
    then
      let p := timer_this (Timer.set_timeLeft seconds) p in
      let p := timer_this (Timer.set_totalTime seconds) p in
      if Timer.onTick (Timer.timer (timer p))
      then onTick (Timer.timeLeft (Timer.timer (timer p)))
                  (Timer.totalTime (Timer.timer (timer p))) (timer_mode p) p
      else p
    else p in
  on_timer (Timer.console_write info) p.

(** *** The handlers of the interface (focus/scripts/ui.js) *)

(** [_handleStart()] *)
Definition _handleStart (p : page) : page :=
  if isRunning p then p
  else
    let p := if isPaused p then resume p else start p in
    on_ui (updateControlButtons (isRunning p) (isPaused p)) p.

(** [_handlePause()] *)
Definition _handlePause (p : page) : page :=
  if negb (isRunning p) then p
  else
    let p := pause p in
    on_ui (updateControlButtons (isRunning p) (isPaused p)) p.

(** [_handleReset()] *)
Definition _handleReset (p : page) : page :=
  let p := reset None p in
  on_ui (updateControlButtons (isRunning p) (isPaused p)) p.

(** [_toggleTheme()], the second of the two definitions the class gives,
    which is the one in force; the storage event it dispatches has no
    listener in this page. *)
Definition _toggleTheme (p : page) : page :=
  let isLightMode := light_mode (ui p) in
  let newTheme := if isLightMode then "dark" else "light" in
  let p := settings_call (Store.setTheme newTheme) p in
  let p := _applyTheme p in
  on_settings (Store.setItem "theme" newTheme) p.

(** [_saveSettings()] of the interface, the two fields holding the texts
    [focusTime] and [breakTime] and the box being [soundEnabled]. *)
Definition _saveSettings (focusTime breakTime : string) (soundEnabled : bool) (p : page)
  : page :=
  let focusDuration := parseInt focusTime in
  let breakDuration := parseInt breakTime in
  if num_lt focusDuration (Num 1) || num_gt focusDuration (Num 120)
  then on_ui (_showError focus_out_of_range) p
  else if num_lt breakDuration (Num 1) || num_gt breakDuration (Num 30)
  then on_ui (_showError break_out_of_range) p
  else
    let p := settings_call (Store.setFocusDuration focusDuration) p in
    let p := settings_call (Store.setBreakDuration breakDuration) p in
    let p := settings_call (Store.setSoundEnabled soundEnabled) p in
    let p := timer_setFocusDuration focusDuration p in
    timer_setBreakDuration breakDuration p.

(** [_handleModalAction()] *)
Definition _handleModalAction (p : page) : page :=
  let p := on_ui _closeModal p in
  let currentMode := timer_mode p in
  let newMode := if String.eqb currentMode "focus" then "break" else "focus" in
  let p := setMode newMode p in
  start p.

(** The case of the space bar in [_handleKeyPress(event)], for a key pressed
    outside a text field. *)
Definition key_space (p : page) : page :=
  if isRunning p then _handlePause p else _handleStart p.

(** *** scripts/app.js *)

(** [window.toggleMode()] *)
Definition toggleMode (p : page) : page :=
  let currentMode := timer_mode p in
  let newMode := if String.eqb currentMode "focus" then "break" else "focus" in
  setMode newMode p.

(** [window.resetStats()] on the day [today] *)
Definition resetStats (today : string) (p : page) : page :=
  let p := on_settings
             (Store.this_settings
                (Store.set_stats (Store.mkStats (Num 0) (Num 0) (Some today)))) p in
  let p := on_settings Store._saveSettings p in
  _updateStatsDisplay p.

(** [_initTimer()] *)
Definition _initTimer (p : page) : page :=
  let settings := getSettings p in
  let p := on_timer (fun _ => Timer.new_FocusTimer) p in
  let p := timer_setFocusDuration (Store.focusDuration settings) p in
  timer_setBreakDuration (Store.breakDuration settings) p.

(** [_initUI()]: what [new UIManager(timer, settings)] computes. *)
Definition _initUI (p : page) : page :=
  let p := _applyTheme p in
  _updateStatsDisplay p.

(** [_setupEventHandlers()] *)
Definition _setupEventHandlers (p : page) : page :=
  let p := timer_this (Timer.set_callbacks true true true) p in
  on_settings (Store.step (Store.assign_onSettingsChange true)) p.

(** [_showWelcomeMessage()] *)
Definition _showWelcomeMessage (p : page) : page :=
  let firstVisit := negb (Timer.truthy (Store.localStorage (settings p) !! "hasVisitedBefore")) in
  if firstVisit then
    let p := on_settings (Store.setItem "hasVisitedBefore" "true") p in
    mkPage (timer p) (settings p) (ui p) true
  else p.

(** [new FocusTimerApp()] in a page whose document shows [dom] and whose
    [localStorage] holds [ls], on the day [today]: the page [init()] leaves
    when nothing throws in it.  [init] below has the other case. *)
Definition new_FocusTimerApp (ls : gmap string string) (today : string) (dom : UIManager)
  : page :=
  let p := mkPage Timer.new_FocusTimer (Store.new_SettingsManager ls today) dom false in
  let p := _initTimer p in
  let p := _initUI p in
  let p := _setupEventHandlers p in
  _showWelcomeMessage p.

(** [init()], the body of the constructor, with its [try] and [catch].  When
    [new SettingsManager()] throws in [_initSettings()], the [catch] writes
    the error to the console and [_handleInitError] replaces the body of the
    document by the error message: [this.timer] and [this.ui] are still
    [null], no handler is installed and nothing is written to
    [localStorage]. *)
Definition init (ls : gmap string string) (today : string) (dom : UIManager) : opening :=
  match Store.constructor ls today with
  | Store.returns w =>
      let p := mkPage Timer.new_FocusTimer w dom false in
      let p := _initTimer p in
      let p := _initUI p in
      let p := _setupEventHandlers p in
      opened (_showWelcomeMessage p)
  | Store.throws_TypeError => initialisation_error
  | Store.returns_other_statistics _ _ _ _ => opened_on_other_statistics
  end.

(** What happens in the page: a handler of the interface runs, an interval
    of the timer or the timeout of the welcome message fires, or one of the
    two global functions is called. *)
Inductive event : Type :=
| handle_start
| handle_pause
| handle_reset
| press_space
| toggle_theme
| save_settings (focusTime breakTime : string) (soundEnabled : bool)
| modal_action
| close_modal
| show_info
| welcome_timeout
| interval_fires (h : positive)
| call_toggleMode
| call_resetStats (today : string).

Definition step (e : event) (p : page) : page :=
  match e with
  | handle_start => _handleStart p
  | handle_pause => _handlePause p
  | handle_reset => _handleReset p
  | press_space => key_space p
  | toggle_theme => _toggleTheme p
  | save_settings f b s => _saveSettings f b s p
  | modal_action => _handleModalAction p
  | close_modal => on_ui _closeModal p
  | show_info => on_ui _showInfo p
  | welcome_timeout =>
      if welcome_scheduled p
      then on_ui _showInfo (mkPage (timer p) (settings p) (ui p) false)
      else p
  | interval_fires h =>
      if decide (h ∈ Timer.intervals (timer p)) then _tick p else p
  | call_toggleMode => toggleMode p
  | call_resetStats today => resetStats today p
  end.

Definition run (es : list event) (p : page) : page :=
  fold_left (fun p e => step e p) es p.

(** The calls a handler makes on the timer. *)
Definition timer_events (e : event) (p : page) : list Timer.event :=
  match e with
  | handle_start =>
      if isRunning p then []
      else if isPaused p then [Timer.call_resume] else [Timer.call_start]
  | handle_pause => if isRunning p then [Timer.call_pause] else []
  | handle_reset => [Timer.call_reset None]
  | press_space =>
      if isRunning p then [Timer.call_pause]
      else if isPaused p then [Timer.call_resume] else [Timer.call_start]
  | save_settings f b _ =>
      if num_lt (parseInt f) (Num 1) || num_gt (parseInt f) (Num 120) then []
      else if num_lt (parseInt b) (Num 1) || num_gt (parseInt b) (Num 30) then []
      else [Timer.call_setFocusDuration (parseInt f); Timer.call_setBreakDuration (parseInt b)]
  | modal_action =>
      [Timer.call_setMode (if String.eqb (timer_mode p) "focus" then "break" else "focus");
       Timer.call_start]
  | interval_fires h => [Timer.interval_fires h]
  | call_toggleMode =>
      [Timer.call_setMode (if String.eqb (timer_mode p) "focus" then "break" else "focus")]
  | toggle_theme | close_modal | show_info | welcome_timeout | call_resetStats _ => []
  end.

End Methods.

(** The console lines with which a method refuses a call. *)
Definition is_refusal (l : level) : bool :=
  match l with
  | info => false
  | _ => true
  end.
Definition refusals (c : list level) : list level := List.filter is_refusal c.

(** A focus session that has run out, its completion callback in place. *)
Definition finished_focus_session (p : page) : Prop :=
  let t := Timer.timer (timer p) in
  Timer.state t = Timer.STOPPED ∧ Timer.mode t = "focus"
  ∧ num_le (Timer.timeLeft t) (Num 0) = true ∧ Timer.onComplete t = true.

(** The timer and the settings agree on the two durations. *)
Definition durations_agree (p : page) : Prop :=
  Timer.focusDuration (Timer.timer (timer p))
  = num_mul (Store.focusDuration (getSettings p)) (Num 60)
  ∧ Timer.breakDuration (Timer.timer (timer p))
    = num_mul (Store.breakDuration (getSettings p)) (Num 60).

(** The body carries the class [light-mode] exactly when the theme is
    [light]. *)
Definition theme_applied (p : page) : Prop :=
  light_mode (ui p) = String.eqb (Store.theme (getSettings p)) "light".

(** What the interface shows of the timer: the clock, the ring and the mode
    text; and what [updateTimerDisplay] makes of a time left, a total time
    and a mode. *)
Definition display_of (u : UIManager) : string * option number * string :=
  (timeDisplay u, strokeDashoffset u, modeText u).

Definition display_for `{Store.Host} (timeLeft totalTime : number) (mode : string)
  : string * option number * string :=
  (Display.formatTime timeLeft,
   option_map Display.strokeDashoffset (Display.calculateProgress timeLeft totalTime),
   if String.eqb mode "focus" then "Focus" else "Pause").

(** The clock, the ring and the mode text show the timer as it is. *)
Definition display_current `{Store.Host} (p : page) : Prop :=
  let t := Timer.timer (timer p) in
  display_of (ui p) = display_for (Timer.timeLeft t) (Timer.totalTime t) (Timer.mode t).

(** A document as it may be before the scripts run. *)
Definition sample_dom : UIManager :=
  mkUI "25:00" None "Focus" false true Demarrer false false false (Num 0) (Num 0) O [].

(** Pages for the examples: a page that has just opened on an empty store,
    and a page whose timer runs its last second. *)
Definition sample_page : page :=
  new_FocusTimerApp (H := Store.sample_host) ∅ Store.today_string sample_dom.

Definition last_second_page : page :=
  mkPage Timer.one_second_left
         (Store.new_SettingsManager (H := Store.sample_host) ∅ Store.today_string)
         sample_dom false.

End App.

(** ** The home page: the theme of [HomepageManager] (second script of
    focus/scripts/timer.js)

    The home page keeps the theme under the same [localStorage] key as the
    application.  Its animations and modals are left out. *)

Module Homepage.

(** The two theme classes of the body, [localStorage], the assignments made
    to [document.cookie] and the console. *)
Record page : Type := mkPage {
  dark_mode : bool;
  light_mode : bool;
  localStorage : gmap string string;
  cookies : list string;
  console : list level
}.

(** The text of a string or [null]. *)
Definition String_of (v : option string) : string :=
  match v with
  | Some s => s
  | None => "null"
  end.

(** [setTheme(theme)], for a string or [null]. *)
Definition setTheme (theme : option string) (p : page) : page :=
  let is_dark := match theme with
                 | Some s => String.eqb s "dark"
                 | None => false
                 end in
  let p := if is_dark
           then mkPage true false (localStorage p) (cookies p) (console p)
           else mkPage false true (localStorage p) (cookies p) (console p) in
  let p := mkPage (dark_mode p) (light_mode p)
                  (<[ "theme" := String_of theme ]> (localStorage p))
                  (cookies p) (console p) in
  let p := mkPage (dark_mode p) (light_mode p) (localStorage p)
                  (cookies p ++ ["theme=" +:+ String_of theme +:+ "; path=/; max-age=31536000"])
                  (console p) in
  mkPage (dark_mode p) (light_mode p) (localStorage p) (cookies p) (console p ++ [info]).

(** [toggleTheme()] *)
Definition toggleTheme (p : page) : page :=
  let isDark := dark_mode p in
  let newTheme := if isDark then "light" else "dark" in
  setTheme (Some newTheme) p.

(** [syncWithAppTheme()]; the listener it installs is [storage_event]. *)
Definition syncWithAppTheme (p : page) : page :=
  let appTheme := localStorage p !! "theme" in
  if Timer.truthy appTheme then setTheme appTheme p else p.

(** [initTheme()] *)
Definition initTheme (p : page) : page :=
  let savedTheme := if Timer.truthy (localStorage p !! "theme")
                    then localStorage p !! "theme" else Some "light" in
  let p := setTheme savedTheme p in
  syncWithAppTheme p.

(** The listener of the [storage] events: [e.key] and [e.newValue] are
    strings or [null]. *)
Definition storage_event (key newValue : option string) (p : page) : page :=
  match key with
  | Some k => if String.eqb k "theme" then setTheme newValue p else p
  | None => p
  end.

(** The theme [initTheme] shows for a store. *)
Definition saved_theme (ls : gmap string string) : string :=
  match ls !! "theme" with
  | Some s => if String.eqb s "" then "light" else s
  | None => "light"
  end.

(** The home page before its script runs, in a browser that holds [ls]. *)
Definition loaded (ls : gmap string string) : page := mkPage false false ls [] [].

End Homepage.

(** * Proofs *)

#[local] Arguments num_le : simpl never.
#[local] Arguments num_lt : simpl never.
#[local] Arguments num_dec : simpl never.
#[local] Arguments num_mul : simpl never.
#[local] Arguments parseInt : simpl never.

Ltac split_ifs :=
  repeat match goal with
         | |- context [if ?b then _ else _] => destruct b eqn:?; simpl
         end.

(** ** Numbers *)

Example parseInt_digits : parseInt "25" = Num 25.
Proof. reflexivity. Qed.

Example parseInt_letters : parseInt "abc" = NaN.
Proof. reflexivity. Qed.

Example parseInt_empty : parseInt "" = NaN.
Proof. reflexivity. Qed.

Example parseInt_stops_at_letters : parseInt " -12px" = Num (-12).
Proof. reflexivity. Qed.

Example parseInt_hexadecimal : parseInt "0x1A" = Num 26.
Proof. reflexivity. Qed.

Example NaN_compares_false :
  num_lt NaN (Num 1) = false ∧ num_gt NaN (Num 120) = false ∧ num_le NaN (Num 0) = false.
Proof. repeat split. Qed.

Lemma num_lt_false x y : num_lt (Num x) (Num y) = false <-> (y <= x)%Q.
Proof.
  unfold num_lt. rewrite negb_false_iff. apply Qle_bool_iff.
Qed.

Lemma is_Z_dec n z : is_Z n z -> is_Z (num_dec n) (z - 1).
Proof.
  destruct n as [|q]; [contradiction|]. unfold is_Z, num_dec. intros ->.
  unfold Z.sub. rewrite inject_Z_plus, inject_Z_opp. unfold Qminus. reflexivity.
Qed.

Lemma is_Z_mul60 n z : is_Z n z -> is_Z (num_mul n (Num 60)) (z * 60).
Proof.
  destruct n as [|q]; [contradiction|]. unfold is_Z, num_mul. intros ->.
  rewrite inject_Z_mult. reflexivity.
Qed.

Lemma is_Z_le0 n z : is_Z n z -> num_le n (Num 0) = true <-> (z <= 0)%Z.
Proof.
  destruct n as [|q]; [contradiction|]. unfold is_Z, num_le. intros Hq.
  rewrite Qle_bool_iff, Hq, (Zle_Qle z 0). reflexivity.
Qed.

Lemma is_Z_positive n :
  integer_number n -> positive_number n -> exists z, is_Z n z ∧ (0 < z)%Z.
Proof.
  destruct n as [|q]; [contradiction|]. intros [z Hz] Hpos. exists z.
  split; [exact Hz|]. simpl in Hpos. rewrite Hz in Hpos.
  rewrite (Zlt_Qlt 0 z). exact Hpos.
Qed.

Lemma is_Z_nonzero n z : is_Z n z -> ¬ num_eq n (Num 0) -> z ≠ 0%Z.
Proof.
  destruct n as [|q]; [contradiction|]. unfold is_Z, num_eq. intros Hq Hn ->.
  apply Hn. exact Hq.
Qed.

Lemma is_Z_unique n z z' : is_Z n z -> is_Z n z' -> z = z'.
Proof.
  destruct n as [|q]; [contradiction|]. unfold is_Z. intros Hz Hz'.
  apply inject_Z_injective. rewrite <- Hz, <- Hz'. reflexivity.
Qed.

(** ** The session controller *)

Section TimerProofs.
Import Timer.

Ltac open_world w :=
  let t := fresh "t" in
  destruct w as [t ? ? ? ?]; destruct t as [st md tl tt fd bd id ot om oc].

Ltac reduce_world :=
  cbv beta iota zeta delta
    [this call console_write clearInterval setInterval
     set_state set_mode set_timeLeft set_totalTime set_focusDuration
     set_breakDuration set_intervalId set_callbacks
     timer intervals nextHandle calls console
     state mode timeLeft totalTime focusDuration breakDuration intervalId
     onTick onModeChange onComplete
     truthy when reset_mode duration_of cleared stopped_in_mode
     _resetTime _complete negb andb TimerState_eqb].

(** *** What each method does *)

(** One [_tick()], according to whether the decremented time is [<= 0]. *)
Lemma _tick_unfold w :
  _tick w =
  let t := timer w in
  let r := num_dec (timeLeft t) in
  if num_le r (Num 0) then
    mkWorld (mkTimer STOPPED (mode t) r (totalTime t) (focusDuration t)
                     (breakDuration t) None (onTick t) (onModeChange t) (onComplete t))
            (cleared (intervalId t) (intervals w))
            (nextHandle w)
            (calls w ++ when (onTick t) (Tick r (totalTime t) (mode t))
                     ++ when (onComplete t) (Complete (mode t)))
            (console w ++ [info])
  else
    mkWorld (mkTimer (state t) (mode t) r (totalTime t) (focusDuration t)
                     (breakDuration t) (intervalId t) (onTick t) (onModeChange t) (onComplete t))
            (intervals w) (nextHandle w)
            (calls w ++ when (onTick t) (Tick r (totalTime t) (mode t)))
            (console w).
Proof.
  open_world w. unfold _tick, _complete, when. simpl.
  destruct ot, oc, id; simpl; split_ifs;
    unfold call, console_write, this, clearInterval; simpl;
    rewrite <- ?app_assoc, ?app_nil_r; simpl; try reflexivity; congruence.
Qed.

(** [start()] from a state other than running. *)
Lemma start_unfold w :
  state (timer w) ≠ RUNNING ->
  start w = _tick (setInterval (console_write info (this (set_state RUNNING) w))).
Proof.
  intros H. unfold start. destruct (state (timer w)); simpl; congruence.
Qed.

Lemma start_running w :
  state (timer w) = RUNNING -> start w = console_write warn w.
Proof. intros H. unfold start. rewrite H. reflexivity. Qed.

(** [pause()] from the running state. *)
Lemma pause_unfold w :
  state (timer w) = RUNNING ->
  pause w =
  let t := timer w in
  mkWorld (mkTimer PAUSED (mode t) (timeLeft t) (totalTime t) (focusDuration t)
                   (breakDuration t) None (onTick t) (onModeChange t) (onComplete t))
          (cleared (intervalId t) (intervals w))
          (nextHandle w) (calls w) (console w ++ [info]).
Proof.
  open_world w. simpl. intros ->. unfold pause. simpl. destruct id; reflexivity.
Qed.

Lemma pause_not_running w :
  state (timer w) ≠ RUNNING -> pause w = console_write warn w.
Proof.
  intros H. unfold pause. destruct (state (timer w)); simpl; congruence.
Qed.

(** [reset(m)] *)
Lemma reset_unfold m w :
  reset m w =
  let t := timer w in
  let md := reset_mode m t in
  let d := duration_of md t in
  mkWorld (mkTimer STOPPED md d d (focusDuration t) (breakDuration t) None
                   (onTick t) (onModeChange t) (onComplete t))
          (cleared (intervalId t) (intervals w))
          (nextHandle w)
          (calls w ++ when (onTick t) (Tick d d md))
          (console w ++ [info]).
Proof.
  open_world w. unfold reset.
  destruct id, m as [s|]; reduce_world;
    try destruct (s =? ""); reduce_world;
    try destruct (s =? "focus"); try destruct (md =? "focus"); reduce_world;
    destruct ot; reduce_world; rewrite ?app_nil_r; reflexivity.
Qed.

(** [setMode(newMode)] with a valid mode. *)
Lemma setMode_unfold newMode w :
  newMode = "focus" ∨ newMode = "break" ->
  setMode newMode w =
  let t := timer w in
  let d := duration_of newMode t in
  let running := TimerState_eqb (state t) RUNNING in
  mkWorld (mkTimer (if running then PAUSED else state t) newMode d d
                   (focusDuration t) (breakDuration t)
                   (if running then None else intervalId t)
                   (onTick t) (onModeChange t) (onComplete t))
          (if running then cleared (intervalId t) (intervals w) else intervals w)
          (nextHandle w)
          (calls w ++ when (onModeChange t) (ModeChange newMode (mode t))
                   ++ when (onTick t) (Tick d d newMode))
          (console w ++ (if running then [info; info] else [info])).
Proof.
  intros Hm. unfold setMode.
  replace (negb (String.eqb newMode "focus") && negb (String.eqb newMode "break"))
    with false by (destruct Hm as [-> | ->]; reflexivity).
  open_world w. unfold pause.
  destruct Hm as [-> | ->]; destruct st, id; reduce_world;
    change ("focus" =? "focus") with true; change ("break" =? "focus") with false;
    reduce_world; destruct om, ot; reduce_world;
    rewrite <- ?app_assoc, ?app_nil_r; reflexivity.
Qed.

(** [setMode(newMode)] with anything else. *)
Lemma setMode_invalid newMode w :
  newMode ≠ "focus" -> newMode ≠ "break" -> setMode newMode w = console_write error w.
Proof.
  intros Hf Hb. unfold setMode. apply String.eqb_neq in Hf, Hb.
  rewrite Hf, Hb. reflexivity.
Qed.

Lemma valid_mode_dec newMode :
  (newMode = "focus" ∨ newMode = "break") ∨ (newMode ≠ "focus" ∧ newMode ≠ "break").
Proof.
  destruct (decide (newMode = "focus")); [tauto|].
  destruct (decide (newMode = "break")); tauto.
Qed.

Lemma stopped_in_mode_true m t :
  mode t = m -> state t = STOPPED -> stopped_in_mode m t = true.
Proof.
  intros Hm Hs. unfold stopped_in_mode. rewrite Hm, Hs, String.eqb_refl. reflexivity.
Qed.

Lemma stopped_in_mode_false m t :
  mode t ≠ m ∨ state t ≠ STOPPED -> stopped_in_mode m t = false.
Proof.
  unfold stopped_in_mode. intros [H | H].
  - apply String.eqb_neq in H. rewrite H. reflexivity.
  - destruct (state t); try congruence; apply andb_false_r.
Qed.

(** The two duration setters. *)
Lemma setFocusDuration_unfold minutes w :
  setFocusDuration minutes w =
  let t := timer w in
  let s := num_mul minutes (Num 60) in
  if stopped_in_mode "focus" t then
    mkWorld (mkTimer (state t) (mode t) s s s (breakDuration t) (intervalId t)
                     (onTick t) (onModeChange t) (onComplete t))
            (intervals w) (nextHandle w)
            (calls w ++ when (onTick t) (Tick s s (mode t))) (console w ++ [info])
  else
    mkWorld (mkTimer (state t) (mode t) (timeLeft t) (totalTime t) s (breakDuration t)
                     (intervalId t) (onTick t) (onModeChange t) (onComplete t))
            (intervals w) (nextHandle w) (calls w) (console w ++ [info]).
Proof.
  open_world w. unfold setFocusDuration. reduce_world.
  destruct (md =? "focus"), st, ot; reduce_world; rewrite ?app_nil_r; reflexivity.
Qed.

Lemma setBreakDuration_unfold minutes w :
  setBreakDuration minutes w =
  let t := timer w in
  let s := num_mul minutes (Num 60) in
  if stopped_in_mode "break" t then
    mkWorld (mkTimer (state t) (mode t) s s (focusDuration t) s (intervalId t)
                     (onTick t) (onModeChange t) (onComplete t))
            (intervals w) (nextHandle w)
            (calls w ++ when (onTick t) (Tick s s (mode t))) (console w ++ [info])
  else
    mkWorld (mkTimer (state t) (mode t) (timeLeft t) (totalTime t) (focusDuration t) s
                     (intervalId t) (onTick t) (onModeChange t) (onComplete t))
            (intervals w) (nextHandle w) (calls w) (console w ++ [info]).
Proof.
  open_world w. unfold setBreakDuration. reduce_world.
  destruct (md =? "break"), st, ot; reduce_world; rewrite ?app_nil_r; reflexivity.
Qed.

(** *** Runs *)

Example first_tick_is_immediate :
  timeLeft (timer (start new_FocusTimer)) = Num 1499
  ∧ elements (intervals (start new_FocusTimer)) = [1%positive].
Proof. split; vm_compute; reflexivity. Qed.

Example two_second_session :
  calls (run [assign_callbacks true true true; call_setFocusDuration (Num (1 # 30));
              call_start; interval_fires 1] new_FocusTimer)
  = [Tick (Num (60 # 30)) (Num (60 # 30)) "focus";
     Tick (Num (30 # 30)) (Num (60 # 30)) "focus";
     Tick (Num (0 # 30)) (Num (60 # 30)) "focus";
     Complete "focus"].
Proof. vm_compute. reflexivity. Qed.

Lemma run_snoc es e w : run (es ++ [e]) w = step e (run es w).
Proof. unfold run. rewrite fold_left_app. reflexivity. Qed.

(** Induction over the reachable states. *)
Lemma reachable_ind (P : world -> Prop) :
  P new_FocusTimer ->
  (forall e w, reachable w -> P w -> P (step e w)) ->
  forall w, reachable w -> P w.
Proof.
  intros H0 Hstep w [es ->].
  induction es as [|e es IH] using rev_ind; [exact H0|].
  rewrite run_snoc. apply Hstep; [exists es; reflexivity | exact IH].
Qed.

(** Once no interval is scheduled, interval firings change nothing. *)
Lemma no_interval_no_tick w :
  intervals w = ∅ -> forall hs : list positive, run (map interval_fires hs) w = w.
Proof.
  intros Hi hs. induction hs as [|h hs IH]; [reflexivity|].
  simpl. rewrite decide_False by (rewrite Hi; set_solver). exact IH.
Qed.

(** *** The handle discipline *)

Lemma handle_inv_cases w :
  handle_inv w ->
  (exists h, intervalId (timer w) = Some h ∧ intervals w = {[ h ]}
             ∧ state (timer w) = RUNNING)
  ∨ (intervalId (timer w) = None ∧ intervals w = ∅ ∧ state (timer w) ≠ RUNNING).
Proof.
  unfold handle_inv. destruct (intervalId (timer w)) as [h|].
  - left. exists h. tauto.
  - right. tauto.
Qed.

Lemma handle_inv_cleared w :
  handle_inv w -> cleared (intervalId (timer w)) (intervals w) = ∅.
Proof.
  intros Hw. destruct (handle_inv_cases w Hw) as [[h (-> & -> & _)] | (-> & -> & _)];
    simpl; set_solver.
Qed.

Lemma handle_inv_not_running w :
  handle_inv w -> state (timer w) ≠ RUNNING ->
  intervalId (timer w) = None ∧ intervals w = ∅.
Proof.
  intros Hw Hr. destruct (handle_inv_cases w Hw) as [[h (_ & _ & Hs)] | (Hi & Hx & _)];
    [congruence | tauto].
Qed.

(** A state with no handle and no interval that is not running. *)
Lemma handle_inv_idle w :
  intervalId (timer w) = None -> intervals w = ∅ -> state (timer w) ≠ RUNNING ->
  handle_inv w.
Proof. unfold handle_inv. intros -> -> Hs. tauto. Qed.

(** The console, the callbacks and the time fields do not matter. *)
Lemma handle_inv_frame w w' :
  intervalId (timer w') = intervalId (timer w) ->
  intervals w' = intervals w ->
  state (timer w') = state (timer w) ->
  handle_inv w -> handle_inv w'.
Proof. unfold handle_inv. intros -> -> ->. tauto. Qed.

Lemma handle_inv_new : handle_inv new_FocusTimer.
Proof. split; [reflexivity | discriminate]. Qed.

Lemma handle_inv__tick w : handle_inv w -> handle_inv (_tick w).
Proof.
  intros Hw. rewrite _tick_unfold. cbv zeta. destruct (num_le _ _).
  - apply handle_inv_idle; simpl; [reflexivity | apply handle_inv_cleared, Hw | discriminate].
  - revert Hw. apply handle_inv_frame; reflexivity.
Qed.

Lemma handle_inv_start w : handle_inv w -> handle_inv (start w).
Proof.
  intros Hw. destruct (decide (state (timer w) = RUNNING)) as [Hr|Hr].
  - rewrite start_running by exact Hr. exact Hw.
  - rewrite start_unfold by exact Hr. apply handle_inv__tick.
    destruct (handle_inv_not_running w Hw Hr) as [_ Hi].
    unfold handle_inv. simpl. rewrite Hi. split; [set_solver | reflexivity].
Qed.

Lemma handle_inv_pause w : handle_inv w -> handle_inv (pause w).
Proof.
  intros Hw. destruct (decide (state (timer w) = RUNNING)) as [Hr|Hr].
  - rewrite pause_unfold by exact Hr.
    apply handle_inv_idle; simpl; [reflexivity | apply handle_inv_cleared, Hw | discriminate].
  - rewrite pause_not_running by exact Hr. exact Hw.
Qed.

Lemma handle_inv_resume w : handle_inv w -> handle_inv (resume w).
Proof.
  intros Hw. unfold resume.
  destruct (negb _); [exact Hw | apply handle_inv_start, Hw].
Qed.

Lemma handle_inv_reset m w : handle_inv w -> handle_inv (reset m w).
Proof.
  intros Hw. rewrite reset_unfold.
  apply handle_inv_idle; simpl; [reflexivity | apply handle_inv_cleared, Hw | discriminate].
Qed.

Lemma handle_inv_setMode m w : handle_inv w -> handle_inv (setMode m w).
Proof.
  intros Hw. destruct (valid_mode_dec m) as [Hm | [Hf Hb]].
  - rewrite setMode_unfold by exact Hm. cbv zeta.
    destruct (state (timer w)) eqn:Hs; simpl.
    + revert Hw. apply handle_inv_frame; simpl; congruence.
    + apply handle_inv_idle; simpl; [reflexivity | apply handle_inv_cleared, Hw | discriminate].
    + revert Hw. apply handle_inv_frame; simpl; congruence.
  - rewrite setMode_invalid by assumption. exact Hw.
Qed.

Lemma handle_inv_setFocusDuration n w : handle_inv w -> handle_inv (setFocusDuration n w).
Proof.
  rewrite setFocusDuration_unfold. cbv zeta.
  apply handle_inv_frame; destruct (stopped_in_mode _ _); reflexivity.
Qed.

Lemma handle_inv_setBreakDuration n w : handle_inv w -> handle_inv (setBreakDuration n w).
Proof.
  rewrite setBreakDuration_unfold. cbv zeta.
  apply handle_inv_frame; destruct (stopped_in_mode _ _); reflexivity.
Qed.

Lemma handle_inv_step e w : handle_inv w -> handle_inv (step e w).
Proof.
  intros Hw. destruct e; simpl.
  - apply handle_inv_start, Hw.
  - apply handle_inv_pause, Hw.
  - apply handle_inv_resume, Hw.
  - apply handle_inv_reset, Hw.
  - apply handle_inv_setMode, Hw.
  - apply handle_inv_setFocusDuration, Hw.
  - apply handle_inv_setBreakDuration, Hw.
  - exact Hw.
  - destruct (decide _); [apply handle_inv__tick|]; exact Hw.
Qed.

Lemma reachable_handle_inv w : reachable w -> handle_inv w.
Proof.
  apply reachable_ind; [exact handle_inv_new|].
  intros e w' _. apply handle_inv_step.
Qed.

(** [destroy()], which ends the life of a timer, leaves no interval behind
    either; it does not touch the status. *)
Lemma destroy_clears w :
  handle_inv w ->
  intervalId (timer (destroy w)) = None ∧ intervals (destroy w) = ∅
  ∧ state (timer (destroy w)) = state (timer w).
Proof.
  intros Hw. pose proof (handle_inv_cleared w Hw) as Hc.
  destruct (handle_inv_cases w Hw) as [[h (Hid & _ & _)] | (Hid & Hi & _)];
    unfold destroy; rewrite Hid in *; simpl in *; auto.
Qed.

(** Only [start()] from a state other than running schedules an interval:
    from the running state every step leaves the handle counter where it
    was. *)
Lemma nextHandle_step e w :
  state (timer w) = RUNNING -> nextHandle (step e w) = nextHandle w.
Proof.
  intros Hr. destruct e; unfold step.
  - rewrite start_running by exact Hr. reflexivity.
  - rewrite pause_unfold by exact Hr. reflexivity.
  - unfold resume. rewrite Hr. reflexivity.
  - rewrite reset_unfold. reflexivity.
  - destruct (valid_mode_dec newMode) as [Hm | [Hf Hb]].
    + rewrite setMode_unfold by exact Hm. reflexivity.
    + rewrite setMode_invalid by assumption. reflexivity.
  - rewrite setFocusDuration_unfold. cbv zeta. destruct (stopped_in_mode _ _); reflexivity.
  - rewrite setBreakDuration_unfold. cbv zeta. destruct (stopped_in_mode _ _); reflexivity.
  - reflexivity.
  - destruct (decide _); [|reflexivity]. rewrite _tick_unfold. cbv zeta.
    destruct (num_le _ _); reflexivity.
Qed.

(** The methods that leave the running state clear the handle. *)
Lemma leaves_running w :
  handle_inv w -> state (timer w) = RUNNING ->
  forall w',
    w' = pause w ∨ (exists m, w' = reset m w)
    ∨ (exists m, (m = "focus" ∨ m = "break") ∧ w' = setMode m w)
    ∨ w' = _complete w ->
    intervalId (timer w') = None ∧ intervals w' = ∅ ∧ state (timer w') ≠ RUNNING.
Proof.
  intros Hw Hr w' Hw'. pose proof (handle_inv_cleared w Hw) as Hc.
  destruct Hw' as [-> | [[m ->] | [[m [Hm ->]] | ->]]].
  - rewrite pause_unfold by exact Hr. simpl. rewrite Hc. repeat split. discriminate.
  - rewrite reset_unfold. simpl. rewrite Hc. repeat split. discriminate.
  - rewrite setMode_unfold by exact Hm. simpl. rewrite Hr. simpl. rewrite Hc.
    repeat split. discriminate.
  - open_world w. unfold _complete. simpl in *.
    destruct oc; simpl; unfold clearInterval; destruct id; simpl in *;
      rewrite ?Hc; repeat split; try discriminate;
      destruct Hw as [Hi Hs]; congruence.
Qed.

(** The same without the half of the discipline [destroy()] gives up. *)
Lemma one_handle_of_handle_inv w : handle_inv w -> one_handle w.
Proof.
  unfold handle_inv, one_handle. destruct (intervalId (timer w)); tauto.
Qed.

Lemma one_handle_cleared w :
  one_handle w -> cleared (intervalId (timer w)) (intervals w) = ∅.
Proof.
  unfold one_handle. destruct (intervalId (timer w)) as [h|]; simpl.
  - intros [-> _]. set_solver.
  - intros ->. reflexivity.
Qed.

Lemma one_handle_not_running w :
  one_handle w -> state (timer w) ≠ RUNNING ->
  intervalId (timer w) = None ∧ intervals w = ∅.
Proof.
  unfold one_handle. destruct (intervalId (timer w)) as [h|].
  - intros [_ Hs] Hr. congruence.
  - intros -> _. split; reflexivity.
Qed.

Lemma one_handle_idle w :
  intervalId (timer w) = None -> intervals w = ∅ -> one_handle w.
Proof. unfold one_handle. intros -> ->. reflexivity. Qed.

Lemma one_handle_frame w w' :
  intervalId (timer w') = intervalId (timer w) ->
  intervals w' = intervals w ->
  state (timer w') = state (timer w) ->
  one_handle w -> one_handle w'.
Proof. unfold one_handle. intros -> -> ->. tauto. Qed.

Lemma one_handle__tick w : one_handle w -> one_handle (_tick w).
Proof.
  intros Hw. rewrite _tick_unfold. cbv zeta. destruct (num_le _ _).
  - apply one_handle_idle; simpl; [reflexivity | apply one_handle_cleared, Hw].
  - revert Hw. apply one_handle_frame; reflexivity.
Qed.

(** [start()] from a state other than running, when no interval is
    scheduled: one call of [setInterval], whose handle is stored and stays
    scheduled unless the first tick completes the session, in which case it
    is cleared again. *)
Lemma start_schedules w :
  state (timer w) ≠ RUNNING -> intervals w = ∅ ->
  nextHandle (start w) = Pos.succ (nextHandle w)
  ∧ (num_le (num_dec (timeLeft (timer w))) (Num 0) = false ->
       state (timer (start w)) = RUNNING
       ∧ intervalId (timer (start w)) = Some (nextHandle w)
       ∧ intervals (start w) = {[ nextHandle w ]}
       ∧ timeLeft (timer (start w)) = num_dec (timeLeft (timer w)))
  ∧ (num_le (num_dec (timeLeft (timer w))) (Num 0) = true ->
       state (timer (start w)) = STOPPED
       ∧ intervalId (timer (start w)) = None
       ∧ intervals (start w) = ∅).
Proof.
  intros Hr Hi. rewrite start_unfold by exact Hr. rewrite _tick_unfold. cbv zeta.
  simpl. destruct (num_le _ _); simpl; rewrite Hi.
  - split; [reflexivity|]. split; [discriminate|]. intros _.
    split; [reflexivity|]. split; [reflexivity | set_solver].
  - split; [reflexivity|]. split; [|discriminate]. intros _.
    split; [reflexivity|]. split; [reflexivity|]. split; [set_solver | reflexivity].
Qed.

Lemma one_handle_start w : one_handle w -> one_handle (start w).
Proof.
  intros Hw. destruct (decide (state (timer w) = RUNNING)) as [Hr|Hr].
  - rewrite start_running by exact Hr. exact Hw.
  - rewrite start_unfold by exact Hr. apply one_handle__tick.
    destruct (one_handle_not_running w Hw Hr) as [_ Hi].
    unfold one_handle. simpl. rewrite Hi. split; [set_solver | reflexivity].
Qed.

Lemma one_handle_pause w : one_handle w -> one_handle (pause w).
Proof.
  intros Hw. destruct (decide (state (timer w) = RUNNING)) as [Hr|Hr].
  - rewrite pause_unfold by exact Hr.
    apply one_handle_idle; simpl; [reflexivity | apply one_handle_cleared, Hw].
  - rewrite pause_not_running by exact Hr. exact Hw.
Qed.

Lemma one_handle_setMode m w : one_handle w -> one_handle (setMode m w).
Proof.
  intros Hw. destruct (valid_mode_dec m) as [Hm | [Hf Hb]].
  - rewrite setMode_unfold by exact Hm. cbv zeta.
    destruct (state (timer w)) eqn:Hs; simpl.
    + revert Hw. apply one_handle_frame; simpl; congruence.
    + apply one_handle_idle; simpl; [reflexivity | apply one_handle_cleared, Hw].
    + revert Hw. apply one_handle_frame; simpl; congruence.
  - rewrite setMode_invalid by assumption. exact Hw.
Qed.

Lemma one_handle_step e w : one_handle w -> one_handle (step e w).
Proof.
  intros Hw. destruct e; simpl.
  - apply one_handle_start, Hw.
  - apply one_handle_pause, Hw.
  - unfold resume. destruct (negb _); [exact Hw | apply one_handle_start, Hw].
  - rewrite reset_unfold.
    apply one_handle_idle; simpl; [reflexivity | apply one_handle_cleared, Hw].
  - apply one_handle_setMode, Hw.
  - revert Hw. rewrite setFocusDuration_unfold. cbv zeta.
    apply one_handle_frame; destruct (stopped_in_mode _ _); reflexivity.
  - revert Hw. rewrite setBreakDuration_unfold. cbv zeta.
    apply one_handle_frame; destruct (stopped_in_mode _ _); reflexivity.
  - exact Hw.
  - destruct (decide _); [apply one_handle__tick|]; exact Hw.
Qed.

(** [destroy()] clears the interval and the handle, and nothing else but
    the console. *)
Lemma destroy_unfold w :
  destroy w =
  mkWorld (set_intervalId None (timer w)) (cleared (intervalId (timer w)) (intervals w))
          (nextHandle w) (calls w) (console w ++ [info]).
Proof.
  open_world w. unfold destroy. destruct id; reflexivity.
Qed.

Lemma one_handle_destroy w : one_handle w -> one_handle (destroy w).
Proof.
  intros Hw. rewrite destroy_unfold.
  apply one_handle_idle; simpl; [reflexivity | apply one_handle_cleared, Hw].
Qed.

Lemma lifetime_run_snoc es e w :
  lifetime_run (es ++ [e]) w = lifetime_step e (lifetime_run es w).
Proof. unfold lifetime_run. rewrite fold_left_app. reflexivity. Qed.

(** A life without [destroy()] is a run of the events of the page. *)
Lemma lifetime_run_during es w : lifetime_run (map during es) w = run es w.
Proof.
  revert w. induction es as [|e es IH]; intros w; [reflexivity|].
  simpl. apply IH.
Qed.

Lemma reachable_lifetime_reachable w : reachable w -> lifetime_reachable w.
Proof.
  intros [es ->]. exists (map during es). symmetry. apply lifetime_run_during.
Qed.

Lemma lifetime_reachable_one_handle w : lifetime_reachable w -> one_handle w.
Proof.
  intros [es ->]. induction es as [|e es IH] using rev_ind.
  - apply one_handle_of_handle_inv, handle_inv_new.
  - rewrite lifetime_run_snoc. destruct e as [e|]; unfold lifetime_step.
    + apply one_handle_step, IH.
    + apply one_handle_destroy, IH.
Qed.

(** The methods that leave the running state clear the handle, whether or
    not the timer still had one. *)
Lemma leaves_running_one_handle w :
  one_handle w -> state (timer w) = RUNNING ->
  forall w',
    w' = pause w ∨ (exists m, w' = reset m w)
    ∨ (exists m, (m = "focus" ∨ m = "break") ∧ w' = setMode m w)
    ∨ w' = _complete w ->
    intervalId (timer w') = None ∧ intervals w' = ∅ ∧ state (timer w') ≠ RUNNING.
Proof.
  intros Hw Hr w' Hw'. pose proof (one_handle_cleared w Hw) as Hc.
  destruct Hw' as [-> | [[m ->] | [[m [Hm ->]] | ->]]].
  - rewrite pause_unfold by exact Hr. simpl. rewrite Hc. repeat split. discriminate.
  - rewrite reset_unfold. simpl. rewrite Hc. repeat split. discriminate.
  - rewrite setMode_unfold by exact Hm. simpl. rewrite Hr. simpl. rewrite Hc.
    repeat split. discriminate.
  - open_world w. unfold _complete. simpl in *.
    destruct oc; simpl; unfold clearInterval; destruct id; simpl in *;
      rewrite ?Hc; repeat split; try discriminate; exact Hw.
Qed.

(** C9, amended. In every state of the controller, [destroy()] included, at
    most one interval is scheduled, it is the one whose handle is stored,
    and a handle is stored only while the status is running.  A running
    timer stores a handle as long as [destroy()] has not been called.
    [start()] from a state other than running calls [setInterval] exactly
    once and stores and schedules the handle it gets, which is cleared again
    at once when the first tick completes the session; [pause()],
    [reset()], [setMode()] and completion, entered while running, leave no
    handle behind; no step schedules an interval while one exists; and
    [destroy()] clears handle and interval without touching the status. *)
Theorem single_tick_handle w :
  lifetime_reachable w ->
  (size (intervals w) <= 1)%nat
  ∧ (forall h, h ∈ intervals w <-> intervalId (timer w) = Some h)
  ∧ (intervalId (timer w) ≠ None -> state (timer w) = RUNNING)
  ∧ (reachable w -> state (timer w) = RUNNING -> intervalId (timer w) ≠ None)
  ∧ (state (timer w) ≠ RUNNING ->
       nextHandle (start w) = Pos.succ (nextHandle w)
       ∧ (num_le (num_dec (timeLeft (timer w))) (Num 0) = false ->
            state (timer (start w)) = RUNNING
            ∧ intervalId (timer (start w)) = Some (nextHandle w)
            ∧ intervals (start w) = {[ nextHandle w ]})
       ∧ (num_le (num_dec (timeLeft (timer w))) (Num 0) = true ->
            state (timer (start w)) = STOPPED
            ∧ intervalId (timer (start w)) = None
            ∧ intervals (start w) = ∅))
  ∧ (state (timer w) = RUNNING ->
       forall w',
         w' = pause w ∨ (exists m, w' = reset m w)
         ∨ (exists m, (m = "focus" ∨ m = "break") ∧ w' = setMode m w)
         ∨ w' = _complete w ->
         intervalId (timer w') = None ∧ intervals w' = ∅ ∧ state (timer w') ≠ RUNNING)
  ∧ (forall e, intervals w ≠ ∅ -> nextHandle (lifetime_step e w) = nextHandle w)
  ∧ (intervalId (timer (destroy w)) = None ∧ intervals (destroy w) = ∅
     ∧ state (timer (destroy w)) = state (timer w)).
Proof.
  intros Hreach. pose proof (lifetime_reachable_one_handle w Hreach) as Hw.
  assert (Hcases :
    (exists h, intervalId (timer w) = Some h ∧ intervals w = {[ h ]}
               ∧ state (timer w) = RUNNING)
    ∨ (intervalId (timer w) = None ∧ intervals w = ∅)).
  { unfold one_handle in Hw. destruct (intervalId (timer w)) as [h|].
    - left. exists h. tauto.
    - right. tauto. }
  split; [|split; [|split; [|split; [|split; [|split; [|split]]]]]].
  - destruct Hcases as [[h (_ & -> & _)] | (_ & ->)].
    + rewrite size_singleton. lia.
    + rewrite size_empty. lia.
  - intros h. destruct Hcases as [[h' (-> & -> & _)] | (-> & ->)]; set_solver.
  - destruct Hcases as [[h' (-> & _ & Hr)] | (-> & _)]; congruence.
  - intros Hr Hs. pose proof (reachable_handle_inv w Hr) as Hi.
    destruct (handle_inv_cases w Hi) as [[h' (-> & _ & _)] | (_ & _ & Hn)]; congruence.
  - intros Hr. destruct (one_handle_not_running w Hw Hr) as [_ Hi].
    destruct (start_schedules w Hr Hi) as (Hn & Hgo & Hend).
    split; [exact Hn|]. split.
    + intros E. destruct (Hgo E) as (A & B & C & _). auto.
    + exact Hend.
  - intros Hr. apply leaves_running_one_handle; assumption.
  - intros e Hne.
    assert (Hr : state (timer w) = RUNNING).
    { destruct Hcases as [[h' (_ & _ & Hr)] | (_ & Hi)]; [exact Hr | congruence]. }
    destruct e as [e|]; unfold lifetime_step.
    + apply nextHandle_step, Hr.
    + rewrite destroy_unfold. reflexivity.
  - rewrite destroy_unfold. simpl. split; [reflexivity|].
    split; [apply one_handle_cleared, Hw | reflexivity].
Qed.

Lemma single_tick_handle_witness :
  (size (intervals running_focus) <= 1)%nat
  ∧ (forall h, h ∈ intervals running_focus <-> intervalId (timer running_focus) = Some h)
  ∧ state (timer (start (pause running_focus))) = RUNNING
  ∧ intervalId (timer (start (pause running_focus))) = Some 2%positive.
Proof.
  assert (Hr : lifetime_reachable running_focus)
    by (exists [during (assign_callbacks true true true); during call_start]; reflexivity).
  assert (Hp : lifetime_reachable (pause running_focus))
    by (exists [during (assign_callbacks true true true); during call_start;
                during call_pause]; reflexivity).
  assert (Hs : state (timer (pause running_focus)) ≠ RUNNING) by (vm_compute; discriminate).
  assert (Hgo : num_le (num_dec (timeLeft (timer (pause running_focus)))) (Num 0) = false)
    by (vm_compute; reflexivity).
  destruct (single_tick_handle running_focus Hr) as (H1 & H2 & _).
  destruct (single_tick_handle (pause running_focus) Hp) as (_ & _ & _ & _ & H5 & _).
  destruct (H5 Hs) as (_ & H6 & _). destruct (H6 Hgo) as (H7 & H8 & _).
  split; [exact H1|]. split; [exact H2|]. split; [exact H7 | exact H8].
Defined.

(** C9, counterexample. After [destroy()] on a session that has just been
    started the status is still running while no handle is stored and no
    interval is scheduled: "non-null if and only if running" fails in a
    state the controller reaches. *)
Lemma running_without_handle_counterexample :
  lifetime_reachable destroyed_running
  ∧ state (timer destroyed_running) = RUNNING
  ∧ intervalId (timer destroyed_running) = None
  ∧ intervals destroyed_running = ∅
  ∧ ¬ (intervalId (timer destroyed_running) ≠ None
       <-> state (timer destroyed_running) = RUNNING).
Proof.
  split; [eexists; reflexivity|].
  split; [vm_compute; reflexivity|].
  split; [vm_compute; reflexivity|].
  split; [vm_compute; reflexivity|].
  intros [_ H]. apply H; vm_compute; reflexivity.
Qed.

(** *** Mode switches *)

(** C1. From the running state, [setMode] with a valid mode first pauses
    (the interval is cleared and the status becomes paused), then switches
    the mode, sets the remaining and the total time to the configured
    duration of the new mode, calls the mode-change callback and then the
    tick callback, and ends with status paused; with any argument other than
    focus and break it writes an error to the console and changes nothing
    else. *)
Theorem setMode_while_running w newMode :
  (state (timer w) = RUNNING -> handle_inv w ->
   newMode = "focus" ∨ newMode = "break" ->
   let w' := setMode newMode w in
   let d := duration_of newMode (timer w) in
   w' = setMode newMode (pause w)
   ∧ state (timer (pause w)) = PAUSED
   ∧ state (timer w') = PAUSED
   ∧ intervalId (timer w') = None ∧ intervals w' = ∅
   ∧ mode (timer w') = newMode
   ∧ timeLeft (timer w') = d ∧ totalTime (timer w') = d
   ∧ focusDuration (timer w') = focusDuration (timer w)
   ∧ breakDuration (timer w') = breakDuration (timer w)
   ∧ calls w' = calls w
                 ++ when (onModeChange (timer w)) (ModeChange newMode (mode (timer w)))
                 ++ when (onTick (timer w)) (Tick d d newMode))
  ∧ (newMode ≠ "focus" -> newMode ≠ "break" ->
     let w' := setMode newMode w in
     timer w' = timer w ∧ intervals w' = intervals w
     ∧ nextHandle w' = nextHandle w ∧ calls w' = calls w
     ∧ console w' = console w ++ [error]).
Proof.
  split.
  - intros Hr Hw Hm w' d. subst w' d.
    rewrite !setMode_unfold by exact Hm. rewrite pause_unfold by exact Hr.
    simpl. rewrite Hr. simpl. rewrite (handle_inv_cleared w Hw).
    repeat split. rewrite <- app_assoc. reflexivity.
  - intros Hf Hb w'. subst w'. rewrite setMode_invalid by assumption.
    repeat split.
Qed.

Lemma setMode_while_running_witness :
  state (timer (setMode "break" running_focus)) = PAUSED
  ∧ timer (setMode "lunch" running_focus) = timer running_focus.
Proof.
  assert (Hr : state (timer running_focus) = RUNNING) by (vm_compute; reflexivity).
  assert (Hw : handle_inv running_focus) by (vm_compute; split; reflexivity).
  assert (Hm : "break" = "focus" ∨ "break" = "break") by (right; reflexivity).
  assert (Hf : "lunch" ≠ "focus") by discriminate.
  assert (Hb : "lunch" ≠ "break") by discriminate.
  destruct (setMode_while_running running_focus "break") as [Hvalid _].
  destruct (setMode_while_running running_focus "lunch") as [_ Hinvalid].
  destruct (Hvalid Hr Hw Hm) as (_ & _ & Hp & _).
  destruct (Hinvalid Hf Hb) as (Ht & _).
  split; [exact Hp | exact Ht].
Defined.

(** *** The last tick *)

(** C2. When the timer is running with one second left, the next firing of
    its interval brings the remaining time to 0, calls the tick callback with
    (0, total, mode), then clears the interval, stops the timer and calls
    the completion callback once, with the mode that was active when the tick
    began; the interval being cleared, nothing fires afterwards. *)
Theorem last_tick_completes w h q :
  state (timer w) = RUNNING -> handle_inv w -> h ∈ intervals w ->
  timeLeft (timer w) = Num q -> (q == 1)%Q ->
  let w' := step (interval_fires h) w in
  (exists r, (r == 0)%Q
     ∧ timeLeft (timer w') = Num r
     ∧ calls w' = calls w
                  ++ when (onTick (timer w)) (Tick (Num r) (totalTime (timer w)) (mode (timer w)))
                  ++ when (onComplete (timer w)) (Complete (mode (timer w))))
  ∧ state (timer w') = STOPPED
  ∧ intervalId (timer w') = None
  ∧ intervals w' = ∅
  ∧ (forall hs : list positive, run (map interval_fires hs) w' = w').
Proof.
  intros Hr Hw Hh Hq H1 w'.
  assert (Hle : num_le (num_dec (timeLeft (timer w))) (Num 0) = true).
  { rewrite Hq. apply Qle_bool_iff. lra. }
  assert (Hw' : w' = _tick w) by (subst w'; simpl; rewrite decide_True by exact Hh; reflexivity).
  rewrite Hw', _tick_unfold. cbv zeta. rewrite Hle. simpl.
  pose proof (handle_inv_cleared w Hw) as Hc.
  split; [|split; [|split; [|split]]]; try reflexivity; try exact Hc.
  - exists (q - 1)%Q. split; [lra|]. rewrite Hq. split; reflexivity.
  - apply no_interval_no_tick. exact Hc.
Qed.

Lemma last_tick_completes_witness :
  state (timer (step (interval_fires 1) one_second_left)) = STOPPED
  ∧ calls (step (interval_fires 1) one_second_left)
    = calls one_second_left ++ [Tick (Num (0 # 30)) (Num (60 # 30)) "focus"; Complete "focus"].
Proof.
  assert (Hr : state (timer one_second_left) = RUNNING) by (vm_compute; reflexivity).
  assert (Hw : handle_inv one_second_left) by (vm_compute; split; reflexivity).
  assert (Hh : 1%positive ∈ intervals one_second_left) by (vm_compute; reflexivity).
  assert (Hq : timeLeft (timer one_second_left) = Num (30 # 30)) by (vm_compute; reflexivity).
  assert (H1 : (30 # 30 == 1)%Q) by reflexivity.
  destruct (last_tick_completes one_second_left 1 (30 # 30) Hr Hw Hh Hq H1)
    as [_ [Hs _]].
  split; [exact Hs | vm_compute; reflexivity].
Defined.

(** *** The immediate first tick *)

(** C6, counterexample. Starting the session that has one second left
    delivers the tick and the completion inside [start()] itself, and leaves
    no interval to fire one second later. *)
Lemma start_one_second_counterexample :
  state (timer paused_at_one) = PAUSED
  ∧ timeLeft (timer paused_at_one) = Num 1
  ∧ calls (start paused_at_one)
    = calls paused_at_one ++ [Tick (Num 0) (Num 1500) "focus"; Complete "focus"]
  ∧ intervals (start paused_at_one) = ∅
  ∧ ¬ completes_one_second_later paused_at_one.
Proof.
  assert (Hid : intervalId (timer (start paused_at_one)) = None) by (vm_compute; reflexivity).
  split; [vm_compute; reflexivity|].
  split; [vm_compute; reflexivity|].
  split; [vm_compute; reflexivity|].
  split; [vm_compute; reflexivity|].
  intros [h [Hh _]]. rewrite Hid in Hh. discriminate.
Qed.

(** C6, amended. From the stopped or the paused state, [start()] performs its
    first tick before it returns: the remaining time is decremented and the
    tick callback is called inside [start()].  If the decremented time is
    still positive the timer is left running on a fresh interval; otherwise,
    and in particular when one second was left, the completion callback is
    also called inside [start()], the timer is left stopped and no interval
    remains to fire later. *)
Theorem start_ticks_at_once w :
  state (timer w) ≠ RUNNING -> handle_inv w ->
  let t := timer w in
  let w' := start w in
  let r := num_dec (timeLeft t) in
  timeLeft (timer w') = r
  ∧ calls w' = calls w ++ when (onTick t) (Tick r (totalTime t) (mode t))
               ++ (if num_le r (Num 0) then when (onComplete t) (Complete (mode t)) else [])
  ∧ (num_le r (Num 0) = false ->
       state (timer w') = RUNNING ∧ intervals w' = {[ nextHandle w ]})
  ∧ (num_le r (Num 0) = true ->
       state (timer w') = STOPPED ∧ intervals w' = ∅
       ∧ forall hs : list positive, run (map interval_fires hs) w' = w')
  ∧ (num_eq (timeLeft t) (Num 1) -> num_eq r (Num 0) ∧ num_le r (Num 0) = true).
Proof.
  intros Hr Hw t w' r.
  destruct (handle_inv_not_running w Hw Hr) as [_ Hi].
  assert (Hw' : w' = _tick (setInterval (console_write info (this (set_state RUNNING) w))))
    by (apply start_unfold, Hr).
  rewrite Hw', _tick_unfold. cbv zeta. simpl. fold t. fold r. rewrite Hi.
  split; [|split; [|split; [|split]]].
  - destruct (num_le r (Num 0)); reflexivity.
  - destruct (num_le r (Num 0)); simpl; rewrite ?app_nil_r; reflexivity.
  - intros ->. simpl. split; [reflexivity | set_solver].
  - intros ->. simpl.
    assert (He : ({[ nextHandle w ]} ∪ ∅) ∖ {[ nextHandle w ]} = (∅ : gset positive))
      by set_solver.
    rewrite He. split; [reflexivity|]. split; [reflexivity|].
    apply no_interval_no_tick. reflexivity.
  - subst r. destruct (timeLeft t) as [|q]; simpl; [contradiction|].
    intros Hq. split; [lra | apply Qle_bool_iff; lra].
Qed.

Lemma start_ticks_at_once_witness :
  timeLeft (timer (start new_FocusTimer)) = num_dec (timeLeft (timer new_FocusTimer)).
Proof.
  assert (Hr : state (timer new_FocusTimer) ≠ RUNNING) by (vm_compute; discriminate).
  exact (proj1 (start_ticks_at_once new_FocusTimer Hr handle_inv_new)).
Defined.

(** *** Pause and resume *)

(** C7, counterexample. A focus session running with 1499 seconds left that
    is paused and resumed has 1498 seconds left. *)
Lemma pause_resume_counterexample :
  state (timer running_focus) = RUNNING
  ∧ timeLeft (timer running_focus) = Num 1499
  ∧ timeLeft (timer (resume (pause running_focus))) = Num 1498
  ∧ timeLeft (timer (resume (pause running_focus))) ≠ timeLeft (timer running_focus).
Proof.
  split; [vm_compute; reflexivity|].
  split; [vm_compute; reflexivity|].
  split; [vm_compute; reflexivity|].
  vm_compute. discriminate.
Qed.

(** C7, amended. For a running timer with [n] seconds left, [pause()] keeps
    the [n] seconds and leaves no interval scheduled, so that no tick can
    happen while the timer is paused; [resume()] then goes through
    [start()], whose immediate tick leaves [n - 1]. *)
Theorem pause_keeps_resume_ticks w :
  state (timer w) = RUNNING -> handle_inv w ->
  let n := timeLeft (timer w) in
  state (timer (pause w)) = PAUSED
  ∧ timeLeft (timer (pause w)) = n
  ∧ totalTime (timer (pause w)) = totalTime (timer w)
  ∧ (forall hs : list positive, run (map interval_fires hs) (pause w) = pause w)
  ∧ resume (pause w) = start (pause w)
  ∧ timeLeft (timer (resume (pause w))) = num_dec n
  ∧ totalTime (timer (resume (pause w))) = totalTime (timer w).
Proof.
  intros Hr Hw n.
  assert (Hp : state (timer (pause w)) = PAUSED)
    by (rewrite pause_unfold by exact Hr; reflexivity).
  assert (Hres : resume (pause w) = start (pause w))
    by (unfold resume; rewrite Hp; reflexivity).
  assert (Hi : intervals (pause w) = ∅).
  { rewrite pause_unfold by exact Hr. apply handle_inv_cleared, Hw. }
  split; [exact Hp|].
  split; [rewrite pause_unfold by exact Hr; reflexivity|].
  split; [rewrite pause_unfold by exact Hr; reflexivity|].
  split; [apply no_interval_no_tick, Hi|].
  split; [exact Hres|].
  rewrite Hres, start_unfold by congruence. rewrite _tick_unfold. cbv zeta. simpl.
  rewrite pause_unfold by exact Hr. simpl.
  destruct (num_le _ _); split; reflexivity.
Qed.

Lemma pause_keeps_resume_ticks_witness :
  timeLeft (timer (pause running_focus)) = Num 1499
  ∧ timeLeft (timer (resume (pause running_focus))) = num_dec (Num 1499).
Proof.
  assert (Hr : state (timer running_focus) = RUNNING) by (vm_compute; reflexivity).
  assert (Hw : handle_inv running_focus) by (vm_compute; split; reflexivity).
  destruct (pause_keeps_resume_ticks running_focus Hr Hw) as (_ & H1 & _ & _ & _ & H2 & _).
  split; [exact H1 | exact H2].
Defined.

(** *** Durations are not validated by the timer *)

(** C10. For every number of minutes, the timer's own [setFocusDuration]
    stores minutes * 60 as the focus duration without any condition, and,
    when the timer is stopped in focus mode, also sets the remaining and the
    total time to minutes * 60 and calls the tick callback (otherwise both
    are left as they were and nothing is called); likewise for
    [setBreakDuration] in break mode.  Neither method reports anything but
    its informational log line, and a direct call with 0 minutes on a new
    timer gives a total time that is not positive. *)
Theorem timer_durations_unvalidated :
  (forall minutes w,
     let t := timer w in
     let s := num_mul minutes (Num 60) in
     let wf := setFocusDuration minutes w in
     let wb := setBreakDuration minutes w in
     focusDuration (timer wf) = s
     ∧ console wf = console w ++ [info]
     ∧ (mode t = "focus" -> state t = STOPPED ->
          timeLeft (timer wf) = s ∧ totalTime (timer wf) = s
          ∧ calls wf = calls w ++ when (onTick t) (Tick s s "focus"))
     ∧ (mode t ≠ "focus" ∨ state t ≠ STOPPED ->
          timeLeft (timer wf) = timeLeft t ∧ totalTime (timer wf) = totalTime t
          ∧ calls wf = calls w)
     ∧ breakDuration (timer wb) = s
     ∧ console wb = console w ++ [info]
     ∧ (mode t = "break" -> state t = STOPPED ->
          timeLeft (timer wb) = s ∧ totalTime (timer wb) = s
          ∧ calls wb = calls w ++ when (onTick t) (Tick s s "break"))
     ∧ (mode t ≠ "break" ∨ state t ≠ STOPPED ->
          timeLeft (timer wb) = timeLeft t ∧ totalTime (timer wb) = totalTime t
          ∧ calls wb = calls w))
  ∧ (let w0 := step (call_setFocusDuration (Num 0)) new_FocusTimer in
     reachable w0 ∧ totalTime (timer w0) = Num (0 * 60) ∧ (0 * 60 <= 0)%Q).
Proof.
  split.
  - intros minutes w t s wf wb. subst t s wf wb.
    rewrite setFocusDuration_unfold, setBreakDuration_unfold. cbv zeta.
    split; [destruct (stopped_in_mode _ _); reflexivity|].
    split; [destruct (stopped_in_mode _ _); reflexivity|].
    split; [intros Hm Hs; rewrite (stopped_in_mode_true _ _ Hm Hs); simpl;
            rewrite Hm; repeat split|].
    split; [intros Hn; rewrite (stopped_in_mode_false _ _ Hn); repeat split|].
    split; [destruct (stopped_in_mode _ _); reflexivity|].
    split; [destruct (stopped_in_mode _ _); reflexivity|].
    split; [intros Hm Hs; rewrite (stopped_in_mode_true _ _ Hm Hs); simpl;
            rewrite Hm; repeat split|].
    intros Hn; rewrite (stopped_in_mode_false _ _ Hn); repeat split.
  - split; [exists [call_setFocusDuration (Num 0)]; reflexivity|].
    split; [reflexivity | lra].
Qed.

Lemma timer_durations_unvalidated_witness :
  timeLeft (timer (setFocusDuration (Num (-3 # 2)) new_FocusTimer))
  = num_mul (Num (-3 # 2)) (Num 60).
Proof.
  destruct timer_durations_unvalidated as [H _].
  destruct (H (Num (-3 # 2)) new_FocusTimer) as (_ & _ & Hstopped & _).
  apply Hstopped; reflexivity.
Defined.

(** *** The session invariant *)

(** C3, counterexample. Two reachable states break the invariant: after
    [setFocusDuration(0)] the total time is 0, and after [start()] on a
    session that has run to completion the remaining time is -1. *)
Lemma session_inv_counterexample :
  (reachable zero_minutes
   ∧ totalTime (timer zero_minutes) = Num 0
   ∧ ¬ session_inv zero_minutes)
  ∧ (reachable started_again
     ∧ timeLeft (timer started_again) = Num (-1)
     ∧ ¬ session_inv started_again).
Proof.
  split.
  - split; [eexists; reflexivity|].
    split; [vm_compute; reflexivity|].
    intros H. vm_compute in H. destruct H as (_ & _ & H). discriminate H.
  - split; [eexists; reflexivity|].
    split; [vm_compute; reflexivity|].
    intros H. vm_compute in H. destruct H as (H & _). apply H. reflexivity.
Qed.

Lemma numbers_ok_session_inv w : numbers_ok (timer w) -> session_inv w.
Proof.
  intros (r & tt & f & b & Hr & Ht & _ & _ & Hrt & Htt & _).
  unfold session_inv.
  destruct (timeLeft (timer w)) as [|qr]; [contradiction|].
  destruct (totalTime (timer w)) as [|qt]; [contradiction|].
  simpl in Hr, Ht. rewrite Hr, Ht.
  change 0%Q with (inject_Z 0). rewrite <- !Zle_Qle, <- Zlt_Qlt. lia.
Qed.

Lemma numbers_ok_new : numbers_ok (timer new_FocusTimer).
Proof.
  exists 1500%Z, 1500%Z, 1500%Z, 300%Z. simpl.
  repeat split; try reflexivity; lia.
Qed.

(** A tick of a timer that has time left keeps the numbers in order. *)
Lemma numbers_ok__tick w :
  numbers_ok (timer w) ->
  (exists r, is_Z (timeLeft (timer w)) r ∧ (0 < r)%Z) ->
  numbers_ok (timer (_tick w)).
Proof.
  intros (r & tt & f & b & Hr & Ht & Hf & Hb & Hrt & Htt & Hfp & Hbp & Hrun) (r' & Hr' & Hpos).
  assert (r' = r) by (eapply is_Z_unique; eassumption).
  subst r'. rewrite _tick_unfold. cbv zeta.
  pose proof (is_Z_dec _ _ Hr) as Hd.
  pose proof (is_Z_le0 _ _ Hd) as Hle.
  exists (r - 1)%Z, tt, f, b.
  destruct (num_le _ _) eqn:E; simpl.
  - repeat split; try assumption; try lia. intros Hn. congruence.
  - repeat split; try assumption; lia.
Qed.

(** Refilling the clock from the configured duration of some mode keeps the
    numbers in order, whatever the status. *)
Lemma numbers_ok_refill t t' m :
  numbers_ok t ->
  timeLeft t' = duration_of m t -> totalTime t' = duration_of m t ->
  focusDuration t' = focusDuration t -> breakDuration t' = breakDuration t ->
  numbers_ok t'.
Proof.
  intros (r & tt & f & b & Hr & Ht & Hf & Hb & Hrt & Htt & Hfp & Hbp & Hrun) Hl Htot Hfd Hbd.
  unfold numbers_ok. rewrite Hl, Htot, Hfd, Hbd. unfold duration_of.
  destruct (String.eqb m "focus").
  - exists f, f, f, b. repeat split; try assumption; lia.
  - exists b, b, f, b. repeat split; try assumption; lia.
Qed.

(** Changing none of the four time fields, and not leaving the stopped state,
    keeps the numbers in order. *)
Lemma numbers_ok_frame t t' :
  numbers_ok t ->
  timeLeft t' = timeLeft t -> totalTime t' = totalTime t ->
  focusDuration t' = focusDuration t -> breakDuration t' = breakDuration t ->
  (state t = STOPPED -> state t' = STOPPED) ->
  numbers_ok t'.
Proof.
  intros (r & tt & f & b & Hr & Ht & Hf & Hb & Hrt & Htt & Hfp & Hbp & Hrun) Hl Htot Hfd Hbd Hs.
  unfold numbers_ok. rewrite Hl, Htot, Hfd, Hbd.
  exists r, tt, f, b. repeat split; try assumption; try lia.
  intros Hn. apply Hrun. intros Hst. apply Hn, Hs, Hst.
Qed.

Lemma numbers_ok_start w :
  numbers_ok (timer w) ->
  (state (timer w) = STOPPED -> ¬ num_eq (timeLeft (timer w)) (Num 0)) ->
  numbers_ok (timer (start w)).
Proof.
  intros Hok Hguard. destruct (decide (state (timer w) = RUNNING)) as [Hr|Hr].
  - rewrite start_running by exact Hr. exact Hok.
  - rewrite start_unfold by exact Hr.
    destruct Hok as (r & tt & f & b & Hrz & Ht & Hf & Hb & Hrt & Htt & Hfp & Hbp & Hrun).
    assert (Hpos : (0 < r)%Z).
    { destruct (decide (state (timer w) = STOPPED)) as [Hs|Hs]; [|auto].
      pose proof (is_Z_nonzero _ _ Hrz (Hguard Hs)). lia. }
    apply numbers_ok__tick; simpl.
    + exists r, tt, f, b. repeat split; try assumption; lia.
    + exists r. split; assumption.
Qed.

Lemma numbers_ok_pause w : numbers_ok (timer w) -> numbers_ok (timer (pause w)).
Proof.
  intros Hok. destruct (decide (state (timer w) = RUNNING)) as [Hr|Hr].
  - rewrite pause_unfold by exact Hr.
    apply numbers_ok_frame with (t := timer w); try reflexivity; [exact Hok|].
    congruence.
  - rewrite pause_not_running by exact Hr. exact Hok.
Qed.

Lemma numbers_ok_step e w :
  handle_inv w -> numbers_ok (timer w) -> admissible e w ->
  numbers_ok (timer (step e w)).
Proof.
  intros Hw Hok Hadm. destruct e; unfold step, admissible in *.
  - apply numbers_ok_start; assumption.
  - apply numbers_ok_pause, Hok.
  - unfold resume. destruct (state (timer w)) eqn:Hs; simpl; try exact Hok.
    apply numbers_ok_start; [exact Hok|]. congruence.
  - rewrite reset_unfold.
    apply numbers_ok_refill with (t := timer w) (m := reset_mode m (timer w));
      [exact Hok | | | |]; reflexivity.
  - destruct (valid_mode_dec newMode) as [Hm | [Hf Hb]].
    + rewrite setMode_unfold by exact Hm.
      apply numbers_ok_refill with (t := timer w) (m := newMode);
        [exact Hok | | | |]; reflexivity.
    + rewrite setMode_invalid by assumption. exact Hok.
  - destruct Hadm as [Hint Hpos].
    destruct (is_Z_positive _ Hint Hpos) as (z & Hz & Hzp).
    pose proof (is_Z_mul60 _ _ Hz) as Hs.
    destruct Hok as (r & tt & f & b & Hrz & Ht & Hf & Hb & Hrt & Htt & Hfp & Hbp & Hrun).
    rewrite setFocusDuration_unfold. cbv zeta.
    destruct (stopped_in_mode "focus" (timer w)); simpl.
    + exists (z * 60)%Z, (z * 60)%Z, (z * 60)%Z, b. repeat split; try assumption; lia.
    + exists r, tt, (z * 60)%Z, b. repeat split; try assumption; lia.
  - destruct Hadm as [Hint Hpos].
    destruct (is_Z_positive _ Hint Hpos) as (z & Hz & Hzp).
    pose proof (is_Z_mul60 _ _ Hz) as Hs.
    destruct Hok as (r & tt & f & b & Hrz & Ht & Hf & Hb & Hrt & Htt & Hfp & Hbp & Hrun).
    rewrite setBreakDuration_unfold. cbv zeta.
    destruct (stopped_in_mode "break" (timer w)); simpl.
    + exists (z * 60)%Z, (z * 60)%Z, f, (z * 60)%Z. repeat split; try assumption; lia.
    + exists r, tt, f, (z * 60)%Z. repeat split; try assumption; lia.
  - exact Hok.
  - destruct (decide (h ∈ intervals w)) as [Hh|Hh]; [|exact Hok].
    apply numbers_ok__tick; [exact Hok|].
    destruct Hok as (r & tt & f & b & Hrz & Ht & Hf & Hb & Hrt & Htt & Hfp & Hbp & Hrun).
    exists r. split; [exact Hrz|]. apply Hrun.
    destruct (handle_inv_cases w Hw) as [[h' (_ & _ & Hs)] | (_ & Hi & _)].
    + congruence.
    + rewrite Hi in Hh. set_solver.
Qed.

Lemma admissible_run_inv es w :
  handle_inv w -> numbers_ok (timer w) -> admissible_run es w ->
  handle_inv (run es w) ∧ numbers_ok (timer (run es w)).
Proof.
  revert w. induction es as [|e es IH]; intros w Hw Hok Hadm; [split; assumption|].
  destruct Hadm as [He Hes]. simpl. apply IH.
  - apply handle_inv_step, Hw.
  - apply numbers_ok_step; assumption.
  - exact Hes.
Qed.

(** C3, amended. In every state reached from a new timer by calls of
    [start], [pause], [resume], [reset], [setMode], [setFocusDuration],
    [setBreakDuration] and by ticks, in which the two duration setters are
    given a positive whole number of minutes and [start] is not called on a
    stopped timer with no time left, [0 <= remainingSeconds <= totalSeconds]
    and [totalSeconds > 0] hold. *)
Theorem session_inv_admissible es :
  admissible_run es new_FocusTimer -> session_inv (run es new_FocusTimer).
Proof.
  intros Hadm. apply numbers_ok_session_inv.
  apply (admissible_run_inv es new_FocusTimer handle_inv_new numbers_ok_new Hadm).
Qed.

Lemma session_inv_admissible_witness :
  session_inv (run [call_setFocusDuration (Num 2); call_start; interval_fires 1;
                    call_pause; call_resume; call_setMode "break"; call_reset None]
                   new_FocusTimer).
Proof.
  apply session_inv_admissible. simpl.
  split; [split; [exists 2%Z; reflexivity | reflexivity]|].
  split; [vm_compute; intros _ H; discriminate H|].
  repeat split.
Defined.


(** *** Calls that change nothing *)

(** X1. [start()] on a running timer, [pause()] on a timer that is not
    running and [resume()] on a timer that is not paused write a warning and
    do nothing else; so a second [pause()] adds nothing to the first, and a
    second [start()] adds nothing when the first left the timer running. *)
Theorem refused_calls_only_warn w :
  (state (timer w) = RUNNING -> start w = console_write warn w)
  ∧ (state (timer w) ≠ RUNNING -> pause w = console_write warn w)
  ∧ (state (timer w) ≠ PAUSED -> resume w = console_write warn w)
  ∧ pause (pause w) = console_write warn (pause w)
  ∧ (state (timer (start w)) = RUNNING ->
       start (start w) = console_write warn (start w))
  ∧ (state (timer w) = STOPPED -> resume w = console_write warn w
       ∧ pause w = console_write warn w).
Proof.
  assert (Hres : state (timer w) ≠ PAUSED -> resume w = console_write warn w).
  { intros Hp. unfold resume. destruct (state (timer w)); simpl; congruence. }
  split; [apply start_running|].
  split; [apply pause_not_running|].
  split; [exact Hres|].
  split; [|split].
  - apply pause_not_running.
    destruct (decide (state (timer w) = RUNNING)) as [Hr|Hr].
    + rewrite pause_unfold by exact Hr. discriminate.
    + rewrite pause_not_running by exact Hr. exact Hr.
  - apply start_running.
  - intros Hs. split; [apply Hres | apply pause_not_running]; congruence.
Qed.

Lemma refused_calls_only_warn_witness :
  start running_focus = console_write warn running_focus
  ∧ pause new_FocusTimer = console_write warn new_FocusTimer.
Proof.
  assert (Hr : state (timer running_focus) = RUNNING) by (vm_compute; reflexivity).
  assert (Hs : state (timer new_FocusTimer) ≠ RUNNING) by (vm_compute; discriminate).
  destruct (refused_calls_only_warn running_focus) as (H1 & _).
  destruct (refused_calls_only_warn new_FocusTimer) as (_ & H2 & _).
  split; [exact (H1 Hr) | exact (H2 Hs)].
Defined.

(** *** Reset *)

(** X2. [reset(m)] always leaves the timer stopped with no handle and no
    interval, the remaining and the total time equal to the configured
    duration of the mode it ends in, and calls the tick callback once.  The
    mode is not validated: any non-empty string becomes the mode, and every
    mode other than focus gets the break duration; [null] and the empty
    string keep the mode.  Resetting twice is resetting once. *)
Theorem reset_refills m w :
  handle_inv w ->
  let t := timer w in
  let w' := reset m w in
  let md := reset_mode m t in
  let d := duration_of md t in
  state (timer w') = STOPPED
  ∧ intervalId (timer w') = None ∧ intervals w' = ∅
  ∧ mode (timer w') = md
  ∧ timeLeft (timer w') = d ∧ totalTime (timer w') = d
  ∧ focusDuration (timer w') = focusDuration t
  ∧ breakDuration (timer w') = breakDuration t
  ∧ calls w' = calls w ++ when (onTick t) (Tick d d md)
  ∧ (m = None ∨ m = Some "" -> md = mode t)
  ∧ (forall s, m = Some s -> s ≠ "" -> md = s)
  ∧ (md ≠ "focus" -> d = breakDuration t)
  ∧ timer (reset m w') = timer w'.
Proof.
  intros Hw t w' md d. subst w'. rewrite !reset_unfold. simpl.
  rewrite (handle_inv_cleared w Hw). fold t. fold md. fold d.
  assert (Hmd : reset_mode m (mkTimer STOPPED md d d (focusDuration t) (breakDuration t) None
                                      (onTick t) (onModeChange t) (onComplete t)) = md).
  { subst md. unfold reset_mode, truthy. simpl.
    destruct m as [s|]; [|reflexivity]. destruct (negb (s =? "")); reflexivity. }
  repeat split.
  - intros [-> | ->]; reflexivity.
  - intros s -> Hs. subst md. unfold reset_mode, truthy.
    apply String.eqb_neq in Hs. rewrite Hs. reflexivity.
  - intros Hn. subst d. unfold duration_of. apply String.eqb_neq in Hn.
    rewrite Hn. reflexivity.
  - rewrite Hmd. reflexivity.
Qed.

Lemma reset_refills_witness :
  mode (timer (reset (Some "lunch") running_focus)) = "lunch"
  ∧ timeLeft (timer (reset (Some "lunch") running_focus)) = Num 300
  ∧ intervals (reset (Some "lunch") running_focus) = ∅.
Proof.
  assert (Hw : handle_inv running_focus) by (vm_compute; split; reflexivity).
  destruct (reset_refills (Some "lunch") running_focus Hw)
    as (_ & _ & Hi & Hm & Hl & _).
  split; [exact Hm|]. split; [exact Hl | exact Hi].
Defined.

(** X3. A duration set on the timer is the one the next reset or the next
    mode switch uses, whatever the timer was doing when it was set: after
    [setFocusDuration(minutes)], a reset that ends in focus mode and a switch
    to focus mode both give remaining = total = minutes * 60; likewise for
    the break duration and any other mode. *)
Theorem duration_used_by_next_refill minutes w :
  let s := num_mul minutes (Num 60) in
  (forall m, reset_mode m (timer w) = "focus" ->
     timeLeft (timer (reset m (setFocusDuration minutes w))) = s
     ∧ totalTime (timer (reset m (setFocusDuration minutes w))) = s)
  ∧ (forall m, reset_mode m (timer w) ≠ "focus" ->
     timeLeft (timer (reset m (setBreakDuration minutes w))) = s
     ∧ totalTime (timer (reset m (setBreakDuration minutes w))) = s)
  ∧ (timeLeft (timer (setMode "focus" (setFocusDuration minutes w))) = s
     ∧ totalTime (timer (setMode "focus" (setFocusDuration minutes w))) = s)
  ∧ (timeLeft (timer (setMode "break" (setBreakDuration minutes w))) = s
     ∧ totalTime (timer (setMode "break" (setBreakDuration minutes w))) = s).
Proof.
  intros s. subst s.
  assert (Hmf : forall m, reset_mode m (timer (setFocusDuration minutes w))
                          = reset_mode m (timer w)).
  { intros m. rewrite setFocusDuration_unfold. cbv zeta.
    destruct (stopped_in_mode _ _); reflexivity. }
  assert (Hmb : forall m, reset_mode m (timer (setBreakDuration minutes w))
                          = reset_mode m (timer w)).
  { intros m. rewrite setBreakDuration_unfold. cbv zeta.
    destruct (stopped_in_mode _ _); reflexivity. }
  assert (Hf : focusDuration (timer (setFocusDuration minutes w)) = num_mul minutes (Num 60)).
  { rewrite setFocusDuration_unfold. cbv zeta. destruct (stopped_in_mode _ _); reflexivity. }
  assert (Hb : breakDuration (timer (setBreakDuration minutes w)) = num_mul minutes (Num 60)).
  { rewrite setBreakDuration_unfold. cbv zeta. destruct (stopped_in_mode _ _); reflexivity. }
  set (wf := setFocusDuration minutes w) in *.
  set (wb := setBreakDuration minutes w) in *. clearbody wf wb.
  split; [|split; [|split]].
  - intros m Hm. rewrite reset_unfold. simpl. rewrite Hmf, Hm. unfold duration_of. simpl.
    rewrite Hf. split; reflexivity.
  - intros m Hm. rewrite reset_unfold. simpl. rewrite Hmb. unfold duration_of.
    apply String.eqb_neq in Hm. rewrite Hm, Hb. split; reflexivity.
  - rewrite setMode_unfold by (left; reflexivity). simpl. unfold duration_of. simpl.
    rewrite Hf. split; reflexivity.
  - rewrite setMode_unfold by (right; reflexivity). simpl. unfold duration_of. simpl.
    rewrite Hb. split; reflexivity.
Qed.

Lemma duration_used_by_next_refill_witness :
  timeLeft (timer (reset None (setFocusDuration (Num 50) running_focus)))
  = num_mul (Num 50) (Num 60).
Proof.
  assert (Hm : reset_mode None (timer running_focus) = "focus") by (vm_compute; reflexivity).
  destruct (duration_used_by_next_refill (Num 50) running_focus) as (H1 & _).
  exact (proj1 (H1 None Hm)).
Defined.

(** *** Mode switches outside the running state *)

(** X4. [setMode] never starts the timer and never schedules an interval:
    if the timer is running afterwards it was running before and the
    argument was refused; a stopped timer stays stopped and a paused one
    stays paused, handle and intervals untouched.  With a valid mode the
    remaining and the total time become the duration of that mode, and of two
    valid switches in a row only the second shows in the timer. *)
Theorem setMode_never_runs newMode w :
  handle_inv w ->
  nextHandle (setMode newMode w) = nextHandle w
  ∧ (state (timer (setMode newMode w)) = RUNNING ->
       state (timer w) = RUNNING ∧ newMode ≠ "focus" ∧ newMode ≠ "break")
  ∧ (state (timer w) ≠ RUNNING ->
       state (timer (setMode newMode w)) = state (timer w)
       ∧ intervalId (timer (setMode newMode w)) = intervalId (timer w)
       ∧ intervals (setMode newMode w) = intervals w)
  ∧ (newMode = "focus" ∨ newMode = "break" ->
       timeLeft (timer (setMode newMode w)) = duration_of newMode (timer w)
       ∧ totalTime (timer (setMode newMode w)) = duration_of newMode (timer w)
       ∧ forall other, other = "focus" ∨ other = "break" ->
           timer (setMode newMode (setMode other w)) = timer (setMode newMode w)).
Proof.
  intros Hw.
  destruct (valid_mode_dec newMode) as [Hm | [Hf Hb]].
  - rewrite !setMode_unfold by exact Hm. cbv zeta. simpl.
    split; [reflexivity|]. split; [|split].
    + destruct (state (timer w)); simpl; discriminate.
    + intros Hr. destruct (state (timer w)); simpl; try congruence; repeat split.
    + intros _. split; [reflexivity|]. split; [reflexivity|].
      intros other Ho. rewrite !setMode_unfold by assumption. cbv zeta. simpl.
      unfold duration_of. simpl.
      destruct (state (timer w)); simpl; reflexivity.
  - rewrite !setMode_invalid by assumption. simpl.
    split; [reflexivity|]. split; [|split].
    + intros Hr. repeat split; assumption.
    + intros _. repeat split.
    + intros [? | ?]; congruence.
Qed.

Lemma setMode_never_runs_witness :
  state (timer (setMode "break" new_FocusTimer)) = STOPPED
  ∧ timeLeft (timer (setMode "break" new_FocusTimer)) = Num 300.
Proof.
  assert (Hs : state (timer new_FocusTimer) ≠ RUNNING) by (vm_compute; discriminate).
  assert (Hm : "break" = "focus" ∨ "break" = "break") by (right; reflexivity).
  destruct (setMode_never_runs "break" new_FocusTimer handle_inv_new)
    as (_ & _ & H3 & H4).
  split; [exact (proj1 (H3 Hs)) | exact (proj1 (H4 Hm))].
Defined.

(** *** Whole sessions *)

(** A tick of a running timer that has more than one second left. *)
Lemma _tick_goes_on w z :
  is_Z (timeLeft (timer w)) z -> (1 < z)%Z ->
  _tick w =
  let t := timer w in
  mkWorld (mkTimer (state t) (mode t) (num_dec (timeLeft t)) (totalTime t) (focusDuration t)
                   (breakDuration t) (intervalId t) (onTick t) (onModeChange t) (onComplete t))
          (intervals w) (nextHandle w)
          (calls w ++ when (onTick t) (Tick (num_dec (timeLeft t)) (totalTime t) (mode t)))
          (console w).
Proof.
  intros Hz Hlt. rewrite _tick_unfold. cbv zeta.
  pose proof (is_Z_le0 _ _ (is_Z_dec _ _ Hz)) as Hle.
  destruct (num_le _ _); [|reflexivity].
  assert (z - 1 <= 0)%Z by (apply Hle; reflexivity). lia.
Qed.

(** A tick of a timer that has one second left, or none. *)
Lemma _tick_finishes w z :
  is_Z (timeLeft (timer w)) z -> (z <= 1)%Z ->
  _tick w =
  let t := timer w in
  mkWorld (mkTimer STOPPED (mode t) (num_dec (timeLeft t)) (totalTime t) (focusDuration t)
                   (breakDuration t) None (onTick t) (onModeChange t) (onComplete t))
          (cleared (intervalId t) (intervals w)) (nextHandle w)
          (calls w ++ when (onTick t) (Tick (num_dec (timeLeft t)) (totalTime t) (mode t))
                   ++ when (onComplete t) (Complete (mode t)))
          (console w ++ [info]).
Proof.
  intros Hz Hlt. rewrite _tick_unfold. cbv zeta.
  pose proof (is_Z_le0 _ _ (is_Z_dec _ _ Hz)) as Hle.
  destruct (num_le _ _); [reflexivity|].
  assert (false = true) by (apply Hle; lia). discriminate.
Qed.

(** [k + 1] ticks of a clock showing [k + 1] seconds: the last one
    completes. *)
Lemma ticks_to_completion k :
  forall w,
    is_Z (timeLeft (timer w)) (Z.of_nat (S k)) ->
    (intervalId (timer w) = None -> intervals w = ∅) ->
    (forall h, intervalId (timer w) = Some h -> intervals w = {[ h ]}) ->
    let t := timer w in
    let w' := Nat.iter (S k) _tick w in
    state (timer w') = STOPPED
    ∧ intervalId (timer w') = None ∧ intervals w' = ∅
    ∧ is_Z (timeLeft (timer w')) 0
    ∧ mode (timer w') = mode t ∧ totalTime (timer w') = totalTime t
    ∧ nextHandle w' = nextHandle w
    ∧ calls w' = calls w
                 ++ countdown_calls (onTick t) (timeLeft t) (totalTime t) (mode t) (S k)
                 ++ when (onComplete t) (Complete (mode t)).
Proof.
  induction k as [|k IH]; intros w Hz Hnone Hsome t w'; subst w'.
  - simpl. rewrite (_tick_finishes w 1 Hz) by lia. cbv zeta. simpl. fold t.
    repeat split.
    + destruct (intervalId t) as [h|] eqn:E; simpl.
      * rewrite (Hsome h E). set_solver.
      * apply Hnone, E.
    + apply (is_Z_dec _ _ Hz).
    + rewrite app_nil_r. reflexivity.
  - rewrite Nat.iter_succ_r.
    assert (Hgo := _tick_goes_on w _ Hz). cbv zeta in Hgo. fold t in Hgo.
    rewrite Hgo by lia.
    match goal with |- context [Nat.iter (S k) _tick ?x] => set (w1 := x) end.
    assert (Hz1 : is_Z (timeLeft (timer w1)) (Z.of_nat (S k))).
    { subst w1. simpl. replace (Z.of_nat (S k)) with (Z.of_nat (S (S k)) - 1)%Z by lia.
      apply is_Z_dec, Hz. }
    destruct (IH w1 Hz1) as (H1 & H2 & H3 & H4 & H5 & H6 & H7 & H8).
    { subst w1. simpl. exact Hnone. }
    { subst w1. simpl. exact Hsome. }
    split; [exact H1|]. split; [exact H2|]. split; [exact H3|]. split; [exact H4|].
    split; [exact H5|]. split; [exact H6|]. split; [exact H7|].
    rewrite H8. subst w1. simpl. rewrite <- !app_assoc. reflexivity.
Qed.

(** Firings of the stored handle are ticks as long as the timer runs. *)
Lemma firings_are_ticks k :
  forall w h z,
    state (timer w) = RUNNING -> intervalId (timer w) = Some h -> intervals w = {[ h ]} ->
    is_Z (timeLeft (timer w)) z -> (Z.of_nat k <= z)%Z ->
    run (repeat (interval_fires h) k) w = Nat.iter k _tick w.
Proof.
  induction k as [|k IH]; intros w h z Hr Hid Hi Hz Hk; [reflexivity|].
  rewrite Nat.iter_succ_r. simpl.
  rewrite decide_True by (rewrite Hi; set_solver).
  destruct k as [|k]; [reflexivity|].
  assert (Hgo := _tick_goes_on w z Hz). cbv zeta in Hgo.
  apply (IH (_tick w) h (z - 1)%Z); rewrite ?Hgo by lia; simpl; try assumption.
  - apply is_Z_dec, Hz.
  - lia.
Qed.

(** X5. A session of [k + 1] whole seconds, started on a timer that is not
    running, is over after [start()] and [k] firings of the interval: the
    tick callback has been called [k + 1] times with the time left going
    down by one each time, then the completion callback once with the mode
    of the session, and the timer is stopped with 0 seconds left and no
    interval. *)
Theorem session_runs_to_completion k w :
  handle_inv w -> state (timer w) ≠ RUNNING ->
  is_Z (timeLeft (timer w)) (Z.of_nat (S k)) ->
  let t := timer w in
  let w' := run (call_start :: repeat (interval_fires (nextHandle w)) k) w in
  state (timer w') = STOPPED
  ∧ intervalId (timer w') = None ∧ intervals w' = ∅
  ∧ is_Z (timeLeft (timer w')) 0
  ∧ mode (timer w') = mode t ∧ totalTime (timer w') = totalTime t
  ∧ calls w' = calls w
               ++ countdown_calls (onTick t) (timeLeft t) (totalTime t) (mode t) (S k)
               ++ when (onComplete t) (Complete (mode t)).
Proof.
  intros Hw Hr Hz t w'.
  destruct (handle_inv_not_running w Hw Hr) as [_ Hi].
  set (w0 := setInterval (console_write info (this (set_state RUNNING) w))).
  assert (Hstart : start w = _tick w0) by (apply start_unfold, Hr).
  assert (Hw' : w' = Nat.iter (S k) _tick w0).
  { subst w'. rewrite Nat.iter_succ_r. simpl. rewrite Hstart.
    destruct k as [|k]; [reflexivity|].
    assert (Hgo := _tick_goes_on w0 _ Hz). cbv zeta in Hgo.
    apply (firings_are_ticks (S k) (_tick w0) (nextHandle w) (Z.of_nat (S k)));
      rewrite ?Hgo by lia; simpl; try reflexivity.
    - rewrite Hi. set_solver.
    - replace (Z.of_nat (S k)) with (Z.of_nat (S (S k)) - 1)%Z by lia. apply is_Z_dec, Hz. }
  destruct (ticks_to_completion k w0) as (H1 & H2 & H3 & H4 & H5 & H6 & _ & H8).
  - exact Hz.
  - discriminate.
  - intros h Hh. simpl in Hh. injection Hh as <-. simpl. rewrite Hi. set_solver.
  - rewrite Hw'. repeat split; assumption.
Qed.

Lemma session_runs_to_completion_witness :
  state (timer (run (call_start :: repeat (interval_fires 1) 1499) new_FocusTimer)) = STOPPED.
Proof.
  assert (Hr : state (timer new_FocusTimer) ≠ RUNNING) by (vm_compute; discriminate).
  assert (Hz : is_Z (timeLeft (timer new_FocusTimer)) (Z.of_nat 1500)) by reflexivity.
  exact (proj1 (session_runs_to_completion 1499 new_FocusTimer handle_inv_new Hr Hz)).
Defined.

(** X6. A timer whose remaining time is [NaN] never completes: once started
    it is running, and it is still running with [NaN] left after any number
    of firings of its interval; no completion call is ever made. *)
Theorem NaN_never_completes k w :
  handle_inv w -> state (timer w) ≠ RUNNING -> timeLeft (timer w) = NaN ->
  let w' := run (call_start :: repeat (interval_fires (nextHandle w)) k) w in
  state (timer w') = RUNNING
  ∧ timeLeft (timer w') = NaN
  ∧ intervals w' = {[ nextHandle w ]}
  ∧ filter (fun n => is_Complete n = true) (calls w')
    = filter (fun n => is_Complete n = true) (calls w).
Proof.
  intros Hw Hr Hnan w'.
  destruct (handle_inv_not_running w Hw Hr) as [_ Hi].
  assert (Hgen : forall j w1,
    state (timer w1) = RUNNING -> timeLeft (timer w1) = NaN ->
    intervals w1 = {[ nextHandle w ]} ->
    let w2 := run (repeat (interval_fires (nextHandle w)) j) w1 in
    state (timer w2) = RUNNING ∧ timeLeft (timer w2) = NaN
    ∧ intervals w2 = {[ nextHandle w ]}
    ∧ filter (fun n => is_Complete n = true) (calls w2)
      = filter (fun n => is_Complete n = true) (calls w1)).
  { induction j as [|j IH]; intros w1 H1 H2 H3; [repeat split; assumption|].
    simpl. rewrite decide_True by (rewrite H3; set_solver).
    rewrite _tick_unfold. cbv zeta. rewrite H2. simpl.
    match goal with |- context [run _ ?w3] => destruct (IH w3) as (A & B & C & D) end;
      simpl; try assumption; try reflexivity.
    split; [exact A|]. split; [exact B|]. split; [exact C|].
    rewrite D. simpl. rewrite filter_app.
    destruct (onTick (timer w1)); simpl; rewrite ?app_nil_r; reflexivity. }
  subst w'. simpl. rewrite start_unfold by exact Hr. rewrite _tick_unfold. cbv zeta.
  simpl. rewrite Hnan. simpl.
  match goal with |- context [run _ ?w3] => destruct (Hgen k w3) as (A & B & C & D) end;
    simpl; try reflexivity.
  { rewrite Hi. set_solver. }
  split; [exact A|]. split; [exact B|]. split; [exact C|].
  rewrite D. simpl. rewrite filter_app.
  destruct (onTick (timer w)); simpl; rewrite ?app_nil_r; reflexivity.
Qed.

Lemma NaN_never_completes_witness :
  state (timer (run (call_start :: repeat (interval_fires 1) 5) NaN_minutes)) = RUNNING.
Proof.
  assert (Hw : handle_inv NaN_minutes) by (vm_compute; split; [reflexivity | discriminate]).
  assert (Hr : state (timer NaN_minutes) ≠ RUNNING) by (vm_compute; discriminate).
  assert (Hn : timeLeft (timer NaN_minutes) = NaN) by (vm_compute; reflexivity).
  exact (proj1 (NaN_never_completes 5 NaN_minutes Hw Hr Hn)).
Defined.

(** *** Destroy *)

(** What [start()] makes of the timer depends on the timer and on the next
    handle only. *)
Lemma start_timer_frame w1 w2 :
  timer w1 = timer w2 -> nextHandle w1 = nextHandle w2 ->
  timer (start w1) = timer (start w2).
Proof.
  intros Ht Hn. destruct (decide (state (timer w1) = RUNNING)) as [Hr|Hr].
  - rewrite !start_running by congruence. simpl. exact Ht.
  - rewrite !start_unfold by congruence. rewrite !_tick_unfold. cbv zeta. simpl.
    rewrite Ht, Hn. destruct (num_le _ _); reflexivity.
Qed.

(** X7. [destroy()] clears the interval of a running timer but leaves its
    status running.  No tick fires any more, and [start()] and [resume()]
    are refused with a warning.  The timer is not closed for all that:
    [pause()], [reset()] and [setMode()] act on it as they act on the
    running timer, so that [pause()] then [resume()], like [reset()] or a
    valid [setMode()] then [start()], sets it going again on a new
    interval, unless the first tick of that start completes the session. *)
Theorem destroy_leaves_status_running w :
  handle_inv w -> state (timer w) = RUNNING ->
  let w' := destroy w in
  intervalId (timer w') = None ∧ intervals w' = ∅
  ∧ state (timer w') = RUNNING
  ∧ timeLeft (timer w') = timeLeft (timer w)
  ∧ (forall hs : list positive, run (map interval_fires hs) w' = w')
  ∧ start w' = console_write warn w'
  ∧ resume w' = console_write warn w'
  ∧ (forall m, timer (reset m w') = timer (reset m w))
  ∧ (forall m, state (timer (start (reset m w'))) = RUNNING
             ∨ state (timer (start (reset m w'))) = STOPPED)
  ∧ timer (pause w') = timer (pause w)
  ∧ state (timer (pause w')) = PAUSED
  ∧ timer (resume (pause w')) = timer (resume (pause w))
  ∧ (forall m, m = "focus" ∨ m = "break" -> timer (setMode m w') = timer (setMode m w))
  ∧ (num_le (num_dec (timeLeft (timer w))) (Num 0) = false ->
       state (timer (resume (pause w'))) = RUNNING
       ∧ intervalId (timer (resume (pause w'))) = Some (nextHandle w)
       ∧ intervals (resume (pause w')) = {[ nextHandle w ]}
       ∧ timeLeft (timer (resume (pause w'))) = num_dec (timeLeft (timer w)))
  ∧ (forall m, m = "focus" ∨ m = "break" ->
       num_le (num_dec (duration_of m (timer w))) (Num 0) = false ->
       state (timer (start (setMode m w'))) = RUNNING
       ∧ intervalId (timer (start (setMode m w'))) = Some (nextHandle w)
       ∧ intervals (start (setMode m w')) = {[ nextHandle w ]})
  ∧ (forall m,
       num_le (num_dec (duration_of (reset_mode m (timer w)) (timer w))) (Num 0) = false ->
       state (timer (start (reset m w'))) = RUNNING
       ∧ intervalId (timer (start (reset m w'))) = Some (nextHandle w)
       ∧ intervals (start (reset m w')) = {[ nextHandle w ]}).
Proof.
  intros Hw Hr w'.
  destruct (destroy_clears w Hw) as (Hid & Hi & Hs). fold w' in Hid, Hi, Hs.
  assert (Hr' : state (timer w') = RUNNING) by congruence.
  assert (Ht' : timer w' = set_intervalId None (timer w))
    by (subst w'; rewrite destroy_unfold; reflexivity).
  assert (Hn' : nextHandle w' = nextHandle w)
    by (subst w'; rewrite destroy_unfold; reflexivity).
  clearbody w'.
  assert (Hp : timer (pause w') = timer (pause w)).
  { rewrite !pause_unfold by assumption. cbv zeta. simpl. rewrite Ht'. reflexivity. }
  assert (Hps : state (timer (pause w')) = PAUSED)
    by (rewrite pause_unfold by assumption; reflexivity).
  assert (Hpn : nextHandle (pause w') = nextHandle w)
    by (rewrite pause_unfold by assumption; exact Hn').
  assert (Hpi : intervals (pause w') = ∅).
  { rewrite pause_unfold by assumption. simpl. rewrite Hid, Hi. reflexivity. }
  assert (Hres : resume (pause w') = start (pause w'))
    by (unfold resume; rewrite Hps; reflexivity).
  assert (Hsm : forall m, m = "focus" ∨ m = "break" ->
            timer (setMode m w') = timer (setMode m w)).
  { intros m Hm. rewrite !setMode_unfold by exact Hm. cbv zeta. simpl.
    rewrite Ht'. unfold duration_of. simpl. rewrite Hr. reflexivity. }
  split; [exact Hid|]. split; [exact Hi|]. split; [exact Hr'|].
  split; [rewrite Ht'; reflexivity|].
  split; [apply no_interval_no_tick, Hi|].
  split; [apply start_running, Hr'|].
  split; [unfold resume; rewrite Hr'; reflexivity|].
  split.
  { intros m. rewrite !reset_unfold. cbv zeta. simpl. rewrite Ht'. reflexivity. }
  split.
  { intros m. rewrite start_unfold by (rewrite reset_unfold; discriminate).
    rewrite _tick_unfold. cbv zeta. destruct (num_le _ _); simpl; auto. }
  split; [exact Hp|]. split; [exact Hps|].
  split.
  { assert (Hps0 : state (timer (pause w)) = PAUSED)
      by (rewrite pause_unfold by assumption; reflexivity).
    unfold resume. rewrite Hps, Hps0. simpl.
    apply start_timer_frame; [exact Hp|].
    rewrite Hpn. rewrite pause_unfold by assumption. reflexivity. }
  split; [exact Hsm|].
  split.
  { intros Hgo. rewrite Hres.
    destruct (start_schedules (pause w')) as (_ & Hstart & _);
      [congruence | exact Hpi |].
    rewrite Hp, Hpn in Hstart.
    rewrite pause_unfold in Hstart by exact Hr. simpl in Hstart.
    destruct (Hstart Hgo) as (A & B & C & D). auto. }
  split.
  - intros m Hm Hgo.
    assert (Hst : state (timer (setMode m w')) = PAUSED).
    { rewrite setMode_unfold by exact Hm. simpl. rewrite Hr'. reflexivity. }
    assert (Hti : timeLeft (timer (setMode m w')) = duration_of m (timer w)).
    { rewrite Hsm by exact Hm. rewrite setMode_unfold by exact Hm. reflexivity. }
    assert (Hin : intervals (setMode m w') = ∅).
    { rewrite setMode_unfold by exact Hm. simpl. rewrite Hr'. simpl.
      rewrite Hid, Hi. reflexivity. }
    assert (Hnh : nextHandle (setMode m w') = nextHandle w)
      by (rewrite setMode_unfold by exact Hm; exact Hn').
    destruct (start_schedules (setMode m w')) as (_ & Hstart & _);
      [congruence | exact Hin |].
    rewrite Hti, Hnh in Hstart. destruct (Hstart Hgo) as (A & B & C & _). auto.
  - intros m Hgo.
    assert (Hst : state (timer (reset m w')) = STOPPED) by (rewrite reset_unfold; reflexivity).
    assert (Hti : timeLeft (timer (reset m w'))
                  = duration_of (reset_mode m (timer w)) (timer w)).
    { rewrite reset_unfold. cbv zeta. simpl. rewrite Ht'. reflexivity. }
    assert (Hin : intervals (reset m w') = ∅).
    { rewrite reset_unfold. simpl. rewrite Hid, Hi. reflexivity. }
    assert (Hnh : nextHandle (reset m w') = nextHandle w)
      by (rewrite reset_unfold; exact Hn').
    destruct (start_schedules (reset m w')) as (_ & Hstart & _);
      [congruence | exact Hin |].
    rewrite Hti, Hnh in Hstart. destruct (Hstart Hgo) as (A & B & C & _). auto.
Qed.

Lemma destroy_leaves_status_running_witness :
  start (destroy running_focus) = console_write warn (destroy running_focus)
  ∧ state (timer (resume (pause (destroy running_focus)))) = RUNNING
  ∧ intervalId (timer (resume (pause (destroy running_focus)))) = Some 2%positive
  ∧ timeLeft (timer (resume (pause (destroy running_focus)))) = Num (1499 - 1).
Proof.
  assert (Hr : state (timer running_focus) = RUNNING) by (vm_compute; reflexivity).
  assert (Hw : handle_inv running_focus) by (vm_compute; split; reflexivity).
  assert (Hgo : num_le (num_dec (timeLeft (timer running_focus))) (Num 0) = false)
    by (vm_compute; reflexivity).
  destruct (destroy_leaves_status_running running_focus Hw Hr)
    as (_ & _ & _ & _ & _ & H & _ & _ & _ & _ & _ & _ & _ & R & _).
  destruct (R Hgo) as (A & B & _ & D).
  split; [exact H|]. split; [exact A|]. split; [exact B | exact D].
Defined.

(** *** Repeated pauses *)

(** X8. Every pause followed by a resume costs one second and one new
    interval: a running timer with more than [k] whole seconds left that is
    paused and resumed [k] times is running with [k] seconds less and an
    unchanged total time, [k] handles have been handed out, and for
    [k > 0] the timer runs on the last of them, the [k]-th new handle, which
    is the only interval scheduled. *)
Theorem pause_resume_costs_a_second k :
  forall w z,
    handle_inv w -> state (timer w) = RUNNING ->
    is_Z (timeLeft (timer w)) z -> (Z.of_nat k < z)%Z ->
    let w' := Nat.iter k pause_resume w in
    state (timer w') = RUNNING
    ∧ is_Z (timeLeft (timer w')) (z - Z.of_nat k)
    ∧ totalTime (timer w') = totalTime (timer w)
    ∧ Pos.to_nat (nextHandle w') = (Pos.to_nat (nextHandle w) + k)%nat
    ∧ handle_inv w'
    ∧ ((0 < k)%nat ->
         exists h, intervalId (timer w') = Some h
           ∧ intervals w' = {[ h ]}
           ∧ Pos.to_nat h = (Pos.to_nat (nextHandle w) + k - 1)%nat
           ∧ nextHandle w' = Pos.succ h).
Proof.
  induction k as [|k IH]; intros w z Hw Hr Hz Hk w'; subst w'.
  - simpl. rewrite Z.sub_0_r, Nat.add_0_r. repeat split; try assumption. lia.
  - simpl. destruct (IH w z Hw Hr Hz) as (H1 & H2 & H3 & H4 & H5 & _); [lia|].
    set (w1 := Nat.iter k pause_resume w) in *. clearbody w1.
    unfold pause_resume.
    assert (Hp : state (timer (pause w1)) = PAUSED) by (rewrite pause_unfold by exact H1; reflexivity).
    assert (Hres : resume (pause w1) = start (pause w1)) by (unfold resume; rewrite Hp; reflexivity).
    assert (Hz1 : is_Z (timeLeft (timer (setInterval (console_write info
                   (this (set_state RUNNING) (pause w1)))))) (z - Z.of_nat k)).
    { rewrite pause_unfold by exact H1. exact H2. }
    split; [|split; [|split; [|split; [|split]]]].
    + rewrite Hres, start_unfold by congruence.
      rewrite (_tick_goes_on _ _ Hz1) by lia. reflexivity.
    + rewrite Hres, start_unfold by congruence.
      rewrite (_tick_goes_on _ _ Hz1) by lia. cbv zeta. simpl.
      replace (z - Z.of_nat (S k))%Z with (z - Z.of_nat k - 1)%Z by lia.
      apply is_Z_dec. rewrite pause_unfold by exact H1. exact H2.
    + rewrite Hres, start_unfold by congruence.
      rewrite (_tick_goes_on _ _ Hz1) by lia. cbv zeta. simpl.
      rewrite pause_unfold by exact H1. exact H3.
    + rewrite Hres, start_unfold by congruence.
      rewrite (_tick_goes_on _ _ Hz1) by lia. cbv zeta. simpl.
      rewrite pause_unfold by exact H1. simpl.
      rewrite Pos2Nat.inj_succ, H4. lia.
    + apply handle_inv_resume, handle_inv_pause, H5.
    + intros _. exists (nextHandle w1).
      rewrite Hres, start_unfold by congruence.
      rewrite (_tick_goes_on _ _ Hz1) by lia. cbv zeta. simpl.
      rewrite pause_unfold by exact H1. simpl.
      rewrite (handle_inv_cleared w1 H5).
      split; [reflexivity|]. split; [set_solver|]. split; [lia | reflexivity].
Qed.

Lemma pause_resume_costs_a_second_witness :
  is_Z (timeLeft (timer (Nat.iter 3 pause_resume running_focus))) (1499 - Z.of_nat 3)
  ∧ intervalId (timer (Nat.iter 3 pause_resume running_focus)) = Some 4%positive
  ∧ intervals (Nat.iter 3 pause_resume running_focus) = {[ 4%positive ]}.
Proof.
  assert (Hr : state (timer running_focus) = RUNNING) by (vm_compute; reflexivity).
  assert (Hw : handle_inv running_focus) by (vm_compute; split; reflexivity).
  assert (Hz : is_Z (timeLeft (timer running_focus)) 1499) by (vm_compute; reflexivity).
  assert (Hk : (Z.of_nat 3 < 1499)%Z) by lia.
  assert (H3 : (0 < 3)%nat) by lia.
  destruct (pause_resume_costs_a_second 3 running_focus 1499 Hw Hr Hz Hk)
    as (_ & H & _ & _ & _ & Hh).
  destruct (Hh H3) as (h & A & B & C & _).
  assert (E : h = 4%positive).
  { apply Pos2Nat.inj. rewrite C. vm_compute. reflexivity. }
  rewrite E in A, B.
  split; [exact H|]. split; [exact A | exact B].
Defined.
End TimerProofs.

(** ** The preference store *)

Section StoreProofs.
Import Store.
Context `{Host}.

Ltac reduce_store :=
  cbv beta iota zeta delta
    [this_settings this_stats console_write setItem _saveSettings _notifyChange
     set_focusDuration set_breakDuration set_soundEnabled set_theme set_stats
     set_sessionsToday set_totalFocusTime set_lastResetDate
     manager localStorage changes console settings onSettingsChange
     focusDuration breakDuration soundEnabled theme stats
     sessionsToday totalFocusTime lastResetDate
     saved fresh_stats constructed fst snd].

(** *** Loading *)

Lemma _loadSettings_constructed ls :
  let w := _loadSettings (constructed ls) in
  localStorage w = ls ∧ changes w = [] ∧ onSettingsChange (manager w) = false
  ∧ settings (manager w)
    = match ls !! STATS with
      | Some v =>
          match JSON_parse v with
          | Some o => read_settings ls o
          | None => defaults
          end
      | None => read_settings ls (stats defaults)
      end.
Proof.
  unfold _loadSettings, constructed, read_settings. simpl.
  destruct (ls !! FOCUS_DURATION), (ls !! BREAK_DURATION), (ls !! SOUND_ENABLED),
    (ls !! THEME), (ls !! STATS) as [v|]; simpl;
    try destruct (JSON_parse v); simpl; repeat split.
Qed.

(** [_checkStatsReset] either rolls the statistics over and saves, or does
    nothing. *)
Lemma _checkStatsReset_unfold today w :
  _checkStatsReset today w =
  if date_differs (lastResetDate (stats (settings (manager w)))) today then
    let s := set_stats (fresh_stats today) (settings (manager w)) in
    mkWorld (mkManager s (onSettingsChange (manager w)))
            (saved s (localStorage w)) (changes w) (console w ++ [info; info])
  else w.
Proof.
  unfold _checkStatsReset. destruct (date_differs _ _); [|reflexivity].
  destruct w as [[[f b so th st] cb] ls ch co]. reduce_store.
  rewrite <- app_assoc. reflexivity.
Qed.

Lemma date_differs_true d today : d ≠ Some today -> date_differs d today = true.
Proof.
  destruct d as [d|]; simpl; [|reflexivity]. intros Hd.
  apply negb_true_iff, String.eqb_neq. congruence.
Qed.

Lemma date_differs_same today : date_differs (Some today) today = false.
Proof. simpl. rewrite String.eqb_refl. reflexivity. Qed.

(** Loading the store on the day [today]: with a date that differs the
    statistics are rolled over and the settings are saved, with today's date
    nothing more happens. *)
Lemma new_SettingsManager_unfold ls today :
  let w0 := _loadSettings (constructed ls) in
  let s0 := settings (manager w0) in
  let w := new_SettingsManager ls today in
  if date_differs (lastResetDate (stats s0)) today then
    settings (manager w) = set_stats (fresh_stats today) s0
    ∧ localStorage w = saved (set_stats (fresh_stats today) s0) ls
  else
    settings (manager w) = s0 ∧ localStorage w = ls.
Proof.
  intros w0 s0 w. subst w. unfold new_SettingsManager, _init.
  fold (constructed ls). fold w0. rewrite _checkStatsReset_unfold. fold s0.
  destruct (_loadSettings_constructed ls) as (Hls & _). fold w0 in Hls.
  destruct (date_differs _ _); simpl; rewrite ?Hls; split; reflexivity.
Qed.

Lemma new_SettingsManager_rollover ls today :
  let s0 := settings (manager (_loadSettings (constructed ls))) in
  date_differs (lastResetDate (stats s0)) today = true ->
  settings (manager (new_SettingsManager ls today)) = set_stats (fresh_stats today) s0
  ∧ localStorage (new_SettingsManager ls today) = saved (set_stats (fresh_stats today) s0) ls.
Proof.
  intros s0 Hd. pose proof (new_SettingsManager_unfold ls today) as Hn.
  cbv zeta in Hn. fold s0 in Hn. rewrite Hd in Hn. exact Hn.
Qed.

Lemma new_SettingsManager_same_day ls today :
  let s0 := settings (manager (_loadSettings (constructed ls))) in
  date_differs (lastResetDate (stats s0)) today = false ->
  settings (manager (new_SettingsManager ls today)) = s0
  ∧ localStorage (new_SettingsManager ls today) = ls.
Proof.
  intros s0 Hd. pose proof (new_SettingsManager_unfold ls today) as Hn.
  cbv zeta in Hn. fold s0 in Hn. rewrite Hd in Hn. exact Hn.
Qed.

(** The console of a load: the line of [_loadSettings()], an error when
    [JSON.parse] threw; the line of [_saveSettings()] and the line of the
    rollover when the statistics are rolled over; the line of [_init()]. *)
Lemma new_SettingsManager_console ls today :
  let w0 := _loadSettings (constructed ls) in
  console (new_SettingsManager ls today)
  = match ls !! STATS with
    | Some v => match JSON_parse v with Some _ => [info] | None => [error] end
    | None => [info]
    end
    ++ (if date_differs (lastResetDate (stats (settings (manager w0)))) today
        then [info; info; info] else [info]).
Proof.
  intros w0. unfold new_SettingsManager, _init. fold (constructed ls). fold w0.
  rewrite _checkStatsReset_unfold.
  assert (Hc : console w0
               = match ls !! STATS with
                 | Some v => match JSON_parse v with Some _ => [info] | None => [error] end
                 | None => [info]
                 end).
  { subst w0. unfold _loadSettings, constructed. simpl.
    destruct (ls !! FOCUS_DURATION), (ls !! BREAK_DURATION), (ls !! SOUND_ENABLED),
      (ls !! THEME), (ls !! STATS) as [v|]; simpl;
      try destruct (JSON_parse v); reflexivity. }
  destruct (date_differs _ _); simpl; rewrite Hc, <- ?app_assoc; reflexivity.
Qed.

(** When the constructor returns, throws, or returns statistics of another
    shape. *)
Lemma constructor_cases ls today :
  (constructor ls today = returns (new_SettingsManager ls today)
   <-> ls !! STATS = None ∨ exists t, ls !! STATS = Some t ∧ JSON_parse_other t = None)
  ∧ (constructor ls today = throws_TypeError
     <-> exists t, ls !! STATS = Some t ∧ JSON_parse_other t = Some null_or_primitive)
  ∧ (constructor ls today
     = (let s := read_settings ls (stats defaults) in
        returns_other_statistics (focusDuration s) (breakDuration s) (soundEnabled s)
                                 (theme s))
     <-> exists t, ls !! STATS = Some t ∧ JSON_parse_other t = Some other_object)
  ∧ (forall w, constructor ls today = returns w -> w = new_SettingsManager ls today)
  ∧ (forall f b so th, constructor ls today = returns_other_statistics f b so th ->
       f = from_option parseInt (Num 25) (ls !! FOCUS_DURATION)
       ∧ b = from_option parseInt (Num 5) (ls !! BREAK_DURATION)
       ∧ so = from_option (fun v => String.eqb v "true") true (ls !! SOUND_ENABLED)
       ∧ th = default "dark" (ls !! THEME)).
Proof.
  unfold constructor. cbv zeta.
  destruct (ls !! STATS) as [t|]; [destruct (JSON_parse_other t) as [[|]|] eqn:E|].
  - split; [|split; [|split; [|split]]].
    + split; [discriminate|]. intros [Hn | [t' [Ht' Hp]]]; congruence.
    + split; [intros _; exists t; auto | reflexivity].
    + split; [discriminate|]. intros [t' [Ht' Hp]]. congruence.
    + discriminate.
    + discriminate.
  - split; [|split; [|split; [|split]]].
    + split; [discriminate|]. intros [Hn | [t' [Ht' Hp]]]; congruence.
    + split; [discriminate|]. intros [t' [Ht' Hp]]. congruence.
    + split; [intros _; exists t; auto | reflexivity].
    + discriminate.
    + intros f b so th Hc. injection Hc as <- <- <- <-. repeat split.
  - split; [|split; [|split; [|split]]].
    + split; [intros _; right; exists t; auto | reflexivity].
    + split; [discriminate|]. intros [t' [Ht' Hp]]. congruence.
    + split; [discriminate|]. intros [t' [Ht' Hp]]. congruence.
    + intros w Hw. congruence.
    + discriminate.
  - split; [|split; [|split; [|split]]].
    + split; [intros _; left; reflexivity | reflexivity].
    + split; [discriminate|]. intros [t' [Ht' Hp]]. congruence.
    + split; [discriminate|]. intros [t' [Ht' Hp]]. congruence.
    + intros w Hw. congruence.
    + discriminate.
Qed.

(** What the manager holds that the constructor returns. *)
Lemma new_SettingsManager_defaults ls today :
  let s := settings (manager (new_SettingsManager ls today)) in
  let parses := forall t, ls !! STATS = Some t -> JSON_parse t ≠ None in
  (ls !! FOCUS_DURATION = None -> focusDuration s = Num 25)
  ∧ (ls !! BREAK_DURATION = None -> breakDuration s = Num 5)
  ∧ (ls !! SOUND_ENABLED = None -> soundEnabled s = true)
  ∧ (ls !! THEME = None -> theme s = "dark")
  ∧ (ls !! STATS = None -> stats s = fresh_stats today)
  ∧ (forall t, ls !! STATS = Some t -> JSON_parse t = None ->
       s = mkSettings (Num 25) (Num 5) true "dark" (fresh_stats today))
  ∧ (ls = ∅ -> s = mkSettings (Num 25) (Num 5) true "dark" (fresh_stats today))
  ∧ (forall v, ls !! FOCUS_DURATION = Some v -> parses -> focusDuration s = parseInt v)
  ∧ (forall v, ls !! BREAK_DURATION = Some v -> parses -> breakDuration s = parseInt v)
  ∧ (forall v, ls !! THEME = Some v -> parses -> theme s = v).
Proof.
  intros s parses. subst s parses.
  pose proof (new_SettingsManager_unfold ls today) as Hn. cbv zeta in Hn.
  destruct (_loadSettings_constructed ls) as (_ & _ & _ & Hs).
  set (s0 := settings (manager (_loadSettings (constructed ls)))) in *.
  assert (Hfields :
    let s := settings (manager (new_SettingsManager ls today)) in
    focusDuration s = focusDuration s0 ∧ breakDuration s = breakDuration s0
    ∧ soundEnabled s = soundEnabled s0 ∧ theme s = theme s0
    ∧ (lastResetDate (stats s0) = None -> stats s = fresh_stats today)).
  { destruct (date_differs (lastResetDate (stats s0)) today) eqn:E;
      destruct Hn as [-> _]; simpl; repeat split.
    intros Hd. rewrite Hd in E. discriminate E. }
  cbv zeta in Hfields. destruct Hfields as (Hf & Hb & Hso & Ht & Hst).
  assert (Hdef : s0 = defaults ->
    settings (manager (new_SettingsManager ls today))
    = mkSettings (Num 25) (Num 5) true "dark" (fresh_stats today)).
  { intros Hd. rewrite Hd in *.
    destruct (settings (manager (new_SettingsManager ls today))) as [a b c d e].
    simpl in *. rewrite Hf, Hb, Hso, Ht, Hst; reflexivity. }
  rewrite Hf, Hb, Hso, Ht.
  repeat split.
  - intros Hk. rewrite Hs.
    destruct (ls !! STATS) as [v|]; [destruct (JSON_parse v)|]; simpl; rewrite ?Hk; reflexivity.
  - intros Hk. rewrite Hs.
    destruct (ls !! STATS) as [v|]; [destruct (JSON_parse v)|]; simpl; rewrite ?Hk; reflexivity.
  - intros Hk. rewrite Hs.
    destruct (ls !! STATS) as [v|]; [destruct (JSON_parse v)|]; simpl; rewrite ?Hk; reflexivity.
  - intros Hk. rewrite Hs.
    destruct (ls !! STATS) as [v|]; [destruct (JSON_parse v)|]; simpl; rewrite ?Hk; reflexivity.
  - intros Hk. apply Hst. rewrite Hs, Hk. reflexivity.
  - intros t Hk Hp. apply Hdef. rewrite Hs, Hk, Hp. reflexivity.
  - intros ->. apply Hdef. rewrite Hs. reflexivity.
  - intros v Hk Hp. rewrite Hs.
    destruct (ls !! STATS) as [t|]; [specialize (Hp t eq_refl); destruct (JSON_parse t)|];
      simpl; rewrite ?Hk; try reflexivity. congruence.
  - intros v Hk Hp. rewrite Hs.
    destruct (ls !! STATS) as [t|]; [specialize (Hp t eq_refl); destruct (JSON_parse t)|];
      simpl; rewrite ?Hk; try reflexivity. congruence.
  - intros v Hk Hp. rewrite Hs.
    destruct (ls !! STATS) as [t|]; [specialize (Hp t eq_refl); destruct (JSON_parse t)|];
      simpl; rewrite ?Hk; try reflexivity. congruence.
Qed.



(** C4, amended. The constructor returns a store when the statistics text is
    absent, is not valid JSON or is the JSON of a statistics object.  The
    store it returns holds the default of every field whose key is absent
    (25, 5, sound on, dark, zero counters), every default when the
    statistics text does not parse, and exactly the defaults for an empty
    store; in each case the statistics are dated today.  A duration or theme
    text that is present is not checked: unless the statistics text fails to
    parse, the duration is [parseInt] of its text and the theme is its text.
    When the statistics text is valid JSON for [null], a number, a string or
    a boolean, the constructor throws a [TypeError] and no store is loaded.
    When it is the JSON of an array or of an object of another shape, the
    four plain settings are loaded in the same way: the default for an
    absent key, the text as it is read for a key that is present. *)
Theorem load_falls_back_to_defaults ls today :
  (constructor ls today = throws_TypeError
   <-> exists t, ls !! STATS = Some t ∧ JSON_parse_other t = Some null_or_primitive)
  ∧ (constructor ls today = returns (new_SettingsManager ls today)
     <-> ls !! STATS = None ∨ exists t, ls !! STATS = Some t ∧ JSON_parse_other t = None)
  ∧ ((exists f b so th, constructor ls today = returns_other_statistics f b so th)
     <-> exists t, ls !! STATS = Some t ∧ JSON_parse_other t = Some other_object)
  ∧ (ls = ∅ -> constructor ls today = returns (new_SettingsManager ls today))
  ∧ (forall w, constructor ls today = returns w ->
       let s := settings (manager w) in
       let parses := forall t, ls !! STATS = Some t -> JSON_parse t ≠ None in
       (ls !! FOCUS_DURATION = None -> focusDuration s = Num 25)
       ∧ (ls !! BREAK_DURATION = None -> breakDuration s = Num 5)
       ∧ (ls !! SOUND_ENABLED = None -> soundEnabled s = true)
       ∧ (ls !! THEME = None -> theme s = "dark")
       ∧ (ls !! STATS = None -> stats s = fresh_stats today)
       ∧ (forall t, ls !! STATS = Some t -> JSON_parse t = None ->
            s = mkSettings (Num 25) (Num 5) true "dark" (fresh_stats today))
       ∧ (ls = ∅ -> s = mkSettings (Num 25) (Num 5) true "dark" (fresh_stats today))
       ∧ (forall v, ls !! FOCUS_DURATION = Some v -> parses -> focusDuration s = parseInt v)
       ∧ (forall v, ls !! BREAK_DURATION = Some v -> parses -> breakDuration s = parseInt v)
       ∧ (forall v, ls !! THEME = Some v -> parses -> theme s = v))
  ∧ (forall f b so th, constructor ls today = returns_other_statistics f b so th ->
       (ls !! FOCUS_DURATION = None -> f = Num 25)
       ∧ (ls !! BREAK_DURATION = None -> b = Num 5)
       ∧ (ls !! SOUND_ENABLED = None -> so = true)
       ∧ (ls !! THEME = None -> th = "dark")
       ∧ (forall v, ls !! FOCUS_DURATION = Some v -> f = parseInt v)
       ∧ (forall v, ls !! BREAK_DURATION = Some v -> b = parseInt v)
       ∧ (forall v, ls !! SOUND_ENABLED = Some v -> so = String.eqb v "true")
       ∧ (forall v, ls !! THEME = Some v -> th = v)).
Proof.
  destruct (constructor_cases ls today) as (Hret & Hthrow & Hother & Hw & Hfour).
  split; [exact Hthrow|]. split; [exact Hret|]. split; [|split; [|split]].
  - split.
    + intros (f & b & so & th & Hc). apply Hother.
      destruct (Hfour f b so th Hc) as (-> & -> & -> & ->). exact Hc.
    + intros Ht. apply Hother in Ht. cbv zeta in Ht. eauto.
  - intros ->. apply Hret. left. apply lookup_empty.
  - intros w Hc. rewrite (Hw w Hc). exact (new_SettingsManager_defaults ls today).
  - intros f b so th Hc. destruct (Hfour f b so th Hc) as (-> & -> & -> & ->).
    repeat split; try (intros Hk; rewrite Hk; reflexivity);
      intros v Hk; rewrite Hk; reflexivity.
Qed.


(** *** The date of the last reset *)

Lemma saved_lookup_STATS s ls :
  saved s ls !! STATS = Some (JSON_stringify (stats s)).
Proof. unfold saved. apply lookup_insert_eq. Qed.

(** No call on a loaded store looks at the date: the date of the last reset
    stays what the load left. *)
Lemma step_keeps_lastResetDate c w :
  lastResetDate (stats (settings (manager (step c w))))
  = lastResetDate (stats (settings (manager w))).
Proof.
  destruct w as [[[f b so th st] cb] ls ch co].
  destruct c; unfold step, setFocusDuration, setBreakDuration, setSoundEnabled,
    setTheme, incrementSessions, addFocusTime; reduce_store;
    repeat (match goal with
            | |- context [if ?b then _ else _] => destruct b
            end; reduce_store); reflexivity.
Qed.

Lemma run_keeps_lastResetDate cs w :
  lastResetDate (stats (settings (manager (run cs w))))
  = lastResetDate (stats (settings (manager w))).
Proof.
  revert w. induction cs as [|c cs IH]; intros w; [reflexivity|].
  simpl. rewrite IH. apply step_keeps_lastResetDate.
Qed.

(** *** The range checks *)

(** A duration that is a finite number passes the check of a setter exactly
    when it lies between 1 and the bound. *)
Lemma range_check_finite q hi :
  num_lt (Num q) (Num 1) || num_gt (Num q) (Num hi) = false <-> (1 <= q <= hi)%Q.
Proof.
  unfold num_gt. rewrite orb_false_iff, !num_lt_false. tauto.
Qed.

(** [NaN] compares false with everything, so it passes both checks. *)
Lemma range_check_NaN hi :
  num_lt NaN (Num 1) || num_gt NaN (Num hi) = false.
Proof. reflexivity. Qed.

(** What the two duration setters do once the check is passed or failed. *)
Lemma store_setFocusDuration_unfold minutes w :
  setFocusDuration minutes w =
  if num_lt minutes (Num 1) || num_gt minutes (Num 120)
  then (false, console_write error w)
  else
    let s := set_focusDuration minutes (settings (manager w)) in
    (true,
     mkWorld (mkManager s (onSettingsChange (manager w)))
             (saved s (localStorage w))
             (changes w ++ (if onSettingsChange (manager w)
                            then [Change "focusDuration" (number_value minutes)
                                         (number_value (focusDuration (settings (manager w))))]
                            else []))
             (console w ++ [info])).
Proof.
  unfold setFocusDuration. destruct (_ || _); [reflexivity|].
  destruct w as [[[f b so th st] cb] ls ch co]. reduce_store.
  destruct cb; rewrite ?app_nil_r; reflexivity.
Qed.

Lemma store_setBreakDuration_unfold minutes w :
  setBreakDuration minutes w =
  if num_lt minutes (Num 1) || num_gt minutes (Num 30)
  then (false, console_write error w)
  else
    let s := set_breakDuration minutes (settings (manager w)) in
    (true,
     mkWorld (mkManager s (onSettingsChange (manager w)))
             (saved s (localStorage w))
             (changes w ++ (if onSettingsChange (manager w)
                            then [Change "breakDuration" (number_value minutes)
                                         (number_value (breakDuration (settings (manager w))))]
                            else []))
             (console w ++ [info])).
Proof.
  unfold setBreakDuration. destruct (_ || _); [reflexivity|].
  destruct w as [[[f b so th st] cb] ls ch co]. reduce_store.
  destruct cb; rewrite ?app_nil_r; reflexivity.
Qed.

(** For finite numbers the setters do what is asked of them: outside the
    range they fail and change neither the settings, nor the storage, nor the
    calls made; inside it they succeed, store the value, save and notify. *)
Lemma store_setFocusDuration_finite q w :
  ((q < 1 ∨ 120 < q)%Q ->
     fst (setFocusDuration (Num q) w) = false
     ∧ manager (snd (setFocusDuration (Num q) w)) = manager w
     ∧ localStorage (snd (setFocusDuration (Num q) w)) = localStorage w
     ∧ changes (snd (setFocusDuration (Num q) w)) = changes w)
  ∧ ((1 <= q <= 120)%Q ->
     let s := set_focusDuration (Num q) (settings (manager w)) in
     fst (setFocusDuration (Num q) w) = true
     ∧ settings (manager (snd (setFocusDuration (Num q) w))) = s
     ∧ localStorage (snd (setFocusDuration (Num q) w)) = saved s (localStorage w)
     ∧ changes (snd (setFocusDuration (Num q) w))
       = changes w ++ (if onSettingsChange (manager w)
                       then [Change "focusDuration" (number_value (Num q))
                                    (number_value (focusDuration (settings (manager w))))]
                       else [])).
Proof.
  rewrite store_setFocusDuration_unfold. split.
  - intros Hout.
    destruct (num_lt (Num q) (Num 1) || num_gt (Num q) (Num 120)) eqn:E.
    + repeat split.
    + apply range_check_finite in E. lra.
  - intros Hin. apply range_check_finite in Hin. rewrite Hin. repeat split.
Qed.

Lemma store_setBreakDuration_finite q w :
  ((q < 1 ∨ 30 < q)%Q ->
     fst (setBreakDuration (Num q) w) = false
     ∧ manager (snd (setBreakDuration (Num q) w)) = manager w
     ∧ localStorage (snd (setBreakDuration (Num q) w)) = localStorage w
     ∧ changes (snd (setBreakDuration (Num q) w)) = changes w)
  ∧ ((1 <= q <= 30)%Q ->
     let s := set_breakDuration (Num q) (settings (manager w)) in
     fst (setBreakDuration (Num q) w) = true
     ∧ settings (manager (snd (setBreakDuration (Num q) w))) = s
     ∧ localStorage (snd (setBreakDuration (Num q) w)) = saved s (localStorage w)
     ∧ changes (snd (setBreakDuration (Num q) w))
       = changes w ++ (if onSettingsChange (manager w)
                       then [Change "breakDuration" (number_value (Num q))
                                    (number_value (breakDuration (settings (manager w))))]
                       else [])).
Proof.
  rewrite store_setBreakDuration_unfold. split.
  - intros Hout.
    destruct (num_lt (Num q) (Num 1) || num_gt (Num q) (Num 30)) eqn:E.
    + repeat split.
    + apply range_check_finite in E. lra.
  - intros Hin. apply range_check_finite in Hin. rewrite Hin. repeat split.
Qed.

(** C5, the failing input. [NaN] is outside [1,120] and outside [1,30], yet
    both setters accept it: they return [true], store [NaN], save it and
    notify the change. *)
Theorem setters_accept_NaN w :
  let wf := snd (setFocusDuration NaN w) in
  let wb := snd (setBreakDuration NaN w) in
  fst (setFocusDuration NaN w) = true
  ∧ focusDuration (settings (manager wf)) = NaN
  ∧ localStorage wf !! FOCUS_DURATION = Some (Number_toString NaN)
  ∧ changes wf
    = changes w ++ (if onSettingsChange (manager w)
                    then [Change "focusDuration" (number_value NaN)
                                 (number_value (focusDuration (settings (manager w))))]
                    else [])
  ∧ fst (setBreakDuration NaN w) = true
  ∧ breakDuration (settings (manager wb)) = NaN
  ∧ localStorage wb !! BREAK_DURATION = Some (Number_toString NaN)
  ∧ changes wb
    = changes w ++ (if onSettingsChange (manager w)
                    then [Change "breakDuration" (number_value NaN)
                                 (number_value (breakDuration (settings (manager w))))]
                    else []).
Proof.
  intros wf wb. subst wf wb.
  rewrite store_setFocusDuration_unfold, store_setBreakDuration_unfold, !range_check_NaN.
  cbv zeta. unfold saved. simpl.
  repeat split; rewrite !lookup_insert_ne by discriminate; apply lookup_insert_eq.
Qed.


(** *** The other setters *)

Lemma setTheme_unfold theme' w :
  setTheme theme' w =
  if negb (String.eqb theme' "dark") && negb (String.eqb theme' "light")
  then (false, console_write error w)
  else
    let s := set_theme theme' (settings (manager w)) in
    (true,
     mkWorld (mkManager s (onSettingsChange (manager w)))
             (saved s (localStorage w))
             (changes w ++ (if onSettingsChange (manager w)
                            then [Change "theme" (string_value theme')
                                         (string_value (theme (settings (manager w))))]
                            else []))
             (console w ++ [info])).
Proof.
  unfold setTheme. destruct (_ && _); [reflexivity|].
  destruct w as [[[f b so th st] cb] ls ch co]. reduce_store.
  destruct cb; rewrite ?app_nil_r; reflexivity.
Qed.

Lemma setSoundEnabled_unfold enabled w :
  setSoundEnabled enabled w =
  let s := set_soundEnabled enabled (settings (manager w)) in
  (true,
   mkWorld (mkManager s (onSettingsChange (manager w)))
           (saved s (localStorage w))
           (changes w ++ (if onSettingsChange (manager w)
                          then [Change "soundEnabled" (boolean_value enabled)
                                       (boolean_value (soundEnabled (settings (manager w))))]
                          else []))
           (console w ++ [info])).
Proof.
  unfold setSoundEnabled.
  destruct w as [[[f b so th st] cb] ls ch co]. reduce_store.
  destruct cb; rewrite ?app_nil_r; reflexivity.
Qed.

Lemma incrementSessions_unfold w :
  incrementSessions w =
  let s := set_stats (set_sessionsToday (num_inc (sessionsToday (stats (settings (manager w)))))
                                        (stats (settings (manager w))))
                     (settings (manager w)) in
  mkWorld (mkManager s (onSettingsChange (manager w)))
          (saved s (localStorage w)) (changes w) (console w ++ [info; info]).
Proof.
  unfold incrementSessions.
  destruct w as [[[f b so th st] cb] ls ch co]. reduce_store.
  rewrite <- app_assoc. reflexivity.
Qed.

Lemma addFocusTime_unfold minutes w :
  addFocusTime minutes w =
  let s := set_stats (set_totalFocusTime
                        (num_add (totalFocusTime (stats (settings (manager w)))) minutes)
                        (stats (settings (manager w))))
                     (settings (manager w)) in
  mkWorld (mkManager s (onSettingsChange (manager w)))
          (saved s (localStorage w)) (changes w) (console w ++ [info; info]).
Proof.
  unfold addFocusTime.
  destruct w as [[[f b so th st] cb] ls ch co]. reduce_store.
  rewrite <- app_assoc. reflexivity.
Qed.

(** X11. [setTheme] accepts [dark] and [light] and nothing else: any other
    string is refused with [false] and an error line, and settings, storage
    and calls stay as they were; an accepted theme is stored, saved and
    notified with the old one.  [setSoundEnabled] has no check and always
    succeeds. *)
Theorem setTheme_validates theme' w :
  (theme' ≠ "dark" -> theme' ≠ "light" ->
     fst (setTheme theme' w) = false
     ∧ manager (snd (setTheme theme' w)) = manager w
     ∧ localStorage (snd (setTheme theme' w)) = localStorage w
     ∧ changes (snd (setTheme theme' w)) = changes w
     ∧ console (snd (setTheme theme' w)) = console w ++ [error])
  ∧ (theme' = "dark" ∨ theme' = "light" ->
     let s := set_theme theme' (settings (manager w)) in
     fst (setTheme theme' w) = true
     ∧ settings (manager (snd (setTheme theme' w))) = s
     ∧ localStorage (snd (setTheme theme' w)) = saved s (localStorage w)
     ∧ localStorage (snd (setTheme theme' w)) !! THEME = Some theme'
     ∧ changes (snd (setTheme theme' w))
       = changes w ++ (if onSettingsChange (manager w)
                       then [Change "theme" (string_value theme')
                                    (string_value (theme (settings (manager w))))]
                       else []))
  ∧ (forall enabled,
       fst (setSoundEnabled enabled w) = true
       ∧ soundEnabled (settings (manager (snd (setSoundEnabled enabled w)))) = enabled
       ∧ localStorage (snd (setSoundEnabled enabled w)) !! SOUND_ENABLED
         = Some (Boolean_toString enabled)).
Proof.
  rewrite setTheme_unfold. split; [|split].
  - intros Hd Hl. apply String.eqb_neq in Hd, Hl. rewrite Hd, Hl. repeat split.
  - intros Hv.
    replace (negb (theme' =? "dark") && negb (theme' =? "light")) with false
      by (destruct Hv as [-> | ->]; reflexivity).
    cbv zeta. simpl. repeat split.
    unfold saved. rewrite lookup_insert_ne by discriminate. apply lookup_insert_eq.
  - intros enabled. rewrite setSoundEnabled_unfold. cbv zeta. simpl. repeat split.
    unfold saved. rewrite !lookup_insert_ne by discriminate. apply lookup_insert_eq.
Qed.

(** *** Storage and memory *)

Lemma saved_lookup s ls :
  saved s ls !! FOCUS_DURATION = Some (Number_toString (focusDuration s))
  ∧ saved s ls !! BREAK_DURATION = Some (Number_toString (breakDuration s))
  ∧ saved s ls !! SOUND_ENABLED = Some (Boolean_toString (soundEnabled s))
  ∧ saved s ls !! THEME = Some (theme s)
  ∧ saved s ls !! STATS = Some (JSON_stringify (stats s)).
Proof.
  unfold saved. repeat split;
    rewrite ?lookup_insert_ne by discriminate; apply lookup_insert_eq.
Qed.

Lemma saved_lookup_other s ls k :
  k ≠ FOCUS_DURATION -> k ≠ BREAK_DURATION -> k ≠ SOUND_ENABLED -> k ≠ THEME -> k ≠ STATS ->
  saved s ls !! k = ls !! k.
Proof.
  intros. unfold saved. rewrite !lookup_insert_ne by congruence. reflexivity.
Qed.

(** Saving overwrites what an earlier save wrote. *)
Lemma saved_saved s s' ls : saved s (saved s' ls) = saved s ls.
Proof.
  apply map_eq. intros k.
  destruct (saved_lookup s (saved s' ls)) as (A1 & A2 & A3 & A4 & A5).
  destruct (saved_lookup s ls) as (B1 & B2 & B3 & B4 & B5).
  destruct (decide (k = FOCUS_DURATION)) as [->|]; [congruence|].
  destruct (decide (k = BREAK_DURATION)) as [->|]; [congruence|].
  destruct (decide (k = SOUND_ENABLED)) as [->|]; [congruence|].
  destruct (decide (k = THEME)) as [->|]; [congruence|].
  destruct (decide (k = STATS)) as [->|]; [congruence|].
  rewrite !saved_lookup_other by assumption. reflexivity.
Qed.

(** A call either leaves settings and storage alone or saves the settings it
    leaves. *)
Lemma step_saves_or_skips c w :
  (settings (manager (step c w)) = settings (manager w)
   ∧ localStorage (step c w) = localStorage w)
  ∨ localStorage (step c w) = saved (settings (manager (step c w))) (localStorage w).
Proof.
  destruct c; unfold step.
  - rewrite store_setFocusDuration_unfold. destruct (_ || _); simpl; auto.
  - rewrite store_setBreakDuration_unfold. destruct (_ || _); simpl; auto.
  - rewrite setSoundEnabled_unfold. simpl; auto.
  - rewrite setTheme_unfold. destruct (_ && _); simpl; auto.
  - rewrite incrementSessions_unfold. simpl; auto.
  - rewrite addFocusTime_unfold. simpl; auto.
  - simpl; auto.
Qed.

(** A call that is refused leaves the manager, the storage and the calls made
    to the callback alone; one that is not leaves the settings it is asked
    for, and a method saves them. *)
Lemma step_refused c w :
  refused c = true ->
  manager (step c w) = manager w ∧ localStorage (step c w) = localStorage w
  ∧ changes (step c w) = changes w.
Proof.
  destruct c; unfold refused, step; try discriminate; intros Hc.
  - rewrite store_setFocusDuration_unfold, Hc. repeat split.
  - rewrite store_setBreakDuration_unfold, Hc. repeat split.
  - rewrite setTheme_unfold, Hc. repeat split.
Qed.

Lemma step_accepted c w :
  refused c = false ->
  settings (manager (step c w)) = applied c (settings (manager w))
  ∧ onSettingsChange (manager (step c w))
    = match c with
      | assign_onSettingsChange b => b
      | _ => onSettingsChange (manager w)
      end
  ∧ localStorage (step c w)
    = if is_method c then saved (applied c (settings (manager w))) (localStorage w)
      else localStorage w.
Proof.
  destruct c; unfold refused, step, applied, is_method; intros Hc.
  - rewrite store_setFocusDuration_unfold, Hc. repeat split.
  - rewrite store_setBreakDuration_unfold, Hc. repeat split.
  - rewrite setSoundEnabled_unfold. repeat split.
  - rewrite setTheme_unfold, Hc. repeat split.
  - rewrite incrementSessions_unfold. repeat split.
  - rewrite addFocusTime_unfold. repeat split.
  - repeat split.
Qed.

Lemma saved_in_sync w s ls :
  settings (manager w) = s -> localStorage w = saved s ls -> in_sync w.
Proof.
  intros Hs Hl. unfold in_sync. rewrite Hs, Hl, saved_saved. reflexivity.
Qed.

Lemma step_in_sync c w :
  (settings (manager (step c w)) = settings (manager w)
   ∧ localStorage (step c w) = localStorage w)
  ∨ in_sync (step c w).
Proof.
  destruct (step_saves_or_skips c w) as [Hskip | Hsave]; [left; exact Hskip|].
  right. exact (saved_in_sync _ _ _ eq_refl Hsave).
Qed.

Lemma run_in_sync cs w : in_sync w -> in_sync (run cs w).
Proof.
  revert w. induction cs as [|c cs IH]; intros w Hw; [exact Hw|].
  simpl. apply IH. destruct (step_in_sync c w) as [[Hs Hl] | Hsync]; [|exact Hsync].
  unfold in_sync. rewrite Hs, Hl. exact Hw.
Qed.

Lemma in_sync_lookup w :
  in_sync w ->
  localStorage w !! FOCUS_DURATION
  = Some (Number_toString (focusDuration (settings (manager w))))
  ∧ localStorage w !! BREAK_DURATION
    = Some (Number_toString (breakDuration (settings (manager w))))
  ∧ localStorage w !! SOUND_ENABLED
    = Some (Boolean_toString (soundEnabled (settings (manager w))))
  ∧ localStorage w !! THEME = Some (theme (settings (manager w)))
  ∧ localStorage w !! STATS = Some (JSON_stringify (stats (settings (manager w)))).
Proof. intros Hw. unfold in_sync in Hw. rewrite Hw. apply saved_lookup. Qed.

Lemma rollover_in_sync ls today :
  date_differs (lastResetDate (stats (settings (manager (_loadSettings (constructed ls))))))
               today = true ->
  in_sync (new_SettingsManager ls today).
Proof.
  intros Hd. destruct (new_SettingsManager_rollover ls today Hd) as [Hs Hl].
  exact (saved_in_sync _ _ _ Hs Hl).
Qed.

(** X12. A call that is refused (a duration that fails the range check, a
    theme other than [dark] and [light]) touches neither the settings, nor
    the storage, nor the callback.  A call that is not refused leaves the
    settings it is asked for and, being a method, leaves the five entries of
    [localStorage] exactly these settings.  So a store that is in step with
    its storage stays so whatever is called, and a load that rolls the
    statistics over leaves it in step. *)
Theorem storage_follows_memory :
  (forall c w, refused c = true ->
     manager (step c w) = manager w
     ∧ localStorage (step c w) = localStorage w
     ∧ changes (step c w) = changes w)
  ∧ (forall c w, refused c = false ->
       settings (manager (step c w)) = applied c (settings (manager w))
       ∧ (is_method c = true ->
            localStorage (step c w)
            = saved (applied c (settings (manager w))) (localStorage w)
            ∧ in_sync (step c w))
       ∧ (is_method c = false -> localStorage (step c w) = localStorage w))
  ∧ (forall c w,
       (settings (manager (step c w)) = settings (manager w)
        ∧ localStorage (step c w) = localStorage w)
       ∨ in_sync (step c w))
  ∧ (forall cs w, in_sync w -> in_sync (run cs w))
  ∧ (forall w, in_sync w ->
       localStorage w !! FOCUS_DURATION
       = Some (Number_toString (focusDuration (settings (manager w))))
       ∧ localStorage w !! BREAK_DURATION
         = Some (Number_toString (breakDuration (settings (manager w))))
       ∧ localStorage w !! SOUND_ENABLED
         = Some (Boolean_toString (soundEnabled (settings (manager w))))
       ∧ localStorage w !! THEME = Some (theme (settings (manager w)))
       ∧ localStorage w !! STATS = Some (JSON_stringify (stats (settings (manager w)))))
  ∧ (forall ls today,
       date_differs (lastResetDate (stats (settings (manager (_loadSettings (constructed ls))))))
                    today = true ->
       in_sync (new_SettingsManager ls today)).
Proof.
  split; [exact step_refused|]. split.
  { intros c w Hc. destruct (step_accepted c w Hc) as (Hs & _ & Hl).
    split; [exact Hs|]. split.
    - intros Hm. rewrite Hm in Hl. split; [exact Hl|].
      exact (saved_in_sync _ _ _ Hs Hl).
    - intros Hm. rewrite Hm in Hl. exact Hl. }
  split; [exact step_in_sync|]. split; [exact run_in_sync|].
  split; [exact in_sync_lookup | exact rollover_in_sync].
Qed.

(** *** Statistics *)

Lemma step_stats c w :
  stats (settings (manager (step c w)))
  = match c with
    | call_incrementSessions =>
        set_sessionsToday (num_inc (sessionsToday (stats (settings (manager w)))))
                          (stats (settings (manager w)))
    | call_addFocusTime m =>
        set_totalFocusTime (num_add (totalFocusTime (stats (settings (manager w)))) m)
                           (stats (settings (manager w)))
    | _ => stats (settings (manager w))
    end.
Proof.
  destruct c; unfold step.
  - rewrite store_setFocusDuration_unfold. destruct (_ || _); reflexivity.
  - rewrite store_setBreakDuration_unfold. destruct (_ || _); reflexivity.
  - rewrite setSoundEnabled_unfold. reflexivity.
  - rewrite setTheme_unfold. destruct (_ && _); reflexivity.
  - rewrite incrementSessions_unfold. reflexivity.
  - rewrite addFocusTime_unfold. reflexivity.
  - reflexivity.
Qed.

(** X13. Over any sequence of calls the sessions counted today grow by one
    for each [incrementSessions], the focus time grows by the minutes of each
    [addFocusTime] in turn, and no setter, accepted or refused, touches
    either; with whole numbers the two are the sums. *)
Theorem statistics_add_up cs w :
  let o := stats (settings (manager w)) in
  let o' := stats (settings (manager (run cs w))) in
  sessionsToday o' = Nat.iter (sessions_added cs) num_inc (sessionsToday o)
  ∧ totalFocusTime o' = fold_left num_add (minutes_added cs) (totalFocusTime o)
  ∧ (forall z, is_Z (sessionsToday o) z ->
       is_Z (sessionsToday o') (z + Z.of_nat (sessions_added cs)))
  ∧ (sessions_added cs = O -> sessionsToday o' = sessionsToday o)
  ∧ (minutes_added cs = [] -> totalFocusTime o' = totalFocusTime o).
Proof.
  intros o o'. subst o o'.
  assert (Hs : forall cs w, sessionsToday (stats (settings (manager (run cs w))))
               = Nat.iter (sessions_added cs) num_inc
                          (sessionsToday (stats (settings (manager w))))).
  { clear. intros cs. induction cs as [|c cs IH]; intros w; [reflexivity|].
    simpl run. rewrite IH, step_stats.
    destruct c; simpl sessions_added; try reflexivity.
    rewrite Nat.iter_succ_r. reflexivity. }
  assert (Ht : forall cs w, totalFocusTime (stats (settings (manager (run cs w))))
               = fold_left num_add (minutes_added cs)
                           (totalFocusTime (stats (settings (manager w))))).
  { clear. intros cs. induction cs as [|c cs IH]; intros w; [reflexivity|].
    simpl run. rewrite IH, step_stats.
    destruct c; simpl minutes_added; reflexivity. }
  split; [apply Hs|]. split; [apply Ht|]. split; [|split].
  - intros z Hz. rewrite Hs. clear Hs Ht.
    induction (sessions_added cs) as [|n IH].
    + simpl. rewrite Z.add_0_r. exact Hz.
    + simpl. destruct (Nat.iter n num_inc _) as [|q]; [contradiction|].
      unfold is_Z, num_inc in *. rewrite IH.
      rewrite Nat2Z.inj_succ, <- Z.add_1_r, Z.add_assoc, !inject_Z_plus. reflexivity.
  - intros E. rewrite Hs, E. reflexivity.
  - intros E. rewrite Ht, E. reflexivity.
Qed.

(** *** Loading what was saved *)

(** X14. One statistics entry that does not parse costs every stored
    preference: the load falls back to the defaults and, the defaults
    carrying no date, saves them over the stored durations, sound setting and
    theme. *)
Theorem broken_statistics_erase_preferences ls today t :
  ls !! STATS = Some t -> JSON_parse t = None ->
  let w := new_SettingsManager ls today in
  let d := mkSettings (Num 25) (Num 5) true "dark" (fresh_stats today) in
  settings (manager w) = d
  ∧ localStorage w = saved d ls
  ∧ localStorage w !! FOCUS_DURATION = Some (Number_toString (Num 25))
  ∧ localStorage w !! BREAK_DURATION = Some (Number_toString (Num 5))
  ∧ localStorage w !! SOUND_ENABLED = Some "true"
  ∧ localStorage w !! THEME = Some "dark"
  ∧ localStorage w !! STATS = Some (JSON_stringify (fresh_stats today)).
Proof.
  intros Hk Hp w d.
  assert (Hs0 : settings (manager (_loadSettings (constructed ls))) = defaults).
  { destruct (_loadSettings_constructed ls) as (_ & _ & _ & Hs).
    rewrite Hk, Hp in Hs. exact Hs. }
  destruct (new_SettingsManager_rollover ls today) as [Hs Hl].
  { rewrite Hs0. reflexivity. }
  fold w in Hs, Hl. rewrite Hs0 in Hs, Hl.
  change (set_stats (fresh_stats today) defaults) with d in Hs, Hl.
  split; [exact Hs|]. split; [exact Hl|].
  rewrite Hl. apply (saved_lookup d ls).
Qed.

(** X15. What [_saveSettings] writes is what the next load reads, when the
    host reads back the two durations and the statistics it wrote: on the
    day of the last reset the settings come back as they were and nothing is
    written; on another day they come back with the statistics rolled over,
    and are saved again. *)
Theorem saved_settings_load_back s ls today :
  parseInt (Number_toString (focusDuration s)) = focusDuration s ->
  parseInt (Number_toString (breakDuration s)) = breakDuration s ->
  JSON_parse (JSON_stringify (stats s)) = Some (stats s) ->
  let w := new_SettingsManager (saved s ls) today in
  (lastResetDate (stats s) = Some today ->
     settings (manager w) = s ∧ localStorage w = saved s ls)
  ∧ (lastResetDate (stats s) ≠ Some today ->
     settings (manager w) = set_stats (fresh_stats today) s
     ∧ localStorage w = saved (set_stats (fresh_stats today) s) ls).
Proof.
  intros Hf Hb Hj w.
  assert (Hs0 : settings (manager (_loadSettings (constructed (saved s ls)))) = s).
  { destruct (_loadSettings_constructed (saved s ls)) as (_ & _ & _ & Hs).
    destruct (saved_lookup s ls) as (A1 & A2 & A3 & A4 & A5).
    rewrite A5, Hj in Hs. rewrite Hs. unfold read_settings.
    rewrite A1, A2, A3, A4. simpl. rewrite Hf, Hb.
    destruct s as [f b so th st]. simpl. destruct so; reflexivity. }
  split.
  - intros Hd. destruct (new_SettingsManager_same_day (saved s ls) today) as [H1 H2].
    + rewrite Hs0, Hd. apply date_differs_same.
    + fold w in H1, H2. rewrite Hs0 in H1. split; assumption.
  - intros Hd. destruct (new_SettingsManager_rollover (saved s ls) today) as [H1 H2].
    + rewrite Hs0. apply date_differs_true, Hd.
    + fold w in H1, H2. rewrite Hs0 in H1, H2. rewrite saved_saved in H2.
      split; assumption.
Qed.

(** *** The daily rollover *)

(** A load on the day the statistics carry reads them as they are, whatever
    the counters, and writes nothing. *)
Lemma same_day_load ls today v o :
  ls !! STATS = Some v -> JSON_parse v = Some o -> lastResetDate o = Some today ->
  settings (manager (new_SettingsManager ls today)) = read_settings ls o
  ∧ localStorage (new_SettingsManager ls today) = ls
  ∧ console (new_SettingsManager ls today) = [info; info].
Proof.
  intros Hk Hp Hd.
  assert (Hs0 : settings (manager (_loadSettings (constructed ls))) = read_settings ls o).
  { destruct (_loadSettings_constructed ls) as (_ & _ & _ & Hs).
    rewrite Hk, Hp in Hs. exact Hs. }
  assert (Hsame : date_differs
                    (lastResetDate (stats (settings (manager (_loadSettings (constructed ls))))))
                    today = false).
  { rewrite Hs0. simpl. rewrite Hd. apply date_differs_same. }
  destruct (new_SettingsManager_same_day ls today Hsame) as [H1 H2].
  split; [rewrite H1; exact Hs0|]. split; [exact H2|].
  pose proof (new_SettingsManager_console ls today) as Hc. cbv zeta in Hc.
  rewrite Hsame, Hk, Hp in Hc. exact Hc.
Qed.

(** C8. When the stored statistics carry a date other than today's, loading
    the store zeroes both counters, dates the statistics today, leaves the
    other settings as read and saves the settings.  A load on the day the
    stored statistics carry changes nothing and saves nothing, whatever the
    counters: the second load after a rollover, a load of any store dated
    today, and a load of what the first load and the calls made since have
    left, which brings back the sessions and minutes counted in between.
    The calls made on the loaded store never touch the date, the check
    being made by the load alone.  The host is asked to read back the
    statistics it has written. *)
Theorem daily_rollover ls today v o :
  ls !! STATS = Some v -> JSON_parse v = Some o -> lastResetDate o ≠ Some today ->
  JSON_parse (JSON_stringify (fresh_stats today)) = Some (fresh_stats today) ->
  let w1 := new_SettingsManager ls today in
  let w2 := new_SettingsManager (localStorage w1) today in
  stats (settings (manager w1)) = fresh_stats today
  ∧ localStorage w1 = saved (settings (manager w1)) ls
  ∧ localStorage w1 !! STATS = Some (JSON_stringify (fresh_stats today))
  ∧ stats (settings (manager w2)) = stats (settings (manager w1))
  ∧ localStorage w2 = localStorage w1
  ∧ (forall cs, lastResetDate (stats (settings (manager (run cs w1)))) = Some today)
  ∧ settings (manager w1) = set_stats (fresh_stats today) (read_settings ls o)
  ∧ console w1 = [info; info; info; info]
  ∧ console w2 = [info; info]
  ∧ (JSON_parse_other v = None -> constructor ls today = returns w1)
  ∧ (forall ls' v' o',
       ls' !! STATS = Some v' -> JSON_parse v' = Some o' ->
       lastResetDate o' = Some today ->
       let w := new_SettingsManager ls' today in
       settings (manager w) = read_settings ls' o'
       ∧ stats (settings (manager w)) = o'
       ∧ localStorage w = ls'
       ∧ console w = [info; info]
       ∧ (JSON_parse_other v' = None -> constructor ls' today = returns w))
  ∧ (forall cs,
       let w := run cs w1 in
       JSON_parse (JSON_stringify (stats (settings (manager w))))
       = Some (stats (settings (manager w))) ->
       let w3 := new_SettingsManager (localStorage w) today in
       stats (settings (manager w3)) = stats (settings (manager w))
       ∧ localStorage w3 = localStorage w
       ∧ console w3 = [info; info]).
Proof.
  intros Hk Hp Hd Hround w1 w2.
  (* the first load *)
  assert (Hs0 : settings (manager (_loadSettings (constructed ls))) = read_settings ls o).
  { destruct (_loadSettings_constructed ls) as (_ & _ & _ & Hs).
    rewrite Hk, Hp in Hs. exact Hs. }
  assert (Hdiff : date_differs
                    (lastResetDate (stats (settings (manager (_loadSettings (constructed ls))))))
                    today = true).
  { rewrite Hs0. apply date_differs_true, Hd. }
  destruct (new_SettingsManager_rollover ls today Hdiff) as [Hs1 Hls1].
  fold w1 in Hs1, Hls1.
  assert (Hst1 : stats (settings (manager w1)) = fresh_stats today)
    by (rewrite Hs1; reflexivity).
  assert (Hsaved : localStorage w1 = saved (settings (manager w1)) ls)
    by (rewrite Hls1, Hs1; reflexivity).
  assert (Hk1 : localStorage w1 !! STATS = Some (JSON_stringify (fresh_stats today)))
    by (rewrite Hsaved, saved_lookup_STATS, Hst1; reflexivity).
  assert (Hsync1 : in_sync w1) by (apply rollover_in_sync, Hdiff).
  (* the second load *)
  destruct (same_day_load (localStorage w1) today _ (fresh_stats today) Hk1 Hround eq_refl)
    as (Hs2 & Hls2 & Hc2).
  fold w2 in Hs2, Hls2, Hc2.
  split; [exact Hst1|].
  split; [exact Hsaved|].
  split; [exact Hk1|].
  split; [rewrite Hs2, Hst1; reflexivity|].
  split; [exact Hls2|].
  split; [intros cs; rewrite run_keeps_lastResetDate, Hst1; reflexivity|].
  split; [rewrite Hs1, Hs0; reflexivity|].
  split.
  { pose proof (new_SettingsManager_console ls today) as Hc. cbv zeta in Hc.
    rewrite Hdiff, Hk, Hp in Hc. exact Hc. }
  split; [exact Hc2|].
  split.
  { intros Ho. apply (constructor_cases ls today). right. exists v. auto. }
  split.
  - intros ls' v' o' Hk' Hp' Hd' w.
    destruct (same_day_load ls' today v' o' Hk' Hp' Hd') as (A & B & C).
    fold w in A, B, C.
    split; [exact A|]. split; [rewrite A; reflexivity|].
    split; [exact B|]. split; [exact C|].
    intros Ho. apply (constructor_cases ls' today). right. exists v'. auto.
  - intros cs w Hj w3.
    assert (Hsync : in_sync w) by (apply run_in_sync, Hsync1).
    destruct (in_sync_lookup w Hsync) as (_ & _ & _ & _ & Hst).
    assert (Hdate : lastResetDate (stats (settings (manager w))) = Some today).
    { subst w. rewrite run_keeps_lastResetDate, Hst1. reflexivity. }
    destruct (same_day_load (localStorage w) today _ _ Hst Hj Hdate) as (A & B & C).
    fold w3 in A, B, C.
    split; [rewrite A; reflexivity|]. split; [exact B | exact C].
Qed.
End StoreProofs.

(** *** Examples with the sample host *)

Section StoreExamples.
Import Store.

(** C4, counterexample. A store whose focus duration is the text [abc] loads
    [NaN], not 25, and a store whose theme is the text [blue] loads [blue],
    not [dark]; the constructor returns in both cases. *)
Lemma load_corrupt_counterexample :
  constructor (H := sample_host) letters_for_focus today_string
  = returns (new_SettingsManager (H := sample_host) letters_for_focus today_string)
  ∧ focusDuration (settings (manager
      (new_SettingsManager (H := sample_host) letters_for_focus today_string))) = NaN
  ∧ NaN ≠ Num 25
  ∧ constructor (H := sample_host) unknown_theme today_string
    = returns (new_SettingsManager (H := sample_host) unknown_theme today_string)
  ∧ theme (settings (manager
      (new_SettingsManager (H := sample_host) unknown_theme today_string))) = "blue"
  ∧ "blue" ≠ "dark".
Proof.
  split; [reflexivity|].
  split; [vm_compute; reflexivity|].
  split; [discriminate|].
  split; [reflexivity|].
  split; [vm_compute; reflexivity | discriminate].
Qed.

Lemma load_falls_back_to_defaults_witness :
  constructor (H := sample_host) broken_stats today_string
  = returns (new_SettingsManager (H := sample_host) broken_stats today_string)
  ∧ settings (manager (new_SettingsManager (H := sample_host) broken_stats today_string))
    = mkSettings (Num 25) (Num 5) true "dark" (fresh_stats today_string)
  ∧ constructor (H := sample_host) null_stats today_string = throws_TypeError
  ∧ constructor (H := sample_host) number_for_stats today_string = throws_TypeError.
Proof.
  assert (Hk : broken_stats !! STATS = Some "{oops") by (vm_compute; reflexivity).
  assert (Hp : JSON_parse (Host := sample_host) "{oops" = None) by (vm_compute; reflexivity).
  assert (Ho : JSON_parse_other (Host := sample_host) "{oops" = None)
    by (vm_compute; reflexivity).
  assert (Hn : exists t, null_stats !! STATS = Some t
                 ∧ JSON_parse_other (Host := sample_host) t = Some null_or_primitive)
    by (exists "null"; split; vm_compute; reflexivity).
  assert (H5 : exists t, number_for_stats !! STATS = Some t
                 ∧ JSON_parse_other (Host := sample_host) t = Some null_or_primitive)
    by (exists "5"; split; vm_compute; reflexivity).
  destruct (load_falls_back_to_defaults (H := sample_host) broken_stats today_string)
    as (_ & Hret & _ & _ & Hfields & _).
  destruct (load_falls_back_to_defaults (H := sample_host) null_stats today_string)
    as (Hthrow & _).
  destruct (load_falls_back_to_defaults (H := sample_host) number_for_stats today_string)
    as (Hthrow5 & _).
  assert (Hc : constructor (H := sample_host) broken_stats today_string
               = returns (new_SettingsManager (H := sample_host) broken_stats today_string)).
  { apply Hret. right. exists "{oops". split; assumption. }
  destruct (Hfields _ Hc) as (_ & _ & _ & _ & _ & Hbroken & _).
  split; [exact Hc|].
  split; [exact (Hbroken "{oops" Hk Hp)|].
  split; [apply Hthrow, Hn | apply Hthrow5, H5].
Defined.

Lemma daily_rollover_witness :
  stats (settings (manager (new_SettingsManager (H := sample_host) stale_storage today_string)))
  = fresh_stats today_string
  ∧ stats (settings (manager
             (new_SettingsManager (H := sample_host) todays_storage today_string)))
    = mkStats (Num 3) (Num 90) (Some today_string)
  ∧ localStorage (new_SettingsManager (H := sample_host) todays_storage today_string)
    = todays_storage.
Proof.
  pose (o := mkStats (Num 3) (Num 90) (Some yesterday_string)).
  pose (o' := mkStats (Num 3) (Num 90) (Some today_string)).
  assert (Hk : stale_storage !! STATS = Some (JSON_stringify (Host := sample_host) o))
    by (vm_compute; reflexivity).
  assert (Hp : JSON_parse (Host := sample_host) (JSON_stringify (Host := sample_host) o) = Some o)
    by (vm_compute; reflexivity).
  assert (Hd : lastResetDate o ≠ Some today_string) by (vm_compute; discriminate).
  assert (Hround : JSON_parse (Host := sample_host)
                     (JSON_stringify (Host := sample_host) (fresh_stats today_string))
                   = Some (fresh_stats today_string)) by (vm_compute; reflexivity).
  assert (Hk' : todays_storage !! STATS = Some (JSON_stringify (Host := sample_host) o'))
    by (vm_compute; reflexivity).
  assert (Hp' : JSON_parse (Host := sample_host) (JSON_stringify (Host := sample_host) o')
                = Some o') by (vm_compute; reflexivity).
  assert (Hd' : lastResetDate o' = Some today_string) by reflexivity.
  destruct (daily_rollover (H := sample_host) stale_storage today_string _ o
                           Hk Hp Hd Hround)
    as (H1 & _ & _ & _ & _ & _ & _ & _ & _ & _ & Hsame & _).
  destruct (Hsame todays_storage _ o' Hk' Hp' Hd') as (_ & A & B & _).
  split; [exact H1|]. split; [exact A | exact B].
Defined.


Lemma setTheme_validates_witness :
  fst (setTheme (H := sample_host) "blue"
         (new_SettingsManager (H := sample_host) ∅ today_string)) = false
  ∧ fst (setTheme (H := sample_host) "light"
           (new_SettingsManager (H := sample_host) ∅ today_string)) = true.
Proof.
  set (w := new_SettingsManager (H := sample_host) ∅ today_string).
  assert (Hd : "blue" ≠ "dark") by discriminate.
  assert (Hl : "blue" ≠ "light") by discriminate.
  assert (Hv : "light" = "dark" ∨ "light" = "light") by (right; reflexivity).
  destruct (setTheme_validates (H := sample_host) "blue" w) as (H1 & _).
  destruct (setTheme_validates (H := sample_host) "light" w) as (_ & H2 & _).
  split; [exact (proj1 (H1 Hd Hl)) | exact (proj1 (H2 Hv))].
Defined.

Lemma storage_follows_memory_witness :
  in_sync (H := sample_host)
    (run (H := sample_host) [call_setTheme "light"; call_incrementSessions]
         (new_SettingsManager (H := sample_host) ∅ today_string)).
Proof.
  destruct (storage_follows_memory (H := sample_host)) as (_ & _ & _ & Hrun & _ & Hload).
  apply Hrun. apply Hload. vm_compute. reflexivity.
Defined.

Lemma statistics_add_up_witness :
  is_Z (sessionsToday (stats (settings (manager
          (run (H := sample_host)
               [call_incrementSessions; call_setTheme "blue"; call_incrementSessions]
               (new_SettingsManager (H := sample_host) ∅ today_string))))))
       (0 + Z.of_nat 2).
Proof.
  set (w := new_SettingsManager (H := sample_host) ∅ today_string).
  assert (Hz : is_Z (sessionsToday (stats (settings (manager w)))) 0)
    by (vm_compute; reflexivity).
  destruct (statistics_add_up (H := sample_host)
              [call_incrementSessions; call_setTheme "blue"; call_incrementSessions] w)
    as (_ & _ & H & _).
  exact (H 0%Z Hz).
Defined.

Lemma broken_statistics_erase_preferences_witness :
  localStorage (new_SettingsManager (H := sample_host) broken_stats today_string)
    !! FOCUS_DURATION = Some "25".
Proof.
  assert (Hk : broken_stats !! STATS = Some "{oops") by (vm_compute; reflexivity).
  assert (Hp : JSON_parse (Host := sample_host) "{oops" = None) by (vm_compute; reflexivity).
  destruct (broken_statistics_erase_preferences (H := sample_host)
              broken_stats today_string "{oops" Hk Hp) as (_ & _ & H & _).
  exact H.
Defined.

Lemma saved_settings_load_back_witness :
  settings (manager (new_SettingsManager (H := sample_host)
                       (saved (H := sample_host) settings_with_NaN ∅) today_string))
  = settings_with_NaN.
Proof.
  assert (Hf : parseInt (Number_toString (Host := sample_host) (focusDuration settings_with_NaN))
               = focusDuration settings_with_NaN) by (vm_compute; reflexivity).
  assert (Hb : parseInt (Number_toString (Host := sample_host) (breakDuration settings_with_NaN))
               = breakDuration settings_with_NaN) by (vm_compute; reflexivity).
  assert (Hj : JSON_parse (Host := sample_host)
                 (JSON_stringify (Host := sample_host) (stats settings_with_NaN))
               = Some (stats settings_with_NaN)) by (vm_compute; reflexivity).
  assert (Hd : lastResetDate (stats settings_with_NaN) = Some today_string) by reflexivity.
  destruct (saved_settings_load_back (H := sample_host) settings_with_NaN ∅ today_string
              Hf Hb Hj) as (H & _).
  exact (proj1 (H Hd)).
Defined.
End StoreExamples.

(** ** What the page shows *)

Section DisplayProofs.
Import Display.
Context `{Store.Host}.

Example clock_text_examples :
  clock_text 0 = "00:00" ∧ clock_text 65 = "01:05" ∧ clock_text 3599 = "59:59"
  ∧ clock_text 5999 = "99:59" ∧ clock_text 6000 = "100:00".
Proof. repeat split. Qed.

(** Every time below a hundred minutes, checked one by one. *)
Lemma clock_text_reads_back_upto :
  forallb (fun n => reads_back (Z.of_nat n) (clock_text (Z.of_nat n))) (seq 0 (60 * 100))
  = true.
Proof. vm_compute. reflexivity. Qed.

Lemma clock_text_reads_back z :
  (0 <= z < 6000)%Z -> reads_back z (clock_text z) = true.
Proof.
  intros Hz. pose proof clock_text_reads_back_upto as Hall.
  rewrite forallb_forall in Hall. specialize (Hall (Z.to_nat z)).
  rewrite Z2Nat.id in Hall by lia. apply Hall. apply in_seq. lia.
Qed.

(** The minutes and the seconds [formatTime] computes for a whole number of
    seconds. *)
Lemma floor_div60_integer q z :
  (q == inject_Z z)%Q -> exists q', floor_div60 (Num q) = Num q' ∧ (q' == inject_Z (z / 60))%Q.
Proof.
  intros Hq. eexists. split; [reflexivity|].
  rewrite Hq. change 60%Q with (inject_Z 60). rewrite <- Zdiv_Qdiv. reflexivity.
Qed.

Lemma rem60_natural q z :
  (q == inject_Z z)%Q -> (0 <= z)%Z ->
  exists q', rem60 (Num q) = Num q' ∧ (q' == inject_Z (z mod 60))%Q.
Proof.
  intros Hq Hz. eexists. split; [reflexivity|].
  assert (Hpos : (0 <= q / 60)%Q).
  { apply Qle_shift_div_l; [reflexivity|]. rewrite Hq. rewrite Qmult_0_l.
    change 0%Q with (inject_Z 0). rewrite <- Zle_Qle. exact Hz. }
  unfold Qtruncate. apply Qle_bool_iff in Hpos. rewrite Hpos.
  rewrite Hq at 2. change 60%Q with (inject_Z 60) at 2. rewrite <- Zdiv_Qdiv.
  rewrite Hq, (Z.mod_eq z 60) by lia. unfold Z.sub.
  rewrite inject_Z_plus, inject_Z_opp, inject_Z_mult. unfold Qminus. reflexivity.
Qed.

Lemma rem60_last_minute_before_zero q z :
  (q == inject_Z z)%Q -> (-59 <= z <= -1)%Z ->
  exists q', rem60 (Num q) = Num q' ∧ (q' == inject_Z z)%Q.
Proof.
  intros Hq Hz. eexists. split; [reflexivity|].
  assert (Hneg : Qle_bool 0 (q / 60) = false).
  { destruct (Qle_bool 0 (q / 60)) eqn:E; [|reflexivity].
    apply Qle_bool_iff in E.
    assert (Hq0 : (0 <= q)%Q).
    { assert (Eq : (q == q / 60 * 60)%Q) by (field; discriminate).
      rewrite Eq. apply Qmult_le_0_compat; [exact E | discriminate]. }
    rewrite Hq in Hq0. change 0%Q with (inject_Z 0) in Hq0.
    rewrite <- Zle_Qle in Hq0. lia. }
  unfold Qtruncate. rewrite Hneg. unfold Qceiling.
  assert (Hfl : Qfloor (- (q / 60)) = 0%Z).
  { assert (Eq : (- (q / 60) == inject_Z (- z) / inject_Z 60)%Q)
      by (rewrite Hq, inject_Z_opp; field; discriminate).
    rewrite Eq, <- Zdiv_Qdiv. apply Z.div_small. lia. }
  rewrite Hfl. change (inject_Z (- 0)) with 0%Q. rewrite Hq. ring.
Qed.

(** X9. Under a host that writes integers in decimal, [formatTime] of a whole
    number of seconds from 0 up to 99 minutes 59 seconds is five characters
    [MM:SS] that read back as the minutes and the seconds, so two such times
    never look the same; one second below zero and down to 59 below, it
    shows [-1:] followed by the negative seconds. *)
Theorem formatTime_is_a_clock :
  writes_integers_in_decimal ->
  (forall q z, (q == inject_Z z)%Q -> (0 <= z < 6000)%Z ->
     reads_back z (formatTime (Num q)) = true
     ∧ String.length (formatTime (Num q)) = 5%nat)
  ∧ (forall q1 z1 q2 z2,
       (q1 == inject_Z z1)%Q -> (0 <= z1 < 6000)%Z ->
       (q2 == inject_Z z2)%Q -> (0 <= z2 < 6000)%Z ->
       formatTime (Num q1) = formatTime (Num q2) -> z1 = z2)
  ∧ (forall q z, (q == inject_Z z)%Q -> (-59 <= z <= -1)%Z ->
       formatTime (Num q) = "-1:" +:+ padStart 2 "0" (decimal z)).
Proof.
  intros Hhost.
  assert (Htext : forall q z, (q == inject_Z z)%Q -> (0 <= z)%Z ->
                              formatTime (Num q) = clock_text z).
  { intros q z Hq Hz. unfold formatTime, clock_text.
    destruct (floor_div60_integer q z Hq) as (m & -> & Hm).
    destruct (rem60_natural q z Hq Hz) as (s & -> & Hs).
    rewrite (Hhost m _ Hm), (Hhost s _ Hs). reflexivity. }
  assert (Hshape : forall q z, (q == inject_Z z)%Q -> (0 <= z < 6000)%Z ->
                               reads_back z (formatTime (Num q)) = true).
  { intros q z Hq Hz. rewrite (Htext q z Hq) by lia. apply clock_text_reads_back, Hz. }
  split; [|split].
  - intros q z Hq Hz. split; [apply Hshape; assumption|].
    specialize (Hshape q z Hq Hz). unfold reads_back in Hshape.
    destruct (formatTime (Num q)) as [|a [|b [|c [|d [|e [|f s]]]]]];
      try discriminate; reflexivity.
  - intros q1 z1 q2 z2 Hq1 Hz1 Hq2 Hz2 Heq.
    pose proof (Hshape q1 z1 Hq1 Hz1) as H1. pose proof (Hshape q2 z2 Hq2 Hz2) as H2.
    rewrite Heq in H1. unfold reads_back in H1, H2.
    destruct (formatTime (Num q2)) as [|a [|b [|c [|d [|e [|f s]]]]]]; try discriminate.
    destruct (parseInt (String a (String b EmptyString))) as [|m]; [rewrite andb_false_r in H1; discriminate|].
    destruct (parseInt (String d (String e EmptyString))) as [|s]; [rewrite andb_false_r in H1; discriminate|].
    apply andb_prop in H1, H2. destruct H1 as [_ H1], H2 as [_ H2].
    apply andb_prop in H1, H2. destruct H1 as [M1 S1], H2 as [M2 S2].
    apply Qeq_bool_iff in M1, S1, M2, S2.
    assert (E1 : (z1 / 60 = z2 / 60)%Z)
      by (apply inject_Z_injective; rewrite <- M1, <- M2; reflexivity).
    assert (E2 : (z1 mod 60 = z2 mod 60)%Z)
      by (apply inject_Z_injective; rewrite <- S1, <- S2; reflexivity).
    pose proof (Z.div_mod z1 60) as D1. pose proof (Z.div_mod z2 60) as D2. lia.
  - intros q z Hq Hz. unfold formatTime.
    destruct (floor_div60_integer q z Hq) as (m & -> & Hm).
    destruct (rem60_last_minute_before_zero q z Hq Hz) as (s & -> & Hs).
    rewrite (Hhost m _ Hm), (Hhost s _ Hs).
    replace (z / 60)%Z with (-1)%Z by (apply Z.div_unique with (r := (z + 60)%Z); lia).
    reflexivity.
Qed.

(** X10. While [0 <= remaining <= total] and [total > 0], the progress
    [calculateProgress] gives lies between 0 and 100, is 0 exactly when
    nothing has elapsed and 100 exactly when no time is left, grows when the
    remaining time shrinks, and the dash offset of the ring lies between 0
    and its circumference.  A total of 0 gives [NaN] when the remaining time
    is 0 too and an infinity otherwise. *)
Theorem progress_stays_in_range :
  (forall w, Timer.session_inv w ->
     exists p o,
       calculateProgress (Timer.timeLeft (Timer.timer w)) (Timer.totalTime (Timer.timer w))
       = Some (Num p)
       ∧ (0 <= p <= 100)%Q
       ∧ (p == 0 <-> num_eq (Timer.timeLeft (Timer.timer w)) (Timer.totalTime (Timer.timer w)))%Q
       ∧ (p == 100 <-> num_eq (Timer.timeLeft (Timer.timer w)) (Num 0))%Q
       ∧ strokeDashoffset (Num p) = Num o ∧ (0 <= o <= 1130)%Q)
  ∧ (forall l l' t p p', (0 < t)%Q -> (l' < l)%Q ->
       calculateProgress (Num l) (Num t) = Some (Num p) ->
       calculateProgress (Num l') (Num t) = Some (Num p') -> (p < p')%Q)
  ∧ (forall l t, (t == 0)%Q ->
       calculateProgress (Num l) (Num t) = (if Qeq_bool l 0 then Some NaN else None)).
Proof.
  assert (Hnz : forall t, (0 < t)%Q -> Qeq_bool t 0 = false).
  { intros t Ht. destruct (Qeq_bool t 0) eqn:E; [|reflexivity].
    apply Qeq_bool_iff in E. lra. }
  split; [|split].
  - intros w Hinv. unfold Timer.session_inv in Hinv.
    destruct (Timer.timeLeft (Timer.timer w)) as [|l]; [contradiction|].
    destruct (Timer.totalTime (Timer.timer w)) as [|t]; [contradiction|].
    destruct Hinv as (Hl & Hlt & Ht).
    exists ((t - l) / t * 100)%Q, (1130 - (t - l) / t * 100 / 100 * 1130)%Q.
    unfold calculateProgress. rewrite (Hnz t Ht). simpl.
    assert (Hfrac : (0 <= (t - l) / t <= 1)%Q).
    { split.
      - apply Qle_shift_div_l; [exact Ht | lra].
      - apply Qle_shift_div_r; [exact Ht | lra]. }
    assert (Hzero : ((t - l) / t == 0 <-> l == t)%Q).
    { split; intros E.
      - assert (E' : (t - l == (t - l) / t * t)%Q) by (field; lra).
        rewrite E in E'. lra.
      - assert (E0 : (t - l == 0)%Q) by lra. rewrite E0. field. lra. }
    assert (Hone : ((t - l) / t == 1 <-> l == 0)%Q).
    { split; intros E.
      - assert (E' : (t - l == (t - l) / t * t)%Q) by (field; lra).
        rewrite E in E'. lra.
      - assert (E0 : (t - l == t)%Q) by lra. rewrite E0. field. lra. }
    split; [reflexivity|].
    split; [lra|].
    split; [rewrite <- Hzero; split; intros E; lra|].
    split; [rewrite <- Hone; split; intros E; lra|].
    split; [reflexivity|].
    assert (E0 : ((t - l) / t * 100 / 100 * 1130 == (t - l) / t * 1130)%Q) by (field; lra).
    rewrite E0. lra.
  - intros l l' t p p' Ht Hl. unfold calculateProgress. rewrite (Hnz t Ht).
    intros [= <-] [= <-].
    assert (((t - l) / t < (t - l') / t)%Q); [|lra].
    apply Qlt_shift_div_l; [exact Ht|].
    assert (E0 : ((t - l) / t * t == t - l)%Q) by (field; lra). rewrite E0. lra.
  - intros l t Ht. unfold calculateProgress.
    assert (Ht' : Qeq_bool t 0 = true) by (apply Qeq_bool_iff, Ht). rewrite Ht'.
    destruct (Qeq_bool (t - l) 0) eqn:E1, (Qeq_bool l 0) eqn:E2; try reflexivity.
    + apply Qeq_bool_iff in E1. apply Qeq_bool_neq in E2. lra.
    + apply Qeq_bool_iff in E2. apply Qeq_bool_neq in E1. lra.
Qed.

End DisplayProofs.

Section DisplayExamples.
Import Display.

(** The host of the examples writes integers in decimal. *)
Lemma sample_host_writes_integers :
  writes_integers_in_decimal (H := Store.sample_host).
Proof.
  intros q z Hq. unfold Store.Number_toString, Store.sample_host, Store.sample_Number_toString.
  assert (E : Qred q = inject_Z z).
  { rewrite (Qred_complete _ _ Hq). unfold Qred, inject_Z.
    pose proof (Z.ggcd_correct_divisors z 1) as Hd.
    pose proof (Z.ggcd_gcd z 1) as Hg. rewrite Z.gcd_1_r in Hg.
    destruct (Z.ggcd z 1) as (g & a & b). simpl in Hd, Hg |- *. subst g.
    destruct Hd as [Ha Hb].
    replace a with z by lia. replace b with 1%Z by lia. reflexivity. }
  rewrite E. reflexivity.
Qed.

Lemma formatTime_is_a_clock_witness :
  reads_back 65 (formatTime (H := Store.sample_host) (Num 65)) = true
  ∧ String.length (formatTime (H := Store.sample_host) (Num 65)) = 5%nat.
Proof.
  assert (Hq : (65 == inject_Z 65)%Q) by reflexivity.
  assert (Hz : (0 <= 65 < 6000)%Z) by lia.
  destruct (formatTime_is_a_clock (H := Store.sample_host) sample_host_writes_integers)
    as (H & _).
  exact (H 65%Q 65%Z Hq Hz).
Defined.

Lemma progress_stays_in_range_witness :
  exists p o,
    calculateProgress (Timer.timeLeft (Timer.timer Timer.one_second_left))
                      (Timer.totalTime (Timer.timer Timer.one_second_left))
    = Some (Num p)
    ∧ (0 <= p <= 100)%Q
    ∧ (p == 0 <-> num_eq (Timer.timeLeft (Timer.timer Timer.one_second_left))
                         (Timer.totalTime (Timer.timer Timer.one_second_left)))%Q
    ∧ (p == 100 <-> num_eq (Timer.timeLeft (Timer.timer Timer.one_second_left)) (Num 0))%Q
    ∧ strokeDashoffset (Num p) = Num o ∧ (0 <= o <= 1130)%Q.
Proof.
  assert (Hinv : Timer.session_inv Timer.one_second_left).
  { vm_compute. split; [discriminate|]. split; [discriminate | reflexivity]. }
  destruct progress_stays_in_range as (H & _).
  exact (H Timer.one_second_left Hinv).
Defined.

End DisplayExamples.

(** ** The statistics object and the objects that refer to it *)

Section SharedProofs.
Import Shared.
Context `{Store.Host}.

Ltac reduce_shared :=
  cbv beta iota zeta delta
    [this_settings this_stats assign_settings console_write setItem _saveSettings
     _notifyChange call_onSettingsChange copy_of this_settings_stats contents
     set_focusDuration set_breakDuration set_soundEnabled set_theme set_stats
     manager localStorage changes console settings defaults onSettingsChange
     focusDuration breakDuration soundEnabled theme stats
     Store.this_settings Store.this_stats Store.console_write Store.setItem
     Store._saveSettings Store._notifyChange
     Store.set_focusDuration Store.set_breakDuration Store.set_soundEnabled
     Store.set_theme Store.set_stats
     Store.set_sessionsToday Store.set_totalFocusTime Store.set_lastResetDate
     Store.manager Store.localStorage Store.changes Store.console Store.settings
     Store.onSettingsChange
     Store.focusDuration Store.breakDuration Store.soundEnabled Store.theme Store.stats
     Store.sessionsToday Store.totalFocusTime Store.lastResetDate
     lift_change fst snd].

(** Two worlds with the same contents. *)
Ltac same_contents w sw Habs :=
  destruct w as [[d [f b so th r] cb] ls ch co];
  destruct sw as [[[f' b' so' th' st'] cb'] ls' ch' co'];
  destruct Habs as (Hc & Hcb & Hl & Hch & Hco);
  cbv [contents this_settings_stats manager settings defaults onSettingsChange localStorage
       changes console focusDuration breakDuration soundEnabled theme stats
       Store.manager Store.settings Store.onSettingsChange Store.localStorage
       Store.changes Store.console] in Hc, Hcb, Hl, Hch, Hco;
  injection Hc as -> -> -> -> Hst; subst cb' ls' ch co'.

Lemma step_abstracts c w sw :
  abstracts w sw -> abstracts (step (store_call c) w) (Store.step c sw).
Proof.
  intros Habs. same_contents w sw Habs.
  destruct c as [m | m | e | t | | m | i]; unfold step, Store.step.
  - unfold setFocusDuration, Store.setFocusDuration.
    destruct (_ || _); destruct r, cb; subst st'; reduce_shared; unfold abstracts;
      reduce_shared; rewrite ?map_app; repeat split.
  - unfold setBreakDuration, Store.setBreakDuration.
    destruct (_ || _); destruct r, cb; subst st'; reduce_shared; unfold abstracts;
      reduce_shared; rewrite ?map_app; repeat split.
  - unfold setSoundEnabled, Store.setSoundEnabled.
    destruct r, cb; subst st'; reduce_shared; unfold abstracts;
      reduce_shared; rewrite ?map_app; repeat split.
  - unfold setTheme, Store.setTheme.
    destruct (_ && _); destruct r, cb; subst st'; reduce_shared; unfold abstracts;
      reduce_shared; rewrite ?map_app; repeat split.
  - unfold incrementSessions, Store.incrementSessions.
    destruct r; subst st'; reduce_shared; unfold abstracts; reduce_shared; repeat split.
  - unfold addFocusTime, Store.addFocusTime.
    destruct r; subst st'; reduce_shared; unfold abstracts; reduce_shared; repeat split.
  - destruct r; subst st'; unfold abstracts; reduce_shared; repeat split.
Qed.

Lemma run_abstracts cs w sw :
  abstracts w sw -> abstracts (run (map store_call cs) w) (Store.run cs sw).
Proof.
  revert w sw. induction cs as [|c cs IH]; intros w sw Habs; [exact Habs|].
  simpl. apply IH, step_abstracts, Habs.
Qed.

Lemma _loadSettings_abstracts ls :
  abstracts (_loadSettings (constructed ls)) (Store._loadSettings (Store.constructed ls)).
Proof.
  unfold _loadSettings, Store._loadSettings, constructed, Store.constructed.
  cbv [localStorage Store.localStorage].
  destruct (ls !! Store.FOCUS_DURATION), (ls !! Store.BREAK_DURATION),
    (ls !! Store.SOUND_ENABLED), (ls !! Store.THEME), (ls !! Store.STATS) as [v|];
    try destruct (Store.JSON_parse v);
    unfold abstracts; reduce_shared; repeat split.
Qed.

Lemma _checkStatsReset_abstracts today w sw :
  abstracts w sw -> abstracts (_checkStatsReset today w) (Store._checkStatsReset today sw).
Proof.
  intros Habs. same_contents w sw Habs.
  unfold _checkStatsReset, Store._checkStatsReset.
  destruct r; subst st'; reduce_shared;
    destruct (Store.date_differs _ _); unfold abstracts; reduce_shared; repeat split.
Qed.

Lemma console_write_abstracts l w sw :
  abstracts w sw -> abstracts (console_write l w) (Store.console_write l sw).
Proof.
  intros Habs. same_contents w sw Habs.
  destruct r; subst st'; unfold abstracts; reduce_shared; repeat split.
Qed.

Lemma new_SettingsManager_abstracts ls today :
  abstracts (new_SettingsManager ls today) (Store.new_SettingsManager ls today).
Proof.
  unfold new_SettingsManager, Store.new_SettingsManager, _init, Store._init.
  fold (Store.constructed ls).
  apply console_write_abstracts, _checkStatsReset_abstracts, _loadSettings_abstracts.
Qed.


(** X16. As long as neither [resetToDefaults] nor [resetStats] is called,
    sharing the statistics object with [this.defaults] cannot be seen: the
    constructor and every sequence of calls leave the settings with the same
    contents, the same storage, the same change calls and the same console
    lines as a store whose settings hold their statistics by value. *)
Theorem sharing_unseen_without_resets :
  (forall ls today,
     abstracts (new_SettingsManager ls today) (Store.new_SettingsManager ls today))
  ∧ (forall cs w sw,
       abstracts w sw -> abstracts (run (map store_call cs) w) (Store.run cs sw))
  ∧ (forall ls today cs,
       let w := run (map store_call cs) (new_SettingsManager ls today) in
       let sw := Store.run cs (Store.new_SettingsManager ls today) in
       contents w = Store.settings (Store.manager sw)
       ∧ localStorage w = Store.localStorage sw
       ∧ console w = Store.console sw).
Proof.
  split; [exact new_SettingsManager_abstracts|]. split; [exact run_abstracts|].
  intros ls today cs w sw.
  destruct (run_abstracts cs _ _ (new_SettingsManager_abstracts ls today))
    as (Hc & _ & Hl & _ & Hco).
  repeat split; assumption.
Qed.

(** *** What the defaults hold *)

Lemma resetToDefaults_unfold w :
  resetToDefaults w =
  let d := defaults (manager w) in
  let old := settings (manager w) in
  (true,
   mkWorld (mkManager d (copy_of d) (onSettingsChange (manager w)))
           (Store.saved d (localStorage w))
           (changes w ++
            if onSettingsChange (manager w) then
              [Change "focusDuration" (plain (Store.number_value (Store.focusDuration d)))
                      (plain (Store.number_value (focusDuration old)));
               Change "breakDuration" (plain (Store.number_value (Store.breakDuration d)))
                      (plain (Store.number_value (breakDuration old)));
               Change "soundEnabled" (plain (Store.boolean_value (Store.soundEnabled d)))
                      (plain (Store.boolean_value (soundEnabled old)));
               Change "theme" (plain (Store.string_value (Store.theme d)))
                      (plain (Store.string_value (theme old)));
               Change "stats" (stats_object defaults_stats) (stats_object (stats old))]
            else [])
           (console w ++ [info; info])).
Proof.
  destruct w as [[d [f b so th r] cb] ls ch co]. unfold resetToDefaults.
  destruct cb; reduce_shared; unfold Store.saved; reduce_shared;
    rewrite <- ?app_assoc, ?app_nil_r; reflexivity.
Qed.

Lemma resetStats_unfold today w :
  resetStats today w =
  let s := set_stats (own_stats (Store.fresh_stats today)) (settings (manager w)) in
  mkWorld (mkManager (defaults (manager w)) s (onSettingsChange (manager w)))
          (Store.saved (Store.mkSettings (focusDuration s) (breakDuration s) (soundEnabled s)
                                         (theme s) (Store.fresh_stats today))
                       (localStorage w))
          (changes w) (console w ++ [info; info]).
Proof.
  destruct w as [[d [f b so th r] cb] ls ch co]. unfold resetStats.
  reduce_shared. unfold Store.saved. reduce_shared. rewrite <- app_assoc. reflexivity.
Qed.

Ltac sharing_cases :=
  split; [intros Hd; exact Hd|];
  split; [intros E; first [discriminate E | reflexivity]|];
  intros o' E; first [discriminate E | split; [eexists; reflexivity | reflexivity]].

Lemma store_step_sharing c w :
  (plain_defaults w -> plain_defaults (step (store_call c) w))
  ∧ (stats (settings (manager w)) = defaults_stats ->
     stats (settings (manager (step (store_call c) w))) = defaults_stats)
  ∧ (forall o, stats (settings (manager w)) = own_stats o ->
       (exists o', stats (settings (manager (step (store_call c) w))) = own_stats o')
       ∧ Store.stats (defaults (manager (step (store_call c) w)))
         = Store.stats (defaults (manager w))).
Proof.
  destruct w as [[[df db dso dth dst] [f b so th r] cb] ls ch co].
  unfold plain_defaults.
  destruct c as [m | m | e | t | | m | i]; unfold step.
  - unfold setFocusDuration. destruct (_ || _); destruct r, cb; reduce_shared;
      sharing_cases.
  - unfold setBreakDuration. destruct (_ || _); destruct r, cb; reduce_shared;
      sharing_cases.
  - unfold setSoundEnabled. destruct r, cb; reduce_shared;
      sharing_cases.
  - unfold setTheme. destruct (_ && _); destruct r, cb; reduce_shared;
      sharing_cases.
  - unfold incrementSessions. destruct r; reduce_shared;
      sharing_cases.
  - unfold addFocusTime. destruct r; reduce_shared;
      sharing_cases.
  - destruct r; reduce_shared;
      sharing_cases.
Qed.

Lemma store_run_sharing cs w :
  (plain_defaults w -> plain_defaults (run (map store_call cs) w))
  ∧ (stats (settings (manager w)) = defaults_stats ->
     stats (settings (manager (run (map store_call cs) w))) = defaults_stats)
  ∧ (forall o, stats (settings (manager w)) = own_stats o ->
       (exists o', stats (settings (manager (run (map store_call cs) w))) = own_stats o')
       ∧ Store.stats (defaults (manager (run (map store_call cs) w)))
         = Store.stats (defaults (manager w))).
Proof.
  revert w. induction cs as [|c cs IH]; intros w.
  - simpl. split; [intros Hd; exact Hd|]. split; [intros E; exact E|].
    intros o Ho. split; [exists o; exact Ho | reflexivity].
  - simpl. destruct (store_step_sharing c w) as (S1 & S2 & S3).
    destruct (IH (step (store_call c) w)) as (R1 & R2 & R3).
    split; [auto|]. split; [auto|].
    intros o Ho. destruct (S3 o Ho) as ((o1 & Ho1) & Hd).
    destruct (R3 o1 Ho1) as (Hex & Hd'). split; [exact Hex|].
    exact (eq_trans Hd' Hd).
Qed.

Lemma _loadSettings_sharing ls :
  let w := _loadSettings (constructed ls) in
  defaults (manager w) = Store.defaults
  ∧ (stats_parse ls -> exists o, stats (settings (manager w)) = own_stats o)
  ∧ (¬ stats_parse ls -> stats (settings (manager w)) = defaults_stats).
Proof.
  unfold _loadSettings, constructed, stats_parse. cbv [localStorage].
  destruct (ls !! Store.STATS) as [v|].
  - destruct (Store.JSON_parse v) as [o|] eqn:Hp.
    + destruct (ls !! Store.FOCUS_DURATION), (ls !! Store.BREAK_DURATION),
        (ls !! Store.SOUND_ENABLED), (ls !! Store.THEME); reduce_shared;
        (split; [reflexivity|]); (split; [intros _; eexists; reflexivity|]);
        intros Hn; exfalso; apply Hn; eauto.
    + destruct (ls !! Store.FOCUS_DURATION), (ls !! Store.BREAK_DURATION),
        (ls !! Store.SOUND_ENABLED), (ls !! Store.THEME); reduce_shared;
        (split; [reflexivity|]);
        (split; [intros (t' & o' & [= <-] & Ho); rewrite Hp in Ho; discriminate Ho|]);
        intros _; reflexivity.
  - destruct (ls !! Store.FOCUS_DURATION), (ls !! Store.BREAK_DURATION),
      (ls !! Store.SOUND_ENABLED), (ls !! Store.THEME); reduce_shared;
      (split; [reflexivity|]);
      (split; [intros (t' & o' & Ht & _); discriminate Ht|]);
      intros _; reflexivity.
Qed.

Lemma _checkStatsReset_sharing today w :
  (plain_defaults w -> plain_defaults (_checkStatsReset today w))
  ∧ (stats (settings (manager w)) = defaults_stats ->
     stats (settings (manager (_checkStatsReset today w))) = defaults_stats)
  ∧ (forall o, stats (settings (manager w)) = own_stats o ->
       (exists o', stats (settings (manager (_checkStatsReset today w))) = own_stats o')
       ∧ Store.stats (defaults (manager (_checkStatsReset today w)))
         = Store.stats (defaults (manager w))).
Proof.
  destruct w as [[[df db dso dth dst] [f b so th r] cb] ls ch co].
  unfold plain_defaults, _checkStatsReset.
  destruct r; reduce_shared; destruct (Store.date_differs _ _); reduce_shared;
    sharing_cases.
Qed.

(** What the constructor leaves: the statistics object of the defaults,
    unless the stored statistics were parsed. *)
Lemma new_SettingsManager_sharing ls today :
  let w := new_SettingsManager ls today in
  plain_defaults w
  ∧ (stats_parse ls ->
     (exists o, stats (settings (manager w)) = own_stats o)
     ∧ Store.stats (defaults (manager w)) = Store.mkStats (Num 0) (Num 0) None)
  ∧ (¬ stats_parse ls -> stats (settings (manager w)) = defaults_stats).
Proof.
  unfold new_SettingsManager, _init.
  change (manager (console_write info ?x)) with (manager x).
  destruct (_loadSettings_sharing ls) as (L1 & L2 & L3).
  destruct (_checkStatsReset_sharing today (_loadSettings (constructed ls)))
    as (C1 & C2 & C3).
  split; [|split].
  - apply C1. unfold plain_defaults. rewrite L1. repeat split.
  - intros Hp. destruct (L2 Hp) as (o & Ho). destruct (C3 o Ho) as (Hex & Hd).
    split; [exact Hex|]. rewrite L1 in Hd. exact Hd.
  - intros Hn. exact (C2 (L3 Hn)).
Qed.

(** X17. [resetToDefaults] puts back 25, 5, sound on and the dark theme,
    saves, and calls the change callback for the five keys in the order of
    the defaults.  The statistics it puts back are the object of
    [this.defaults.stats]: on a store whose statistics were parsed from
    storage they are the zero counters with no date, but on a store that
    found no statistics it could parse they are the very object the counters
    were kept in, so the sessions and the focus time counted so far stay as
    they were. *)
Theorem resetToDefaults_statistics ls today cs :
  let w := run (map store_call cs) (new_SettingsManager ls today) in
  let w' := snd (resetToDefaults w) in
  fst (resetToDefaults w) = true
  ∧ focusDuration (settings (manager w')) = Num 25
  ∧ breakDuration (settings (manager w')) = Num 5
  ∧ soundEnabled (settings (manager w')) = true
  ∧ theme (settings (manager w')) = "dark"
  ∧ stats (settings (manager w')) = defaults_stats
  ∧ localStorage w' = Store.saved (contents w') (localStorage w)
  ∧ changes w'
    = changes w ++
      (if onSettingsChange (manager w) then
         [Change "focusDuration" (plain (Store.number_value (Num 25)))
                 (plain (Store.number_value (focusDuration (settings (manager w)))));
          Change "breakDuration" (plain (Store.number_value (Num 5)))
                 (plain (Store.number_value (breakDuration (settings (manager w)))));
          Change "soundEnabled" (plain (Store.boolean_value true))
                 (plain (Store.boolean_value (soundEnabled (settings (manager w)))));
          Change "theme" (plain (Store.string_value "dark"))
                 (plain (Store.string_value (theme (settings (manager w)))));
          Change "stats" (stats_object defaults_stats)
                 (stats_object (stats (settings (manager w))))]
       else [])
  ∧ (stats_parse ls -> this_settings_stats w' = Store.mkStats (Num 0) (Num 0) None)
  ∧ (¬ stats_parse ls -> this_settings_stats w' = this_settings_stats w).
Proof.
  intros w w'. subst w'. rewrite resetToDefaults_unfold. cbv zeta.
  destruct (new_SettingsManager_sharing ls today) as (N1 & N2 & N3).
  destruct (store_run_sharing cs (new_SettingsManager ls today)) as (R1 & R2 & R3).
  fold w in R1, R2, R3. specialize (R1 N1). destruct R1 as (D1 & D2 & D3 & D4).
  assert (Hparsed : stats_parse ls ->
                    Store.stats (defaults (manager w)) = Store.mkStats (Num 0) (Num 0) None).
  { intros Hp. destruct (N2 Hp) as ((o & Ho) & Hd).
    destruct (R3 o Ho) as (_ & Hd'). rewrite Hd'. exact Hd. }
  assert (Hshared : ¬ stats_parse ls -> stats (settings (manager w)) = defaults_stats).
  { intros Hn. exact (R2 (N3 Hn)). }
  clearbody w. clear N1 N2 N3 R2 R3.
  destruct w as [[[df db dso dth dst] [f b so th r] cb] lsw ch co].
  simpl in D1, D2, D3, D4, Hparsed, Hshared. subst df db dso dth.
  reduce_shared.
  repeat (split; [reflexivity|]).
  split; [exact Hparsed|].
  intros Hn. rewrite (Hshared Hn). reflexivity.
Qed.

(** X18. [resetStats] gives the settings a statistics object of their own,
    zero and dated today, and saves it; the object of [this.defaults.stats]
    is left as it was.  So a [resetToDefaults] after it brings back what the
    defaults hold: on a store that kept its counters in that object, the
    counters [resetStats] had wiped. *)
Theorem resetStats_undone_by_resetToDefaults today w :
  let w1 := resetStats today w in
  let w2 := snd (resetToDefaults w1) in
  this_settings_stats w1 = Store.fresh_stats today
  ∧ defaults (manager w1) = defaults (manager w)
  ∧ focusDuration (settings (manager w1)) = focusDuration (settings (manager w))
  ∧ breakDuration (settings (manager w1)) = breakDuration (settings (manager w))
  ∧ soundEnabled (settings (manager w1)) = soundEnabled (settings (manager w))
  ∧ theme (settings (manager w1)) = theme (settings (manager w))
  ∧ localStorage w1 = Store.saved (contents w1) (localStorage w)
  ∧ _checkStatsReset today w1 = w1
  ∧ this_settings_stats w2 = Store.stats (defaults (manager w))
  ∧ (stats (settings (manager w)) = defaults_stats ->
     this_settings_stats w2 = this_settings_stats w
     ∧ localStorage w2 !! Store.STATS
       = Some (Store.JSON_stringify (this_settings_stats w))).
Proof.
  intros w1 w2. subst w2 w1. rewrite resetToDefaults_unfold, resetStats_unfold.
  destruct w as [[d [f b so th r] cb] ls ch co]. cbv zeta.
  repeat (split; [reflexivity|]).
  split.
  { unfold _checkStatsReset. reduce_shared. cbv [Store.fresh_stats Store.lastResetDate].
    unfold Store.date_differs. rewrite String.eqb_refl. reflexivity. }
  split; [reflexivity|].
  reduce_shared. intros ->. split; [reflexivity|].
  unfold Store.saved. apply lookup_insert_eq.
Qed.

End SharedProofs.

Section SharedExamples.
Import Shared.

(** A first visit: two sessions are counted, then the defaults are put
    back. *)
Lemma resetToDefaults_statistics_witness :
  this_settings_stats
    (snd (resetToDefaults (H := Store.sample_host)
            (run (H := Store.sample_host)
                 (map store_call [Store.call_incrementSessions; Store.call_incrementSessions])
                 (new_SettingsManager (H := Store.sample_host) ∅ Store.today_string))))
  = this_settings_stats
      (run (H := Store.sample_host)
           (map store_call [Store.call_incrementSessions; Store.call_incrementSessions])
           (new_SettingsManager (H := Store.sample_host) ∅ Store.today_string)).
Proof.
  assert (Hn : ¬ stats_parse (H := Store.sample_host) ∅).
  { intros (t & o & Ht & _). rewrite lookup_empty in Ht. discriminate Ht. }
  destruct (resetToDefaults_statistics (H := Store.sample_host) ∅ Store.today_string
              [Store.call_incrementSessions; Store.call_incrementSessions])
    as (_ & _ & _ & _ & _ & _ & _ & _ & _ & Hkeep).
  exact (Hkeep Hn).
Defined.

Lemma sharing_unseen_without_resets_witness :
  abstracts (run (H := Store.sample_host)
                 (map store_call [Store.call_incrementSessions])
                 (new_SettingsManager (H := Store.sample_host) ∅ Store.today_string))
            (Store.run (H := Store.sample_host) [Store.call_incrementSessions]
                 (Store.new_SettingsManager (H := Store.sample_host) ∅ Store.today_string)).
Proof.
  destruct (sharing_unseen_without_resets (H := Store.sample_host)) as (Hnew & Hrun & _).
  exact (Hrun [Store.call_incrementSessions] _ _ (Hnew ∅ Store.today_string)).
Defined.

Lemma resetStats_undone_by_resetToDefaults_witness :
  this_settings_stats
    (snd (resetToDefaults (H := Store.sample_host)
            (resetStats (H := Store.sample_host) Store.today_string
               (constructed ∅))))
  = this_settings_stats (constructed ∅).
Proof.
  assert (Hs : stats (settings (manager (constructed ∅))) = defaults_stats) by reflexivity.
  destruct (resetStats_undone_by_resetToDefaults (H := Store.sample_host)
              Store.today_string (constructed ∅))
    as (_ & _ & _ & _ & _ & _ & _ & _ & _ & Hback).
  exact (proj1 (Hback Hs)).
Defined.

End SharedExamples.

(** ** The page *)

Section AppProofs.
Import App.
Context `{Store.Host}.

(** *** The timer of the page is the timer *)

Ltac page_simpl :=
  cbn [timer settings ui welcome_scheduled on_timer on_settings on_ui timer_this
       isRunning isPaused timer_mode getSettings].

Lemma timer_on_settings f p : timer (on_settings f p) = timer p.
Proof. reflexivity. Qed.

Lemma timer_on_ui f p : timer (on_ui f p) = timer p.
Proof. reflexivity. Qed.

Lemma timer_on_timer f p : timer (on_timer f p) = f (timer p).
Proof. reflexivity. Qed.

Lemma settings_on_timer f p : settings (on_timer f p) = settings p.
Proof. reflexivity. Qed.

Lemma settings_on_ui f p : settings (on_ui f p) = settings p.
Proof. reflexivity. Qed.

Lemma settings_on_settings f p : settings (on_settings f p) = f (settings p).
Proof. reflexivity. Qed.

Lemma timer__updateStatsDisplay p : timer (_updateStatsDisplay p) = timer p.
Proof. reflexivity. Qed.

Lemma settings__updateStatsDisplay p : settings (_updateStatsDisplay p) = settings p.
Proof. reflexivity. Qed.

Lemma timer_onTick a b m p :
  timer (onTick a b m p) = Timer.call (Timer.Tick a b m) (timer p).
Proof. reflexivity. Qed.

Lemma settings_onTick a b m p : settings (onTick a b m p) = settings p.
Proof. reflexivity. Qed.

Lemma timer_showSessionComplete m p : timer (showSessionComplete m p) = timer p.
Proof. unfold showSessionComplete. destruct (Store.soundEnabled _); reflexivity. Qed.

Lemma settings_showSessionComplete m p : settings (showSessionComplete m p) = settings p.
Proof. unfold showSessionComplete. destruct (Store.soundEnabled _); reflexivity. Qed.

Lemma timer_onComplete m p :
  timer (onComplete m p) = Timer.call (Timer.Complete m) (timer p).
Proof.
  unfold onComplete. destruct (String.eqb m "focus").
  - rewrite timer__updateStatsDisplay, !timer_on_settings, timer_showSessionComplete.
    reflexivity.
  - rewrite timer_showSessionComplete. reflexivity.
Qed.

Lemma timer_if (b : bool) p q :
  timer (if b then p else q) = if b then timer p else timer q.
Proof. destruct b; reflexivity. Qed.

Lemma settings_if (b : bool) p q :
  settings (if b then p else q) = if b then settings p else settings q.
Proof. destruct b; reflexivity. Qed.

Ltac push_timer :=
  unfold timer_this, timer_mode, isRunning, isPaused;
  repeat first
    [ rewrite timer_if | rewrite timer_on_timer | rewrite timer_on_settings
    | rewrite timer_on_ui | rewrite timer_onTick | rewrite timer_onComplete
    | rewrite timer__updateStatsDisplay
    | rewrite timer_showSessionComplete ].

Lemma timer__complete p : timer (_complete p) = Timer._complete (timer p).
Proof. unfold _complete, Timer._complete, onModeChange. push_timer. reflexivity. Qed.

Lemma timer__tick p : timer (_tick p) = Timer._tick (timer p).
Proof.
  unfold _tick, Timer._tick. push_timer. rewrite timer__complete. push_timer. reflexivity.
Qed.

Lemma timer_start p : timer (start p) = Timer.start (timer p).
Proof.
  unfold start, Timer.start. push_timer. rewrite timer__tick. push_timer. reflexivity.
Qed.

Lemma timer_pause p : timer (pause p) = Timer.pause (timer p).
Proof. reflexivity. Qed.

Lemma timer_resume p : timer (resume p) = Timer.resume (timer p).
Proof.
  unfold resume, Timer.resume. push_timer. rewrite timer_start. reflexivity.
Qed.

Lemma timer_reset m p : timer (reset m p) = Timer.reset m (timer p).
Proof.
  unfold reset, Timer.reset.
  destruct (Timer.intervalId (Timer.timer (timer p))) as [h|];
    destruct m as [s|]; try destruct (Timer.truthy (Some s));
    push_timer; reflexivity.
Qed.

Lemma timer_setMode m p : timer (setMode m p) = Timer.setMode m (timer p).
Proof.
  unfold setMode, Timer.setMode, onModeChange, pause. push_timer. reflexivity.
Qed.

Lemma timer_timer_setFocusDuration n p :
  timer (timer_setFocusDuration n p) = Timer.setFocusDuration n (timer p).
Proof.
  unfold timer_setFocusDuration, Timer.setFocusDuration. push_timer. reflexivity.
Qed.

Lemma timer_timer_setBreakDuration n p :
  timer (timer_setBreakDuration n p) = Timer.setBreakDuration n (timer p).
Proof.
  unfold timer_setBreakDuration, Timer.setBreakDuration. push_timer. reflexivity.
Qed.

Lemma fold_onSettingsChange_timer cs p :
  timer (fold_left (fun p c => onSettingsChange c p) cs p) = timer p.
Proof.
  revert p. induction cs as [|[key nv ov] cs IH]; intros p; [reflexivity|].
  simpl. rewrite IH. unfold _applyTheme.
  destruct (String.eqb key "theme"); [|reflexivity].
  destruct (String.eqb _ "light"); reflexivity.
Qed.

Lemma fold_onSettingsChange_settings cs p :
  settings (fold_left (fun p c => onSettingsChange c p) cs p) = settings p.
Proof.
  revert p. induction cs as [|[key nv ov] cs IH]; intros p; [reflexivity|].
  simpl. rewrite IH. unfold _applyTheme.
  destruct (String.eqb key "theme"); [|reflexivity].
  destruct (String.eqb _ "light"); reflexivity.
Qed.

Lemma timer_settings_call f p : timer (settings_call f p) = timer p.
Proof. unfold settings_call. rewrite fold_onSettingsChange_timer. reflexivity. Qed.

Lemma settings_settings_call f p : settings (settings_call f p) = snd (f (settings p)).
Proof. unfold settings_call. rewrite fold_onSettingsChange_settings. reflexivity. Qed.

Lemma timer__applyTheme p : timer (_applyTheme p) = timer p.
Proof. unfold _applyTheme. destruct (String.eqb _ "light"); reflexivity. Qed.

Lemma settings__applyTheme p : settings (_applyTheme p) = settings p.
Proof. unfold _applyTheme. destruct (String.eqb _ "light"); reflexivity. Qed.

Lemma timer__handleStart p :
  timer (_handleStart p)
  = if isRunning p then timer p
    else if isPaused p then Timer.resume (timer p) else Timer.start (timer p).
Proof.
  unfold _handleStart. destruct (isRunning p); [reflexivity|].
  rewrite timer_on_ui, timer_if, timer_resume, timer_start. reflexivity.
Qed.

Lemma timer__handlePause p :
  timer (_handlePause p) = if isRunning p then Timer.pause (timer p) else timer p.
Proof.
  unfold _handlePause. destruct (isRunning p); reflexivity.
Qed.

Lemma timer__saveSettings f b s p :
  timer (_saveSettings f b s p)
  = if num_lt (parseInt f) (Num 1) || num_gt (parseInt f) (Num 120) then timer p
    else if num_lt (parseInt b) (Num 1) || num_gt (parseInt b) (Num 30) then timer p
    else Timer.setBreakDuration (parseInt b) (Timer.setFocusDuration (parseInt f) (timer p)).
Proof.
  unfold _saveSettings. destruct (_ || _); [reflexivity|]. destruct (_ || _); [reflexivity|].
  rewrite timer_timer_setBreakDuration, timer_timer_setFocusDuration, !timer_settings_call.
  reflexivity.
Qed.

(** The calls each handler makes on the timer. *)
Lemma timer_step e p : timer (step e p) = Timer.run (timer_events e p) (timer p).
Proof.
  destruct e; unfold step, timer_events.
  - rewrite timer__handleStart. destruct (isRunning p), (isPaused p); reflexivity.
  - rewrite timer__handlePause. destruct (isRunning p); reflexivity.
  - unfold _handleReset. rewrite timer_on_ui, timer_reset. reflexivity.
  - unfold key_space. destruct (isRunning p) eqn:E.
    + rewrite timer__handlePause, E. reflexivity.
    + rewrite timer__handleStart, E. destruct (isPaused p); reflexivity.
  - unfold _toggleTheme. rewrite timer_on_settings, timer__applyTheme, timer_settings_call.
    reflexivity.
  - rewrite timer__saveSettings. destruct (_ || _); [reflexivity|].
    destruct (_ || _); reflexivity.
  - unfold _handleModalAction. rewrite timer_start, timer_setMode. reflexivity.
  - reflexivity.
  - reflexivity.
  - destruct (welcome_scheduled p); reflexivity.
  - destruct (decide _); [|simpl; destruct (decide _); [contradiction|reflexivity]].
    rewrite timer__tick. simpl. destruct (decide _); [reflexivity|contradiction].
  - unfold toggleMode. rewrite timer_setMode. reflexivity.
  - reflexivity.
Qed.

(** *** The calls the handlers make are never refused *)

Lemma refusals_info c l :
  Forall (eq info) l -> refusals (c ++ l) = refusals c.
Proof.
  intros Hl. unfold refusals. rewrite List.filter_app.
  induction Hl as [|x l <- _ IH]; simpl; [apply app_nil_r | exact IH].
Qed.

Lemma TimerState_eqb_eq a b : Timer.TimerState_eqb a b = true <-> a = b.
Proof. destruct a, b; simpl; split; congruence. Qed.

Lemma TimerState_eqb_neq a b : Timer.TimerState_eqb a b = false <-> a ≠ b.
Proof. destruct a, b; simpl; split; congruence. Qed.

Lemma refusals__tick w :
  refusals (Timer.console (Timer._tick w)) = refusals (Timer.console w).
Proof.
  rewrite _tick_unfold. cbv zeta. destruct (num_le _ _); simpl; [|reflexivity].
  apply refusals_info. repeat constructor.
Qed.

Lemma refusals_start w :
  Timer.state (Timer.timer w) ≠ Timer.RUNNING ->
  refusals (Timer.console (Timer.start w)) = refusals (Timer.console w).
Proof.
  intros Hs. rewrite (start_unfold w Hs), refusals__tick. simpl.
  apply refusals_info. repeat constructor.
Qed.

Lemma refusals_resume w :
  Timer.state (Timer.timer w) = Timer.PAUSED ->
  refusals (Timer.console (Timer.resume w)) = refusals (Timer.console w).
Proof.
  intros Hs. unfold Timer.resume. rewrite Hs. simpl. apply refusals_start. congruence.
Qed.

Lemma refusals_pause w :
  Timer.state (Timer.timer w) = Timer.RUNNING ->
  refusals (Timer.console (Timer.pause w)) = refusals (Timer.console w).
Proof.
  intros Hs. rewrite (pause_unfold w Hs). simpl. apply refusals_info. repeat constructor.
Qed.

Lemma refusals_reset m w :
  refusals (Timer.console (Timer.reset m w)) = refusals (Timer.console w).
Proof. rewrite reset_unfold. simpl. apply refusals_info. repeat constructor. Qed.

Lemma refusals_setMode m w :
  m = "focus" ∨ m = "break" ->
  refusals (Timer.console (Timer.setMode m w)) = refusals (Timer.console w).
Proof.
  intros Hm. rewrite (setMode_unfold m w Hm). simpl. apply refusals_info.
  destruct (Timer.TimerState_eqb _ _); repeat constructor.
Qed.

Lemma refusals_setFocusDuration n w :
  refusals (Timer.console (Timer.setFocusDuration n w)) = refusals (Timer.console w).
Proof.
  rewrite setFocusDuration_unfold. cbv zeta.
  destruct (Timer.stopped_in_mode _ _); simpl; apply refusals_info; repeat constructor.
Qed.

Lemma refusals_setBreakDuration n w :
  refusals (Timer.console (Timer.setBreakDuration n w)) = refusals (Timer.console w).
Proof.
  rewrite setBreakDuration_unfold. cbv zeta.
  destruct (Timer.stopped_in_mode _ _); simpl; apply refusals_info; repeat constructor.
Qed.

Lemma other_mode_valid m :
  (if String.eqb m "focus" then "break" else "focus") = "focus"
  ∨ (if String.eqb m "focus" then "break" else "focus") = "break".
Proof. destruct (String.eqb m "focus"); auto. Qed.

Lemma setMode_not_running m w :
  m = "focus" ∨ m = "break" ->
  Timer.state (Timer.timer (Timer.setMode m w)) ≠ Timer.RUNNING.
Proof.
  intros Hm. rewrite (setMode_unfold m w Hm). simpl.
  destruct (Timer.TimerState_eqb _ _) eqn:E; [discriminate|].
  apply TimerState_eqb_neq, E.
Qed.

(** X19. Whatever the handlers of the page do to the timer they do through
    its public methods, as [timer_events] lists them, and the timer of the
    page is then what the timer alone would be after these calls.  None of
    the calls is one the timer refuses: no handler, interval or global
    function adds a warning or an error to the console of the timer. *)
Theorem handlers_never_refused e p :
  timer (step e p) = Timer.run (timer_events e p) (timer p)
  ∧ refusals (Timer.console (timer (step e p))) = refusals (Timer.console (timer p)).
Proof.
  split; [apply timer_step|]. rewrite timer_step.
  destruct e; unfold timer_events; try reflexivity.
  - unfold isRunning, isPaused.
    destruct (Timer.TimerState_eqb _ Timer.RUNNING) eqn:Er; [reflexivity|].
    destruct (Timer.TimerState_eqb _ Timer.PAUSED) eqn:Ep; cbn [Timer.run fold_left Timer.step].
    + apply refusals_resume, TimerState_eqb_eq, Ep.
    + apply refusals_start, TimerState_eqb_neq, Er.
  - unfold isRunning.
    destruct (Timer.TimerState_eqb _ Timer.RUNNING) eqn:Er; [|reflexivity].
    apply refusals_pause, TimerState_eqb_eq, Er.
  - apply refusals_reset.
  - unfold isRunning, isPaused.
    destruct (Timer.TimerState_eqb _ Timer.RUNNING) eqn:Er.
    { apply refusals_pause, TimerState_eqb_eq, Er. }
    destruct (Timer.TimerState_eqb _ Timer.PAUSED) eqn:Ep; cbn [Timer.run fold_left Timer.step].
    + apply refusals_resume, TimerState_eqb_eq, Ep.
    + apply refusals_start, TimerState_eqb_neq, Er.
  - destruct (_ || _); [reflexivity|]. destruct (_ || _); [reflexivity|].
    cbn [Timer.run fold_left Timer.step]. rewrite refusals_setBreakDuration. apply refusals_setFocusDuration.
  - cbn [Timer.run fold_left Timer.step]. rewrite refusals_start by (apply setMode_not_running, other_mode_valid).
    apply refusals_setMode, other_mode_valid.
  - cbn [Timer.run fold_left Timer.step]. destruct (decide _); [apply refusals__tick | reflexivity].
  - cbn [Timer.run fold_left Timer.step]. apply refusals_setMode, other_mode_valid.
Qed.

(** *** What the methods of the timer leave alone *)

(** The durations and the callbacks of a timer. *)
Lemma _tick_configuration w :
  let t := Timer.timer w in
  let t' := Timer.timer (Timer._tick w) in
  Timer.focusDuration t' = Timer.focusDuration t
  ∧ Timer.breakDuration t' = Timer.breakDuration t
  ∧ Timer.onTick t' = Timer.onTick t
  ∧ Timer.onModeChange t' = Timer.onModeChange t
  ∧ Timer.onComplete t' = Timer.onComplete t
  ∧ Timer.mode t' = Timer.mode t
  ∧ Timer.totalTime t' = Timer.totalTime t.
Proof.
  rewrite _tick_unfold. cbv zeta. destruct (num_le _ _); repeat split.
Qed.

Lemma start_configuration w :
  let t := Timer.timer w in
  let t' := Timer.timer (Timer.start w) in
  Timer.focusDuration t' = Timer.focusDuration t
  ∧ Timer.breakDuration t' = Timer.breakDuration t
  ∧ Timer.onTick t' = Timer.onTick t
  ∧ Timer.onModeChange t' = Timer.onModeChange t
  ∧ Timer.onComplete t' = Timer.onComplete t
  ∧ Timer.mode t' = Timer.mode t
  ∧ Timer.totalTime t' = Timer.totalTime t.
Proof.
  destruct (decide (Timer.state (Timer.timer w) = Timer.RUNNING)) as [Hr|Hr].
  - rewrite (start_running w Hr). repeat split.
  - rewrite (start_unfold w Hr).
    set (w1 := Timer.setInterval _).
    destruct (_tick_configuration w1) as (A & B & C & D & E & F & G).
    cbv zeta in *. rewrite A, B, C, D, E, F, G. subst w1.
    destruct w as [[st md tl tt fd bd id ot om oc] iv nh cl co]. repeat split.
Qed.

Lemma step_configuration e w :
  let t := Timer.timer w in
  let t' := Timer.timer (Timer.step e w) in
  Timer.focusDuration t'
  = match e with
    | Timer.call_setFocusDuration n => num_mul n (Num 60)
    | _ => Timer.focusDuration t
    end
  ∧ Timer.breakDuration t'
    = match e with
      | Timer.call_setBreakDuration n => num_mul n (Num 60)
      | _ => Timer.breakDuration t
      end
  ∧ Timer.onTick t'
    = match e with
      | Timer.assign_callbacks tk _ _ => tk
      | _ => Timer.onTick t
      end
  ∧ Timer.onModeChange t'
    = match e with
      | Timer.assign_callbacks _ mc _ => mc
      | _ => Timer.onModeChange t
      end
  ∧ Timer.onComplete t'
    = match e with
      | Timer.assign_callbacks _ _ cp => cp
      | _ => Timer.onComplete t
      end.
Proof.
  destruct e; cbn [Timer.step].
  - destruct (start_configuration w) as (A & B & C & D & E & _).
    cbv zeta in *. rewrite A, B, C, D, E. repeat split.
  - destruct (decide (Timer.state (Timer.timer w) = Timer.RUNNING)) as [Hr|Hr].
    + rewrite (pause_unfold w Hr). repeat split.
    + rewrite (pause_not_running w Hr). repeat split.
  - unfold Timer.resume. destruct (negb _); [repeat split|].
    destruct (start_configuration w) as (A & B & C & D & E & _).
    cbv zeta in *. rewrite A, B, C, D, E. repeat split.
  - rewrite reset_unfold. repeat split.
  - destruct (valid_mode_dec newMode) as [Hm | [H1 H2]].
    + rewrite (setMode_unfold newMode w Hm). repeat split.
    + rewrite (setMode_invalid newMode w H1 H2). repeat split.
  - rewrite setFocusDuration_unfold. cbv zeta.
    destruct (Timer.stopped_in_mode _ _); repeat split.
  - rewrite setBreakDuration_unfold. cbv zeta.
    destruct (Timer.stopped_in_mode _ _); repeat split.
  - destruct w as [[st md tl tt fd bd id ot om oc] iv nh cl co]. repeat split.
  - destruct (decide _); [|repeat split].
    destruct (_tick_configuration w) as (A & B & C & D & E & _).
    cbv zeta in *. rewrite A, B, C, D, E. repeat split.
Qed.

Lemma run_durations es w :
  Forall (fun e => match e with
                   | Timer.call_setFocusDuration _ | Timer.call_setBreakDuration _
                   | Timer.assign_callbacks _ _ _ => False
                   | _ => True
                   end) es ->
  let t := Timer.timer w in
  let t' := Timer.timer (Timer.run es w) in
  Timer.focusDuration t' = Timer.focusDuration t
  ∧ Timer.breakDuration t' = Timer.breakDuration t
  ∧ Timer.onTick t' = Timer.onTick t
  ∧ Timer.onModeChange t' = Timer.onModeChange t
  ∧ Timer.onComplete t' = Timer.onComplete t.
Proof.
  intros Hes. revert w. induction Hes as [|e es He _ IH]; intros w; [repeat split|].
  cbn [Timer.run fold_left]. specialize (IH (Timer.step e w)).
  change (fold_left _ es (Timer.step e w)) with (Timer.run es (Timer.step e w)).
  cbv zeta in IH. destruct IH as (A & B & C & D & E).
  destruct (step_configuration e w) as (F & G & K1 & K2 & K3). cbv zeta in F, G, K1, K2, K3.
  rewrite A, B, C, D, E, F, G, K1, K2, K3. clear A B C D E F G K1 K2 K3.
  destruct e; try contradiction; repeat split.
Qed.

(** *** What the methods of the timer do to the store and to the interface *)

Lemma ui_if (b : bool) p q : ui (if b then p else q) = if b then ui p else ui q.
Proof. destruct b; reflexivity. Qed.

Lemma ui_on_timer f p : ui (on_timer f p) = ui p.
Proof. reflexivity. Qed.

Lemma ui_on_settings f p : ui (on_settings f p) = ui p.
Proof. reflexivity. Qed.

Lemma ui_on_ui f p : ui (on_ui f p) = f (ui p).
Proof. reflexivity. Qed.

Lemma ui_onTick a b m p :
  ui (onTick a b m p)
  = updateControlButtons (isRunning p) (isPaused p) (updateTimerDisplay a b m (ui p)).
Proof. reflexivity. Qed.

Lemma settings_onComplete m p :
  settings (onComplete m p)
  = if String.eqb m "focus" then count_focus_session (settings p) else settings p.
Proof.
  unfold onComplete. destruct (String.eqb m "focus").
  - rewrite settings__updateStatsDisplay, settings_on_settings.
    unfold getSettings. rewrite !settings_on_settings, settings_showSessionComplete.
    reflexivity.
  - rewrite settings_showSessionComplete. reflexivity.
Qed.

Lemma ui_showSessionComplete m p :
  ui (showSessionComplete m p)
  = announce_completion (Store.soundEnabled (getSettings p)) (ui p).
Proof.
  unfold showSessionComplete, announce_completion.
  change (getSettings (on_ui ?f ?q)) with (getSettings q).
  destruct (Store.soundEnabled _); reflexivity.
Qed.

Lemma ui_onComplete m p :
  ui (onComplete m p)
  = let u := announce_completion (Store.soundEnabled (getSettings p)) (ui p) in
    if String.eqb m "focus" then
      let stats := Store.stats (Store.settings (Store.manager
                                                  (count_focus_session (settings p)))) in
      set_statistics (Store.sessionsToday stats) (Store.totalFocusTime stats) u
    else u.
Proof.
  unfold onComplete. destruct (String.eqb m "focus").
  - unfold _updateStatsDisplay. rewrite ui_on_ui, !ui_on_settings, ui_showSessionComplete.
    unfold getSettings. rewrite !settings_on_settings, settings_showSessionComplete.
    reflexivity.
  - rewrite ui_showSessionComplete. reflexivity.
Qed.

Ltac push_page :=
  unfold timer_this, timer_mode, isRunning, isPaused, getSettings;
  repeat first
    [ rewrite timer_if | rewrite settings_if | rewrite ui_if
    | rewrite timer_on_timer | rewrite timer_on_settings | rewrite timer_on_ui
    | rewrite settings_on_timer | rewrite settings_on_settings | rewrite settings_on_ui
    | rewrite ui_on_timer | rewrite ui_on_settings | rewrite ui_on_ui
    | rewrite timer_onTick | rewrite settings_onTick | rewrite ui_onTick
    | rewrite timer_onComplete | rewrite settings_onComplete | rewrite ui_onComplete ];
  unfold timer_this, timer_mode, isRunning, isPaused, getSettings.

Lemma settings__complete p :
  settings (_complete p)
  = if Timer.onComplete (Timer.timer (timer p))
       && String.eqb (Timer.mode (Timer.timer (timer p))) "focus"
    then count_focus_session (settings p) else settings p.
Proof.
  unfold _complete. push_page.
  destruct p as [[[st md tl tt fd bd id ot om oc] iv nh cl co] sw u ws].
  destruct id, oc; cbn; destruct (String.eqb md "focus"); reflexivity.
Qed.

Lemma ui__complete p :
  ui (_complete p)
  = if Timer.onComplete (Timer.timer (timer p)) then
      let u := announce_completion (Store.soundEnabled (getSettings p)) (ui p) in
      if String.eqb (Timer.mode (Timer.timer (timer p))) "focus" then
        let stats := Store.stats (Store.settings (Store.manager
                                                    (count_focus_session (settings p)))) in
        set_statistics (Store.sessionsToday stats) (Store.totalFocusTime stats) u
      else u
    else ui p.
Proof.
  unfold _complete. push_page.
  destruct p as [[[st md tl tt fd bd id ot om oc] iv nh cl co] sw u ws].
  destruct id, oc; cbn; destruct (String.eqb md "focus"); reflexivity.
Qed.

Lemma settings__tick p :
  settings (_tick p)
  = let t := Timer.timer (timer p) in
    if num_le (num_dec (Timer.timeLeft t)) (Num 0)
       && (Timer.onComplete t && String.eqb (Timer.mode t) "focus")
    then count_focus_session (settings p) else settings p.
Proof.
  unfold _tick. push_page. rewrite settings__complete. push_page.
  destruct p as [[[st md tl tt fd bd id ot om oc] iv nh cl co] sw u ws].
  destruct ot; cbn; destruct (num_le _ _); reflexivity.
Qed.

Lemma ui__tick p :
  ui (_tick p)
  = let t := Timer.timer (timer p) in
    let r := num_dec (Timer.timeLeft t) in
    let u1 := if Timer.onTick t
              then updateControlButtons (isRunning p) (isPaused p)
                     (updateTimerDisplay r (Timer.totalTime t) (Timer.mode t) (ui p))
              else ui p in
    if num_le r (Num 0) && Timer.onComplete t then
      let u := announce_completion (Store.soundEnabled (getSettings p)) u1 in
      if String.eqb (Timer.mode t) "focus" then
        let stats := Store.stats (Store.settings (Store.manager
                                                    (count_focus_session (settings p)))) in
        set_statistics (Store.sessionsToday stats) (Store.totalFocusTime stats) u
      else u
    else u1.
Proof.
  unfold _tick. push_page. rewrite ui__complete. push_page.
  destruct p as [[[st md tl tt fd bd id ot om oc] iv nh cl co] sw u ws].
  destruct ot; cbn; destruct (num_le _ _), oc; reflexivity.
Qed.

Lemma if_same {A} (b : bool) (x : A) : (if b then x else x) = x.
Proof. destruct b; reflexivity. Qed.

Ltac open_page p :=
  destruct p as [[[st md tl tt fd bd id ot om oc] iv nh cl co] sw u ws].

Lemma settings_start p :
  settings (start p)
  = let t := Timer.timer (timer p) in
    if negb (isRunning p)
       && (num_le (num_dec (Timer.timeLeft t)) (Num 0)
           && (Timer.onComplete t && String.eqb (Timer.mode t) "focus"))
    then count_focus_session (settings p) else settings p.
Proof.
  unfold start. destruct (isRunning p); [reflexivity|].
  rewrite settings__tick. open_page p. reflexivity.
Qed.

Lemma ui_start p :
  ui (start p)
  = if isRunning p then ui p
    else
      let t := Timer.timer (timer p) in
      let r := num_dec (Timer.timeLeft t) in
      let u1 := if Timer.onTick t
                then updateControlButtons true false
                       (updateTimerDisplay r (Timer.totalTime t) (Timer.mode t) (ui p))
                else ui p in
      if num_le r (Num 0) && Timer.onComplete t then
        let u := announce_completion (Store.soundEnabled (getSettings p)) u1 in
        if String.eqb (Timer.mode t) "focus" then
          let stats := Store.stats (Store.settings (Store.manager
                                                      (count_focus_session (settings p)))) in
          set_statistics (Store.sessionsToday stats) (Store.totalFocusTime stats) u
        else u
      else u1.
Proof.
  unfold start. destruct (isRunning p); [reflexivity|].
  rewrite ui__tick. open_page p. reflexivity.
Qed.

Ltac reduce_page :=
  cbv beta iota zeta delta
    [reset setMode pause onTick onModeChange timer_setFocusDuration timer_setBreakDuration
     on_timer on_settings on_ui timer_this isRunning isPaused timer_mode getSettings
     timer settings ui welcome_scheduled
     Timer.pause Timer.this Timer.call Timer.console_write Timer.clearInterval
     Timer.setInterval
     Timer.set_state Timer.set_mode Timer.set_timeLeft Timer.set_totalTime
     Timer.set_focusDuration Timer.set_breakDuration Timer.set_intervalId
     Timer.timer Timer.intervals Timer.nextHandle Timer.calls Timer.console
     Timer.state Timer.mode Timer.timeLeft Timer.totalTime Timer.focusDuration
     Timer.breakDuration Timer.intervalId Timer.onTick Timer.onModeChange Timer.onComplete
     Timer.truthy Timer.reset_mode Timer.duration_of Timer.stopped_in_mode
     Timer._resetTime negb andb orb Timer.TimerState_eqb].

Lemma settings_reset m p : settings (reset m p) = settings p.
Proof.
  open_page p. destruct id, m as [x|]; reduce_page;
    try destruct (String.eqb x ""); reduce_page;
    try destruct (String.eqb x "focus"); try destruct (String.eqb md "focus");
    reduce_page; destruct ot; reflexivity.
Qed.

Lemma ui_reset m p :
  ui (reset m p)
  = let t := Timer.timer (timer p) in
    let md := Timer.reset_mode m t in
    let d := Timer.duration_of md t in
    if Timer.onTick t
    then updateControlButtons false false (updateTimerDisplay d d md (ui p))
    else ui p.
Proof.
  open_page p. destruct id, m as [x|]; reduce_page;
    try destruct (String.eqb x ""); reduce_page;
    try destruct (String.eqb x "focus"); try destruct (String.eqb md "focus");
    reduce_page; destruct ot; reflexivity.
Qed.

Lemma settings_setMode m p : settings (setMode m p) = settings p.
Proof.
  unfold setMode. destruct (_ && _); [reflexivity|].
  open_page p. destruct st, id, om, ot; reduce_page;
    destruct (String.eqb m "focus"); reflexivity.
Qed.

Lemma ui_setMode m p :
  ui (setMode m p)
  = let t := Timer.timer (timer p) in
    let d := Timer.duration_of m t in
    if negb (String.eqb m "focus") && negb (String.eqb m "break") then ui p
    else if Timer.onTick t
    then updateControlButtons false
           (isRunning p || isPaused p) (updateTimerDisplay d d m (ui p))
    else ui p.
Proof.
  unfold setMode. cbv zeta. destruct (_ && _); [reflexivity|].
  open_page p. destruct st, id, om, ot; reduce_page;
    destruct (String.eqb m "focus"); reflexivity.
Qed.

Lemma settings_timer_setFocusDuration n p :
  settings (timer_setFocusDuration n p) = settings p.
Proof.
  open_page p. reduce_page.
  destruct (String.eqb md "focus"), st; reduce_page; destruct ot; reflexivity.
Qed.

Lemma settings_timer_setBreakDuration n p :
  settings (timer_setBreakDuration n p) = settings p.
Proof.
  open_page p. reduce_page.
  destruct (String.eqb md "break"), st; reduce_page; destruct ot; reflexivity.
Qed.

Lemma ui_timer_setFocusDuration n p :
  ui (timer_setFocusDuration n p)
  = let t := Timer.timer (timer p) in
    let s := num_mul n (Num 60) in
    if Timer.stopped_in_mode "focus" t && Timer.onTick t
    then updateControlButtons false false (updateTimerDisplay s s (Timer.mode t) (ui p))
    else ui p.
Proof.
  open_page p. reduce_page.
  destruct (String.eqb md "focus"), st; reduce_page; destruct ot; reflexivity.
Qed.

Lemma ui_timer_setBreakDuration n p :
  ui (timer_setBreakDuration n p)
  = let t := Timer.timer (timer p) in
    let s := num_mul n (Num 60) in
    if Timer.stopped_in_mode "break" t && Timer.onTick t
    then updateControlButtons false false (updateTimerDisplay s s (Timer.mode t) (ui p))
    else ui p.
Proof.
  open_page p. reduce_page.
  destruct (String.eqb md "break"), st; reduce_page; destruct ot; reflexivity.
Qed.

(** *** A session that ends *)

Lemma count_focus_session_unfold sw :
  count_focus_session sw =
  let s := Store.settings (Store.manager sw) in
  let o := Store.stats s in
  let s' := Store.set_stats
              (Store.mkStats (num_inc (Store.sessionsToday o))
                             (num_add (Store.totalFocusTime o) (Store.focusDuration s))
                             (Store.lastResetDate o)) s in
  Store.mkWorld (Store.mkManager s' (Store.onSettingsChange (Store.manager sw)))
                (Store.saved s' (Store.localStorage sw)) (Store.changes sw)
                (Store.console sw ++ [info; info; info; info]).
Proof.
  unfold count_focus_session. cbv zeta.
  rewrite addFocusTime_unfold, incrementSessions_unfold.
  destruct sw as [[[f b so th [n t d]] cb] ls ch co].
  cbn [Store.settings Store.manager Store.localStorage Store.changes Store.console
       Store.onSettingsChange Store.stats Store.focusDuration Store.breakDuration
       Store.soundEnabled Store.theme Store.sessionsToday Store.totalFocusTime
       Store.lastResetDate Store.set_stats Store.set_sessionsToday Store.set_totalFocusTime].
  rewrite saved_saved, <- app_assoc. reflexivity.
Qed.

(** X20. When the last second of a session elapses in the page, the timer
    stops, the modal opens with its action button, and a sound is asked for
    if the settings have it on.  After a focus session the statistics count
    one more session and as many more minutes as the focus duration of the
    settings is at that moment, whatever time the session took; they are
    saved and shown.  After a break nothing is counted.  The buttons are
    left as the tick drew them while the timer was still running: the start
    button disabled and labelled as running, the pause button enabled. *)
Theorem session_ends_in_page h p :
  let t := Timer.timer (timer p) in
  let s := getSettings p in
  let o := Store.stats s in
  let p' := step (interval_fires h) p in
  h ∈ Timer.intervals (timer p) ->
  Timer.state t = Timer.RUNNING ->
  Timer.onTick t = true -> Timer.onComplete t = true ->
  num_le (num_dec (Timer.timeLeft t)) (Num 0) = true ->
  Timer.state (Timer.timer (timer p')) = Timer.STOPPED
  ∧ timeDisplay (ui p') = Display.formatTime (num_dec (Timer.timeLeft t))
  ∧ isModalOpen (ui p') = true
  ∧ modalActionBtn_shown (ui p') = true
  ∧ sounds (ui p') = (if Store.soundEnabled s then S (sounds (ui p)) else sounds (ui p))
  ∧ startBtn_disabled (ui p') = true
  ∧ pauseBtn_disabled (ui p') = false
  ∧ startBtn_label (ui p') = En_cours
  ∧ (Timer.mode t = "focus" ->
     let o' := Store.mkStats (num_inc (Store.sessionsToday o))
                             (num_add (Store.totalFocusTime o) (Store.focusDuration s))
                             (Store.lastResetDate o) in
     getSettings p' = Store.set_stats o' s
     ∧ Store.localStorage (settings p') = Store.saved (Store.set_stats o' s)
                                                      (Store.localStorage (settings p))
     ∧ focusSessions (ui p') = num_inc (Store.sessionsToday o)
     ∧ totalFocusTime (ui p')
       = num_add (Store.totalFocusTime o) (Store.focusDuration s))
  ∧ (Timer.mode t ≠ "focus" ->
     settings p' = settings p
     ∧ focusSessions (ui p') = focusSessions (ui p)
     ∧ totalFocusTime (ui p') = totalFocusTime (ui p)).
Proof.
  intros t s o p' Hh Hrun Htk Hcp Hle. subst p'. unfold step.
  destruct (decide _) as [_|Hn]; [|contradiction].
  split.
  { rewrite timer__tick, _tick_unfold. cbv zeta. fold t. rewrite Hle. reflexivity. }
  pose proof (settings__tick p) as Hs. pose proof (ui__tick p) as Hu.
  cbv zeta in Hs, Hu. unfold isRunning in Hu. fold t in Hs, Hu.
  rewrite Hle, Hcp in Hs. rewrite Hle, Htk, Hcp, Hrun in Hu.
  cbn [andb Timer.TimerState_eqb] in Hs, Hu.
  rewrite count_focus_session_unfold in Hs, Hu. cbv zeta in Hs, Hu.
  fold (getSettings p) in Hs, Hu. fold s in Hs, Hu. fold o in Hs, Hu.
  unfold getSettings. rewrite Hs, Hu. clear Hs Hu.
  destruct (String.eqb (Timer.mode t) "focus") eqn:Em.
  - destruct (Store.soundEnabled s); repeat (split; [reflexivity|]);
      (split; [intros _; repeat split | intros Hm; apply String.eqb_neq in Hm; congruence]).
  - destruct (Store.soundEnabled s); repeat (split; [reflexivity|]);
      (split; [intros Hm; apply String.eqb_eq in Hm; congruence | intros _; repeat split]).
Qed.

(** *** What the handlers do to the store *)

Lemma settings_start_cases p :
  settings (start p) = settings p ∨ settings (start p) = count_focus_session (settings p).
Proof. rewrite settings_start. cbv zeta. destruct (_ && _); auto. Qed.

Lemma settings_resume_cases p :
  settings (resume p) = settings p ∨ settings (resume p) = count_focus_session (settings p).
Proof.
  unfold resume. destruct (negb _); [left; reflexivity | apply settings_start_cases].
Qed.

Lemma settings__handleStart_cases p :
  settings (_handleStart p) = settings p
  ∨ settings (_handleStart p) = count_focus_session (settings p).
Proof.
  unfold _handleStart. destruct (isRunning p); [left; reflexivity|].
  rewrite settings_on_ui. destruct (isPaused p);
    [apply settings_resume_cases | apply settings_start_cases].
Qed.

Lemma settings__handlePause p : settings (_handlePause p) = settings p.
Proof. unfold _handlePause. destruct (negb _); reflexivity. Qed.

Lemma settings__saveSettings f b s p :
  settings (_saveSettings f b s p)
  = if num_lt (parseInt f) (Num 1) || num_gt (parseInt f) (Num 120) then settings p
    else if num_lt (parseInt b) (Num 1) || num_gt (parseInt b) (Num 30) then settings p
    else snd (Store.setSoundEnabled s
                (snd (Store.setBreakDuration (parseInt b)
                        (snd (Store.setFocusDuration (parseInt f) (settings p)))))).
Proof.
  unfold _saveSettings. destruct (_ || _); [reflexivity|]. destruct (_ || _); [reflexivity|].
  rewrite settings_timer_setBreakDuration, settings_timer_setFocusDuration,
    !settings_settings_call. reflexivity.
Qed.

Lemma settings__toggleTheme p :
  settings (_toggleTheme p)
  = let newTheme := if light_mode (ui p) then "dark" else "light" in
    Store.setItem "theme" newTheme (snd (Store.setTheme newTheme (settings p))).
Proof.
  unfold _toggleTheme. cbv zeta.
  rewrite settings_on_settings, settings__applyTheme, settings_settings_call. reflexivity.
Qed.

Lemma settings_resetStats today p :
  settings (resetStats today p)
  = Store._saveSettings
      (Store.this_settings (Store.set_stats (Store.mkStats (Num 0) (Num 0) (Some today)))
                           (settings p)).
Proof. reflexivity. Qed.

Lemma settings_step_cases e p :
  settings (step e p) = settings p
  ∨ settings (step e p) = count_focus_session (settings p)
  ∨ match e with
    | save_settings f b s =>
        (num_lt (parseInt f) (Num 1) || num_gt (parseInt f) (Num 120)) = false
        ∧ (num_lt (parseInt b) (Num 1) || num_gt (parseInt b) (Num 30)) = false
        ∧ settings (step e p)
          = snd (Store.setSoundEnabled s
                   (snd (Store.setBreakDuration (parseInt b)
                           (snd (Store.setFocusDuration (parseInt f) (settings p))))))
    | toggle_theme =>
        settings (step e p)
        = Store.setItem "theme" (if light_mode (ui p) then "dark" else "light")
            (snd (Store.setTheme (if light_mode (ui p) then "dark" else "light")
                                 (settings p)))
    | call_resetStats today =>
        settings (step e p)
        = Store._saveSettings
            (Store.this_settings
               (Store.set_stats (Store.mkStats (Num 0) (Num 0) (Some today))) (settings p))
    | _ => False
    end.
Proof.
  destruct e; unfold step.
  - destruct (settings__handleStart_cases p); auto.
  - left. apply settings__handlePause.
  - left. unfold _handleReset. rewrite settings_on_ui. apply settings_reset.
  - unfold key_space. destruct (isRunning p).
    + left. apply settings__handlePause.
    + destruct (settings__handleStart_cases p); auto.
  - right; right. apply settings__toggleTheme.
  - rewrite settings__saveSettings.
    destruct (num_lt (parseInt focusTime) (Num 1) || num_gt (parseInt focusTime) (Num 120));
      [left; reflexivity|].
    destruct (num_lt (parseInt breakTime) (Num 1) || num_gt (parseInt breakTime) (Num 30));
      [left; reflexivity|].
    right; right. repeat split.
  - unfold _handleModalAction.
    destruct (settings_start_cases
                (setMode (if String.eqb (timer_mode (on_ui _closeModal p)) "focus"
                          then "break" else "focus") (on_ui _closeModal p))) as [E|E];
      rewrite settings_setMode in E; [left | right; left]; exact E.
  - left. reflexivity.
  - left. reflexivity.
  - left. destruct (welcome_scheduled p); reflexivity.
  - destruct (decide _); [|left; reflexivity].
    rewrite settings__tick. cbv zeta. destruct (_ && _); auto.
  - left. unfold toggleMode. apply settings_setMode.
  - right; right. apply settings_resetStats.
Qed.

(** *** Saving the settings panel *)

Lemma fold_onSettingsChange_other cs p :
  Forall (fun c => match c with Store.Change key _ _ => key ≠ "theme" end) cs ->
  fold_left (fun p c => onSettingsChange c p) cs p = p.
Proof.
  intros Hcs. revert p. induction Hcs as [|[key nv ov] cs Hk _ IH]; intros p; [reflexivity|].
  cbn [fold_left onSettingsChange]. apply String.eqb_neq in Hk. rewrite Hk. apply IH.
Qed.

Lemma settings_call_other f p l :
  Store.changes (snd (f (settings p))) = Store.changes (settings p) ++ l ->
  Forall (fun c => match c with Store.Change key _ _ => key ≠ "theme" end) l ->
  settings_call f p = on_settings (fun s => snd (f s)) p.
Proof.
  intros Hch Hl. unfold settings_call. rewrite settings_on_settings, Hch.
  rewrite drop_app_length. apply fold_onSettingsChange_other, Hl.
Qed.

Lemma settings_call_setFocusDuration n p :
  settings_call (Store.setFocusDuration n) p
  = on_settings (fun s => snd (Store.setFocusDuration n s)) p.
Proof.
  apply settings_call_other
    with (l := if num_lt n (Num 1) || num_gt n (Num 120) then []
               else if Store.onSettingsChange (Store.manager (settings p))
                    then [Store.Change "focusDuration" (Store.number_value n)
                            (Store.number_value
                               (Store.focusDuration (Store.settings (Store.manager (settings p)))))]
                    else []).
  - rewrite store_setFocusDuration_unfold. destruct (_ || _); cbn [snd Store.changes].
    + unfold Store.console_write. cbn [Store.changes]. symmetry. apply app_nil_r.
    + reflexivity.
  - destruct (_ || _); [constructor|].
    destruct (Store.onSettingsChange _); repeat constructor. discriminate.
Qed.

Lemma settings_call_setBreakDuration n p :
  settings_call (Store.setBreakDuration n) p
  = on_settings (fun s => snd (Store.setBreakDuration n s)) p.
Proof.
  apply settings_call_other
    with (l := if num_lt n (Num 1) || num_gt n (Num 30) then []
               else if Store.onSettingsChange (Store.manager (settings p))
                    then [Store.Change "breakDuration" (Store.number_value n)
                            (Store.number_value
                               (Store.breakDuration (Store.settings (Store.manager (settings p)))))]
                    else []).
  - rewrite store_setBreakDuration_unfold. destruct (_ || _); cbn [snd Store.changes].
    + unfold Store.console_write. cbn [Store.changes]. symmetry. apply app_nil_r.
    + reflexivity.
  - destruct (_ || _); [constructor|].
    destruct (Store.onSettingsChange _); repeat constructor. discriminate.
Qed.

Lemma settings_call_setSoundEnabled b p :
  settings_call (Store.setSoundEnabled b) p
  = on_settings (fun s => snd (Store.setSoundEnabled b s)) p.
Proof.
  apply settings_call_other
    with (l := if Store.onSettingsChange (Store.manager (settings p))
               then [Store.Change "soundEnabled" (Store.boolean_value b)
                       (Store.boolean_value
                          (Store.soundEnabled (Store.settings (Store.manager (settings p)))))]
               else []).
  - rewrite setSoundEnabled_unfold. reflexivity.
  - destruct (Store.onSettingsChange _); repeat constructor. discriminate.
Qed.

Lemma accepted_settings f b so sw :
  (num_lt f (Num 1) || num_gt f (Num 120)) = false ->
  (num_lt b (Num 1) || num_gt b (Num 30)) = false ->
  let sw' := snd (Store.setSoundEnabled so
                    (snd (Store.setBreakDuration b (snd (Store.setFocusDuration f sw))))) in
  let s := Store.settings (Store.manager sw) in
  let s' := Store.mkSettings f b so (Store.theme s) (Store.stats s) in
  Store.settings (Store.manager sw') = s'
  ∧ Store.localStorage sw' = Store.saved s' (Store.localStorage sw)
  ∧ Store.onSettingsChange (Store.manager sw') = Store.onSettingsChange (Store.manager sw).
Proof.
  intros Hf Hb. cbv zeta.
  rewrite setSoundEnabled_unfold, store_setBreakDuration_unfold, store_setFocusDuration_unfold.
  rewrite Hf, Hb. destruct sw as [[[f0 b0 so0 th st] cb] ls ch co].
  cbn [snd Store.settings Store.manager Store.localStorage Store.changes Store.console
       Store.onSettingsChange Store.stats Store.focusDuration Store.breakDuration
       Store.soundEnabled Store.theme Store.set_focusDuration Store.set_breakDuration
       Store.set_soundEnabled].
  rewrite !saved_saved. repeat split.
Qed.

Lemma errors_updateControlButtons r q u : errors (updateControlButtons r q u) = errors u.
Proof. destruct r, q; reflexivity. Qed.

Lemma panel_accepted f b so p :
  let F := parseInt f in
  let B := parseInt b in
  let p' := _saveSettings f b so p in
  let s := getSettings p in
  (num_lt F (Num 1) || num_gt F (Num 120)) = false ->
  (num_lt B (Num 1) || num_gt B (Num 30)) = false ->
  getSettings p' = Store.mkSettings F B so (Store.theme s) (Store.stats s)
  ∧ Store.localStorage (settings p')
    = Store.saved (Store.mkSettings F B so (Store.theme s) (Store.stats s))
                  (Store.localStorage (settings p))
  ∧ Timer.focusDuration (Timer.timer (timer p')) = num_mul F (Num 60)
  ∧ Timer.breakDuration (Timer.timer (timer p')) = num_mul B (Num 60).
Proof.
  intros F B p' s Hf Hb. subst p'.
  destruct (accepted_settings F B so (settings p) Hf Hb) as (S1 & S2 & _).
  cbv zeta in S1, S2.
  pose proof (settings__saveSettings f b so p) as Hs. fold F B in Hs. rewrite Hf, Hb in Hs.
  pose proof (timer__saveSettings f b so p) as Ht. fold F B in Ht. rewrite Hf, Hb in Ht.
  unfold getSettings. rewrite Hs, Ht. split; [exact S1|]. split; [exact S2|].
  destruct (step_configuration (Timer.call_setBreakDuration B)
              (Timer.setFocusDuration F (timer p))) as (C1 & C2 & _).
  destruct (step_configuration (Timer.call_setFocusDuration F) (timer p)) as (C3 & _).
  cbv zeta in C1, C2, C3. cbn [Timer.step] in C1, C2, C3.
  split; [rewrite C1; exact C3 | exact C2].
Qed.

Lemma panel_refused f b so p :
  (num_lt (parseInt f) (Num 1) || num_gt (parseInt f) (Num 120)) = true
  ∨ (num_lt (parseInt b) (Num 1) || num_gt (parseInt b) (Num 30)) = true ->
  timer (_saveSettings f b so p) = timer p ∧ settings (_saveSettings f b so p) = settings p.
Proof.
  intros Hr. unfold _saveSettings.
  destruct (num_lt (parseInt f) (Num 1) || num_gt (parseInt f) (Num 120));
    [split; reflexivity|].
  destruct Hr as [Hr | Hr]; [discriminate|]. rewrite Hr. split; reflexivity.
Qed.

(** X21. Saving the settings panel is all or nothing.  If the focus text
    reads as a number below 1 or above 120 nothing is changed and the focus
    message is shown; if not and the break text reads as a number below 1 or
    above 30, nothing is changed and the break message is shown.  Otherwise
    the two durations and the sound setting are stored and saved, the timer
    takes the same two durations in seconds, and no message is shown.  A
    text that does not start with a number reads as [NaN], which is neither
    below nor above anything: it is stored. *)
Theorem panel_saves_all_or_nothing f b so p :
  let F := parseInt f in
  let B := parseInt b in
  let p' := step (save_settings f b so) p in
  let s := getSettings p in
  ((num_lt F (Num 1) || num_gt F (Num 120)) = true ->
     timer p' = timer p ∧ settings p' = settings p
     ∧ ui p' = _showError focus_out_of_range (ui p))
  ∧ ((num_lt F (Num 1) || num_gt F (Num 120)) = false ->
     (num_lt B (Num 1) || num_gt B (Num 30)) = true ->
     timer p' = timer p ∧ settings p' = settings p
     ∧ ui p' = _showError break_out_of_range (ui p))
  ∧ ((num_lt F (Num 1) || num_gt F (Num 120)) = false ->
     (num_lt B (Num 1) || num_gt B (Num 30)) = false ->
     getSettings p' = Store.mkSettings F B so (Store.theme s) (Store.stats s)
     ∧ Store.localStorage (settings p')
       = Store.saved (Store.mkSettings F B so (Store.theme s) (Store.stats s))
                     (Store.localStorage (settings p))
     ∧ Timer.focusDuration (Timer.timer (timer p')) = num_mul F (Num 60)
     ∧ Timer.breakDuration (Timer.timer (timer p')) = num_mul B (Num 60)
     ∧ errors (ui p') = errors (ui p))
  ∧ (F = NaN -> (num_lt F (Num 1) || num_gt F (Num 120)) = false)
  ∧ (B = NaN -> (num_lt B (Num 1) || num_gt B (Num 30)) = false).
Proof.
  intros F B p' s. subst p'. unfold step.
  split; [|split; [|split; [|split]]].
  - intros Hf. unfold _saveSettings. fold F. rewrite Hf. repeat split.
  - intros Hf Hb. unfold _saveSettings. fold F B. rewrite Hf, Hb. repeat split.
  - intros Hf Hb.
    destruct (panel_accepted f b so p Hf Hb) as (A1 & A2 & A3 & A4).
    repeat (split; [assumption|]).
    unfold _saveSettings. fold F B. rewrite Hf, Hb.
    rewrite settings_call_setFocusDuration, settings_call_setBreakDuration,
      settings_call_setSoundEnabled.
    rewrite ui_timer_setBreakDuration, ui_timer_setFocusDuration. cbv zeta.
    repeat match goal with
           | |- context [if ?c then _ else _] => destruct c
           end;
      unfold updateTimerDisplay; rewrite ?errors_updateControlButtons; reflexivity.
  - intros ->. reflexivity.
  - intros ->. reflexivity.
Qed.

(** *** The two durations *)

Lemma count_focus_session_preferences sw :
  let s := Store.settings (Store.manager sw) in
  let s' := Store.settings (Store.manager (count_focus_session sw)) in
  Store.focusDuration s' = Store.focusDuration s
  ∧ Store.breakDuration s' = Store.breakDuration s
  ∧ Store.soundEnabled s' = Store.soundEnabled s
  ∧ Store.theme s' = Store.theme s.
Proof. rewrite count_focus_session_unfold. repeat split. Qed.

(** *** Opening the page *)

Lemma welcome_timer_setFocusDuration n p :
  welcome_scheduled (timer_setFocusDuration n p) = welcome_scheduled p.
Proof.
  open_page p. reduce_page.
  destruct (String.eqb md "focus"), st; reduce_page; destruct ot; reflexivity.
Qed.

Lemma welcome_timer_setBreakDuration n p :
  welcome_scheduled (timer_setBreakDuration n p) = welcome_scheduled p.
Proof.
  open_page p. reduce_page.
  destruct (String.eqb md "break"), st; reduce_page; destruct ot; reflexivity.
Qed.

Lemma new_FocusTimerApp_unfold ls today dom :
  let sw := Store.new_SettingsManager ls today in
  let s := Store.settings (Store.manager sw) in
  let first := negb (Timer.truthy (Store.localStorage sw !! "hasVisitedBefore")) in
  let p := new_FocusTimerApp ls today dom in
  timer p
  = Timer.this (Timer.set_callbacks true true true)
      (Timer.setBreakDuration (Store.breakDuration s)
         (Timer.setFocusDuration (Store.focusDuration s) Timer.new_FocusTimer))
  ∧ settings p
    = (let sw1 := Store.step (Store.assign_onSettingsChange true) sw in
       if first then Store.setItem "hasVisitedBefore" "true" sw1 else sw1)
  ∧ ui p
    = set_statistics (Store.sessionsToday (Store.stats s)) (Store.totalFocusTime (Store.stats s))
        (set_light_mode (String.eqb (Store.theme s) "light") dom)
  ∧ welcome_scheduled p = first.
Proof.
  cbv zeta. unfold new_FocusTimerApp, _showWelcomeMessage, _setupEventHandlers, _initUI,
    _initTimer.
  set (sw := Store.new_SettingsManager ls today).
  set (p0 := mkPage Timer.new_FocusTimer sw dom false).
  set (p1 := timer_setBreakDuration _ (timer_setFocusDuration _ _)).
  assert (T1 : timer p1
               = Timer.setBreakDuration (Store.breakDuration (Store.settings (Store.manager sw)))
                   (Timer.setFocusDuration
                      (Store.focusDuration (Store.settings (Store.manager sw)))
                      Timer.new_FocusTimer)).
  { subst p1. rewrite timer_timer_setBreakDuration, timer_timer_setFocusDuration.
    reflexivity. }
  assert (S1 : settings p1 = sw).
  { subst p1. rewrite settings_timer_setBreakDuration, settings_timer_setFocusDuration.
    reflexivity. }
  assert (U1 : ui p1 = dom).
  { subst p1. rewrite ui_timer_setBreakDuration, ui_timer_setFocusDuration.
    cbv zeta. rewrite timer_timer_setFocusDuration, setFocusDuration_unfold.
    reflexivity. }
  assert (W1 : welcome_scheduled p1 = false).
  { subst p1. rewrite welcome_timer_setBreakDuration, welcome_timer_setFocusDuration.
    reflexivity. }
  clearbody p1. destruct p1 as [tw1 sw1 u1 ws1].
  cbn [timer settings ui welcome_scheduled] in T1, S1, U1, W1.
  subst tw1 sw1 u1 ws1.
  set (first := negb _).
  assert (F1 : first
               = negb (Timer.truthy (Store.localStorage sw !! "hasVisitedBefore"))).
  { subst first. unfold _applyTheme, getSettings. cbn [settings].
    destruct (String.eqb _ "light"); reflexivity. }
  rewrite <- F1. clearbody first.
  unfold _applyTheme, _updateStatsDisplay, getSettings. cbn [settings].
  destruct (String.eqb _ "light"), first; repeat split.
Qed.

(** *** The durations of the timer and of the settings *)

Lemma timer_events_durations e p :
  match e with save_settings _ _ _ => False | _ => True end ->
  Forall (fun e => match e with
                   | Timer.call_setFocusDuration _ | Timer.call_setBreakDuration _
                   | Timer.assign_callbacks _ _ _ => False
                   | _ => True
                   end) (timer_events e p).
Proof.
  destruct e; intros He; try contradiction; unfold timer_events;
    try destruct (isRunning p); try destruct (isPaused p); repeat constructor.
Qed.

Lemma step_keeps_callbacks e p :
  let t := Timer.timer (timer p) in
  let t' := Timer.timer (timer (step e p)) in
  Timer.onTick t' = Timer.onTick t
  ∧ Timer.onModeChange t' = Timer.onModeChange t
  ∧ Timer.onComplete t' = Timer.onComplete t.
Proof.
  cbv zeta. rewrite timer_step.
  destruct e;
    try (match goal with
         | |- context [timer_events ?e p] =>
             pose proof (run_durations _ (timer p) (timer_events_durations e p I)) as R
         end;
         cbv zeta in R; destruct R as (_ & _ & A & B & C); repeat split; assumption).
  unfold timer_events.
  destruct (_ || _); [repeat split|]. destruct (_ || _); [repeat split|].
  cbn [Timer.run fold_left].
  destruct (step_configuration (Timer.call_setBreakDuration (parseInt breakTime))
              (Timer.step (Timer.call_setFocusDuration (parseInt focusTime)) (timer p)))
    as (_ & _ & K1 & K2 & K3).
  destruct (step_configuration (Timer.call_setFocusDuration (parseInt focusTime)) (timer p))
    as (_ & _ & K4 & K5 & K6).
  cbv zeta in K1, K2, K3, K4, K5, K6. rewrite K1, K2, K3, K4, K5, K6. repeat split.
Qed.

Lemma saved_settings_preferences sw :
  Store.settings (Store.manager (Store._saveSettings sw)) = Store.settings (Store.manager sw).
Proof. destruct sw as [[s cb] ls ch co]. reflexivity. Qed.

Lemma step_keeps_durations e p :
  match e with save_settings _ _ _ => False | _ => True end ->
  Timer.focusDuration (Timer.timer (timer (step e p)))
  = Timer.focusDuration (Timer.timer (timer p))
  ∧ Timer.breakDuration (Timer.timer (timer (step e p)))
    = Timer.breakDuration (Timer.timer (timer p))
  ∧ Store.focusDuration (getSettings (step e p)) = Store.focusDuration (getSettings p)
  ∧ Store.breakDuration (getSettings (step e p)) = Store.breakDuration (getSettings p).
Proof.
  intros He.
  pose proof (run_durations _ (timer p) (timer_events_durations e p He)) as R.
  cbv zeta in R. destruct R as (A & B & _).
  rewrite timer_step. split; [exact A|]. split; [exact B|]. unfold getSettings.
  destruct (settings_step_cases e p) as [E | [E | E]].
  - rewrite E. split; reflexivity.
  - rewrite E. destruct (count_focus_session_preferences (settings p)) as (C & D & _).
    split; assumption.
  - destruct e; try contradiction; rewrite E.
    + rewrite setTheme_unfold. destruct (_ && _); split; reflexivity.
    + rewrite saved_settings_preferences. destruct (settings p) as [[[f b so th st] cb] ls ch co].
      split; reflexivity.
Qed.

(** X22. The timer and the settings never disagree on the two durations:
    when the page has opened, and after whatever the handlers, the
    intervals and the two global functions do next, the focus and the break
    duration of the timer are those of the settings, in seconds. *)
Theorem durations_always_agree :
  (forall ls today dom, durations_agree (new_FocusTimerApp ls today dom))
  ∧ (forall e p, durations_agree p -> durations_agree (step e p))
  ∧ (forall es ls today dom, durations_agree (run es (new_FocusTimerApp ls today dom))).
Proof.
  assert (Hnew : forall ls today dom, durations_agree (new_FocusTimerApp ls today dom)).
  { intros ls today dom.
    destruct (new_FocusTimerApp_unfold ls today dom) as (T & S & _). cbv zeta in T, S.
    unfold durations_agree, getSettings. rewrite T, S.
    set (s := Store.settings (Store.manager (Store.new_SettingsManager ls today))).
    destruct (step_configuration (Timer.call_setBreakDuration (Store.breakDuration s))
                (Timer.setFocusDuration (Store.focusDuration s) Timer.new_FocusTimer))
      as (C1 & C2 & _).
    destruct (step_configuration (Timer.call_setFocusDuration (Store.focusDuration s))
                Timer.new_FocusTimer) as (C3 & _).
    cbv zeta in C1, C2, C3. cbn [Timer.step] in C1, C2, C3.
    change (Timer.focusDuration (Timer.timer (Timer.this ?f ?w)))
      with (Timer.focusDuration (f (Timer.timer w))).
    change (Timer.breakDuration (Timer.timer (Timer.this ?f ?w)))
      with (Timer.breakDuration (f (Timer.timer w))).
    cbn [Timer.set_callbacks Timer.focusDuration Timer.breakDuration].
    rewrite C1, C2, C3.
    destruct (negb _), (Store.new_SettingsManager ls today) as [[s0 cb] l ch co];
      split; reflexivity. }
  assert (Hstep : forall e p, durations_agree p -> durations_agree (step e p)).
  { intros e p [Hf Hb]. unfold durations_agree.
    destruct e;
      try (match goal with
           | |- context [step ?e p] =>
               destruct (step_keeps_durations e p I) as (A & B & C & D)
           end;
           rewrite A, B, C, D; split; assumption).
    cbn [step].
    destruct (num_lt (parseInt focusTime) (Num 1) || num_gt (parseInt focusTime) (Num 120))
      eqn:E1.
    { destruct (panel_refused focusTime breakTime soundEnabled p) as (T & S).
      { left. exact E1. }
      unfold getSettings. rewrite T, S. split; assumption. }
    destruct (num_lt (parseInt breakTime) (Num 1) || num_gt (parseInt breakTime) (Num 30))
      eqn:E2.
    { destruct (panel_refused focusTime breakTime soundEnabled p) as (T & S).
      { right. exact E2. }
      unfold getSettings. rewrite T, S. split; assumption. }
    destruct (panel_accepted focusTime breakTime soundEnabled p E1 E2)
      as (S & _ & TF & TB).
    rewrite S, TF, TB. split; reflexivity. }
  split; [exact Hnew|]. split; [exact Hstep|].
  intros es ls today dom. generalize (Hnew ls today dom).
  generalize (new_FocusTimerApp ls today dom).
  induction es as [|e es IH]; intros p Hp; [exact Hp|].
  cbn [run fold_left]. apply IH, Hstep, Hp.
Qed.

(** The page that opens. *)
Lemma new_FocusTimerApp_opens ls today dom :
  let sw := Store.new_SettingsManager ls today in
  let s := Store.settings (Store.manager sw) in
  let p := new_FocusTimerApp ls today dom in
  let t := Timer.timer (timer p) in
  let first := negb (Timer.truthy (Store.localStorage sw !! "hasVisitedBefore")) in
  getSettings p = s
  ∧ Timer.state t = Timer.STOPPED ∧ Timer.mode t = "focus"
  ∧ Timer.timeLeft t = num_mul (Store.focusDuration s) (Num 60)
  ∧ Timer.totalTime t = num_mul (Store.focusDuration s) (Num 60)
  ∧ Timer.intervalId t = None ∧ Timer.intervals (timer p) = ∅
  ∧ Timer.onTick t = true ∧ Timer.onModeChange t = true ∧ Timer.onComplete t = true
  ∧ Store.onSettingsChange (Store.manager (settings p)) = true
  ∧ Timer.calls (timer p) = []
  ∧ timeDisplay (ui p) = timeDisplay dom
  ∧ strokeDashoffset (ui p) = strokeDashoffset dom
  ∧ modeText (ui p) = modeText dom
  ∧ startBtn_disabled (ui p) = startBtn_disabled dom
  ∧ pauseBtn_disabled (ui p) = pauseBtn_disabled dom
  ∧ startBtn_label (ui p) = startBtn_label dom
  ∧ light_mode (ui p) = String.eqb (Store.theme s) "light"
  ∧ focusSessions (ui p) = Store.sessionsToday (Store.stats s)
  ∧ totalFocusTime (ui p) = Store.totalFocusTime (Store.stats s)
  ∧ welcome_scheduled p = first
  ∧ (first = true ->
     Store.localStorage (settings p) = <[ "hasVisitedBefore" := "true" ]> (Store.localStorage sw))
  ∧ (first = false -> Store.localStorage (settings p) = Store.localStorage sw).
Proof.
  intros sw s p t first. subst t.
  destruct (new_FocusTimerApp_unfold ls today dom) as (T & S & U & W).
  cbv zeta in T, S, U, W. fold sw in T, S, U, W. fold s in T, U. fold p in T, S, U, W.
  fold first in S, W. unfold getSettings. rewrite T, S, U, W. clear T S U W. clearbody first.
  rewrite setBreakDuration_unfold, setFocusDuration_unfold.
  destruct sw as [[s0 cb] l ch co]. subst s.
  cbn [Store.settings Store.manager Store.localStorage Store.step Store.changes
       Store.console Store.onSettingsChange].
  destruct first; repeat split; try discriminate.
Qed.

(** When [init()] opens the page and when it shows its error. *)
Lemma init_cases ls today dom :
  (init ls today dom = opened (new_FocusTimerApp ls today dom)
   <-> ls !! Store.STATS = None
       ∨ exists t, ls !! Store.STATS = Some t ∧ Store.JSON_parse_other t = None)
  ∧ (init ls today dom = initialisation_error
     <-> exists t, ls !! Store.STATS = Some t
                   ∧ Store.JSON_parse_other t = Some Store.null_or_primitive)
  ∧ (forall p, init ls today dom = opened p -> p = new_FocusTimerApp ls today dom).
Proof.
  unfold init, new_FocusTimerApp, Store.constructor.
  destruct (ls !! Store.STATS) as [t|];
    [destruct (Store.JSON_parse_other t) as [[|]|] eqn:E|].
  - split; [|split].
    + split; [discriminate|]. intros [Hn | [t' [Ht' Hp]]]; congruence.
    + split; [intros _; exists t; auto | reflexivity].
    + discriminate.
  - split; [|split].
    + split; [discriminate|]. intros [Hn | [t' [Ht' Hp]]]; congruence.
    + split; [discriminate|]. intros [t' [Ht' Hp]]. congruence.
    + discriminate.
  - split; [|split].
    + split; [intros _; right; exists t; auto | reflexivity].
    + split; [discriminate|]. intros [t' [Ht' Hp]]. congruence.
    + intros p Hp. congruence.
  - split; [|split].
    + split; [intros _; left; reflexivity | reflexivity].
    + split; [discriminate|]. intros [t' [Ht' Hp]]. congruence.
    + intros p Hp. congruence.
Qed.

(** X23. [init()] opens the page when the constructor of the store returns:
    the statistics text is absent, is not valid JSON or is the JSON of a
    statistics object.  When that text is valid JSON for [null], a number, a
    string or a boolean, the [TypeError] of the constructor is caught and
    the error screen is shown instead: there is no timer and no interface.
    The page that opens is on the stored settings: the timer is stopped in
    focus mode with the stored focus duration, in seconds, as its time, the
    three callbacks and the change callback are installed, the theme class
    and the two statistics shown are those of the settings.  No callback has
    been called yet, the durations having been given to the timer before the
    callbacks were installed: the clock, the ring and the buttons still show
    what the document held.  On a first visit the visit is recorded and the
    welcome message is scheduled. *)
Theorem page_opens_on_stored_settings ls today dom :
  (init ls today dom = initialisation_error
   <-> exists t, ls !! Store.STATS = Some t
                 ∧ Store.JSON_parse_other t = Some Store.null_or_primitive)
  ∧ (init ls today dom = opened (new_FocusTimerApp ls today dom)
     <-> ls !! Store.STATS = None
         ∨ exists t, ls !! Store.STATS = Some t ∧ Store.JSON_parse_other t = None)
  ∧ (forall p, init ls today dom = opened p ->
       let sw := Store.new_SettingsManager ls today in
       let s := Store.settings (Store.manager sw) in
       let t := Timer.timer (timer p) in
       let first := negb (Timer.truthy (Store.localStorage sw !! "hasVisitedBefore")) in
       Store.constructor ls today = Store.returns sw
       ∧ getSettings p = s
       ∧ Timer.state t = Timer.STOPPED ∧ Timer.mode t = "focus"
       ∧ Timer.timeLeft t = num_mul (Store.focusDuration s) (Num 60)
       ∧ Timer.totalTime t = num_mul (Store.focusDuration s) (Num 60)
       ∧ Timer.intervalId t = None ∧ Timer.intervals (timer p) = ∅
       ∧ Timer.onTick t = true ∧ Timer.onModeChange t = true ∧ Timer.onComplete t = true
       ∧ Store.onSettingsChange (Store.manager (settings p)) = true
       ∧ Timer.calls (timer p) = []
       ∧ timeDisplay (ui p) = timeDisplay dom
       ∧ strokeDashoffset (ui p) = strokeDashoffset dom
       ∧ modeText (ui p) = modeText dom
       ∧ startBtn_disabled (ui p) = startBtn_disabled dom
       ∧ pauseBtn_disabled (ui p) = pauseBtn_disabled dom
       ∧ startBtn_label (ui p) = startBtn_label dom
       ∧ light_mode (ui p) = String.eqb (Store.theme s) "light"
       ∧ focusSessions (ui p) = Store.sessionsToday (Store.stats s)
       ∧ totalFocusTime (ui p) = Store.totalFocusTime (Store.stats s)
       ∧ welcome_scheduled p = first
       ∧ (first = true ->
          Store.localStorage (settings p)
          = <[ "hasVisitedBefore" := "true" ]> (Store.localStorage sw))
       ∧ (first = false -> Store.localStorage (settings p) = Store.localStorage sw)).
Proof.
  destruct (init_cases ls today dom) as (Hopen & Herr & Hp).
  split; [exact Herr|]. split; [exact Hopen|].
  intros p Hinit. pose proof (Hp p Hinit) as ->. cbv zeta.
  split.
  - apply (constructor_cases ls today). apply Hopen. exact Hinit.
  - exact (new_FocusTimerApp_opens ls today dom).
Qed.

(** *** Starting a session that has run out *)

Lemma num_dec_le_0 n : num_le n (Num 0) = true -> num_le (num_dec n) (Num 0) = true.
Proof.
  destruct n as [|q]; [discriminate|]. unfold num_le, num_dec.
  intros Hq. apply Qle_bool_iff in Hq. apply Qle_bool_iff. lra.
Qed.

Lemma _handleStart_finished p :
  finished_focus_session p ->
  let p' := _handleStart p in
  let s := getSettings p in
  let o := Store.stats s in
  finished_focus_session p'
  ∧ Timer.timeLeft (Timer.timer (timer p')) = num_dec (Timer.timeLeft (Timer.timer (timer p)))
  ∧ getSettings p'
    = Store.set_stats
        (Store.mkStats (num_inc (Store.sessionsToday o))
                       (num_add (Store.totalFocusTime o) (Store.focusDuration s))
                       (Store.lastResetDate o)) s
  ∧ isModalOpen (ui p') = true.
Proof.
  intros (Hst & Hmd & Hle & Hoc). cbv zeta.
  assert (Hr : isRunning p = false) by (unfold isRunning; rewrite Hst; reflexivity).
  assert (Hp : isPaused p = false) by (unfold isPaused; rewrite Hst; reflexivity).
  assert (Hnr : Timer.state (Timer.timer (timer p)) ≠ Timer.RUNNING) by congruence.
  pose proof (num_dec_le_0 _ Hle) as Hle'.
  unfold _handleStart. rewrite Hr, Hp.
  assert (Ht : timer (start p)
               = Timer._tick (Timer.setInterval
                                (Timer.console_write info
                                   (Timer.this (Timer.set_state Timer.RUNNING) (timer p))))).
  { rewrite timer_start. apply start_unfold, Hnr. }
  rewrite _tick_unfold in Ht. cbv zeta in Ht.
  change (Timer.timeLeft (Timer.timer (Timer.setInterval (Timer.console_write info
            (Timer.this (Timer.set_state Timer.RUNNING) (timer p))))))
    with (Timer.timeLeft (Timer.timer (timer p))) in Ht.
  rewrite Hle' in Ht.
  pose proof (settings_start p) as Hs. cbv zeta in Hs.
  rewrite Hr, Hle', Hoc, Hmd in Hs. cbn [negb andb] in Hs.
  change ("focus" =? "focus") with true in Hs. cbv iota in Hs.
  rewrite count_focus_session_unfold in Hs. cbv zeta in Hs.
  pose proof (ui_start p) as Hu. cbv zeta in Hu.
  rewrite Hr, Hle', Hoc, Hmd in Hu. cbn [andb] in Hu.
  change ("focus" =? "focus") with true in Hu. cbv iota in Hu.
  unfold finished_focus_session, getSettings.
  rewrite timer_on_ui, settings_on_ui, ui_on_ui. unfold isRunning, isPaused.
  rewrite Ht, Hs, Hu.
  destruct (timer p) as [[st md tl tt fd bd id ot om oc] iv nh cl co].
  cbn [Timer.timer Timer.state Timer.mode Timer.timeLeft Timer.onComplete
       Timer.totalTime Timer.onTick Timer.setInterval Timer.console_write Timer.this
       Timer.set_state] in *.
  subst md oc.
  split; [repeat split; assumption|]. split; [reflexivity|]. split; [reflexivity|].
  unfold announce_completion. cbn [Timer.TimerState_eqb].
  destruct ot, (Store.soundEnabled _); reflexivity.
Qed.

(** X24. A focus session that has run out is counted again by every further
    start.  When the last second of a focus session has elapsed the timer is
    stopped with no time left; the start button, or the space bar, then
    starts it once more, the first tick finds no time left and the session
    completes again: the modal opens, one more session and one more focus
    duration are added to the statistics, and the time left goes one second
    further below zero.  After [n] such starts the sessions counted have
    grown by [n]. *)
Theorem finished_session_counts_again :
  (forall h p,
     h ∈ Timer.intervals (timer p) ->
     Timer.mode (Timer.timer (timer p)) = "focus" ->
     Timer.onComplete (Timer.timer (timer p)) = true ->
     num_le (num_dec (Timer.timeLeft (Timer.timer (timer p)))) (Num 0) = true ->
     finished_focus_session (step (interval_fires h) p))
  ∧ (forall p,
       finished_focus_session p ->
       let p' := step handle_start p in
       let s := getSettings p in
       let o := Store.stats s in
       finished_focus_session p'
       ∧ step press_space p = p'
       ∧ Timer.timeLeft (Timer.timer (timer p'))
         = num_dec (Timer.timeLeft (Timer.timer (timer p)))
       ∧ getSettings p'
         = Store.set_stats
             (Store.mkStats (num_inc (Store.sessionsToday o))
                            (num_add (Store.totalFocusTime o) (Store.focusDuration s))
                            (Store.lastResetDate o)) s
       ∧ isModalOpen (ui p') = true)
  ∧ (forall n p z,
       finished_focus_session p ->
       is_Z (Store.sessionsToday (Store.stats (getSettings p))) z ->
       is_Z (Store.sessionsToday
               (Store.stats (getSettings (run (repeat handle_start n) p))))
            (z + Z.of_nat n)).
Proof.
  split; [|split].
  - intros h p Hh Hmd Hoc Hle. unfold step. destruct (decide _); [|contradiction].
    unfold finished_focus_session. rewrite timer__tick, _tick_unfold. cbv zeta.
    rewrite Hle. cbn [Timer.timer Timer.state Timer.mode Timer.timeLeft Timer.onComplete].
    repeat split; assumption.
  - intros p Hfin. cbv zeta.
    destruct (_handleStart_finished p Hfin) as (A & B & C & D). cbv zeta in A, B, C, D.
    split; [exact A|]. split.
    { unfold step, key_space. destruct Hfin as (Hst & _).
      unfold isRunning. rewrite Hst. reflexivity. }
    repeat split; assumption.
  - intros n. induction n as [|n IH]; intros p z Hfin Hz.
    + rewrite Z.add_0_r. exact Hz.
    + cbn [repeat run fold_left].
      change (fold_left (fun p e => step e p) (repeat handle_start n) (step handle_start p))
        with (run (repeat handle_start n) (step handle_start p)).
      destruct (_handleStart_finished p Hfin) as (A & _ & C & _). cbv zeta in A, C.
      replace (z + Z.of_nat (S n))%Z with ((z + 1) + Z.of_nat n)%Z by lia.
      apply IH; [exact A|]. unfold step. rewrite C. cbn [Store.stats Store.set_stats Store.sessionsToday].
      destruct (Store.sessionsToday _) as [|q]; [contradiction|].
      unfold is_Z, num_inc in *. rewrite Hz, inject_Z_plus. reflexivity.
Qed.

(** *** The action button of the modal *)

Lemma setMode_then_start m w :
  m = "focus" ∨ m = "break" ->
  let t := Timer.timer w in
  let d := Timer.duration_of m t in
  num_le (num_dec d) (Num 0) = false ->
  let w' := Timer.start (Timer.setMode m w) in
  let t' := Timer.timer w' in
  Timer.state t' = Timer.RUNNING ∧ Timer.mode t' = m
  ∧ Timer.totalTime t' = d ∧ Timer.timeLeft t' = num_dec d
  ∧ Timer.intervalId t' = Some (Timer.nextHandle w)
  ∧ Timer.nextHandle w' = Pos.succ (Timer.nextHandle w)
  ∧ (Timer.handle_inv w -> Timer.intervals w' = {[ Timer.nextHandle w ]}).
Proof.
  intros Hm t d Hle. cbv zeta.
  rewrite (start_unfold _ (setMode_not_running m w Hm)), _tick_unfold.
  rewrite (setMode_unfold m w Hm). cbv zeta. fold t. fold d.
  cbn [Timer.timer Timer.timeLeft Timer.setInterval Timer.console_write Timer.this
       Timer.set_state Timer.set_intervalId Timer.nextHandle Timer.totalTime Timer.mode
       Timer.intervals Timer.state Timer.intervalId].
  rewrite Hle.
  cbn [Timer.timer Timer.timeLeft Timer.nextHandle Timer.totalTime Timer.mode
       Timer.intervals Timer.state Timer.intervalId].
  repeat (split; [reflexivity|]).
  intros Hinv. destruct (handle_inv_cases w Hinv) as [(h & Hid & Hiv & Hst) | (Hid & Hiv & Hst)].
  - fold t in Hid, Hst. rewrite Hst, Hid, Hiv. cbn [Timer.TimerState_eqb Timer.cleared].
    set_solver.
  - fold t in Hid, Hst.
    destruct (Timer.TimerState_eqb (Timer.state t) Timer.RUNNING) eqn:E.
    + apply TimerState_eqb_eq in E. contradiction.
    + rewrite Hiv. set_solver.
Qed.

(** X25. The action button of the modal closes it and starts a session of
    the other mode: unless the duration of that mode is a second or less,
    the timer is then running in it with the full duration as total time and
    one second already taken off, on a fresh interval that is the only one
    scheduled; the buttons show a running timer and the clock shows the
    time.  The settings are not touched.  It does so whatever the timer was
    doing before, a running session being dropped. *)
Theorem modal_action_runs_other_mode p :
  let t := Timer.timer (timer p) in
  let m := if String.eqb (Timer.mode t) "focus" then "break" else "focus" in
  let d := Timer.duration_of m t in
  let p' := step modal_action p in
  let t' := Timer.timer (timer p') in
  num_le (num_dec d) (Num 0) = false ->
  Timer.state t' = Timer.RUNNING ∧ Timer.mode t' = m
  ∧ Timer.totalTime t' = d ∧ Timer.timeLeft t' = num_dec d
  ∧ Timer.intervalId t' = Some (Timer.nextHandle (timer p))
  ∧ (Timer.handle_inv (timer p) ->
     Timer.intervals (timer p') = {[ Timer.nextHandle (timer p) ]})
  ∧ isModalOpen (ui p') = false
  ∧ settings p' = settings p
  ∧ (Timer.onTick t = true ->
     startBtn_disabled (ui p') = true ∧ pauseBtn_disabled (ui p') = false
     ∧ startBtn_label (ui p') = En_cours
     ∧ timeDisplay (ui p') = Display.formatTime (num_dec d)
     ∧ modeText (ui p') = (if String.eqb m "focus" then "Focus" else "Pause")).
Proof.
  intros t m d p' t' Hle. subst t' p'.
  pose proof (other_mode_valid (Timer.mode t)) as Hm. fold m in Hm.
  destruct (setMode_then_start m (timer p) Hm Hle) as (A & B & C & D & E & _ & G).
  assert (Ht : timer (step modal_action p) = Timer.start (Timer.setMode m (timer p))).
  { rewrite timer_step. reflexivity. }
  rewrite Ht. repeat (split; [assumption|]).
  set (p1 := setMode m (on_ui _closeModal p)).
  assert (T1 : timer p1 = Timer.setMode m (timer p))
    by (subst p1; rewrite timer_setMode; reflexivity).
  assert (S1 : settings p1 = settings p)
    by (subst p1; rewrite settings_setMode; reflexivity).
  assert (U1 : ui p1
               = if Timer.onTick t
                 then updateControlButtons false (isRunning p || isPaused p)
                        (updateTimerDisplay d d m (_closeModal (ui p)))
                 else _closeModal (ui p)).
  { subst p1. rewrite ui_setMode. cbv zeta.
    replace (negb (m =? "focus") && negb (m =? "break")) with false
      by (destruct Hm as [-> | ->]; reflexivity).
    reflexivity. }
  assert (R1 : isRunning p1 = false).
  { unfold isRunning. rewrite T1. apply TimerState_eqb_neq, setMode_not_running, Hm. }
  assert (Hc : Timer.timeLeft (Timer.timer (timer p1)) = d
               ∧ Timer.totalTime (Timer.timer (timer p1)) = d
               ∧ Timer.mode (Timer.timer (timer p1)) = m
               ∧ Timer.onTick (Timer.timer (timer p1)) = Timer.onTick t).
  { rewrite T1, (setMode_unfold m (timer p) Hm). repeat split. }
  destruct Hc as (C1 & C2 & C3 & C4).
  change (step modal_action p) with (start p1).
  pose proof (settings_start p1) as Hs. pose proof (ui_start p1) as Hu.
  cbv zeta in Hs, Hu. rewrite R1, C1, Hle in Hs. rewrite R1, C1, C2, C3, C4, Hle in Hu.
  cbn [negb andb] in Hs, Hu. rewrite Hs, Hu, S1, U1. clear Hs Hu.
  split.
  { destruct (Timer.onTick t), (isRunning p || isPaused p); reflexivity. }
  split; [reflexivity|].
  intros Htk. rewrite Htk. repeat split.
Qed.

(** *** The theme *)

Ltac ui_field :=
  cbv zeta; unfold announce_completion, updateControlButtons, updateTimerDisplay;
  repeat match goal with
         | |- context [if ?c then _ else _] => destruct c
         end;
  reflexivity.

Lemma ui_resume p : ui (resume p) = if negb (isPaused p) then ui p else ui (start p).
Proof. unfold resume. destruct (negb _); reflexivity. Qed.

Lemma ui__handleStart p :
  ui (_handleStart p)
  = if isRunning p then ui p
    else updateControlButtons (isRunning (if isPaused p then resume p else start p))
           (isPaused (if isPaused p then resume p else start p))
           (ui (start p)).
Proof.
  unfold _handleStart. destruct (isRunning p); [reflexivity|]. rewrite ui_on_ui.
  destruct (isPaused p) eqn:Ep; [|reflexivity].
  rewrite ui_resume, Ep. reflexivity.
Qed.

Lemma ui__handlePause p :
  ui (_handlePause p)
  = if isRunning p then updateControlButtons false true (ui p) else ui p.
Proof.
  unfold _handlePause. destruct (isRunning p) eqn:Er; [|reflexivity].
  cbn [negb]. rewrite ui_on_ui. unfold isRunning, isPaused. rewrite timer_pause.
  apply TimerState_eqb_eq in Er. rewrite (pause_unfold _ Er). reflexivity.
Qed.

Lemma ui__saveSettings f b so p :
  ui (_saveSettings f b so p)
  = if num_lt (parseInt f) (Num 1) || num_gt (parseInt f) (Num 120)
    then _showError focus_out_of_range (ui p)
    else if num_lt (parseInt b) (Num 1) || num_gt (parseInt b) (Num 30)
    then _showError break_out_of_range (ui p)
    else ui (timer_setBreakDuration (parseInt b) (timer_setFocusDuration (parseInt f) p)).
Proof.
  unfold _saveSettings. destruct (_ || _); [reflexivity|]. destruct (_ || _); [reflexivity|].
  rewrite settings_call_setFocusDuration, settings_call_setBreakDuration,
    settings_call_setSoundEnabled.
  rewrite !ui_timer_setBreakDuration, !ui_timer_setFocusDuration.
  rewrite !timer_timer_setFocusDuration. reflexivity.
Qed.

Lemma light_mode_step e p :
  e ≠ toggle_theme -> light_mode (ui (step e p)) = light_mode (ui p).
Proof.
  intros He. destruct e; try contradiction; unfold step.
  - rewrite ui__handleStart, ui_start. ui_field.
  - rewrite ui__handlePause. ui_field.
  - unfold _handleReset. rewrite ui_on_ui, ui_reset. ui_field.
  - unfold key_space. destruct (isRunning p) eqn:Er.
    + rewrite ui__handlePause. ui_field.
    + rewrite ui__handleStart, ui_start. ui_field.
  - rewrite ui__saveSettings, ui_timer_setBreakDuration, ui_timer_setFocusDuration.
    unfold _showError. ui_field.
  - unfold _handleModalAction. rewrite ui_start, ui_setMode, ui_on_ui. ui_field.
  - reflexivity.
  - reflexivity.
  - destruct (welcome_scheduled p); reflexivity.
  - destruct (decide _); [|reflexivity]. rewrite ui__tick. ui_field.
  - unfold toggleMode. rewrite ui_setMode. ui_field.
  - reflexivity.
Qed.

Lemma theme_step e p :
  e ≠ toggle_theme ->
  Store.theme (getSettings (step e p)) = Store.theme (getSettings p).
Proof.
  intros He. unfold getSettings.
  destruct (settings_step_cases e p) as [E | [E | E]].
  - rewrite E. reflexivity.
  - rewrite E. apply count_focus_session_preferences.
  - destruct e; try contradiction.
    + destruct E as (Hf & Hb & E). rewrite E.
      destruct (accepted_settings _ _ soundEnabled (settings p) Hf Hb) as (S1 & _).
      cbv zeta in S1. rewrite S1. reflexivity.
    + rewrite E, saved_settings_preferences.
      destruct (settings p) as [[[f b so th st] cb] ls ch co]. reflexivity.
Qed.

Lemma ui__applyTheme p :
  ui (_applyTheme p)
  = set_light_mode (String.eqb (Store.theme (getSettings p)) "light") (ui p).
Proof. unfold _applyTheme. destruct (String.eqb _ "light"); reflexivity. Qed.

Lemma fold_onSettingsChange_ui cs p :
  ui (fold_left (fun p c => onSettingsChange c p) cs p) = ui p
  ∨ ui (fold_left (fun p c => onSettingsChange c p) cs p)
    = set_light_mode (String.eqb (Store.theme (getSettings p)) "light") (ui p).
Proof.
  revert p. induction cs as [|[key nv ov] cs IH]; intros p; [left; reflexivity|].
  cbn [fold_left onSettingsChange]. destruct (String.eqb key "theme"); [|apply IH].
  right. destruct (IH (_applyTheme p)) as [E | E]; rewrite E.
  - apply ui__applyTheme.
  - unfold getSettings. rewrite settings__applyTheme, ui__applyTheme. reflexivity.
Qed.

Lemma _toggleTheme_unfold p :
  let nt := if light_mode (ui p) then "dark" else "light" in
  let s := Store.set_theme nt (getSettings p) in
  getSettings (_toggleTheme p) = s
  ∧ Store.localStorage (settings (_toggleTheme p))
    = <[ "theme" := nt ]> (Store.saved s (Store.localStorage (settings p)))
  ∧ ui (_toggleTheme p) = set_light_mode (negb (light_mode (ui p))) (ui p)
  ∧ timer (_toggleTheme p) = timer p.
Proof.
  cbv zeta. set (nt := if light_mode (ui p) then "dark" else "light").
  assert (Hnt : nt = "dark" ∨ nt = "light")
    by (subst nt; destruct (light_mode (ui p)); auto).
  assert (Hl : String.eqb nt "light" = negb (light_mode (ui p)))
    by (subst nt; destruct (light_mode (ui p)); reflexivity).
  pose proof (setTheme_unfold nt (settings p)) as Hset.
  replace (negb (nt =? "dark") && negb (nt =? "light")) with false in Hset
    by (destruct Hnt as [-> | ->]; reflexivity).
  cbv zeta in Hset.
  unfold _toggleTheme. fold nt.
  set (p1 := settings_call (Store.setTheme nt) p).
  assert (S1 : settings p1 = snd (Store.setTheme nt (settings p)))
    by apply settings_settings_call.
  assert (T1 : timer p1 = timer p) by apply timer_settings_call.
  assert (G1 : getSettings p1 = Store.set_theme nt (getSettings p)).
  { unfold getSettings. rewrite S1, Hset. reflexivity. }
  assert (U1 : ui (_applyTheme p1) = set_light_mode (negb (light_mode (ui p))) (ui p)).
  { rewrite ui__applyTheme, G1. cbn [Store.theme Store.set_theme]. rewrite Hl.
    subst p1. unfold settings_call.
    match goal with
    | |- context [fold_left ?f ?l ?q] =>
        destruct (fold_onSettingsChange_ui l q) as [E | E]
    end; rewrite E; reflexivity. }
  rewrite timer_on_settings, timer__applyTheme, T1, ui_on_settings, U1.
  unfold getSettings. rewrite settings_on_settings, settings__applyTheme, S1, Hset.
  repeat split.
Qed.

(** X26. The class of the body follows the theme of the settings: it is
    [light-mode] exactly when the theme is [light], from the moment the page
    has opened and after whatever happens in it.  Toggling the theme stores
    [dark] if the body is light and [light] if not, saves it, writes it
    under the key [theme] and flips the class; it leaves the timer alone.  A
    stored theme that is neither [dark] nor [light] is shown as dark and
    becomes [light] at the first toggle. *)
Theorem theme_class_follows_settings :
  (forall ls today dom, theme_applied (new_FocusTimerApp ls today dom))
  ∧ (forall e p, theme_applied p -> theme_applied (step e p))
  ∧ (forall p,
       let p' := step toggle_theme p in
       let nt := if light_mode (ui p) then "dark" else "light" in
       Store.theme (getSettings p') = nt
       ∧ Store.localStorage (settings p') !! "theme" = Some nt
       ∧ light_mode (ui p') = negb (light_mode (ui p))
       ∧ theme_applied p'
       ∧ timer p' = timer p)
  ∧ (forall p,
       theme_applied p ->
       Store.theme (getSettings (step toggle_theme p))
       = (if String.eqb (Store.theme (getSettings p)) "light" then "dark" else "light")
       ∧ Store.theme (getSettings (step toggle_theme (step toggle_theme p)))
         = (if String.eqb (Store.theme (getSettings p)) "light" then "light" else "dark")).
Proof.
  assert (Htoggle : forall p,
       let p' := step toggle_theme p in
       let nt := if light_mode (ui p) then "dark" else "light" in
       Store.theme (getSettings p') = nt
       ∧ Store.localStorage (settings p') !! "theme" = Some nt
       ∧ light_mode (ui p') = negb (light_mode (ui p))
       ∧ theme_applied p'
       ∧ timer p' = timer p).
  { intros p. cbv zeta. unfold step.
    destruct (_toggleTheme_unfold p) as (G & L & U & T). cbv zeta in G, L, U, T.
    unfold theme_applied. rewrite G, L, U, T.
    split; [reflexivity|]. split; [apply lookup_insert_eq|]. split; [reflexivity|].
    split; [|reflexivity].
    destruct (light_mode (ui p)); reflexivity. }
  split; [|split; [|split; [exact Htoggle|]]].
  - intros ls today dom. unfold theme_applied.
    destruct (new_FocusTimerApp_unfold ls today dom) as (_ & S & U & _).
    cbv zeta in S, U. unfold getSettings. rewrite S, U.
    destruct (negb _), (Store.new_SettingsManager ls today) as [[s cb] l ch co]; reflexivity.
  - intros e p Hp.
    assert (He : e = toggle_theme ∨ e ≠ toggle_theme)
      by (destruct e; (left; reflexivity) || (right; discriminate)).
    destruct He as [-> | He].
    + apply Htoggle.
    + unfold theme_applied. rewrite (light_mode_step e p He), (theme_step e p He). exact Hp.
  - intros p Hp. destruct (Htoggle p) as (A & _ & B & C & _). cbv zeta in A, B, C.
    destruct (Htoggle (step toggle_theme p)) as (A' & _). cbv zeta in A'.
    rewrite A', B, A. unfold theme_applied in Hp. rewrite Hp.
    destruct (String.eqb _ "light"); split; reflexivity.
Qed.

(** *** The clock *)

Lemma display_of_update r q a b m u :
  display_of (updateControlButtons r q (updateTimerDisplay a b m u)) = display_for a b m.
Proof. destruct r, q; reflexivity. Qed.

Lemma display_of_buttons r q u : display_of (updateControlButtons r q u) = display_of u.
Proof. destruct r, q; reflexivity. Qed.

Lemma display_of_announce b u : display_of (announce_completion b u) = display_of u.
Proof. destruct b; reflexivity. Qed.

Lemma display_of_statistics a b u : display_of (set_statistics a b u) = display_of u.
Proof. reflexivity. Qed.

Lemma clock__tick w :
  let t := Timer.timer w in
  let t' := Timer.timer (Timer._tick w) in
  Timer.timeLeft t' = num_dec (Timer.timeLeft t)
  ∧ Timer.totalTime t' = Timer.totalTime t ∧ Timer.mode t' = Timer.mode t.
Proof. rewrite _tick_unfold. cbv zeta. destruct (num_le _ _); repeat split. Qed.

Lemma clock_start w :
  Timer.state (Timer.timer w) ≠ Timer.RUNNING ->
  let t := Timer.timer w in
  let t' := Timer.timer (Timer.start w) in
  Timer.timeLeft t' = num_dec (Timer.timeLeft t)
  ∧ Timer.totalTime t' = Timer.totalTime t ∧ Timer.mode t' = Timer.mode t.
Proof.
  intros Hr. rewrite (start_unfold w Hr).
  set (w1 := Timer.setInterval _).
  destruct (clock__tick w1) as (A & B & C). cbv zeta in *. rewrite A, B, C. subst w1.
  destruct w as [[st md tl tt fd bd id ot om oc] iv nh cl co]. repeat split.
Qed.

Lemma display__tick p :
  Timer.onTick (Timer.timer (timer p)) = true -> display_current (_tick p).
Proof.
  intros Htk. unfold display_current.
  destruct (clock__tick (timer p)) as (A & B & C). cbv zeta in A, B, C.
  rewrite timer__tick, A, B, C, ui__tick. cbv zeta. rewrite Htk.
  destruct (_ && _); [destruct (String.eqb _ "focus")|];
    rewrite ?display_of_statistics, ?display_of_announce; apply display_of_update.
Qed.

Lemma display_start p :
  Timer.onTick (Timer.timer (timer p)) = true -> isRunning p = false ->
  display_current (start p).
Proof.
  intros Htk Hr. unfold start. rewrite Hr.
  apply display__tick. exact Htk.
Qed.

Lemma display_reset m p :
  Timer.onTick (Timer.timer (timer p)) = true -> display_current (reset m p).
Proof.
  intros Htk. unfold display_current.
  rewrite timer_reset, reset_unfold, ui_reset. cbv zeta. rewrite Htk.
  apply display_of_update.
Qed.

Lemma display_setMode m p :
  Timer.onTick (Timer.timer (timer p)) = true ->
  display_current p -> display_current (setMode m p).
Proof.
  intros Htk Hp. unfold display_current.
  rewrite timer_setMode, ui_setMode. cbv zeta.
  destruct (valid_mode_dec m) as [Hm | [H1 H2]].
  - rewrite (setMode_unfold m _ Hm).
    replace (negb (m =? "focus") && negb (m =? "break")) with false
      by (destruct Hm as [-> | ->]; reflexivity).
    rewrite Htk. apply display_of_update.
  - rewrite (setMode_invalid m _ H1 H2).
    apply String.eqb_neq in H1, H2. rewrite H1, H2. exact Hp.
Qed.

Lemma display_timer_setFocusDuration n p :
  Timer.onTick (Timer.timer (timer p)) = true ->
  display_current p -> display_current (timer_setFocusDuration n p).
Proof.
  intros Htk Hp. unfold display_current.
  rewrite timer_timer_setFocusDuration, setFocusDuration_unfold, ui_timer_setFocusDuration.
  cbv zeta. rewrite Htk, andb_true_r.
  destruct (Timer.stopped_in_mode _ _); [apply display_of_update | exact Hp].
Qed.

Lemma display_timer_setBreakDuration n p :
  Timer.onTick (Timer.timer (timer p)) = true ->
  display_current p -> display_current (timer_setBreakDuration n p).
Proof.
  intros Htk Hp. unfold display_current.
  rewrite timer_timer_setBreakDuration, setBreakDuration_unfold, ui_timer_setBreakDuration.
  cbv zeta. rewrite Htk, andb_true_r.
  destruct (Timer.stopped_in_mode _ _); [apply display_of_update | exact Hp].
Qed.

Lemma display_frame p p' :
  Timer.timeLeft (Timer.timer (timer p')) = Timer.timeLeft (Timer.timer (timer p)) ->
  Timer.totalTime (Timer.timer (timer p')) = Timer.totalTime (Timer.timer (timer p)) ->
  Timer.mode (Timer.timer (timer p')) = Timer.mode (Timer.timer (timer p)) ->
  display_of (ui p') = display_of (ui p) ->
  display_current p -> display_current p'.
Proof. unfold display_current. intros -> -> -> ->. exact id. Qed.

Lemma display_buttons r q p :
  display_current p -> display_current (on_ui (updateControlButtons r q) p).
Proof. apply display_frame; try reflexivity. apply display_of_buttons. Qed.

Lemma display__handleStart p :
  Timer.onTick (Timer.timer (timer p)) = true ->
  display_current p -> display_current (_handleStart p).
Proof.
  intros Htk Hp. unfold _handleStart. destruct (isRunning p) eqn:Er; [exact Hp|].
  apply display_buttons. unfold resume.
  destruct (isPaused p); apply display_start; assumption.
Qed.

Lemma display__handlePause p : display_current p -> display_current (_handlePause p).
Proof.
  intros Hp. unfold _handlePause. destruct (isRunning p) eqn:Er; [|exact Hp].
  cbn [negb]. apply display_buttons. apply TimerState_eqb_eq in Er.
  revert Hp. apply display_frame; try reflexivity;
    unfold pause; rewrite timer_on_timer, (pause_unfold _ Er); reflexivity.
Qed.

(** X27. Once the clock shows the timer it goes on showing it: with the tick
    callback in place, if the clock text, the ring and the mode text are
    those of the time left, the total time and the mode of the timer, they
    still are after any handler, interval or global function has run.  A
    tick, a start, a reset or the action button of the modal make them so,
    whatever they were. *)
Theorem clock_shows_the_timer :
  (forall e p,
     Timer.onTick (Timer.timer (timer p)) = true ->
     display_current p -> display_current (step e p))
  ∧ (forall es p,
       Timer.onTick (Timer.timer (timer p)) = true ->
       display_current p -> display_current (run es p))
  ∧ (forall p,
       Timer.onTick (Timer.timer (timer p)) = true ->
       display_current (step handle_reset p)
       ∧ display_current (step modal_action p)
       ∧ (isRunning p = false -> display_current (step handle_start p))
       ∧ (forall h, h ∈ Timer.intervals (timer p) ->
                    display_current (step (interval_fires h) p))).
Proof.
  assert (Hmodal : forall p, Timer.onTick (Timer.timer (timer p)) = true ->
                             display_current (step modal_action p)).
  { intros p Htk. unfold step, _handleModalAction.
    set (m := if String.eqb _ "focus" then "break" else "focus").
    apply display_start.
    - rewrite timer_setMode.
      destruct (step_configuration (Timer.call_setMode m) (timer (on_ui _closeModal p)))
        as (_ & _ & K & _). cbv zeta in K. cbn [Timer.step] in K. rewrite K. exact Htk.
    - unfold isRunning. rewrite timer_setMode.
      apply TimerState_eqb_neq, setMode_not_running. subst m. apply other_mode_valid. }
  assert (Hstep : forall e p,
     Timer.onTick (Timer.timer (timer p)) = true ->
     display_current p -> display_current (step e p)).
  { intros e p Htk Hp. destruct e; unfold step.
    - apply display__handleStart; assumption.
    - apply display__handlePause; assumption.
    - unfold _handleReset. apply display_buttons, display_reset, Htk.
    - unfold key_space. destruct (isRunning p).
      + apply display__handlePause; assumption.
      + apply display__handleStart; assumption.
    - revert Hp. destruct (_toggleTheme_unfold p) as (_ & _ & U & T). cbv zeta in U, T.
      apply display_frame; rewrite ?T, ?U; reflexivity.
    - unfold _saveSettings.
      destruct (_ || _); [exact Hp|]. destruct (_ || _); [exact Hp|].
      rewrite settings_call_setFocusDuration, settings_call_setBreakDuration,
        settings_call_setSoundEnabled.
      apply display_timer_setBreakDuration.
      + rewrite timer_timer_setFocusDuration.
        match goal with
        | |- context [Timer.setFocusDuration ?n ?w] =>
            destruct (step_configuration (Timer.call_setFocusDuration n) w)
              as (_ & _ & K & _)
        end.
        cbv zeta in K. cbn [Timer.step] in K. rewrite K. exact Htk.
      + apply display_timer_setFocusDuration; [exact Htk | exact Hp].
    - apply Hmodal, Htk.
    - exact Hp.
    - exact Hp.
    - destruct (welcome_scheduled p); exact Hp.
    - destruct (decide _); [apply display__tick, Htk | exact Hp].
    - unfold toggleMode. apply display_setMode; assumption.
    - exact Hp. }
  split; [exact Hstep|]. split.
  - intros es. induction es as [|e es IH]; intros p Htk Hp; [exact Hp|].
    cbn [run fold_left]. apply IH.
    + destruct (step_keeps_callbacks e p) as (K & _). cbv zeta in K. rewrite K. exact Htk.
    + apply Hstep; assumption.
  - intros p Htk. split; [|split; [|split]].
    + unfold step, _handleReset. apply display_buttons, display_reset, Htk.
    + apply Hmodal, Htk.
    + intros Hr. unfold step, _handleStart. rewrite Hr.
      apply display_buttons. unfold resume.
      destruct (isPaused p); apply display_start; assumption.
    + intros h Hh. unfold step. destruct (decide _); [|contradiction].
      apply display__tick, Htk.
Qed.

End AppProofs.

Section AppExamples.
Import App.

Lemma session_ends_in_page_witness :
  Timer.state (Timer.timer (timer (step (H := Store.sample_host) (interval_fires 1)
                                        last_second_page))) = Timer.STOPPED
  ∧ startBtn_disabled (ui (step (H := Store.sample_host) (interval_fires 1)
                                last_second_page)) = true.
Proof.
  assert (Hh : 1%positive ∈ Timer.intervals (timer last_second_page))
    by (vm_compute; reflexivity).
  assert (Hr : Timer.state (Timer.timer (timer last_second_page)) = Timer.RUNNING)
    by (vm_compute; reflexivity).
  assert (Htk : Timer.onTick (Timer.timer (timer last_second_page)) = true)
    by (vm_compute; reflexivity).
  assert (Hcp : Timer.onComplete (Timer.timer (timer last_second_page)) = true)
    by (vm_compute; reflexivity).
  assert (Hle : num_le (num_dec (Timer.timeLeft (Timer.timer (timer last_second_page))))
                       (Num 0) = true) by (vm_compute; reflexivity).
  destruct (session_ends_in_page (H := Store.sample_host) 1 last_second_page
              Hh Hr Htk Hcp Hle) as (A & _ & _ & _ & _ & B & _).
  split; [exact A | exact B].
Defined.

Lemma panel_saves_all_or_nothing_witness :
  Timer.focusDuration
    (Timer.timer (timer (step (H := Store.sample_host) (save_settings "30" "10" false)
                              sample_page)))
  = num_mul (parseInt "30") (Num 60).
Proof.
  assert (Hf : (num_lt (parseInt "30") (Num 1) || num_gt (parseInt "30") (Num 120)) = false)
    by (vm_compute; reflexivity).
  assert (Hb : (num_lt (parseInt "10") (Num 1) || num_gt (parseInt "10") (Num 30)) = false)
    by (vm_compute; reflexivity).
  destruct (panel_saves_all_or_nothing (H := Store.sample_host) "30" "10" false sample_page)
    as (_ & _ & Hok & _).
  destruct (Hok Hf Hb) as (_ & _ & A & _). exact A.
Defined.

Lemma durations_always_agree_witness :
  durations_agree (step (H := Store.sample_host) (save_settings "30" "10" false)
                        sample_page).
Proof.
  destruct (durations_always_agree (H := Store.sample_host)) as (Hnew & Hstep & _).
  exact (Hstep (save_settings "30" "10" false) sample_page
               (Hnew ∅ Store.today_string sample_dom)).
Defined.

Lemma page_opens_on_stored_settings_witness :
  init (H := Store.sample_host) ∅ Store.today_string sample_dom = opened sample_page
  ∧ Store.localStorage (settings sample_page)
    = <[ "hasVisitedBefore" := "true" ]>
        (Store.localStorage
           (Store.new_SettingsManager (H := Store.sample_host) ∅ Store.today_string))
  ∧ init (H := Store.sample_host) Store.null_stats Store.today_string sample_dom
    = initialisation_error.
Proof.
  assert (Hfirst : negb (Timer.truthy
                           (Store.localStorage
                              (Store.new_SettingsManager (H := Store.sample_host) ∅
                                                         Store.today_string)
                            !! "hasVisitedBefore")) = true) by (vm_compute; reflexivity).
  assert (Hn : exists t, Store.null_stats !! Store.STATS = Some t
                 ∧ Store.JSON_parse_other (Host := Store.sample_host) t
                   = Some Store.null_or_primitive)
    by (exists "null"; split; vm_compute; reflexivity).
  assert (He : (∅ : gmap string string) !! Store.STATS = None
               ∨ exists t, (∅ : gmap string string) !! Store.STATS = Some t
                           ∧ Store.JSON_parse_other (Host := Store.sample_host) t = None)
    by (left; apply lookup_empty).
  destruct (page_opens_on_stored_settings (H := Store.sample_host) ∅ Store.today_string
                                          sample_dom) as (_ & Hopen & Hpage).
  destruct (page_opens_on_stored_settings (H := Store.sample_host) Store.null_stats
                                          Store.today_string sample_dom) as (Herr & _).
  assert (Hi : init (H := Store.sample_host) ∅ Store.today_string sample_dom
               = opened sample_page) by (apply Hopen, He).
  destruct (Hpage _ Hi)
    as (_ & _ & _ & _ & _ & _ & _ & _ & _ & _ & _ & _ & _ & _ & _ & _ & _ & _ & _ & _ & _
        & _ & _ & B & _).
  split; [exact Hi|]. split; [exact (B Hfirst) | apply Herr, Hn].
Defined.

Lemma finished_session_counts_again_witness :
  finished_focus_session
    (step (H := Store.sample_host) handle_start
          (step (H := Store.sample_host) (interval_fires 1) last_second_page)).
Proof.
  assert (Hh : 1%positive ∈ Timer.intervals (timer last_second_page))
    by (vm_compute; reflexivity).
  assert (Hm : Timer.mode (Timer.timer (timer last_second_page)) = "focus")
    by (vm_compute; reflexivity).
  assert (Hcp : Timer.onComplete (Timer.timer (timer last_second_page)) = true)
    by (vm_compute; reflexivity).
  assert (Hle : num_le (num_dec (Timer.timeLeft (Timer.timer (timer last_second_page))))
                       (Num 0) = true) by (vm_compute; reflexivity).
  destruct (finished_session_counts_again (H := Store.sample_host)) as (Hend & Hagain & _).
  exact (proj1 (Hagain _ (Hend 1%positive last_second_page Hh Hm Hcp Hle))).
Defined.

Lemma modal_action_runs_other_mode_witness :
  Timer.state (Timer.timer (timer (step (H := Store.sample_host) modal_action sample_page)))
  = Timer.RUNNING.
Proof.
  assert (Hle : num_le (num_dec (Timer.duration_of
                                   (if String.eqb (Timer.mode (Timer.timer (timer sample_page)))
                                                  "focus"
                                    then "break" else "focus")
                                   (Timer.timer (timer sample_page)))) (Num 0) = false)
    by (vm_compute; reflexivity).
  exact (proj1 (modal_action_runs_other_mode (H := Store.sample_host) sample_page Hle)).
Defined.

Lemma theme_class_follows_settings_witness :
  theme_applied (step (H := Store.sample_host) handle_start sample_page).
Proof.
  destruct (theme_class_follows_settings (H := Store.sample_host)) as (Hnew & Hstep & _).
  exact (Hstep handle_start sample_page (Hnew ∅ Store.today_string sample_dom)).
Defined.

Lemma clock_shows_the_timer_witness :
  display_current (H := Store.sample_host)
    (step (H := Store.sample_host) handle_pause
          (step (H := Store.sample_host) handle_start sample_page)).
Proof.
  assert (Htk : Timer.onTick (Timer.timer (timer sample_page)) = true)
    by (vm_compute; reflexivity).
  assert (Hr : isRunning sample_page = false) by (vm_compute; reflexivity).
  assert (Htk' : Timer.onTick
                   (Timer.timer (timer (step (H := Store.sample_host) handle_start
                                             sample_page))) = true)
    by (vm_compute; reflexivity).
  destruct (clock_shows_the_timer (H := Store.sample_host)) as (Hstep & _ & Hmake).
  destruct (Hmake sample_page Htk) as (_ & _ & Hstart & _).
  exact (Hstep handle_pause _ Htk' (Hstart Hr)).
Defined.

End AppExamples.

(** ** The home page *)

Section HomepageProofs.
Import Homepage.

Lemma setTheme_unfold_home theme p :
  setTheme theme p
  = let d := match theme with
             | Some s => String.eqb s "dark"
             | None => false
             end in
    mkPage d (negb d) (<[ "theme" := String_of theme ]> (localStorage p))
           (cookies p ++ ["theme=" +:+ String_of theme +:+ "; path=/; max-age=31536000"])
           (console p ++ [info]).
Proof.
  unfold setTheme. cbv zeta.
  destruct (match theme with Some s => String.eqb s "dark" | None => false end); reflexivity.
Qed.

Lemma initTheme_unfold p :
  let t := saved_theme (localStorage p) in
  dark_mode (initTheme p) = String.eqb t "dark"
  ∧ light_mode (initTheme p) = negb (String.eqb t "dark")
  ∧ localStorage (initTheme p) = <[ "theme" := t ]> (localStorage p).
Proof.
  cbv zeta. set (t := saved_theme (localStorage p)).
  assert (E1 : (if Timer.truthy (localStorage p !! "theme")
                then localStorage p !! "theme" else Some "light") = Some t).
  { subst t. unfold saved_theme, Timer.truthy.
    destruct (localStorage p !! "theme") as [s|]; [|reflexivity].
    destruct (String.eqb s ""); reflexivity. }
  assert (E2 : Timer.truthy (Some t) = true).
  { subst t. unfold saved_theme, Timer.truthy.
    destruct (localStorage p !! "theme") as [s|]; [|reflexivity].
    destruct (String.eqb s "") eqn:E; [reflexivity|]. rewrite E. reflexivity. }
  unfold initTheme. cbv zeta. rewrite E1. unfold syncWithAppTheme.
  assert (E3 : localStorage (setTheme (Some t) p) !! "theme" = Some t).
  { rewrite setTheme_unfold_home. apply lookup_insert_eq. }
  rewrite E3, E2. rewrite (setTheme_unfold_home (Some t) (setTheme (Some t) p)).
  rewrite (setTheme_unfold_home (Some t) p). cbv zeta.
  cbn [dark_mode light_mode localStorage String_of].
  rewrite insert_insert_eq. repeat split.
Qed.

(** X28. The home page shows dark when the stored theme is [dark] and light
    in every other case, a store without a theme or with an empty one
    included, with exactly one of the two classes on the body; it writes the
    theme it read back under the key [theme], [light] when there was none.
    Toggling stores and shows the other of the two themes, so two toggles
    bring the page back.  A storage event that removes the theme stores the
    text [null] and shows light. *)
Theorem homepage_theme :
  (forall p,
     let t := saved_theme (localStorage p) in
     dark_mode (initTheme p) = String.eqb t "dark"
     ∧ light_mode (initTheme p) = negb (dark_mode (initTheme p))
     ∧ localStorage (initTheme p) = <[ "theme" := t ]> (localStorage p)
     ∧ (localStorage p !! "theme" = None -> localStorage (initTheme p) !! "theme" = Some "light"))
  ∧ (forall theme p, light_mode (setTheme theme p) = negb (dark_mode (setTheme theme p)))
  ∧ (forall p,
       let p' := toggleTheme p in
       dark_mode p' = negb (dark_mode p)
       ∧ light_mode p' = dark_mode p
       ∧ localStorage p' !! "theme" = Some (if dark_mode p then "light" else "dark")
       ∧ dark_mode (toggleTheme p') = dark_mode p
       ∧ localStorage (toggleTheme p') !! "theme"
         = Some (if dark_mode p then "dark" else "light"))
  ∧ (forall p,
       let p' := storage_event (Some "theme") None p in
       localStorage p' !! "theme" = Some "null"
       ∧ light_mode p' = true ∧ dark_mode p' = false)
  ∧ (forall k v p, k ≠ Some "theme" -> storage_event k v p = p).
Proof.
  split; [|split; [|split; [|split]]].
  - intros p. cbv zeta. destruct (initTheme_unfold p) as (D & L & S). cbv zeta in D, L, S.
    rewrite D, L, S. repeat split.
    intros Hn. unfold saved_theme. rewrite Hn. apply lookup_insert_eq.
  - intros theme p. rewrite setTheme_unfold_home. reflexivity.
  - intros p. cbv zeta. unfold toggleTheme. rewrite !setTheme_unfold_home. cbv zeta.
    cbn [dark_mode light_mode localStorage String_of].
    rewrite !lookup_insert_eq. destruct (dark_mode p); repeat split.
  - intros p. cbv zeta. unfold storage_event. change ("theme" =? "theme") with true.
    cbv iota. rewrite setTheme_unfold_home. cbv zeta.
    cbn [dark_mode light_mode localStorage String_of]. rewrite lookup_insert_eq.
    repeat split.
  - intros [k|] v p Hk; [|reflexivity]. unfold storage_event.
    destruct (String.eqb k "theme") eqn:E; [|reflexivity].
    apply String.eqb_eq in E. congruence.
Qed.

End HomepageProofs.

Section BothPages.
Context `{Store.Host}.

Lemma loaded_theme_only ls today :
  ls !! Store.STATS = None ->
  Store.theme (Store.settings (Store.manager (Store.new_SettingsManager ls today)))
  = default "dark" (ls !! Store.THEME).
Proof.
  intros Hst.
  pose proof (new_SettingsManager_unfold ls today) as Hn. cbv zeta in Hn.
  destruct (_loadSettings_constructed ls) as (_ & _ & _ & Hs). rewrite Hst in Hs.
  rewrite Hs in Hn.
  destruct (Store.date_differs _ _); destruct Hn as [Hn _]; rewrite Hn; reflexivity.
Qed.

(** X29. The two pages do not agree on the theme of a first visit, nor on a
    theme they do not know.  On a store without a theme the application
    opens dark, but the home page opens light and writes [light] into the
    store, so that the application opened after it is light.  A stored theme
    that is neither [dark] nor [light] is kept by both; the home page shows
    it light, the application dark. *)
Theorem pages_disagree_on_theme ls today dom :
  ls !! Store.STATS = None ->
  let home := Homepage.initTheme (Homepage.loaded ls) in
  let app := App.new_FocusTimerApp ls today dom in
  let app_after_home := App.new_FocusTimerApp (Homepage.localStorage home) today dom in
  (ls !! "theme" = None ->
     Store.theme (App.getSettings app) = "dark"
     ∧ App.light_mode (App.ui app) = false
     ∧ Homepage.light_mode home = true
     ∧ Store.theme (App.getSettings app_after_home) = "light"
     ∧ App.light_mode (App.ui app_after_home) = true)
  ∧ (forall th, ls !! "theme" = Some th -> th ≠ "dark" -> th ≠ "light" -> th ≠ "" ->
       Store.theme (App.getSettings app) = th
       ∧ Homepage.localStorage home !! "theme" = Some th
       ∧ Homepage.light_mode home = true
       ∧ App.light_mode (App.ui app) = false).
Proof.
  intros Hst home app app_after_home.
  assert (Happ : forall l, l !! Store.STATS = None ->
            Store.theme (App.getSettings (App.new_FocusTimerApp l today dom))
            = default "dark" (l !! Store.THEME)
            ∧ App.light_mode (App.ui (App.new_FocusTimerApp l today dom))
              = String.eqb (default "dark" (l !! Store.THEME)) "light").
  { intros l Hl.
    destruct (new_FocusTimerApp_unfold l today dom) as (_ & S & U & _). cbv zeta in S, U.
    unfold App.getSettings. rewrite S, U, <- (loaded_theme_only l today Hl).
    destruct (negb _), (Store.new_SettingsManager l today) as [[s cb] l' ch co];
      split; reflexivity. }
  destruct (initTheme_unfold (Homepage.loaded ls)) as (D & L & S). cbv zeta in D, L, S.
  fold home in D, L, S. cbn [Homepage.localStorage Homepage.loaded] in D, L, S.
  split.
  - intros Hth. destruct (Happ ls Hst) as (A1 & A2).
    change (ls !! Store.THEME) with (ls !! "theme") in A1, A2. rewrite Hth in A1, A2.
    unfold Homepage.saved_theme in D, L, S. rewrite Hth in D, L, S.
    assert (Hst' : Homepage.localStorage home !! Store.STATS = None).
    { rewrite S, lookup_insert_ne by discriminate. exact Hst. }
    destruct (Happ _ Hst') as (B1 & B2).
    change (Homepage.localStorage home !! Store.THEME)
      with (Homepage.localStorage home !! "theme") in B1, B2.
    rewrite S, lookup_insert_eq in B1, B2.
    subst app app_after_home. rewrite S, A1, A2, B1, B2, L. repeat split.
  - intros th Hth Hd Hl He. destruct (Happ ls Hst) as (A1 & A2).
    change (ls !! Store.THEME) with (ls !! "theme") in A1, A2. rewrite Hth in A1, A2.
    unfold Homepage.saved_theme in D, L, S. rewrite Hth in D, L, S.
    apply String.eqb_neq in Hd, Hl, He. rewrite He in D, L, S.
    subst app. rewrite A1, A2, S, L, lookup_insert_eq. cbn [default from_option id].
    rewrite Hd, Hl. repeat split.
Qed.

End BothPages.

Section HomepageExamples.

Lemma homepage_theme_witness :
  Homepage.localStorage (Homepage.initTheme (Homepage.loaded ∅)) !! "theme" = Some "light".
Proof.
  assert (Hn : Homepage.localStorage (Homepage.loaded ∅) !! "theme" = None) by reflexivity.
  destruct homepage_theme as (Hinit & _).
  destruct (Hinit (Homepage.loaded ∅)) as (_ & _ & _ & A).
  exact (A Hn).
Defined.

Lemma pages_disagree_on_theme_witness :
  Store.theme (App.getSettings
                 (App.new_FocusTimerApp (H := Store.sample_host)
                    (Homepage.localStorage (Homepage.initTheme (Homepage.loaded ∅)))
                    Store.today_string App.sample_dom)) = "light".
Proof.
  assert (Hst : (∅ : gmap string string) !! Store.STATS = None) by reflexivity.
  assert (Hth : (∅ : gmap string string) !! "theme" = None) by reflexivity.
  destruct (pages_disagree_on_theme (H := Store.sample_host) ∅ Store.today_string
              App.sample_dom Hst) as (A & _).
  destruct (A Hth) as (_ & _ & _ & B & _). exact B.
Defined.

End HomepageExamples.
